(** * EduAgenticChatBot: the deterministic core, embedded and verified

    A shallow embedding of the TypeScript sources of the student-insight
    pipeline: the analyzer ([src/analyzer.ts]), the LLM-output contract
    ([src/insights.ts]), the memory store ([src/memory_store.ts]), the audit
    store ([src/storage.ts]), the run orchestrator ([src/run_with_tool.ts],
    [src/main_with_memory.ts]) and the single-flight guard of the HTTP server
    ([src/http_server.ts]).

    Conventions of the embedding
    - a JavaScript string is the list of its UTF-16 code units ([jsstring]);
    - a finite JavaScript number is named by its exact rational value ([Q]);
      comparisons and thresholds are those of the values, and arithmetic that
      the machine rounds is IEEE-754 binary64 arithmetic ([Double]);
    - code that can throw lives in the monad [M] (state of the outside world
      plus an exception); [try_catch] is the source's [try { } catch { }];
      the world holds the files, the tables of the history, the UUIDs drawn
      and what the device does when a file is written;
    - objects that the source shares by reference (a student's [grades]
      array) live in an explicit heap when aliasing matters. *)

From Stdlib Require Import ZArith QArith Qround Qabs String Ascii List Lia Lqa Bool Sorted.
From Stdlib Require SpecFloat.
From stdpp Require Import base option list gmap.
Import ListNotations.

Local Open Scope Z_scope.

(* ================================================================== *)
(** * JavaScript values *)
(* ================================================================== *)

(** ** Strings *)

Definition jsstring := list N.

Fixpoint lit (s : string) : jsstring :=
  match s with
  | EmptyString => []
  | String c s' => N_of_ascii c :: lit s'
  end.

(** [WhiteSpace] and [LineTerminator] of ECMA-262, the code units that
    [String.prototype.trim] strips. *)
Definition isWhiteSpace (c : N) : bool :=
  ((9 <=? c) && (c <=? 13) || (c =? 32) || (c =? 160) || (c =? 5760)
   || (8192 <=? c) && (c <=? 8202) || (c =? 8232) || (c =? 8233)
   || (c =? 8239) || (c =? 8287) || (c =? 12288) || (c =? 65279))%N.

Fixpoint trimStart (s : jsstring) : jsstring :=
  match s with
  | [] => []
  | c :: s' => if isWhiteSpace c then trimStart s' else s
  end.

Definition trimEnd (s : jsstring) : jsstring := rev (trimStart (rev s)).

Definition trim (s : jsstring) : jsstring := trimEnd (trimStart s).

(** A string is truthy when it is not empty. *)
Definition truthy (s : jsstring) : bool :=
  match s with [] => false | _ => true end.

(** [Array.prototype.join] *)
Fixpoint join (sep : jsstring) (items : list jsstring) : jsstring :=
  match items with
  | [] => []
  | [x] => x
  | x :: rest => x ++ sep ++ join sep rest
  end.

(** [Array.prototype.slice(start, end)] on in-range natural indices. *)
Definition slice {T} (start stop : nat) (l : list T) : list T :=
  take (stop - start) (drop start l).

(** Decimal rendering of a natural number, as a template literal does it. *)
Definition digit (n : nat) : N := (48 + N.of_nat n)%N.

Fixpoint natToString_aux (fuel n : nat) (acc : jsstring) : jsstring :=
  match fuel with
  | O => acc
  | S fuel' =>
      let acc' := digit (n mod 10) :: acc in
      if (n / 10 =? 0)%nat then acc' else natToString_aux fuel' (n / 10) acc'
  end.

Definition natToString (n : nat) : jsstring := natToString_aux (S n) n [].

(** ** Numbers *)

Definition number := Q.
Bind Scope Q_scope with number.

Definition Qltb (x y : Q) : bool := negb (Qle_bool y x).
Definition Qleb (x y : Q) : bool := Qle_bool x y.
Definition Qgeb (x y : Q) : bool := Qle_bool y x.

(** [Math.round]: the nearest integer, ties towards +infinity.  The
    argument is the value of a double, and so is the result: an integer
    below 2^53, or the argument itself. *)
Definition Math_round (x : Q) : Q := inject_Z (Qfloor (x + (1 # 2))%Q).

(** IEEE-754 binary64, the arithmetic of [+], [*] and [/] on numbers: the
    operations of the standard ([SpecFloat], precision 53, round to nearest,
    ties to even) between values.  [ofQ] is the double of a value: the value
    itself when it is one of a double, the nearest double otherwise, which is
    how [JSON.parse] and the compiler read a decimal literal such as
    [77.23].  [toQ] is the value of a finite double.  An overflow or an
    invalid operation has no value; it is given as 0 and does not occur on
    scores of the validated range, from 0 to 100. *)
Module Double.

Definition prec : Z := 53.
Definition emax : Z := 1024.

Definition ofQ (q : Q) : SpecFloat.spec_float :=
  let den := SpecFloat.S754_finite false (Qden q) 0 in
  match Qnum q with
  | Z0 => SpecFloat.S754_zero false
  | Zpos m => SpecFloat.SFdiv prec emax (SpecFloat.S754_finite false m 0) den
  | Zneg m => SpecFloat.SFdiv prec emax (SpecFloat.S754_finite true m 0) den
  end.

Definition toQ (x : SpecFloat.spec_float) : Q :=
  match x with
  | SpecFloat.S754_finite s m e =>
      let z := if s then Zneg m else Zpos m in
      match e with
      | Z0 => inject_Z z
      | Zpos p => inject_Z (Z.shiftl z e)
      | Zneg p => Qred (z # Pos.shiftl 1 (Npos p))
      end
  | _ => 0%Q
  end.

(** The double that a literal denotes, by its value. *)
Definition round (q : Q) : Q := toQ (ofQ q).

Definition add (x y : Q) : Q := toQ (SpecFloat.SFadd prec emax (ofQ x) (ofQ y)).
Definition mul (x y : Q) : Q := toQ (SpecFloat.SFmul prec emax (ofQ x) (ofQ y)).
Definition div (x y : Q) : Q := toQ (SpecFloat.SFdiv prec emax (ofQ x) (ofQ y)).

End Double.

(** [Array.prototype.sort(cmp)]: a stable sort (ECMAScript 2019), here by
    insertion; [x] goes before the first element it does not follow. *)
Fixpoint insertBy {T} (cmp : T -> T -> Q) (x : T) (l : list T) : list T :=
  match l with
  | [] => [x]
  | y :: l' => if Qle_bool (cmp x y) 0 then x :: l else y :: insertBy cmp x l'
  end.

Definition Array_sort {T} (cmp : T -> T -> Q) (l : list T) : list T :=
  foldr (insertBy cmp) [] l.

(* ================================================================== *)
(** * Domain types ([src/types.ts]) *)
(* ================================================================== *)

Inductive PerformanceTrend := improving | stable | declining.
Inductive RiskLevel := low | medium | high.

#[global] Instance PerformanceTrend_eq_dec : EqDecision PerformanceTrend.
Proof. solve_decision. Defined.
#[global] Instance RiskLevel_eq_dec : EqDecision RiskLevel.
Proof. solve_decision. Defined.

Module Grade.
Record t := mk { subject : jsstring; score : number }.
End Grade.

Module Student.
Record t := mk {
  id : jsstring;
  name : jsstring;
  email : jsstring;
  grades : list Grade.t;
  participationScore : number;
  assignmentCompletionRate : number;
  teacherNotes : jsstring;
  performanceTrend : PerformanceTrend;
  lastAssessmentDate : jsstring
}.
End Student.

Module StudentMetrics.
Record t := mk {
  averageScore : number;
  highestSubjects : list Grade.t;
  lowestSubjects : list Grade.t;
  participationScore : number;
  assignmentCompletionRate : number;
  needsAttention : bool
}.
End StudentMetrics.

Module StudentAnalysis.
Record t := mk {
  student : Student.t;
  metrics : StudentMetrics.t;
  strengths : list jsstring;
  improvementAreas : list jsstring;
  riskLevel : RiskLevel
}.
End StudentAnalysis.

Module TeacherSummary.
Record t := mk {
  classAverage : number;
  topStudents : list jsstring;
  attentionNeeded : list jsstring;
  notes : list jsstring
}.
End TeacherSummary.

Inductive Tone := warm | neutral | direct.

Module TeacherPreferences.
Record t := mk {
  classGoals : option (list jsstring);
  focusAreas : option (list jsstring);
  preferredStrategies : option (list jsstring);
  tone : option Tone;
  teacherNotes : option jsstring
}.
End TeacherPreferences.

Module StudentInsights.
Record t := mk {
  positiveObservation : jsstring;
  strengths : list jsstring;
  improvementAreas : list jsstring;
  strategies : list jsstring;
  nextStepGoal : jsstring;
  encouragement : jsstring
}.
End StudentInsights.

Module Attention.
Record t := mk { name : jsstring; reason : jsstring }.
End Attention.

Module TeacherInsights.
Record t := mk {
  classOverview : jsstring;
  strengths : list jsstring;
  attentionNeeded : list Attention.t;
  nextSteps : list jsstring
}.
End TeacherInsights.

(* ================================================================== *)
(** * The analysis engine ([src/analyzer.ts]) *)
(* ================================================================== *)

Module Analyzer.

Definition average (scores : list number) : number :=
  if (length scores =? 0)%nat then 0%Q
  else
    let sum := fold_left (fun acc score => Double.add acc score) scores 0%Q in
    Double.div
      (Math_round
         (Double.mul (Double.div sum (inject_Z (Z.of_nat (length scores)))) 100))
      100.

Definition topN {T} (items : list T) (n : nat) (score : T -> number) : list T :=
  slice 0 n (Array_sort (fun a b => (score b - score a)%Q) items).

Definition bottomN {T} (items : list T) (n : nat) (score : T -> number) : list T :=
  slice 0 n (Array_sort (fun a b => (score a - score b)%Q) items).

Definition determineRisk (metrics : StudentMetrics.t) (trend : PerformanceTrend)
  : RiskLevel :=
  if Qltb (StudentMetrics.averageScore metrics) 70
     || Qleb (StudentMetrics.participationScore metrics) 4
     || Qltb (StudentMetrics.assignmentCompletionRate metrics) 70
     || bool_decide (trend = declining)
  then high
  else if Qltb (StudentMetrics.averageScore metrics) 80
          || Qleb (StudentMetrics.participationScore metrics) 6
          || Qltb (StudentMetrics.assignmentCompletionRate metrics) 85
  then medium
  else low.

(** [if (c) arr.push(x)] on a list under construction. *)
Definition pushIf {T} (c : bool) (x : T) (arr : list T) : list T :=
  if c then arr ++ [x] else arr.

Definition analyzeStudent (student : Student.t) : StudentAnalysis.t :=
  let averageScore := average (map Grade.score (Student.grades student)) in
  let highestSubjects := topN (Student.grades student) 2 Grade.score in
  let lowestSubjects := bottomN (Student.grades student) 2 Grade.score in
  let metrics :=
    {| StudentMetrics.averageScore := averageScore;
       StudentMetrics.highestSubjects := highestSubjects;
       StudentMetrics.lowestSubjects := lowestSubjects;
       StudentMetrics.participationScore := Student.participationScore student;
       StudentMetrics.assignmentCompletionRate :=
         Student.assignmentCompletionRate student;
       StudentMetrics.needsAttention :=
         Qltb averageScore 75
         || Qltb (Student.assignmentCompletionRate student) 80
         || bool_decide (Student.performanceTrend student = declining) |} in
  let strengths : list jsstring := [] in
  let improvementAreas : list jsstring := [] in
  let strengths :=
    pushIf (Qgeb averageScore 85) (lit "Strong overall academic performance") strengths in
  let strengths :=
    pushIf (Qgeb (Student.participationScore student) 8)
      (lit "Consistent class participation") strengths in
  let strengths :=
    pushIf (Qgeb (Student.assignmentCompletionRate student) 90)
      (lit "High assignment completion rate") strengths in
  let strengths :=
    pushIf (bool_decide (Student.performanceTrend student = improving))
      (lit "Recent performance trend is improving") strengths in
  let improvementAreas :=
    pushIf (Qltb averageScore 75)
      (lit "Overall grade average needs improvement") improvementAreas in
  let improvementAreas :=
    pushIf (Qleb (Student.participationScore student) 6)
      (lit "Increase class participation") improvementAreas in
  let improvementAreas :=
    pushIf (Qltb (Student.assignmentCompletionRate student) 85)
      (lit "Improve assignment completion rate") improvementAreas in
  let improvementAreas :=
    pushIf (bool_decide (Student.performanceTrend student = declining))
      (lit "Address recent performance decline") improvementAreas in
  let improvementAreas :=
    if (0 <? length lowestSubjects)%nat then
      let subjects := join (lit ", ") (map Grade.subject lowestSubjects) in
      improvementAreas ++ [lit "Focus on weaker subjects: " ++ subjects]
    else improvementAreas in
  let riskLevel := determineRisk metrics (Student.performanceTrend student) in
  {| StudentAnalysis.student := student;
     StudentAnalysis.metrics := metrics;
     StudentAnalysis.strengths := strengths;
     StudentAnalysis.improvementAreas := improvementAreas;
     StudentAnalysis.riskLevel := riskLevel |}.

Definition buildTeacherSummary (analyses : list StudentAnalysis.t) : TeacherSummary.t :=
  let avgOf (a : StudentAnalysis.t) :=
    StudentMetrics.averageScore (StudentAnalysis.metrics a) in
  let classAverage := average (map avgOf analyses) in
  let sortedByAverage := Array_sort (fun a b => (avgOf b - avgOf a)%Q) analyses in
  let topStudents :=
    map (fun a => Student.name (StudentAnalysis.student a)) (slice 0 3 sortedByAverage) in
  let attentionNeeded :=
    map (fun a => Student.name (StudentAnalysis.student a))
      (filter (fun a =>
                 StudentMetrics.needsAttention (StudentAnalysis.metrics a) = true
                 ∨ StudentAnalysis.riskLevel a = high) analyses) in
  let notes : list jsstring := [] in
  let declining_ :=
    length (filter (fun a =>
              Student.performanceTrend (StudentAnalysis.student a) = declining)
            analyses) in
  let notes :=
    pushIf (0 <? declining_)%nat
      (natToString declining_ ++ lit " student(s) show a declining trend.") notes in
  let strongCompletion :=
    length (filter (fun a =>
              Qgeb (StudentMetrics.assignmentCompletionRate (StudentAnalysis.metrics a)) 90
              = true) analyses) in
  let notes :=
    pushIf (0 <? strongCompletion)%nat
      (natToString strongCompletion ++ lit " student(s) have 90%+ assignment completion.")
      notes in
  {| TeacherSummary.classAverage := classAverage;
     TeacherSummary.topStudents := topStudents;
     TeacherSummary.attentionNeeded := attentionNeeded;
     TeacherSummary.notes := notes |}.

End Analyzer.

(* ================================================================== *)
(** * Untyped values and exceptions *)
(* ================================================================== *)

(** What [JSON.parse] can produce.  [undefined] is [None] in [option JSON]. *)
#[warnings="-register-all"]
Inductive JSON :=
| JNull
| JBool (b : bool)
| JNumber (n : number)
| JString (s : jsstring)
| JArray (items : list JSON)
| JObject (fields : list (jsstring * JSON)).

Inductive exn :=
| TypeError (message : jsstring)
| SyntaxError (message : jsstring)
| NotFound
| Error (message : jsstring).

(** The result of running code that may throw. *)
Inductive Outcome (A : Type) :=
| Returned (value : A)
| Thrown (error : exn).
Arguments Returned {A} value.
Arguments Thrown {A} error.

#[global] Instance Outcome_ret : MRet Outcome := fun A a => Returned a.
#[global] Instance Outcome_bind : MBind Outcome := fun A B k m =>
  match m with
  | Returned a => k a
  | Thrown e => Thrown e
  end.

(** [typeof v === "object" && v !== null] *)
Definition isObjectLike (v : JSON) : bool :=
  match v with
  | JArray _ | JObject _ => true
  | _ => false
  end.

Fixpoint assoc (key : jsstring) (fields : list (jsstring * JSON)) : option JSON :=
  match fields with
  | [] => None
  | (k, v) :: rest => if decide (k = key) then Some v else assoc key rest
  end.

(** Property read [receiver.key] for a key that is neither an array index nor
    inherited from a prototype (all keys read by the sources are such): it
    throws on [null] and [undefined] and yields [undefined] when the receiver
    has no own property of that name. *)
Definition getProp (receiver : option JSON) (key : jsstring) : Outcome (option JSON) :=
  match receiver with
  | None => Thrown (TypeError (lit "Cannot read properties of undefined"))
  | Some JNull => Thrown (TypeError (lit "Cannot read properties of null"))
  | Some (JObject fields) => Returned (assoc key fields)
  | Some _ => Returned None
  end.

(** [String.prototype.indexOf] / [lastIndexOf] for a one-unit needle. *)
Fixpoint indexOf_from (c : N) (text : jsstring) (i : Z) : Z :=
  match text with
  | [] => -1
  | x :: rest => if (x =? c)%N then i else indexOf_from c rest (i + 1)
  end.

Definition indexOf (c : N) (text : jsstring) : Z := indexOf_from c text 0.

Fixpoint lastIndexOf_from (c : N) (text : jsstring) (i found : Z) : Z :=
  match text with
  | [] => found
  | x :: rest => lastIndexOf_from c rest (i + 1) (if (x =? c)%N then i else found)
  end.

Definition lastIndexOf (c : N) (text : jsstring) : Z := lastIndexOf_from c text 0 (-1).

(* ================================================================== *)
(** * The output contract and its fallbacks ([src/insights.ts]) *)
(* ================================================================== *)

Inductive ValidationResult (T : Type) :=
| ok (value : T)
| failed (errors : list jsstring).
Arguments ok {T} value.
Arguments failed {T} errors.

Definition is_ok {T} (r : ValidationResult T) : bool :=
  match r with ok _ => true | failed _ => false end.

Definition errorsOf {T} (r : ValidationResult T) : list jsstring :=
  match r with ok _ => [] | failed errors => errors end.

Module Insights.
Local Open Scope nat_scope.

(** [!value] for a [string | undefined] or [string | null]. *)
Definition falsy (value : option jsstring) : bool :=
  match value with
  | None => true
  | Some s => negb (truthy s)
  end.

Definition safeString (value : option JSON) (maxLen : nat) : option jsstring :=
  match value with
  | Some (JString value) =>
      let trimmed := trim value in
      if negb (truthy trimmed) then None
      else Some (if maxLen <? length trimmed then slice 0 maxLen trimmed else trimmed)
  | _ => None
  end.

(** [.filter((item): item is string => Boolean(item))] *)
Definition filterBoolean (items : list (option jsstring)) : list jsstring :=
  omap (fun item => if falsy item then None else item) items.

Definition normalizeStringArray (value : option JSON) (min max : nat) (label : jsstring)
  : ValidationResult (list jsstring) :=
  match value with
  | Some (JArray value) =>
      let cleaned := filterBoolean (map (fun item => safeString (Some item) 180) value) in
      if length cleaned <? min then
        failed [label ++ lit " must include at least " ++ natToString min ++ lit " item(s)"]
      else ok (slice 0 max cleaned)
  | _ => failed [label ++ lit " must be an array"]
  end.

Definition extractJsonObject (text : jsstring) : option jsstring :=
  let start := indexOf 123 text in
  let end_ := lastIndexOf 125 text in
  if ((start =? -1) || (end_ =? -1) || (end_ <=? start))%Z then None
  else Some (slice (Z.to_nat start) (Z.to_nat (end_ + 1)) text).

Section Parsers.
(** [JSON.parse] is the runtime's; it returns a value or throws. *)
Variable JSON_parse : jsstring -> Outcome JSON.

Definition parseStudentInsights (raw : jsstring)
  : Outcome (ValidationResult StudentInsights.t) :=
  let jsonCandidate := extractJsonObject raw in
  match jsonCandidate with
  | None => Returned (failed [lit "No JSON object found in response"])
  | Some candidate =>
    if negb (truthy candidate) then
      Returned (failed [lit "No JSON object found in response"])
    else
    match JSON_parse candidate with
    | Thrown _ => Returned (failed [lit "Invalid JSON in response"])
    | Returned parsed =>
      if negb (isObjectLike parsed) then
        Returned (failed [lit "Response JSON must be an object"])
      else
        let record := Some parsed in
        positiveObservation_ ← getProp record (lit "positiveObservation");
        let positiveObservation := safeString positiveObservation_ 220 in
        nextStepGoal_ ← getProp record (lit "nextStepGoal");
        let nextStepGoal := safeString nextStepGoal_ 200 in
        encouragement_ ← getProp record (lit "encouragement");
        let encouragement := safeString encouragement_ 200 in
        strengths_ ← getProp record (lit "strengths");
        let strengthsResult := normalizeStringArray strengths_ 1 3 (lit "strengths") in
        improvementAreas_ ← getProp record (lit "improvementAreas");
        let improvementResult :=
          normalizeStringArray improvementAreas_ 1 2 (lit "improvementAreas") in
        strategies_ ← getProp record (lit "strategies");
        let strategiesResult := normalizeStringArray strategies_ 2 3 (lit "strategies") in
        let errors : list jsstring := [] in
        let errors :=
          Analyzer.pushIf (falsy positiveObservation)
            (lit "positiveObservation must be a non-empty string") errors in
        let errors :=
          Analyzer.pushIf (falsy nextStepGoal)
            (lit "nextStepGoal must be a non-empty string") errors in
        let errors :=
          Analyzer.pushIf (falsy encouragement)
            (lit "encouragement must be a non-empty string") errors in
        let errors :=
          if negb (is_ok strengthsResult) then errors ++ errorsOf strengthsResult
          else errors in
        let errors :=
          if negb (is_ok improvementResult) then errors ++ errorsOf improvementResult
          else errors in
        let errors :=
          if negb (is_ok strategiesResult) then errors ++ errorsOf strategiesResult
          else errors in
        if 0 <? length errors then Returned (failed errors)
        else
          match strengthsResult, improvementResult, strategiesResult,
                positiveObservation, nextStepGoal, encouragement with
          | ok strengths, ok improvementAreas, ok strategies,
            Some positiveObservation, Some nextStepGoal, Some encouragement =>
              Returned (ok
                {| StudentInsights.positiveObservation := positiveObservation;
                   StudentInsights.strengths := strengths;
                   StudentInsights.improvementAreas := improvementAreas;
                   StudentInsights.strategies := strategies;
                   StudentInsights.nextStepGoal := nextStepGoal;
                   StudentInsights.encouragement := encouragement |})
          | _, _, _, _, _, _ =>
              Returned (failed [lit "Invalid student insights payload"])
          end
    end
  end.

(** The body of [attentionRaw.forEach((item, index) => ...)]: one item,
    the two accumulators threaded through. *)
Definition attentionItem
    (acc : list Attention.t * list jsstring) (index : nat) (item : JSON)
  : Outcome (list Attention.t * list jsstring) :=
  let '(attentionNeeded, attentionErrors) := acc in
  if negb (isObjectLike item) then
    Returned (attentionNeeded,
              attentionErrors ++
              [lit "attentionNeeded[" ++ natToString index ++ lit "] must be an object"])
  else
    let entry := Some item in
    name_ ← getProp entry (lit "name");
    let name := safeString name_ 80 in
    reason_ ← getProp entry (lit "reason");
    let reason := safeString reason_ 160 in
    if falsy name || falsy reason then
      Returned (attentionNeeded,
                attentionErrors ++
                [lit "attentionNeeded[" ++ natToString index
                 ++ lit "] must include name and reason"])
    else
      match name, reason with
      | Some name, Some reason =>
          Returned (attentionNeeded ++ [Attention.mk name reason], attentionErrors)
      | _, _ => Returned (attentionNeeded, attentionErrors)
      end.

Fixpoint attentionForEach
    (items : list JSON) (index : nat) (acc : list Attention.t * list jsstring)
  : Outcome (list Attention.t * list jsstring) :=
  match items with
  | [] => Returned acc
  | item :: rest =>
      acc' ← attentionItem acc index item;
      attentionForEach rest (S index) acc'
  end.

Definition parseTeacherInsights (raw : jsstring)
  : Outcome (ValidationResult TeacherInsights.t) :=
  let jsonCandidate := extractJsonObject raw in
  match jsonCandidate with
  | None => Returned (failed [lit "No JSON object found in response"])
  | Some candidate =>
    if negb (truthy candidate) then
      Returned (failed [lit "No JSON object found in response"])
    else
    match JSON_parse candidate with
    | Thrown _ => Returned (failed [lit "Invalid JSON in response"])
    | Returned parsed =>
      if negb (isObjectLike parsed) then
        Returned (failed [lit "Response JSON must be an object"])
      else
        let record := Some parsed in
        classOverview_ ← getProp record (lit "classOverview");
        let classOverview := safeString classOverview_ 240 in
        strengths_ ← getProp record (lit "strengths");
        let strengthsResult := normalizeStringArray strengths_ 1 4 (lit "strengths") in
        nextSteps_ ← getProp record (lit "nextSteps");
        let nextStepsResult := normalizeStringArray nextSteps_ 2 4 (lit "nextSteps") in
        attentionRaw ← getProp record (lit "attentionNeeded");
        attention ←
          match attentionRaw with
          | Some (JArray attentionRaw) => attentionForEach attentionRaw 0 ([], [])
          | _ => Returned ([], [lit "attentionNeeded must be an array"])
          end;
        let '(attentionNeeded, attentionErrors) := attention in
        let errors : list jsstring := [] in
        let errors :=
          Analyzer.pushIf (falsy classOverview)
            (lit "classOverview must be a non-empty string") errors in
        let errors :=
          if negb (is_ok strengthsResult) then errors ++ errorsOf strengthsResult
          else errors in
        let errors :=
          if negb (is_ok nextStepsResult) then errors ++ errorsOf nextStepsResult
          else errors in
        let errors :=
          if 0 <? length attentionErrors then errors ++ attentionErrors else errors in
        if 0 <? length errors then Returned (failed errors)
        else
          match strengthsResult, nextStepsResult, classOverview with
          | ok strengths, ok nextSteps, Some classOverview =>
              Returned (ok
                {| TeacherInsights.classOverview := classOverview;
                   TeacherInsights.strengths := strengths;
                   TeacherInsights.attentionNeeded := attentionNeeded;
                   TeacherInsights.nextSteps := nextSteps |})
          | _, _, _ => Returned (failed [lit "Invalid teacher insights payload"])
          end
    end
  end.
End Parsers.

(** [Number.prototype.toFixed(1)] below 10^21: the sign of a negative
    number, then the integer [n] for which [n / 10] is nearest to the exact
    magnitude of the double, the larger one on a tie, with a point before
    its last digit. *)
Definition toFixed1 (x : number) : jsstring :=
  let x := Double.round x in
  let magnitude := Qabs x in
  let tenths := Z.to_nat (Qfloor (magnitude * 10 + (1 # 2))%Q) in
  (if Qltb x 0 then lit "-" else [])
  ++ natToString (tenths / 10) ++ lit "." ++ natToString (tenths mod 10).

Definition renderStudentMessage (insights : StudentInsights.t) : jsstring :=
  join (lit (String "010" ""))
    ([StudentInsights.positiveObservation insights; lit ""; lit "Strengths:"]
     ++ map (fun item => lit "- " ++ item) (StudentInsights.strengths insights)
     ++ [lit ""; lit "Focus areas:"]
     ++ map (fun item => lit "- " ++ item) (StudentInsights.improvementAreas insights)
     ++ [lit ""; lit "Try this:"]
     ++ map (fun item => lit "- " ++ item) (StudentInsights.strategies insights)
     ++ [lit ""; lit "Next step goal: " ++ StudentInsights.nextStepGoal insights;
         lit ""; StudentInsights.encouragement insights]).

Definition renderTeacherMessage (insights : TeacherInsights.t) : jsstring :=
  let attentionLines :=
    if 0 <? length (TeacherInsights.attentionNeeded insights) then
      map (fun item => lit "- " ++ Attention.name item ++ lit ": " ++ Attention.reason item)
        (TeacherInsights.attentionNeeded insights)
    else [lit "- No students flagged for immediate attention."] in
  join (lit (String "010" ""))
    ([TeacherInsights.classOverview insights; lit ""; lit "Class strengths:"]
     ++ map (fun item => lit "- " ++ item) (TeacherInsights.strengths insights)
     ++ [lit ""; lit "Students needing attention:"]
     ++ attentionLines
     ++ [lit ""; lit "Next steps (next week):"]
     ++ map (fun item => lit "- " ++ item) (TeacherInsights.nextSteps insights)).

(** [preferred.forEach((item) => { if (arr.length < cap) arr.push(item); })] *)
Definition pushWhileBelow (cap : nat) (preferred arr : list jsstring) : list jsstring :=
  fold_left (fun arr item => if length arr <? cap then arr ++ [item] else arr)
    preferred arr.

(** [while (arr.length < 2) arr.push(filler)]; every turn adds one element,
    so two turns always reach the exit test. *)
Fixpoint whileBelow2 (turns : nat) (filler : jsstring) (arr : list jsstring)
  : list jsstring :=
  match turns with
  | O => arr
  | S turns' =>
      if length arr <? 2 then whileBelow2 turns' filler (arr ++ [filler]) else arr
  end.

(** [arr[0]] where the element type is [string] *)
Definition first (arr : list jsstring) : jsstring :=
  match arr with
  | x :: _ => x
  | [] => []
  end.

Definition encouragementText : jsstring :=
  lit "Small steps add up" ++ [8212%N]
  ++ lit "keep going, and reach out if you need support.".

Definition buildFallbackStudentInsights
    (analysis : StudentAnalysis.t) (preferences : option TeacherPreferences.t)
  : StudentInsights.t :=
  let strengths :=
    if 0 <? length (StudentAnalysis.strengths analysis)
    then StudentAnalysis.strengths analysis
    else [lit "You're making steady progress across your classes."] in
  let improvementAreas :=
    if 0 <? length (StudentAnalysis.improvementAreas analysis)
    then slice 0 2 (StudentAnalysis.improvementAreas analysis)
    else [lit "Keep building consistency with assignments and review routines."] in
  let metrics := StudentAnalysis.metrics analysis in
  let strategies : list jsstring := [] in
  let strategies :=
    Analyzer.pushIf (Qltb (StudentMetrics.assignmentCompletionRate metrics) 85)
      (lit "Use a checklist and finish assignments 24 hours before the deadline.")
      strategies in
  let strategies :=
    Analyzer.pushIf (Qleb (StudentMetrics.participationScore metrics) 6)
      (lit "Prepare one question or comment before class and share it.") strategies in
  let strategies :=
    Analyzer.pushIf (Qltb (StudentMetrics.averageScore metrics) 75)
      (lit "Set a 20-minute daily review block and summarize notes in your own words.")
      strategies in
  let strategies :=
    if 0 <? length (StudentMetrics.lowestSubjects metrics) then
      let subjects :=
        join (lit ", ") (map Grade.subject (StudentMetrics.lowestSubjects metrics)) in
      strategies ++
      [lit "Spend extra practice time on " ++ subjects
       ++ lit " with short, focused sessions."]
    else strategies in
  let preferred :=
    match preferences with
    | Some preferences =>
        match TeacherPreferences.preferredStrategies preferences with
        | Some items => List.filter (fun item => truthy (trim item)) items
        | None => []
        end
    | None => []
    end in
  let strategies := pushWhileBelow 3 preferred strategies in
  let strategies :=
    whileBelow2 2 (lit "Ask for quick feedback from your teacher on one recent assignment.")
      strategies in
  let goal :=
    let fallback := lit "Choose one focus area and practice it three times this week." in
    match preferences with
    | Some preferences =>
        match TeacherPreferences.classGoals preferences with
        | Some (goal0 :: _) => if truthy (trim goal0) then trim goal0 else fallback
        | _ => fallback
        end
    | None => fallback
    end in
  {| StudentInsights.positiveObservation := first strengths;
     StudentInsights.strengths := slice 0 3 strengths;
     StudentInsights.improvementAreas := improvementAreas;
     StudentInsights.strategies := slice 0 3 strategies;
     StudentInsights.nextStepGoal := goal;
     StudentInsights.encouragement := encouragementText |}.

Definition buildFallbackTeacherInsights
    (summary : TeacherSummary.t) (preferences : option TeacherPreferences.t)
  : TeacherInsights.t :=
  let strengths :=
    if 0 <? length (TeacherSummary.topStudents summary) then
      [lit "Top performers this cycle: "
       ++ join (lit ", ") (TeacherSummary.topStudents summary) ++ lit "."]
    else [lit "Several students are maintaining steady performance."] in
  let attentionNeeded :=
    map (fun name =>
           Attention.mk name
             (lit "Flagged for additional check-ins based on recent trends."))
      (TeacherSummary.attentionNeeded summary) in
  let nextSteps : list jsstring := [] in
  let preferred :=
    match preferences with
    | Some preferences =>
        match TeacherPreferences.preferredStrategies preferences with
        | Some items => items
        | None => []
        end
    | None => []
    end in
  let nextSteps := pushWhileBelow 2 preferred nextSteps in
  let nextSteps :=
    if length nextSteps <? 2 then
      nextSteps
      ++ [lit "Plan one small-group session for students needing support."]
      ++ [lit "Highlight one success story to reinforce growth mindset."]
    else nextSteps in
  {| TeacherInsights.classOverview :=
       lit "Class average is " ++ toFixed1 (TeacherSummary.classAverage summary)
       ++ lit ". Overall trends are stable with a few students needing additional attention.";
     TeacherInsights.strengths := strengths;
     TeacherInsights.attentionNeeded := attentionNeeded;
     TeacherInsights.nextSteps := slice 0 4 nextSteps |}.

End Insights.

(* ================================================================== *)
(** * The outside world *)
(* ================================================================== *)

(** A path either holds a text file or is locked: it exists but the process
    may neither read nor write it.  A path absent from the map does not
    exist. *)
Inductive FileEntry :=
| TextFile (data : jsstring)
| Locked.

Module RunRow.
Record t := mk {
  id : jsstring;
  started_at : jsstring;
  completed_at : option jsstring;
  student_count : nat;
  valid_student_count : nat;
  status : jsstring
}.
End RunRow.

Module StudentMessageRow.
Record t := mk {
  id : jsstring;
  run_id : jsstring;
  student_id : jsstring;
  analysis_json : option StudentAnalysis.t;
  insights_json : option StudentInsights.t;
  email_subject : option jsstring;
  email_path : option jsstring;
  status : jsstring;
  error : option jsstring;
  used_fallback : bool;
  created_at : jsstring
}.
End StudentMessageRow.

Module TeacherMessageRow.
Record t := mk {
  id : jsstring;
  run_id : jsstring;
  summary_json : TeacherSummary.t;
  insights_json : option TeacherInsights.t;
  email_subject : option jsstring;
  email_path : option jsstring;
  status : jsstring;
  error : option jsstring;
  used_fallback : bool;
  created_at : jsstring
}.
End TeacherMessageRow.

(** What becomes of opening a file for writing at a path and of the write
    that follows ([Deno.writeTextFile], which creates or truncates the file,
    and [Deno.open] with [createNew], on a path that does not exist): both
    return and the file holds [stored] (the text written, when the device
    writes all of it); or the file is opened and the write throws, leaving
    [stored] behind; or the file cannot be opened: its directory is missing,
    its name is refused, the device is full. *)
Inductive Creation :=
| Created (stored : jsstring)
| WriteFailed (stored : jsstring) (error : exn)
| OpenFailed (error : exn).

(** The file system, the three tables of the SQLite history database, the
    number of UUIDs drawn so far, and the device: what it does when a file
    is written at a path with a text. *)
Record World := mkWorld {
  fs : gmap jsstring FileEntry;
  runs : list RunRow.t;
  student_messages : list StudentMessageRow.t;
  teacher_messages : list TeacherMessageRow.t;
  uuids : nat;
  device : jsstring -> jsstring -> Creation
}.

(** A device without faults. *)
Definition reliable (path contents : jsstring) : Creation := Created contents.

Definition set_fs (f : gmap jsstring FileEntry -> gmap jsstring FileEntry) (w : World) :=
  mkWorld (f (fs w)) (runs w) (student_messages w) (teacher_messages w) (uuids w)
    (device w).
Definition set_runs (f : list RunRow.t -> list RunRow.t) (w : World) :=
  mkWorld (fs w) (f (runs w)) (student_messages w) (teacher_messages w) (uuids w)
    (device w).
Definition set_student_messages
    (f : list StudentMessageRow.t -> list StudentMessageRow.t) (w : World) :=
  mkWorld (fs w) (runs w) (f (student_messages w)) (teacher_messages w) (uuids w)
    (device w).
Definition set_teacher_messages
    (f : list TeacherMessageRow.t -> list TeacherMessageRow.t) (w : World) :=
  mkWorld (fs w) (runs w) (student_messages w) (f (teacher_messages w)) (uuids w)
    (device w).
Definition set_uuids (f : nat -> nat) (w : World) :=
  mkWorld (fs w) (runs w) (student_messages w) (teacher_messages w) (f (uuids w))
    (device w).

(** Code with effects: it reads and changes the world and returns or throws.
    An [await] is sequencing. *)
Definition M (A : Type) : Type := World -> Outcome A * World.

#[global] Instance M_ret : MRet M := fun A a w => (Returned a, w).
#[global] Instance M_bind : MBind M := fun A B k m w =>
  match m w with
  | (Returned a, w') => k a w'
  | (Thrown e, w') => (Thrown e, w')
  end.

Definition throw {A} (e : exn) : M A := fun w => (Thrown e, w).

(** [try { body } catch (error) { handler }] *)
Definition try_catch {A} (body : M A) (handler : exn -> M A) : M A := fun w =>
  match body w with
  | (Returned a, w') => (Returned a, w')
  | (Thrown e, w') => handler e w'
  end.

(** Pure code that may throw, run inside effectful code. *)
Definition lift {A} (o : Outcome A) : M A := fun w => (o, w).

Definition modify (f : World -> World) : M () := fun w => (Returned (), f w).

Definition gets {A} (f : World -> A) : M A := fun w => (Returned (f w), w).

(** [for (const x of xs) { body }] *)
Fixpoint for_of {A} (xs : list A) (body : A -> M ()) : M () :=
  match xs with
  | [] => mret ()
  | x :: rest => body x ≫= fun _ => for_of rest body
  end.

Definition errorMessage (e : exn) : jsstring :=
  match e with
  | TypeError m | SyntaxError m | Error m => m
  | NotFound => lit "No such file or directory"
  end.

(** [join] of [@std/path] (POSIX): the segments that are not empty with a
    separator between them, normalised.  [normalizeString] drops the empty
    segments and [.], and lets [..] take away the segment before it, or stay
    when there is none and the path is relative; [normalize] keeps a leading
    and a trailing separator. *)
Fixpoint pathSegments (path : jsstring) : list jsstring :=
  match path with
  | [] => [[]]
  | c :: rest =>
      if (c =? 47)%N then [] :: pathSegments rest
      else
        match pathSegments rest with
        | segment :: others => (c :: segment) :: others
        | [] => [[c]]
        end
  end.

Definition normalizeString (allowAboveRoot : bool) (path : jsstring) : jsstring :=
  let step (res : list jsstring) (segment : jsstring) : list jsstring :=
    if bool_decide (segment = []) || bool_decide (segment = lit ".") then res
    else if bool_decide (segment = lit "..") then
      match res with
      | top :: below => if bool_decide (top = lit "..") then segment :: res else below
      | [] => if allowAboveRoot then [segment] else []
      end
    else segment :: res in
  join (lit "/") (rev (fold_left step (pathSegments path) [])).

Definition normalize (path : jsstring) : jsstring :=
  match path with
  | [] => lit "."
  | first :: _ =>
      let isAbsolute := (first =? 47)%N in
      let trailingSeparator :=
        match last path with Some c => (c =? 47)%N | None => false end in
      let path := normalizeString (negb isAbsolute) path in
      let path := if negb (truthy path) && negb isAbsolute then lit "." else path in
      let path := if truthy path && trailingSeparator then path ++ lit "/" else path in
      if isAbsolute then lit "/" ++ path else path
  end.

Definition pathJoin (segments : list jsstring) : jsstring :=
  let joined := join (lit "/") (List.filter truthy segments) in
  if truthy joined then normalize joined else lit ".".

Definition readTextFile (path : jsstring) : M jsstring := fun w =>
  match fs w !! path with
  | None => (Thrown NotFound, w)
  | Some Locked => (Thrown (Error (lit "Permission denied")), w)
  | Some (TextFile data) => (Returned data, w)
  end.

(** [Deno.writeTextFile(path, data)]: refused on a path that is locked;
    otherwise the device decides whether the file can be opened (it cannot
    when its directory does not exist) and what the write leaves in it. *)
Definition writeTextFile (path data : jsstring) : M () := fun w =>
  match fs w !! path with
  | Some Locked => (Thrown (Error (lit "Permission denied")), w)
  | _ =>
      match device w path data with
      | Created stored =>
          (Returned (), set_fs (fun files => <[path := TextFile stored]> files) w)
      | WriteFailed stored error =>
          (Thrown error, set_fs (fun files => <[path := TextFile stored]> files) w)
      | OpenFailed error => (Thrown error, w)
      end
  end.

(** [Deno.mkdir(dir, { recursive: true })], which creates the missing
    parents too: it succeeds unless the directory path itself is locked.
    The path map holds files only; whether a file can be opened in a
    directory is the device's to say. *)
Definition mkdir (dir : jsstring) : M () := fun w =>
  match fs w !! dir with
  | Some Locked => (Thrown (Error (lit "Permission denied")), w)
  | _ => (Returned (), w)
  end.

(* ================================================================== *)
(** * The memory store ([src/memory_store.ts]) *)
(* ================================================================== *)

Module MemoryEntry.
Record t := mk { date : jsstring; note : jsstring }.
End MemoryEntry.

Module StudentMemory.
Record t := mk {
  studentId : jsstring;
  summary : jsstring;
  strengths : list jsstring;
  improvementAreas : list jsstring;
  goals : list jsstring;
  lastUpdated : jsstring;
  history : list MemoryEntry.t
}.
End StudentMemory.

Module TeacherMemory.
Record t := mk {
  summary : jsstring;
  classGoals : list jsstring;
  focusAreas : list jsstring;
  lastUpdated : jsstring;
  history : list MemoryEntry.t
}.
End TeacherMemory.

Module StudentMemoryArchive.
Record t := mk {
  runId : jsstring;
  studentId : jsstring;
  createdAt : jsstring;
  summary : jsstring;
  strengths : list jsstring;
  improvementAreas : list jsstring;
  goals : list jsstring
}.
End StudentMemoryArchive.

Module TeacherMemoryArchive.
Record t := mk {
  runId : jsstring;
  createdAt : jsstring;
  summary : jsstring;
  strengths : list jsstring;
  attentionNeeded : list Attention.t;
  nextSteps : list jsstring
}.
End TeacherMemoryArchive.

(** An object as the runtime has it: its own properties by name. *)
Abbreviation JSObject := (gmap jsstring JSON).

Definition JStrings (items : list jsstring) : JSON := JArray (map JString items).

Definition indexed {T} (items : list T) : list (jsstring * T) :=
  imap (fun i item => (natToString i, item)) items.

(** Object spread [{ ...value }]: the own enumerable properties of [value]. *)
Definition spread (value : JSON) : JSObject :=
  match value with
  | JObject fields => list_to_map fields
  | JArray items => list_to_map (indexed items)
  | JString s => list_to_map (indexed (map (fun c => JString [c]) s))
  | JNull | JBool _ | JNumber _ => ∅
  end.

Definition MemoryEntry_toJSON (e : MemoryEntry.t) : JSON :=
  JObject [(lit "date", JString (MemoryEntry.date e));
           (lit "note", JString (MemoryEntry.note e))].

Definition StudentMemory_toJSON (m : StudentMemory.t) : JSON :=
  JObject [(lit "studentId", JString (StudentMemory.studentId m));
           (lit "summary", JString (StudentMemory.summary m));
           (lit "strengths", JStrings (StudentMemory.strengths m));
           (lit "improvementAreas", JStrings (StudentMemory.improvementAreas m));
           (lit "goals", JStrings (StudentMemory.goals m));
           (lit "lastUpdated", JString (StudentMemory.lastUpdated m));
           (lit "history", JArray (map MemoryEntry_toJSON (StudentMemory.history m)))].

Definition TeacherMemory_toJSON (m : TeacherMemory.t) : JSON :=
  JObject [(lit "summary", JString (TeacherMemory.summary m));
           (lit "classGoals", JStrings (TeacherMemory.classGoals m));
           (lit "focusAreas", JStrings (TeacherMemory.focusAreas m));
           (lit "lastUpdated", JString (TeacherMemory.lastUpdated m));
           (lit "history", JArray (map MemoryEntry_toJSON (TeacherMemory.history m)))].

Definition Attention_toJSON (a : Attention.t) : JSON :=
  JObject [(lit "name", JString (Attention.name a));
           (lit "reason", JString (Attention.reason a))].

Definition StudentMemoryArchive_toJSON (a : StudentMemoryArchive.t) : JSON :=
  JObject [(lit "runId", JString (StudentMemoryArchive.runId a));
           (lit "studentId", JString (StudentMemoryArchive.studentId a));
           (lit "createdAt", JString (StudentMemoryArchive.createdAt a));
           (lit "summary", JString (StudentMemoryArchive.summary a));
           (lit "strengths", JStrings (StudentMemoryArchive.strengths a));
           (lit "improvementAreas", JStrings (StudentMemoryArchive.improvementAreas a));
           (lit "goals", JStrings (StudentMemoryArchive.goals a))].

Definition TeacherMemoryArchive_toJSON (a : TeacherMemoryArchive.t) : JSON :=
  JObject [(lit "runId", JString (TeacherMemoryArchive.runId a));
           (lit "createdAt", JString (TeacherMemoryArchive.createdAt a));
           (lit "summary", JString (TeacherMemoryArchive.summary a));
           (lit "strengths", JStrings (TeacherMemoryArchive.strengths a));
           (lit "attentionNeeded",
            JArray (map Attention_toJSON (TeacherMemoryArchive.attentionNeeded a)));
           (lit "nextSteps", JStrings (TeacherMemoryArchive.nextSteps a))].

(** The unchecked casts of the sources, [JSON.parse(data) as StudentMemory],
    made explicit at the place where the typed fields are used: a stored
    property that does not have its declared type raises a [TypeError]
    there.  The cast reads every declared field, the code only the fields
    that the update uses ([goals], [classGoals], [focusAreas], [history]):
    the embedding throws wherever the code does, and in some cases where the
    code does not. *)
Definition asString (v : option JSON) : Outcome jsstring :=
  match v with
  | Some (JString s) => Returned s
  | _ => Thrown (TypeError (lit "not a string"))
  end.

Fixpoint asArrayOf {T} (elem : option JSON -> Outcome T) (items : list JSON)
  : Outcome (list T) :=
  match items with
  | [] => Returned []
  | item :: rest =>
      x ← elem (Some item); xs ← asArrayOf elem rest; Returned (x :: xs)
  end.

Definition asStrings (v : option JSON) : Outcome (list jsstring) :=
  match v with
  | Some (JArray items) => asArrayOf asString items
  | _ => Thrown (TypeError (lit "not iterable"))
  end.

Definition asMemoryEntry (v : option JSON) : Outcome MemoryEntry.t :=
  date ← getProp v (lit "date") ≫= asString;
  note ← getProp v (lit "note") ≫= asString;
  Returned (MemoryEntry.mk date note).

Definition asHistory (v : option JSON) : Outcome (list MemoryEntry.t) :=
  match v with
  | Some (JArray items) => asArrayOf asMemoryEntry items
  | _ => Thrown (TypeError (lit "not iterable"))
  end.

Definition asStudentMemory (o : JSObject) : Outcome StudentMemory.t :=
  studentId ← asString (o !! lit "studentId");
  summary ← asString (o !! lit "summary");
  strengths ← asStrings (o !! lit "strengths");
  improvementAreas ← asStrings (o !! lit "improvementAreas");
  goals ← asStrings (o !! lit "goals");
  lastUpdated ← asString (o !! lit "lastUpdated");
  history ← asHistory (o !! lit "history");
  Returned (StudentMemory.mk studentId summary strengths improvementAreas goals
              lastUpdated history).

Definition asTeacherMemory (o : JSObject) : Outcome TeacherMemory.t :=
  summary ← asString (o !! lit "summary");
  classGoals ← asStrings (o !! lit "classGoals");
  focusAreas ← asStrings (o !! lit "focusAreas");
  lastUpdated ← asString (o !! lit "lastUpdated");
  history ← asHistory (o !! lit "history");
  Returned (TeacherMemory.mk summary classGoals focusAreas lastUpdated history).

Module MemoryStore.
Local Open Scope nat_scope.

Definition DEFAULT_STUDENT_MEMORY : JSObject :=
  list_to_map
    [(lit "studentId", JString (lit ""));
     (lit "summary", JString (lit ""));
     (lit "strengths", JArray []);
     (lit "improvementAreas", JArray []);
     (lit "goals", JArray []);
     (lit "lastUpdated", JString (lit ""));
     (lit "history", JArray [])].

Definition DEFAULT_TEACHER_MEMORY : JSObject :=
  list_to_map
    [(lit "summary", JString (lit ""));
     (lit "classGoals", JArray []);
     (lit "focusAreas", JArray []);
     (lit "lastUpdated", JString (lit ""));
     (lit "history", JArray [])].

Definition studentMemoryPath (memoryDir studentId : jsstring) : jsstring :=
  pathJoin [memoryDir; lit "students"; studentId ++ lit ".json"].

Definition teacherMemoryPath (memoryDir : jsstring) : jsstring :=
  pathJoin [memoryDir; lit "teacher.json"].

(** The loop of [uniqueList]: [seen] is the [Set], [result] the output
    array; the [break] is the early exit. *)
Fixpoint uniqueList_loop
    (max : nat) (cleaned : list jsstring) (seen : gset jsstring) (result : list jsstring)
  : list jsstring :=
  match cleaned with
  | [] => result
  | item :: rest =>
      if decide (item ∈ seen) then uniqueList_loop max rest seen result
      else
        let seen := {[item]} ∪ seen in
        let result := result ++ [item] in
        if max <=? length result then result
        else uniqueList_loop max rest seen result
  end.

Definition uniqueList (items : list jsstring) (max : nat) : list jsstring :=
  let cleaned := List.filter truthy (map trim items) in
  uniqueList_loop max cleaned ∅ [].

(** [entries.slice(0, limit)] truncates a fractional [limit]. *)
Definition trimHistory (entries : list MemoryEntry.t) (limit : number)
  : list MemoryEntry.t :=
  if Qleb limit 0 then []
  else slice 0 (Z.to_nat (Qfloor limit)) entries.

Section Store.
(** [JSON.parse], [JSON.stringify(value, null, 2)] and the reading of the
    clock, [new Date().toISOString()], belong to the runtime. *)
Variable JSON_parse : jsstring -> Outcome JSON.
Variable JSON_stringify : JSON -> jsstring.
Variable now : jsstring.

Definition loadStudentMemory (memoryDir studentId : jsstring) : M JSObject :=
  let path := studentMemoryPath memoryDir studentId in
  try_catch
    (data ← readTextFile path;
     parsed ← lift (JSON_parse data);
     mret (<[lit "studentId" := JString studentId]>
             (spread parsed ∪ DEFAULT_STUDENT_MEMORY)))
    (fun error =>
       match error with
       | NotFound =>
           mret (<[lit "studentId" := JString studentId]> DEFAULT_STUDENT_MEMORY)
       | _ =>
           (* logger.warn("Failed to load student memory", ...) *)
           mret (<[lit "studentId" := JString studentId]> DEFAULT_STUDENT_MEMORY)
       end).

Definition saveStudentMemory (memoryDir : jsstring) (memory : StudentMemory.t)
  : M () :=
  try_catch
    (mkdir (pathJoin [memoryDir; lit "students"]);;
     let path := studentMemoryPath memoryDir (StudentMemory.studentId memory) in
     writeTextFile path (JSON_stringify (StudentMemory_toJSON memory)))
    (fun error => (* logger.warn("Failed to save student memory", ...) *) mret ()).

Definition loadTeacherMemory (memoryDir : jsstring) : M JSObject :=
  let path := teacherMemoryPath memoryDir in
  try_catch
    (data ← readTextFile path;
     parsed ← lift (JSON_parse data);
     mret (spread parsed ∪ DEFAULT_TEACHER_MEMORY))
    (fun error =>
       match error with
       | NotFound => mret DEFAULT_TEACHER_MEMORY
       | _ => (* logger.warn("Failed to load teacher memory", ...) *)
           mret DEFAULT_TEACHER_MEMORY
       end).

Definition saveTeacherMemory (memoryDir : jsstring) (memory : TeacherMemory.t)
  : M () :=
  try_catch
    (mkdir memoryDir;;
     let path := teacherMemoryPath memoryDir in
     writeTextFile path (JSON_stringify (TeacherMemory_toJSON memory)))
    (fun error => (* logger.warn("Failed to save teacher memory", ...) *) mret ()).

Definition saveStudentMemoryArchive
    (memoryDir : jsstring) (archive : StudentMemoryArchive.t) : M (option jsstring) :=
  let archiveDir := pathJoin [memoryDir; lit "archive"] in
  let fileName :=
    lit "run-" ++ StudentMemoryArchive.runId archive ++ lit "-student-"
    ++ StudentMemoryArchive.studentId archive ++ lit ".json" in
  let path := pathJoin [archiveDir; fileName] in
  try_catch
    (mkdir archiveDir;;
     writeTextFile path (JSON_stringify (StudentMemoryArchive_toJSON archive));;
     mret (Some path))
    (fun error => (* logger.warn(...) *) mret None).

Definition saveTeacherMemoryArchive
    (memoryDir : jsstring) (archive : TeacherMemoryArchive.t) : M (option jsstring) :=
  let archiveDir := pathJoin [memoryDir; lit "archive"] in
  let fileName := lit "run-" ++ TeacherMemoryArchive.runId archive ++ lit "-teacher.json" in
  let path := pathJoin [archiveDir; fileName] in
  try_catch
    (mkdir archiveDir;;
     writeTextFile path (JSON_stringify (TeacherMemoryArchive_toJSON archive));;
     mret (Some path))
    (fun error => (* logger.warn(...) *) mret None).

Definition updateStudentMemory
    (previous : StudentMemory.t) (student : Student.t)
    (insights : StudentInsights.t) (historyLimit : number) : StudentMemory.t :=
  let summary :=
    join (lit " ")
      [StudentInsights.positiveObservation insights;
       lit "Goal: " ++ StudentInsights.nextStepGoal insights] in
  let historyEntry :=
    {| MemoryEntry.date := now;
       MemoryEntry.note :=
         lit "Focus: " ++ join (lit "; ") (StudentInsights.improvementAreas insights)
         ++ lit " | Goal: " ++ StudentInsights.nextStepGoal insights |} in
  {| StudentMemory.studentId := Student.id student;
     StudentMemory.summary := summary;
     StudentMemory.strengths :=
       uniqueList (StudentInsights.positiveObservation insights
                   :: StudentInsights.strengths insights) 3;
     StudentMemory.improvementAreas :=
       uniqueList (StudentInsights.improvementAreas insights) 3;
     StudentMemory.goals :=
       uniqueList (StudentInsights.nextStepGoal insights
                   :: StudentMemory.goals previous) 3;
     StudentMemory.lastUpdated := now;
     StudentMemory.history :=
       trimHistory (historyEntry :: StudentMemory.history previous) historyLimit |}.

Definition updateTeacherMemory
    (previous : TeacherMemory.t) (insights : TeacherInsights.t)
    (historyLimit : number) : TeacherMemory.t :=
  let summary := TeacherInsights.classOverview insights in
  let historyEntry :=
    {| MemoryEntry.date := now;
       MemoryEntry.note :=
         lit "Next steps: " ++ join (lit "; ") (TeacherInsights.nextSteps insights) |} in
  {| TeacherMemory.summary := summary;
     TeacherMemory.classGoals := uniqueList (TeacherMemory.classGoals previous) 4;
     TeacherMemory.focusAreas := uniqueList (TeacherMemory.focusAreas previous) 4;
     TeacherMemory.lastUpdated := now;
     TeacherMemory.history :=
       trimHistory (historyEntry :: TeacherMemory.history previous) historyLimit |}.
End Store.

End MemoryStore.

(* ================================================================== *)
(** * The audit store ([src/storage.ts]) *)
(* ================================================================== *)

Module RunStats.
Record t := mk {
  runId : jsstring;
  startedAt : jsstring;
  studentCount : nat;
  validStudentCount : nat
}.
End RunStats.

Module StudentMessageParams.
Record t := mk {
  runId : jsstring;
  studentId : jsstring;
  analysis : option StudentAnalysis.t;
  insights : option StudentInsights.t;
  emailSubject : option jsstring;
  emailPath : option jsstring;
  status : jsstring;
  error : option jsstring;
  usedFallback : bool
}.
End StudentMessageParams.

Module TeacherMessageParams.
Record t := mk {
  runId : jsstring;
  summary : TeacherSummary.t;
  insights : option TeacherInsights.t;
  emailSubject : option jsstring;
  emailPath : option jsstring;
  status : jsstring;
  error : option jsstring;
  usedFallback : bool
}.
End TeacherMessageParams.

Module HistoryStore.

Section Store.
(** [crypto.randomUUID()] renders the [n]-th draw; [now] is the clock. *)
Variable uuid : nat -> jsstring.
Variable now : jsstring.

Definition randomUUID : M jsstring := fun w =>
  (Returned (uuid (uuids w)), set_uuids S w).

(** [INSERT INTO runs]: [id] is the primary key, a second row with the
    same key is refused. *)
Definition insertRun (row : RunRow.t) : M () := fun w =>
  if bool_decide (RunRow.id row ∈ map RunRow.id (runs w)) then
    (Thrown (Error (lit "UNIQUE constraint failed: runs.id")), w)
  else (Returned (), set_runs (fun rows => rows ++ [row]) w).

Definition insertStudentMessage (row : StudentMessageRow.t) : M () := fun w =>
  if bool_decide (StudentMessageRow.id row
                  ∈ map StudentMessageRow.id (student_messages w)) then
    (Thrown (Error (lit "UNIQUE constraint failed: student_messages.id")), w)
  else (Returned (), set_student_messages (fun rows => rows ++ [row]) w).

Definition insertTeacherMessage (row : TeacherMessageRow.t) : M () := fun w =>
  if bool_decide (TeacherMessageRow.id row
                  ∈ map TeacherMessageRow.id (teacher_messages w)) then
    (Thrown (Error (lit "UNIQUE constraint failed: teacher_messages.id")), w)
  else (Returned (), set_teacher_messages (fun rows => rows ++ [row]) w).

(** [UPDATE runs SET completed_at = ?, status = ? WHERE id = ?] *)
Definition updateRun (completedAt status runId : jsstring) : M () :=
  modify (set_runs (map (fun row =>
    if bool_decide (RunRow.id row = runId) then
      {| RunRow.id := RunRow.id row;
         RunRow.started_at := RunRow.started_at row;
         RunRow.completed_at := Some completedAt;
         RunRow.student_count := RunRow.student_count row;
         RunRow.valid_student_count := RunRow.valid_student_count row;
         RunRow.status := status |}
    else row))).

Definition startRun (stats : RunStats.t) : M () :=
  try_catch
    (insertRun
       {| RunRow.id := RunStats.runId stats;
          RunRow.started_at := RunStats.startedAt stats;
          RunRow.completed_at := None;
          RunRow.student_count := RunStats.studentCount stats;
          RunRow.valid_student_count := RunStats.validStudentCount stats;
          RunRow.status := lit "running" |})
    (fun error => (* logger.error("Failed to record run start", ...) *) mret ()).

Definition finishRun (runId status : jsstring) : M () :=
  let completedAt := now in
  try_catch
    (updateRun completedAt status runId)
    (fun error => (* logger.error("Failed to record run completion", ...) *) mret ()).

Definition recordStudentMessage (params : StudentMessageParams.t) : M () :=
  let createdAt := now in
  try_catch
    (id ← randomUUID;
     insertStudentMessage
       {| StudentMessageRow.id := id;
          StudentMessageRow.run_id := StudentMessageParams.runId params;
          StudentMessageRow.student_id := StudentMessageParams.studentId params;
          StudentMessageRow.analysis_json := StudentMessageParams.analysis params;
          StudentMessageRow.insights_json := StudentMessageParams.insights params;
          StudentMessageRow.email_subject := StudentMessageParams.emailSubject params;
          StudentMessageRow.email_path := StudentMessageParams.emailPath params;
          StudentMessageRow.status := StudentMessageParams.status params;
          StudentMessageRow.error := StudentMessageParams.error params;
          StudentMessageRow.used_fallback := StudentMessageParams.usedFallback params;
          StudentMessageRow.created_at := createdAt |})
    (fun error => (* logger.error("Failed to record student message", ...) *) mret ()).

Definition recordTeacherMessage (params : TeacherMessageParams.t) : M () :=
  let createdAt := now in
  try_catch
    (id ← randomUUID;
     insertTeacherMessage
       {| TeacherMessageRow.id := id;
          TeacherMessageRow.run_id := TeacherMessageParams.runId params;
          TeacherMessageRow.summary_json := TeacherMessageParams.summary params;
          TeacherMessageRow.insights_json := TeacherMessageParams.insights params;
          TeacherMessageRow.email_subject := TeacherMessageParams.emailSubject params;
          TeacherMessageRow.email_path := TeacherMessageParams.emailPath params;
          TeacherMessageRow.status := TeacherMessageParams.status params;
          TeacherMessageRow.error := TeacherMessageParams.error params;
          TeacherMessageRow.used_fallback := TeacherMessageParams.usedFallback params;
          TeacherMessageRow.created_at := createdAt |})
    (fun error => (* logger.error("Failed to record teacher message", ...) *) mret ()).
End Store.

(** The status that the [runs] table holds for a run id. *)
Definition runStatus (runId : jsstring) (w : World) : option jsstring :=
  RunRow.status <$> List.find (fun row => bool_decide (RunRow.id row = runId)) (runs w).

End HistoryStore.

(* ================================================================== *)
(** * Local e-mail delivery ([src/email.ts]) *)
(* ================================================================== *)

Module Config.
Record t := mk {
  emailFrom : jsstring;
  teacherEmail : jsstring;
  emailOutDir : option jsstring;
  teacherRules : option TeacherPreferences.t;
  studentsJsonPath : jsstring;
  memoryDir : jsstring;
  memoryHistoryLimit : number
}.
End Config.

Module EmailContent.
Record t := mk { to : jsstring; subject : jsstring; text : jsstring; html : jsstring }.
End EmailContent.

Module Email.
Local Open Scope nat_scope.

Definition newline : jsstring := [10%N].

(** [s.replace(/\n/g, "<br />")] *)
Definition brLines (s : jsstring) : jsstring :=
  flat_map (fun c => if (c =? 10)%N then lit "<br />" else [c]) s.

Definition buildStudentEmail (student : Student.t) (insights : jsstring)
  : EmailContent.t :=
  let subject := lit "Your learning update and next steps, " ++ Student.name student in
  let trimmedInsights := trim insights in
  let text :=
    join newline
      [lit "Hi " ++ Student.name student ++ lit ",";
       lit "";
       lit "Here is a supportive summary of your recent progress, plus a few next steps:";
       lit "";
       trimmedInsights;
       lit "";
       lit "You can do this. Pick one focus to try this week and build from there.";
       lit "Your Educational Assistant"] in
  let html :=
    newline ++ lit "    <p>Hi " ++ Student.name student ++ lit ",</p>"
    ++ newline
    ++ lit "    <p>Here is a supportive summary of your recent progress, plus a few next steps:</p>"
    ++ newline ++ lit "    <p>" ++ brLines trimmedInsights ++ lit "</p>"
    ++ newline
    ++ lit "    <p>You can do this. Pick one focus to try this week and build from there.<br />Your Educational Assistant</p>"
    ++ newline ++ lit "  " in
  {| EmailContent.to := Student.email student;
     EmailContent.subject := subject;
     EmailContent.text := text;
     EmailContent.html := html |}.

Definition buildTeacherEmail (teacherEmail summary : jsstring) : EmailContent.t :=
  let subject := lit "Class performance summary" in
  let text :=
    lit "Hello," ++ newline ++ newline ++ summary ++ newline ++ newline
    ++ lit "Best," ++ newline ++ lit "Educational Assistant" in
  let html :=
    newline ++ lit "    <p>Hello,</p>"
    ++ newline ++ lit "    <p>" ++ brLines summary ++ lit "</p>"
    ++ newline ++ lit "    <p>Best,<br />Educational Assistant</p>"
    ++ newline ++ lit "  " in
  {| EmailContent.to := teacherEmail;
     EmailContent.subject := subject;
     EmailContent.text := text;
     EmailContent.html := html |}.

(** [/[a-zA-Z0-9._-]/] *)
Definition isFileSafe (c : N) : bool :=
  ((97 <=? c) && (c <=? 122) || (65 <=? c) && (c <=? 90) || (48 <=? c) && (c <=? 57)
   || (c =? 46) || (c =? 95) || (c =? 45))%N.

Section Delivery.
Variable uuid : nat -> jsstring.
Variable now : jsstring.

(** One turn of the loop: [Deno.open(path, { write: true, createNew: true })]
    is refused with [AlreadyExists] when the path exists, the one error that
    the loop retries ([None]); otherwise the device decides: the file is
    created and written, or created and the write throws (the [finally]
    closes the handle, the file stays), or the creation itself throws.  Each
    of these errors is thrown again by the [catch]. *)
Definition createNew (path contents : jsstring) : M (option jsstring) := fun w =>
  match fs w !! path with
  | Some _ => (Returned None, w)
  | None =>
      match device w path contents with
      | Created stored =>
          (Returned (Some path), set_fs (fun files => <[path := TextFile stored]> files) w)
      | WriteFailed stored error =>
          (Thrown error, set_fs (fun files => <[path := TextFile stored]> files) w)
      | OpenFailed error => (Thrown error, w)
      end
  end.

Fixpoint writeUniqueEmailFile_loop
    (attempts : nat) (dir baseName contents : jsstring) : M jsstring :=
  match attempts with
  | O => throw (Error (lit "Failed to create a unique email file"))
  | S attempts' =>
      uniqueSuffix ← HistoryStore.randomUUID uuid;
      let fileName := baseName ++ lit "-" ++ uniqueSuffix ++ lit ".txt" in
      let path := pathJoin [dir; fileName] in
      created ← createNew path contents;
      match created with
      | Some path => mret path
      | None => (* continue *) writeUniqueEmailFile_loop attempts' dir baseName contents
      end
  end.

Definition writeUniqueEmailFile (dir baseName contents : jsstring) : M jsstring :=
  writeUniqueEmailFile_loop 5 dir baseName contents.

Definition sendEmail (config : Config.t) (email : EmailContent.t)
  : M (option jsstring) :=
  match Config.emailOutDir config with
  | None => mret None
  | Some emailOutDir =>
    if negb (truthy emailOutDir) then mret None
    else
      let safeRecipient :=
        map (fun c => if isFileSafe c then c else 95%N) (EmailContent.to email) in
      let timestamp :=
        map (fun c => if ((c =? 58) || (c =? 46))%N then 45%N else c) now in
      let output :=
        join newline
          [lit "From: " ++ Config.emailFrom config;
           lit "To: " ++ EmailContent.to email;
           lit "Subject: " ++ EmailContent.subject email;
           lit "";
           EmailContent.text email;
           lit ""] in
      try_catch
        (mkdir emailOutDir;;
         path ← writeUniqueEmailFile emailOutDir
                  (timestamp ++ lit "-" ++ safeRecipient) output;
         mret (Some path))
        (fun error => (* logger.error("Failed to save local email", ...) *) mret None)
  end.
End Delivery.
End Email.

(* ================================================================== *)
(** * The input validator ([src/validator.ts]) *)
(* ================================================================== *)

Module Validator.
Local Open Scope nat_scope.

(** [/^[^@\s]+@[^@\s]+\.[^@\s]+$/.test(s)] *)
Definition emailChar (c : N) : bool := negb (c =? 64)%N && negb (isWhiteSpace c).

Fixpoint takeWhile {T} (p : T -> bool) (l : list T) : list T :=
  match l with
  | x :: rest => if p x then x :: takeWhile p rest else []
  | [] => []
  end.

Definition EMAIL_PATTERN_test (s : jsstring) : bool :=
  let localPart := takeWhile emailChar s in
  match drop (length localPart) s with
  | 64%N :: domain =>
      (0 <? length localPart) && forallb emailChar domain
      && existsb (fun c => (c =? 46)%N) (removelast (tail domain))
  | _ => false
  end.

Definition isRecord (value : option JSON) : bool :=
  match value with
  | Some (JObject _) => true
  | _ => false
  end.

(** [value.key] once [isRecord(value)] holds. *)
Definition field (value : option JSON) (key : jsstring) : option JSON :=
  match value with
  | Some (JObject fields) => assoc key fields
  | _ => None
  end.

Definition isNonEmptyString (value : option JSON) : bool :=
  match value with
  | Some (JString value) => 0 <? length (trim value)
  | _ => false
  end.

Definition isFiniteNumber (value : option JSON) : bool :=
  match value with
  | Some (JNumber _) => true
  | _ => false
  end.

Definition inRange (value : option JSON) (min max : number) : bool :=
  match value with
  | Some (JNumber value) => Qgeb value min && Qleb value max
  | _ => false
  end.

Definition parseTrend (value : option JSON) : option PerformanceTrend :=
  match value with
  | Some (JString value) =>
      if decide (value = lit "improving") then Some improving
      else if decide (value = lit "stable") then Some stable
      else if decide (value = lit "declining") then Some declining
      else None
  | _ => None
  end.

Definition stringOr (value : option JSON) (fallback : jsstring) : jsstring :=
  match value with
  | Some (JString s) => s
  | _ => fallback
  end.

Definition numberOr (value : option JSON) (fallback : number) : number :=
  match value with
  | Some (JNumber n) => n
  | _ => fallback
  end.

Definition indexedError (prefix : jsstring) (index : nat) (suffix : jsstring) : jsstring :=
  prefix ++ lit "[" ++ natToString index ++ lit "]" ++ suffix.

Section WithDate.
(** [Date.parse]: [None] is [NaN]. *)
Variable Date_parse : jsstring -> option number.

Definition isValidDate (value : option JSON) : bool :=
  if negb (isNonEmptyString value) then false
  else
    match value with
    | Some (JString s) => bool_decide (is_Some (Date_parse s))
    | _ => false
    end.

Definition validateGrade (value : JSON) (index : nat) : ValidationResult Grade.t :=
  let errors : list jsstring := [] in
  if negb (isRecord (Some value)) then
    failed [indexedError (lit "grades") index (lit " must be an object")]
  else
    let subject := field (Some value) (lit "subject") in
    let score := field (Some value) (lit "score") in
    let subjectValue := if isNonEmptyString subject then trim (stringOr subject []) else [] in
    let scoreValue := if isFiniteNumber score then numberOr score 0%Q else 0%Q in
    let errors :=
      Analyzer.pushIf (negb (isNonEmptyString subject))
        (indexedError (lit "grades") index (lit ".subject must be a non-empty string"))
        errors in
    let errors :=
      Analyzer.pushIf (negb (inRange score 0%Q 100%Q))
        (indexedError (lit "grades") index
           (lit ".score must be a number between 0 and 100")) errors in
    if 0 <? length errors then failed errors
    else ok {| Grade.subject := subjectValue; Grade.score := scoreValue |}.

(** [grades.forEach((grade, gradeIndex) => ...)] *)
Fixpoint validateGrades
    (grades : list JSON) (gradeIndex : nat)
    (validatedGrades : list Grade.t) (errors : list jsstring)
  : list Grade.t * list jsstring :=
  match grades with
  | [] => (validatedGrades, errors)
  | grade :: rest =>
      match validateGrade grade gradeIndex with
      | ok value => validateGrades rest (S gradeIndex) (validatedGrades ++ [value]) errors
      | failed errs => validateGrades rest (S gradeIndex) validatedGrades (errors ++ errs)
      end
  end.

Definition validateStudent (value : JSON) (index : nat) : ValidationResult Student.t :=
  let errors : list jsstring := [] in
  if negb (isRecord (Some value)) then
    failed [indexedError (lit "students") index (lit " must be an object")]
  else
    let value := Some value in
    let id := field value (lit "id") in
    let name := field value (lit "name") in
    let email := field value (lit "email") in
    let grades := field value (lit "grades") in
    let participationScore := field value (lit "participationScore") in
    let assignmentCompletionRate := field value (lit "assignmentCompletionRate") in
    let teacherNotes := field value (lit "teacherNotes") in
    let performanceTrend := parseTrend (field value (lit "performanceTrend")) in
    let lastAssessmentDate := field value (lit "lastAssessmentDate") in
    let idValue := if isNonEmptyString id then trim (stringOr id []) else [] in
    let nameValue := if isNonEmptyString name then trim (stringOr name []) else [] in
    let emailValue := if isNonEmptyString email then trim (stringOr email []) else [] in
    let participationValue :=
      if isFiniteNumber participationScore then numberOr participationScore 0%Q else 0%Q in
    let completionValue :=
      if isFiniteNumber assignmentCompletionRate
      then numberOr assignmentCompletionRate 0%Q else 0%Q in
    let notesValue := stringOr teacherNotes [] in
    let lastAssessmentValue :=
      if isValidDate lastAssessmentDate then stringOr lastAssessmentDate [] else [] in
    let errors :=
      Analyzer.pushIf (negb (isNonEmptyString id))
        (lit "id must be a non-empty string") errors in
    let errors :=
      Analyzer.pushIf (negb (isNonEmptyString name))
        (lit "name must be a non-empty string") errors in
    let errors :=
      Analyzer.pushIf
        (negb (isNonEmptyString email)
         || negb (EMAIL_PATTERN_test (stringOr email [])))
        (lit "email must be a valid address") errors in
    let '(validatedGrades, errors) :=
      match grades with
      | Some (JArray (g :: gs)) => validateGrades (g :: gs) 0 [] errors
      | _ => ([], errors ++ [lit "grades must be a non-empty array"])
      end in
    let errors :=
      Analyzer.pushIf (negb (inRange participationScore 1%Q 10%Q))
        (lit "participationScore must be a number between 1 and 10") errors in
    let errors :=
      Analyzer.pushIf (negb (inRange assignmentCompletionRate 0%Q 100%Q))
        (lit "assignmentCompletionRate must be a number between 0 and 100") errors in
    let errors :=
      Analyzer.pushIf (match teacherNotes with Some (JString _) => false | _ => true end)
        (lit "teacherNotes must be a string") errors in
    let errors :=
      Analyzer.pushIf (bool_decide (performanceTrend = None))
        (lit "performanceTrend must be improving, stable, or declining") errors in
    let errors :=
      Analyzer.pushIf (negb (isValidDate lastAssessmentDate))
        (lit "lastAssessmentDate must be a valid date string") errors in
    if 0 <? length errors then failed errors
    else
      match performanceTrend with
      | Some trendValue =>
          ok {| Student.id := idValue;
                Student.name := nameValue;
                Student.email := emailValue;
                Student.grades := validatedGrades;
                Student.participationScore := participationValue;
                Student.assignmentCompletionRate := completionValue;
                Student.teacherNotes := notesValue;
                Student.performanceTrend := trendValue;
                Student.lastAssessmentDate := lastAssessmentValue |}
      | None => failed errors
      end.

(** [data.forEach((value, index) => ...)] *)
Fixpoint validateEach
    (data : list JSON) (index : nat) (valid : list Student.t) (errors : list jsstring)
  : list Student.t * list jsstring :=
  match data with
  | [] => (valid, errors)
  | value :: rest =>
      match validateStudent value index with
      | ok student => validateEach rest (S index) (valid ++ [student]) errors
      | failed errs =>
          validateEach rest (S index) valid
            (errors ++ map (fun error =>
                              indexedError (lit "students") index (lit ": ") ++ error) errs)
      end
  end.

Definition validateStudents (data : JSON) : list Student.t * list jsstring :=
  match data with
  | JArray data => validateEach data 0 [] []
  | _ => ([], [lit "students.json must be an array of student objects"])
  end.
End WithDate.
End Validator.

(* ================================================================== *)
(** * The run orchestrator ([src/run_with_tool.ts], [src/main_with_memory.ts]) *)
(* ================================================================== *)

Module Orchestrator.
Local Open Scope nat_scope.

Section Run.
(** The runtime and the external collaborators.  The generative model is
    called through the agent of [src/agent_with_memory.ts]; a call
    returns the raw text of the answer or throws. *)
Variable JSON_parse : jsstring -> Outcome JSON.
Variable JSON_stringify : JSON -> jsstring.
Variable uuid : nat -> jsstring.
Variable now : jsstring.
Variable generateStudentInsights : StudentAnalysis.t -> JSObject -> Outcome jsstring.
Variable generateTeacherSummary : TeacherSummary.t -> JSObject -> Outcome jsstring.

Variable config : Config.t.

(** The second [try] block of the loop body: everything that follows a
    successful analysis of one student. *)
Definition processStudent (runId : jsstring) (analysis : StudentAnalysis.t) : M () :=
  let student := StudentAnalysis.student analysis in
  try_catch
    (studentMemory ←
       MemoryStore.loadStudentMemory JSON_parse (Config.memoryDir config)
         (Student.id student);
     rawInsights ← lift (generateStudentInsights analysis studentMemory);
     parsed ← lift (Insights.parseStudentInsights JSON_parse rawInsights);
     let usedFallback := negb (is_ok parsed) in
     (* if (!parsed.ok) logger.warn("Student insights JSON invalid; using fallback") *)
     let insights :=
       match parsed with
       | ok value => value
       | failed _ =>
           Insights.buildFallbackStudentInsights analysis (Config.teacherRules config)
       end in
     let message := Insights.renderStudentMessage insights in
     let email := Email.buildStudentEmail (StudentAnalysis.student analysis) message in
     emailPath ← Email.sendEmail uuid now config email;
     HistoryStore.recordStudentMessage uuid now
       {| StudentMessageParams.runId := runId;
          StudentMessageParams.studentId := Student.id (StudentAnalysis.student analysis);
          StudentMessageParams.analysis := Some analysis;
          StudentMessageParams.insights := Some insights;
          StudentMessageParams.emailSubject := Some (EmailContent.subject email);
          StudentMessageParams.emailPath := emailPath;
          StudentMessageParams.status := lit "sent";
          StudentMessageParams.error := None;
          StudentMessageParams.usedFallback := usedFallback |};;
     previous ← lift (asStudentMemory studentMemory);
     let updatedMemory :=
       MemoryStore.updateStudentMemory now previous (StudentAnalysis.student analysis)
         insights (Config.memoryHistoryLimit config) in
     MemoryStore.saveStudentMemory JSON_stringify (Config.memoryDir config) updatedMemory;;
     MemoryStore.saveStudentMemoryArchive JSON_stringify (Config.memoryDir config)
       {| StudentMemoryArchive.runId := runId;
          StudentMemoryArchive.studentId := Student.id (StudentAnalysis.student analysis);
          StudentMemoryArchive.createdAt := now;
          StudentMemoryArchive.summary := StudentMemory.summary updatedMemory;
          StudentMemoryArchive.strengths := StudentMemory.strengths updatedMemory;
          StudentMemoryArchive.improvementAreas :=
            StudentMemory.improvementAreas updatedMemory;
          StudentMemoryArchive.goals := StudentMemory.goals updatedMemory |};;
     mret ())
    (fun error =>
       (* logger.error("Failed to process student", ...) *)
       HistoryStore.recordStudentMessage uuid now
         {| StudentMessageParams.runId := runId;
            StudentMessageParams.studentId :=
              Student.id (StudentAnalysis.student analysis);
            StudentMessageParams.analysis := Some analysis;
            StudentMessageParams.insights := None;
            StudentMessageParams.emailSubject := None;
            StudentMessageParams.emailPath := None;
            StudentMessageParams.status := lit "insights_failed";
            StudentMessageParams.error := Some (errorMessage error);
            StudentMessageParams.usedFallback := false |}).

(** [for (const student of students) { ... }], the array [analyses]
    threaded through. *)
Fixpoint forEachStudent
    (runId : jsstring) (students : list Student.t) (analyses : list StudentAnalysis.t)
  : M (list StudentAnalysis.t) :=
  match students with
  | [] => mret analyses
  | student :: rest =>
      analyzed ←
        try_catch
          (let analysis := Analyzer.analyzeStudent student in
           mret (Some (analysis, analyses ++ [analysis])))
          (fun error =>
             (* logger.error("Failed to analyze student", ...) *)
             HistoryStore.recordStudentMessage uuid now
               {| StudentMessageParams.runId := runId;
                  StudentMessageParams.studentId := Student.id student;
                  StudentMessageParams.analysis := None;
                  StudentMessageParams.insights := None;
                  StudentMessageParams.emailSubject := None;
                  StudentMessageParams.emailPath := None;
                  StudentMessageParams.status := lit "analysis_failed";
                  StudentMessageParams.error := Some (errorMessage error);
                  StudentMessageParams.usedFallback := false |};;
             mret None);
      match analyzed with
      | None => (* continue *) forEachStudent runId rest analyses
      | Some (analysis, analyses) =>
          processStudent runId analysis;;
          forEachStudent runId rest analyses
      end
  end.

(** The body of the last [try] block: the teacher summary. *)
Definition teacherStage (runId : jsstring) (analyses : list StudentAnalysis.t) : M () :=
  let teacherSummary := Analyzer.buildTeacherSummary analyses in
  teacherMemory ← MemoryStore.loadTeacherMemory JSON_parse (Config.memoryDir config);
  rawSummary ← lift (generateTeacherSummary teacherSummary teacherMemory);
  parsed ← lift (Insights.parseTeacherInsights JSON_parse rawSummary);
  let usedFallback := negb (is_ok parsed) in
  (* if (!parsed.ok) logger.warn("Teacher summary JSON invalid; using fallback") *)
  let insights :=
    match parsed with
    | ok value => value
    | failed _ =>
        Insights.buildFallbackTeacherInsights teacherSummary (Config.teacherRules config)
    end in
  let message := Insights.renderTeacherMessage insights in
  let teacherEmail := Email.buildTeacherEmail (Config.teacherEmail config) message in
  emailPath ← Email.sendEmail uuid now config teacherEmail;
  HistoryStore.recordTeacherMessage uuid now
    {| TeacherMessageParams.runId := runId;
       TeacherMessageParams.summary := teacherSummary;
       TeacherMessageParams.insights := Some insights;
       TeacherMessageParams.emailSubject := Some (EmailContent.subject teacherEmail);
       TeacherMessageParams.emailPath := emailPath;
       TeacherMessageParams.status := lit "sent";
       TeacherMessageParams.error := None;
       TeacherMessageParams.usedFallback := usedFallback |};;
  previous ← lift (asTeacherMemory teacherMemory);
  let updatedTeacherMemory :=
    MemoryStore.updateTeacherMemory now previous insights
      (Config.memoryHistoryLimit config) in
  MemoryStore.saveTeacherMemory JSON_stringify (Config.memoryDir config)
    updatedTeacherMemory;;
  MemoryStore.saveTeacherMemoryArchive JSON_stringify (Config.memoryDir config)
    {| TeacherMemoryArchive.runId := runId;
       TeacherMemoryArchive.createdAt := now;
       TeacherMemoryArchive.summary := TeacherInsights.classOverview insights;
       TeacherMemoryArchive.strengths := TeacherInsights.strengths insights;
       TeacherMemoryArchive.attentionNeeded := TeacherInsights.attentionNeeded insights;
       TeacherMemoryArchive.nextSteps := TeacherInsights.nextSteps insights |};;
  mret ().

Definition teacherStageFailed (runId : jsstring) (analyses : list StudentAnalysis.t)
    (error : exn) : M () :=
  (* logger.error("Failed to send teacher summary", ...) *)
  HistoryStore.recordTeacherMessage uuid now
    {| TeacherMessageParams.runId := runId;
       TeacherMessageParams.summary := Analyzer.buildTeacherSummary analyses;
       TeacherMessageParams.insights := None;
       TeacherMessageParams.emailSubject := None;
       TeacherMessageParams.emailPath := None;
       TeacherMessageParams.status := lit "summary_failed";
       TeacherMessageParams.error := Some (errorMessage error);
       TeacherMessageParams.usedFallback := false |}.

(** What both entry points do once the run is recorded as started; the
    two source files spell out the same statements. *)
Definition processBatch (runId : jsstring) (students : list Student.t) : M () :=
  if length students =? 0 then
    (* logger.warn("No valid students available for analysis") *)
    HistoryStore.finishRun now runId (lit "no_valid_students")
  else
    (* const agent = createAgentWithMemory(config, logger, config.teacherRules) *)
    analyses ← forEachStudent runId students [];
    if length analyses =? 0 then
      (* logger.warn("No successful analyses; skipping teacher summary") *)
      HistoryStore.finishRun now runId (lit "no_successful_analyses")
    else
      try_catch (teacherStage runId analyses) (teacherStageFailed runId analyses);;
      HistoryStore.finishRun now runId (lit "completed").

Definition totalCountOf (rawStudents : JSON) : nat :=
  match rawStudents with
  | JArray items => length items
  | _ => 0
  end.

End Run.
End Orchestrator.

Module RunWithTool.
Section Run.
Variable JSON_parse : jsstring -> Outcome JSON.
Variable JSON_stringify : JSON -> jsstring.
Variable Date_parse : jsstring -> option number.
Variable uuid : nat -> jsstring.
Variable now : jsstring.
Variable generateStudentInsights : StudentAnalysis.t -> JSObject -> Outcome jsstring.
Variable generateTeacherSummary : TeacherSummary.t -> JSObject -> Outcome jsstring.
Variable config : Config.t.

Definition loadStudentsRaw (path : jsstring) : M JSON :=
  data ← readTextFile path;
  lift (JSON_parse data).

(** [validateStudentsTool.invoke({ data })] of
    [src/tools/validate_students_tool.ts] *)
Definition validateStudentsTool_invoke (data : JSON) : M jsstring :=
  let result := Validator.validateStudents Date_parse data in
  mret (JSON_stringify
          (JObject [(lit "validCount", JNumber (inject_Z (Z.of_nat (length result.1))));
                    (lit "errorCount", JNumber (inject_Z (Z.of_nat (length result.2))));
                    (lit "errors", JStrings result.2)])).

Definition runOnce : M jsstring :=
  runId ← HistoryStore.randomUUID uuid;
  let startedAt := now in
  rawStudents ← loadStudentsRaw (Config.studentsJsonPath config);
  toolResult ← validateStudentsTool_invoke rawStudents;
  (* logger.info("Validation tool result", { toolResult }) *)
  let validation := Validator.validateStudents Date_parse rawStudents in
  let students := validation.1 in
  let totalCount := Orchestrator.totalCountOf rawStudents in
  HistoryStore.startRun
    {| RunStats.runId := runId;
       RunStats.startedAt := startedAt;
       RunStats.studentCount := totalCount;
       RunStats.validStudentCount := length students |};;
  Orchestrator.processBatch JSON_parse JSON_stringify uuid now
    generateStudentInsights generateTeacherSummary config runId students;;
  mret runId.
End Run.
End RunWithTool.

Module MainWithMemory.
Section Run.
Variable JSON_parse : jsstring -> Outcome JSON.
Variable JSON_stringify : JSON -> jsstring.
Variable Date_parse : jsstring -> option number.
Variable uuid : nat -> jsstring.
Variable now : jsstring.
Variable generateStudentInsights : StudentAnalysis.t -> JSObject -> Outcome jsstring.
Variable generateTeacherSummary : TeacherSummary.t -> JSObject -> Outcome jsstring.
Variable config : Config.t.

Definition loadStudents (path : jsstring) : M (list Student.t * nat) :=
  try_catch
    (data ← readTextFile path;
     parsed ← lift (JSON_parse data);
     let '(valid, errors) := Validator.validateStudents Date_parse parsed in
     let totalCount := Orchestrator.totalCountOf parsed in
     (* if (errors.length > 0) logger.warn(...) *)
     mret (valid, totalCount))
    (fun error => (* logger.error("Failed to load student data", ...) *) throw error).

Definition runOnce : M () :=
  runId ← HistoryStore.randomUUID uuid;
  let startedAt := now in
  loaded ← loadStudents (Config.studentsJsonPath config);
  let '(students, totalCount) := loaded in
  HistoryStore.startRun
    {| RunStats.runId := runId;
       RunStats.startedAt := startedAt;
       RunStats.studentCount := totalCount;
       RunStats.validStudentCount := length students |};;
  Orchestrator.processBatch JSON_parse JSON_stringify uuid now
    generateStudentInsights generateTeacherSummary config runId students.
End Run.
End MainWithMemory.

(* ================================================================== *)
(** * The single-flight guard of the HTTP server ([src/http_server.ts]) *)
(* ================================================================== *)

Module Server.
Local Open Scope nat_scope.

Module State.
Record t := mk { running : bool; lastRunId : option jsstring }.
End State.

Inductive ResponseBody :=
| ApiError (error : jsstring)
| AnalyzeResponse (runId status : jsstring).

Record Response := jsonResponse { body : ResponseBody; status : nat }.

(** [value ? ... : ...] on an untyped value *)
Definition truthyValue (value : option JSON) : bool :=
  match value with
  | None | Some JNull => false
  | Some (JBool b) => b
  | Some (JNumber n) => negb (Qeq_bool n 0)
  | Some (JString s) => truthy s
  | Some (JArray _) | Some (JObject _) => true
  end.

Definition ownProp (value : JSON) (key : jsstring) : option JSON :=
  match value with
  | JObject fields => assoc key fields
  | _ => None
  end.

Definition isString (value : option JSON) (s : jsstring) : bool :=
  match value with
  | Some (JString v) => bool_decide (v = s)
  | _ => false
  end.

Definition isAnalyzeRequest (value : JSON) : bool :=
  if negb (truthyValue (Some value)) || negb (isObjectLike value) then false
  else
    let scope := ownProp value (lit "scope") in
    let studentId := ownProp value (lit "studentId") in
    let dryRun := ownProp value (lit "dryRun") in
    if truthyValue scope && negb (isString scope (lit "all"))
       && negb (isString scope (lit "student")) then false
    else if truthyValue studentId
            && negb (match studentId with Some (JString _) => true | _ => false end)
    then false
    else if truthyValue dryRun
            && negb (match dryRun with Some (JBool _) => true | _ => false end)
    then false
    else true.

(** [state.lastRunId ?? "unknown"] *)
Definition lastRunIdOrUnknown (state : State.t) : jsstring :=
  match State.lastRunId state with
  | Some runId => runId
  | None => lit "unknown"
  end.

(** [handleAnalyze] is an [async] function.  It runs without interruption
    from its call to [await runOnce(config, store)], where it is suspended
    until the run settles; other requests are served in between.  (The
    earlier [await parseJson(request)] only reads the request; its result
    is the argument [payload] here.) *)
Inductive Suspension :=
| Respond (response : Response)
| AwaitRunOnce.

Definition handleAnalyze_enter (payload : Outcome JSON) (state : State.t)
  : Suspension * State.t :=
  match payload with
  | Thrown _ => (Respond (jsonResponse (ApiError (lit "Invalid JSON payload")) 400), state)
  | Returned payload =>
      if negb (isAnalyzeRequest payload) then
        (Respond (jsonResponse (ApiError (lit "Invalid analysis request")) 400), state)
      else
        let scope := ownProp payload (lit "scope") in
        if truthyValue scope && negb (isString scope (lit "all")) then
          (Respond (jsonResponse
                      (ApiError (lit "Student-level analysis is not supported yet")) 400),
           state)
        else if State.running state then
          (Respond (jsonResponse
                      (AnalyzeResponse (lastRunIdOrUnknown state) (lit "running")) 409),
           state)
        else
          (AwaitRunOnce, State.mk true (State.lastRunId state))
  end.

(** The rest of [handleAnalyze], once [runOnce] has returned or thrown;
    the [finally] block clears the flag on both paths. *)
Definition handleAnalyze_resume (result : Outcome jsstring) (state : State.t)
  : Response * State.t :=
  match result with
  | Returned runId =>
      (jsonResponse (AnalyzeResponse runId (lit "completed")) 200,
       State.mk false (Some runId))
  | Thrown error =>
      (* logger.error("Analysis run failed", ...) *)
      (jsonResponse (AnalyzeResponse (lastRunIdOrUnknown state) (lit "failed")) 500,
       State.mk false (State.lastRunId state))
  end.

(** The server process around the handler: the guard object, the world,
    and the run that is suspended at [await runOnce], if any, with the run
    id that [runOnce] drew when it was called. *)
Record Process := mkProcess {
  state : State.t;
  world : World;
  inflight : option jsstring
}.

Inductive Event :=
| Request (payload : Outcome JSON)
| RunSettles.

Section Serve.
Variable JSON_parse : jsstring -> Outcome JSON.
Variable JSON_stringify : JSON -> jsstring.
Variable Date_parse : jsstring -> option number.
Variable uuid : nat -> jsstring.
Variable now : jsstring.
Variable generateStudentInsights : StudentAnalysis.t -> JSObject -> Outcome jsstring.
Variable generateTeacherSummary : TeacherSummary.t -> JSObject -> Outcome jsstring.
Variable config : Config.t.

Definition runOnce : M jsstring :=
  RunWithTool.runOnce JSON_parse JSON_stringify Date_parse uuid now
    generateStudentInsights generateTeacherSummary config.

Definition step (p : Process) (e : Event) : Process * option Response :=
  match e with
  | Request payload =>
      match handleAnalyze_enter payload (state p) with
      | (Respond response, state') =>
          (mkProcess state' (world p) (inflight p), Some response)
      | (AwaitRunOnce, state') =>
          (mkProcess state' (world p) (Some (uuid (uuids (world p)))), None)
      end
  | RunSettles =>
      match inflight p with
      | None => (p, None)
      | Some _ =>
          let '(result, world') := runOnce (world p) in
          let '(response, state') := handleAnalyze_resume result (state p) in
          (mkProcess state' world' None, Some response)
      end
  end.

Definition initial (w : World) : Process :=
  mkProcess (State.mk false None) w None.

Fixpoint run (p : Process) (events : list Event) : Process :=
  match events with
  | [] => p
  | e :: rest => run (step p e).1 rest
  end.
End Serve.
End Server.

(* ================================================================== *)
(** * The analyzer on a heap: who owns which array *)
(* ================================================================== *)

(** [analyzeStudent] receives a reference to a student object whose [grades]
    property is a reference to an array.  Here the array operations of
    [src/analyzer.ts] are spelled out on a heap: [[...items]] and [slice]
    allocate, [sort] writes in place.  [determineRisk] reads only the scalar
    fields of the metrics, so it is shared with [Analyzer]. *)
Module AnalyzerHeap.
Local Open Scope nat_scope.

Definition loc := positive.

Module StudentObject.
Record t := mk {
  id : jsstring;
  name : jsstring;
  email : jsstring;
  grades : loc;
  participationScore : number;
  assignmentCompletionRate : number;
  teacherNotes : jsstring;
  performanceTrend : PerformanceTrend;
  lastAssessmentDate : jsstring
}.
End StudentObject.

Record Heap := mkHeap {
  objects : gmap loc StudentObject.t;
  arrays : gmap loc (list Grade.t)
}.

Module MetricsObject.
Record t := mk {
  averageScore : number;
  highestSubjects : loc;
  lowestSubjects : loc;
  participationScore : number;
  assignmentCompletionRate : number;
  needsAttention : bool
}.
End MetricsObject.

Module AnalysisObject.
Record t := mk {
  student : loc;
  metrics : MetricsObject.t;
  strengths : list jsstring;
  improvementAreas : list jsstring;
  riskLevel : RiskLevel
}.
End AnalysisObject.

(** Heap code: [None] is a dangling reference. *)
Definition H (A : Type) : Type := Heap -> option (A * Heap).

#[global] Instance H_ret : MRet H := fun A a h => Some (a, h).
#[global] Instance H_bind : MBind H := fun A B k m h =>
  match m h with
  | Some (a, h') => k a h'
  | None => None
  end.

Definition readObject (l : loc) : H StudentObject.t := fun h =>
  match objects h !! l with
  | Some o => Some (o, h)
  | None => None
  end.

Definition readArray (l : loc) : H (list Grade.t) := fun h =>
  match arrays h !! l with
  | Some items => Some (items, h)
  | None => None
  end.

Definition newArray (items : list Grade.t) : H loc := fun h =>
  let l := fresh (dom (arrays h)) in
  Some (l, mkHeap (objects h) (<[l := items]> (arrays h))).

(** [[...items]] *)
Definition spreadArray (items : loc) : H loc :=
  contents ← readArray items;
  newArray contents.

(** [array.sort(cmp)]: sorts [array] itself and returns it. *)
Definition sortInPlace (array : loc) (cmp : Grade.t -> Grade.t -> number) : H loc :=
  fun h =>
    match arrays h !! array with
    | Some items =>
        Some (array, mkHeap (objects h) (<[array := Array_sort cmp items]> (arrays h)))
    | None => None
    end.

(** [array.slice(start, stop)] *)
Definition sliceArray (array : loc) (start stop : nat) : H loc :=
  contents ← readArray array;
  newArray (slice start stop contents).

Definition topN (items : loc) (n : nat) (score : Grade.t -> number) : H loc :=
  copy ← spreadArray items;
  sorted ← sortInPlace copy (fun a b => (score b - score a)%Q);
  sliceArray sorted 0 n.

Definition bottomN (items : loc) (n : nat) (score : Grade.t -> number) : H loc :=
  copy ← spreadArray items;
  sorted ← sortInPlace copy (fun a b => (score a - score b)%Q);
  sliceArray sorted 0 n.

(** The record that a student object and the contents of its grades array
    stand for. *)
Definition studentValue (o : StudentObject.t) (grades : list Grade.t) : Student.t :=
  {| Student.id := StudentObject.id o;
     Student.name := StudentObject.name o;
     Student.email := StudentObject.email o;
     Student.grades := grades;
     Student.participationScore := StudentObject.participationScore o;
     Student.assignmentCompletionRate := StudentObject.assignmentCompletionRate o;
     Student.teacherNotes := StudentObject.teacherNotes o;
     Student.performanceTrend := StudentObject.performanceTrend o;
     Student.lastAssessmentDate := StudentObject.lastAssessmentDate o |}.

Definition analyzeStudent (student : loc) : H AnalysisObject.t :=
  studentObject ← readObject student;
  grades ← readArray (StudentObject.grades studentObject);
  (* student.grades.map((grade) => grade.score) builds a fresh array of numbers *)
  let averageScore := Analyzer.average (map Grade.score grades) in
  highestSubjects ← topN (StudentObject.grades studentObject) 2 Grade.score;
  lowestSubjects ← bottomN (StudentObject.grades studentObject) 2 Grade.score;
  let metrics :=
    {| MetricsObject.averageScore := averageScore;
       MetricsObject.highestSubjects := highestSubjects;
       MetricsObject.lowestSubjects := lowestSubjects;
       MetricsObject.participationScore := StudentObject.participationScore studentObject;
       MetricsObject.assignmentCompletionRate :=
         StudentObject.assignmentCompletionRate studentObject;
       MetricsObject.needsAttention :=
         Qltb averageScore 75
         || Qltb (StudentObject.assignmentCompletionRate studentObject) 80
         || bool_decide (StudentObject.performanceTrend studentObject = declining) |} in
  let strengths : list jsstring := [] in
  let improvementAreas : list jsstring := [] in
  let strengths :=
    Analyzer.pushIf (Qgeb averageScore 85)
      (lit "Strong overall academic performance") strengths in
  let strengths :=
    Analyzer.pushIf (Qgeb (StudentObject.participationScore studentObject) 8)
      (lit "Consistent class participation") strengths in
  let strengths :=
    Analyzer.pushIf (Qgeb (StudentObject.assignmentCompletionRate studentObject) 90)
      (lit "High assignment completion rate") strengths in
  let strengths :=
    Analyzer.pushIf (bool_decide (StudentObject.performanceTrend studentObject = improving))
      (lit "Recent performance trend is improving") strengths in
  let improvementAreas :=
    Analyzer.pushIf (Qltb averageScore 75)
      (lit "Overall grade average needs improvement") improvementAreas in
  let improvementAreas :=
    Analyzer.pushIf (Qleb (StudentObject.participationScore studentObject) 6)
      (lit "Increase class participation") improvementAreas in
  let improvementAreas :=
    Analyzer.pushIf (Qltb (StudentObject.assignmentCompletionRate studentObject) 85)
      (lit "Improve assignment completion rate") improvementAreas in
  let improvementAreas :=
    Analyzer.pushIf (bool_decide (StudentObject.performanceTrend studentObject = declining))
      (lit "Address recent performance decline") improvementAreas in
  lowest ← readArray lowestSubjects;
  let improvementAreas :=
    if 0 <? length lowest then
      (* lowestSubjects.map((grade) => grade.subject) builds a fresh array of strings *)
      let subjects := join (lit ", ") (map Grade.subject lowest) in
      improvementAreas ++ [lit "Focus on weaker subjects: " ++ subjects]
    else improvementAreas in
  let riskLevel :=
    Analyzer.determineRisk
      {| StudentMetrics.averageScore := averageScore;
         StudentMetrics.highestSubjects := [];
         StudentMetrics.lowestSubjects := [];
         StudentMetrics.participationScore := MetricsObject.participationScore metrics;
         StudentMetrics.assignmentCompletionRate :=
           MetricsObject.assignmentCompletionRate metrics;
         StudentMetrics.needsAttention := MetricsObject.needsAttention metrics |}
      (StudentObject.performanceTrend studentObject) in
  mret {| AnalysisObject.student := student;
          AnalysisObject.metrics := metrics;
          AnalysisObject.strengths := strengths;
          AnalysisObject.improvementAreas := improvementAreas;
          AnalysisObject.riskLevel := riskLevel |}.

(** What an analysis object stands for in a heap. *)
Definition analysisValue (a : AnalysisObject.t) (h : Heap) : option StudentAnalysis.t :=
  o ← objects h !! AnalysisObject.student a;
  grades ← arrays h !! StudentObject.grades o;
  highest ← arrays h !! MetricsObject.highestSubjects (AnalysisObject.metrics a);
  lowest ← arrays h !! MetricsObject.lowestSubjects (AnalysisObject.metrics a);
  Some {| StudentAnalysis.student := studentValue o grades;
          StudentAnalysis.metrics :=
            {| StudentMetrics.averageScore :=
                 MetricsObject.averageScore (AnalysisObject.metrics a);
               StudentMetrics.highestSubjects := highest;
               StudentMetrics.lowestSubjects := lowest;
               StudentMetrics.participationScore :=
                 MetricsObject.participationScore (AnalysisObject.metrics a);
               StudentMetrics.assignmentCompletionRate :=
                 MetricsObject.assignmentCompletionRate (AnalysisObject.metrics a);
               StudentMetrics.needsAttention :=
                 MetricsObject.needsAttention (AnalysisObject.metrics a) |};
          StudentAnalysis.strengths := AnalysisObject.strengths a;
          StudentAnalysis.improvementAreas := AnalysisObject.improvementAreas a;
          StudentAnalysis.riskLevel := AnalysisObject.riskLevel a |}.
End AnalyzerHeap.


(* ================================================================== *)
(** * Teacher preferences ([src/rules.ts]) *)
(* ================================================================== *)

Module Rules.
Local Open Scope nat_scope.

(** [.filter((item): item is string => typeof item === "string")] *)
Definition strings (items : list JSON) : list jsstring :=
  omap (fun item => match item with JString s => Some s | _ => None end) items.

Definition sanitizeStringArray (value : option JSON) : option (list jsstring) :=
  match value with
  | Some (JArray value) =>
      let cleaned := List.filter truthy (map trim (strings value)) in
      if 0 <? length cleaned then Some cleaned else None
  | _ => None
  end.

Definition parseTone (value : option JSON) : option Tone :=
  match value with
  | Some (JString value) =>
      if decide (value = lit "warm") then Some warm
      else if decide (value = lit "neutral") then Some neutral
      else if decide (value = lit "direct") then Some direct
      else None
  | _ => None
  end.

Section Load.
Variable JSON_parse : jsstring -> Outcome JSON.

Definition loadTeacherRules (path : option jsstring) : M (option TeacherPreferences.t) :=
  match path with
  | None => mret None
  | Some path =>
    if negb (truthy path) then mret None
    else
      try_catch
        (data ← readTextFile path;
         parsed ← lift (JSON_parse data);
         if negb (isObjectLike parsed) then
           (* logger.warn("Teacher rules file must be a JSON object", { path }) *)
           mret None
         else
           let parsed := Some parsed in
           classGoals ← lift (getProp parsed (lit "classGoals"));
           focusAreas ← lift (getProp parsed (lit "focusAreas"));
           preferredStrategies ← lift (getProp parsed (lit "preferredStrategies"));
           tone ← lift (getProp parsed (lit "tone"));
           teacherNotes ← lift (getProp parsed (lit "teacherNotes"));
           let rules :=
             {| TeacherPreferences.classGoals := sanitizeStringArray classGoals;
                TeacherPreferences.focusAreas := sanitizeStringArray focusAreas;
                TeacherPreferences.preferredStrategies :=
                  sanitizeStringArray preferredStrategies;
                TeacherPreferences.tone := parseTone tone;
                TeacherPreferences.teacherNotes :=
                  match teacherNotes with
                  | Some (JString notes) => Some (trim notes)
                  | _ => None
                  end |} in
           (* logger.info("Teacher rules loaded", { path }) *)
           mret (Some rules))
        (fun error =>
           match error with
           | NotFound =>
               (* logger.warn("Teacher rules file not found", { path }) *)
               mret None
           | _ =>
               (* logger.error("Failed to load teacher rules", ...) *)
               mret None
           end)
  end.
End Load.
End Rules.

(* ================================================================== *)
(** * Cross-origin requests ([src/http_server.ts]) *)
(* ================================================================== *)

Module Cors.

(** [String.prototype.split(sep)] for a separator of one code unit. *)
Fixpoint split (sep : N) (s : jsstring) : list jsstring :=
  match s with
  | [] => [[]]
  | c :: rest =>
      if (c =? sep)%N then [] :: split sep rest
      else
        match split sep rest with
        | piece :: pieces => (c :: piece) :: pieces
        | [] => [[c]]
        end
  end.

Definition resolveCorsOrigin (requestOrigin : option jsstring) (allowed : jsstring)
  : option jsstring :=
  if bool_decide (allowed = lit "*") then Some (lit "*")
  else
    match requestOrigin with
    | None => None
    | Some requestOrigin =>
        if negb (truthy requestOrigin) then None
        else
          let allowList := List.filter truthy (map trim (split 44 allowed)) in
          if bool_decide (requestOrigin ∈ allowList) then Some requestOrigin else None
    end.

End Cors.

(* ================================================================== *)
(** * Properties *)
(* ================================================================== *)

Set Warnings "-clear-no-such-hyp".

(** ** Comparisons of numbers *)

Lemma Qltb_lt (x y : Q) : Qltb x y = true <-> (x < y)%Q.
Proof.
  unfold Qltb. rewrite negb_true_iff, <- not_true_iff_false, Qle_bool_iff.
  split; [apply Qnot_le_lt | apply Qlt_not_le].
Qed.

Lemma Qleb_le (x y : Q) : Qleb x y = true <-> (x <= y)%Q.
Proof. apply Qle_bool_iff. Qed.

Lemma Qgeb_ge (x y : Q) : Qgeb x y = true <-> (y <= x)%Q.
Proof. apply Qle_bool_iff. Qed.

(** ** The risk classification (C1) *)

Section Risk.
Variable student : Student.t.

Let analysis := Analyzer.analyzeStudent student.
Let averageScore := StudentMetrics.averageScore (StudentAnalysis.metrics analysis).
Let participation := Student.participationScore student.
Let completion := Student.assignmentCompletionRate student.
Let trend := Student.performanceTrend student.

(** The two tests of [determineRisk], as the specification words them. *)
Definition highSignal : Prop :=
  (averageScore < 70)%Q \/ (participation <= 4)%Q \/ (completion < 70)%Q
  \/ trend = declining.

Definition mediumSignal : Prop :=
  (averageScore < 80)%Q \/ (participation <= 6)%Q \/ (completion < 85)%Q.

Lemma highSignal_test :
  Qltb averageScore 70 || Qleb participation 4 || Qltb completion 70
  || bool_decide (trend = declining) = true <-> highSignal.
Proof.
  unfold highSignal.
  rewrite !orb_true_iff, !Qltb_lt, Qleb_le, bool_decide_eq_true. tauto.
Qed.

Lemma mediumSignal_test :
  Qltb averageScore 80 || Qleb participation 6 || Qltb completion 85 = true
  <-> mediumSignal.
Proof.
  unfold mediumSignal. rewrite !orb_true_iff, !Qltb_lt, Qleb_le. tauto.
Qed.

Lemma riskLevel_unfold :
  StudentAnalysis.riskLevel analysis =
  if Qltb averageScore 70 || Qleb participation 4 || Qltb completion 70
     || bool_decide (trend = declining)
  then high
  else if Qltb averageScore 80 || Qleb participation 6 || Qltb completion 85
  then medium else low.
Proof. reflexivity. Qed.

End Risk.

(** The range of scores that [validateGrade] admits.  Within it the sum of
    the scores stays finite, so that every step of [average] has a value. *)
Definition scoresInRange (student : Student.t) : Prop :=
  Forall (fun grade => (0 <= Grade.score grade <= 100)%Q) (Student.grades student).

(** C1.  [analyzeStudent] classifies every student with scores in the
    validated range top-down: high when the average is below 70, or
    participation is at most 4, or completion is below 70, or the trend is
    declining; otherwise medium when the average is below 80, or
    participation is at most 6, or completion is below 85; otherwise low.
    The average is the one that [average] computes from the student's
    scores in binary64 arithmetic: 80 for the two scores 90 and 70, and 0,
    hence high, for a student without grades.  A declining trend alone gives
    high. *)
Theorem analyzeStudent_riskLevel (student : Student.t) :
  scoresInRange student ->
  let analysis := Analyzer.analyzeStudent student in
  let averageScore := StudentMetrics.averageScore (StudentAnalysis.metrics analysis) in
  averageScore = Analyzer.average (map Grade.score (Student.grades student))
  /\ (map Grade.score (Student.grades student) = [90; 70]%Q -> averageScore = 80%Q)
  /\ (Student.grades student = [] ->
      averageScore = 0%Q /\ StudentAnalysis.riskLevel analysis = high)
  /\ (StudentAnalysis.riskLevel analysis = high <-> highSignal student)
  /\ (StudentAnalysis.riskLevel analysis = medium
      <-> ~ highSignal student /\ mediumSignal student)
  /\ (StudentAnalysis.riskLevel analysis = low
      <-> ~ highSignal student /\ ~ mediumSignal student)
  /\ (Student.performanceTrend student = declining
      -> StudentAnalysis.riskLevel analysis = high).
Proof.
  intros _ analysis averageScore. subst analysis averageScore.
  pose proof (highSignal_test student) as Hh.
  pose proof (mediumSignal_test student) as Hm.
  rewrite riskLevel_unfold.
  split; [reflexivity |].
  split.
  { intros Hscores.
    change (StudentMetrics.averageScore
              (StudentAnalysis.metrics (Analyzer.analyzeStudent student)))
      with (Analyzer.average (map Grade.score (Student.grades student))).
    rewrite Hscores. vm_compute. reflexivity. }
  split.
  { intros Hnone.
    change (StudentMetrics.averageScore
              (StudentAnalysis.metrics (Analyzer.analyzeStudent student)))
      with (Analyzer.average (map Grade.score (Student.grades student))).
    rewrite Hnone. split; reflexivity. }
  assert (Hdecl : Student.performanceTrend student = declining -> highSignal student).
  { intros E. unfold highSignal. tauto. }
  destruct (Qltb _ 70 || _ || _ || _) eqn:Eh.
  - assert (highSignal student) by (apply Hh; reflexivity).
    repeat split; try tauto; try discriminate; intros; tauto.
  - assert (~ highSignal student) by (rewrite <- Hh; discriminate).
    destruct (Qltb _ 80 || _ || _) eqn:Em.
    + assert (mediumSignal student) by (apply Hm; reflexivity).
      repeat split; try tauto; try discriminate; intros; tauto.
    + assert (~ mediumSignal student) by (rewrite <- Hm; discriminate).
      repeat split; try tauto; try discriminate; intros; tauto.
Qed.

(** The student of [tests/analyzer_test.ts]. *)
Definition student_S100 : Student.t :=
  {| Student.id := lit "S100";
     Student.name := lit "Test Student";
     Student.email := lit "test@example.com";
     Student.grades :=
       [Grade.mk (lit "Math") 90; Grade.mk (lit "English") 70];
     Student.participationScore := 5;
     Student.assignmentCompletionRate := 60;
     Student.teacherNotes := lit "Needs confidence in class.";
     Student.performanceTrend := declining;
     Student.lastAssessmentDate := lit "2024-09-01" |}.

(** A student whose exact mean, 79.995, rounds to 80 and whose average, as
    the machine computes it, is 79.99: the doubles on the way are a little
    below the exact values. *)
Definition student_S200 : Student.t :=
  {| Student.id := lit "S200";
     Student.name := lit "Second Student";
     Student.email := lit "second@example.com";
     Student.grades :=
       [Grade.mk (lit "Math") (7723 # 100); Grade.mk (lit "English") (7716 # 100);
        Grade.mk (lit "Science") (7745 # 100); Grade.mk (lit "History") (8814 # 100)];
     Student.participationScore := 8;
     Student.assignmentCompletionRate := 90;
     Student.teacherNotes := lit "";
     Student.performanceTrend := stable;
     Student.lastAssessmentDate := lit "2024-09-01" |}.

(** A student without any signal. *)
Definition student_S300 : Student.t :=
  {| Student.id := lit "S300";
     Student.name := lit "Third Student";
     Student.email := lit "third@example.com";
     Student.grades :=
       [Grade.mk (lit "Math") (925 # 10); Grade.mk (lit "English") 88];
     Student.participationScore := 9;
     Student.assignmentCompletionRate := 95;
     Student.teacherNotes := lit "";
     Student.performanceTrend := improving;
     Student.lastAssessmentDate := lit "2024-09-01" |}.

Lemma scoresInRange_test (student : Student.t) :
  forallb (fun grade => Qle_bool 0 (Grade.score grade) && Qle_bool (Grade.score grade) 100)
    (Student.grades student) = true ->
  scoresInRange student.
Proof.
  unfold scoresInRange. intros H. apply Forall_forall. intros grade Hin.
  rewrite forallb_forall in H. apply list_elem_of_In, H in Hin.
  apply andb_true_iff in Hin as [H1 H2]. now rewrite !Qle_bool_iff in *.
Qed.

Lemma analyzeStudent_riskLevel_witness :
  (scoresInRange student_S100
   /\ StudentMetrics.averageScore
        (StudentAnalysis.metrics (Analyzer.analyzeStudent student_S100)) = 80%Q
   /\ StudentAnalysis.riskLevel (Analyzer.analyzeStudent student_S100) = high)
  /\ (scoresInRange student_S200
      /\ StudentMetrics.averageScore
           (StudentAnalysis.metrics (Analyzer.analyzeStudent student_S200))
         = Double.round (7999 # 100)
      /\ StudentAnalysis.riskLevel (Analyzer.analyzeStudent student_S200) = medium)
  /\ (scoresInRange student_S300
      /\ StudentAnalysis.riskLevel (Analyzer.analyzeStudent student_S300) = low).
Proof.
  assert (H100 : scoresInRange student_S100) by (apply scoresInRange_test; reflexivity).
  assert (H200 : scoresInRange student_S200) by (apply scoresInRange_test; reflexivity).
  assert (H300 : scoresInRange student_S300) by (apply scoresInRange_test; reflexivity).
  split; [| split].
  - destruct (analyzeStudent_riskLevel student_S100 H100)
      as (_ & Hexample & _ & _ & _ & _ & Hdeclining).
    split; [exact H100 |].
    split; [apply Hexample; reflexivity | apply Hdeclining; reflexivity].
  - destruct (analyzeStudent_riskLevel student_S200 H200)
      as (Haverage & _ & _ & _ & Hmedium & _).
    split; [exact H200 |].
    split; [rewrite Haverage; vm_compute; reflexivity |].
    apply Hmedium. split.
    + unfold highSignal. vm_compute.
      intros [H | [H | [H | H]]]; first [discriminate H | now apply H].
    + unfold mediumSignal. left. vm_compute. reflexivity.
  - destruct (analyzeStudent_riskLevel student_S300 H300)
      as (_ & _ & _ & _ & _ & Hlow & _).
    split; [exact H300 |].
    apply Hlow. split.
    + unfold highSignal. vm_compute.
      intros [H | [H | [H | H]]]; first [discriminate H | now apply H].
    + unfold mediumSignal. vm_compute.
      intros [H | [H | H]]; first [discriminate H | now apply H].
Defined.

(** [average] rounds as the machine does.  The exact means of the first
    three lists are 79.995, 64.225 and 74.995, which round to 80, 64.23 and
    75; the doubles on the way are a little below, and [Math.round] takes
    them down. *)
Example average_binary64 :
  Analyzer.average [7723 # 100; 7716 # 100; 7745 # 100; 8814 # 100]%Q
  = Double.round (7999 # 100)
  /\ Analyzer.average (repeat 65%Q 9 ++ repeat 64%Q 31) = Double.round (6422 # 100)
  /\ Analyzer.average [8413 # 100; 6746 # 100; 7076 # 100; 7763 # 100]%Q
     = Double.round (7499 # 100)
  /\ Analyzer.average [90; 70; 85]%Q = Double.round (8167 # 100)
  /\ Double.add (1 # 10) (2 # 10) = (1351079888211149 # 4503599627370496)%Q.
Proof. vm_compute. repeat split. Qed.

(** [join] normalises as [@std/path] does. *)
Example pathJoin_normalises :
  pathJoin [lit "memory"; lit "students"; lit "S100.json"] = lit "memory/students/S100.json"
  /\ pathJoin [lit "./out/"; lit "mail.txt"] = lit "out/mail.txt"
  /\ pathJoin [lit "a"; lit "../b"] = lit "b"
  /\ pathJoin [lit ".."; lit "a"] = lit "../a"
  /\ pathJoin [lit "a/b"; lit "../../.."] = lit ".."
  /\ pathJoin [lit "/a"; lit ".."; lit ".."] = lit "/"
  /\ pathJoin [lit ""; lit ""] = lit "."
  /\ pathJoin [lit "./"] = lit "./"
  /\ pathJoin [lit "a//b/"; lit "."] = lit "a/b"
  /\ pathJoin [lit "a//b/"; lit ""] = lit "a/b/".
Proof. vm_compute. repeat split. Qed.

Example toFixed1_binary64 :
  Insights.toFixed1 (7235 # 100) = lit "72.3"
  /\ Insights.toFixed1 (1 # 4) = lit "0.3"
  /\ Insights.toFixed1 80 = lit "80.0"
  /\ Insights.toFixed1 (- 4 # 100) = lit "-0.0".
Proof. vm_compute. repeat split. Qed.

Example analyzeStudent_S100 :
  let analysis := Analyzer.analyzeStudent student_S100 in
  (StudentMetrics.averageScore (StudentAnalysis.metrics analysis) == 80)%Q
  /\ map Grade.subject (StudentMetrics.highestSubjects (StudentAnalysis.metrics analysis))
     = [lit "Math"; lit "English"]
  /\ map Grade.subject (StudentMetrics.lowestSubjects (StudentAnalysis.metrics analysis))
     = [lit "English"; lit "Math"]
  /\ StudentAnalysis.riskLevel analysis = high.
Proof. vm_compute. repeat split. Qed.

(** ** Strings: what survives [trim] *)

Definition visible (c : N) : bool := negb (isWhiteSpace c).

Lemma truthy_trimStart (s : jsstring) : truthy (trimStart s) = existsb visible s.
Proof.
  induction s as [| c s IH]; [reflexivity |].
  cbn [trimStart existsb]. unfold visible at 1.
  destruct (isWhiteSpace c); [exact IH | reflexivity].
Qed.

Lemma existsb_trimStart (s : jsstring) :
  existsb visible (trimStart s) = existsb visible s.
Proof.
  induction s as [| c s IH]; [reflexivity |].
  cbn [trimStart]. destruct (isWhiteSpace c) eqn:E; [| reflexivity].
  cbn [existsb]. unfold visible at 2. rewrite E. exact IH.
Qed.

Lemma existsb_rev_eq {T} (p : T -> bool) (l : list T) :
  existsb p (rev l) = existsb p l.
Proof.
  induction l as [| x l IH]; [reflexivity |].
  cbn [rev existsb]. rewrite existsb_app, IH. cbn. rewrite orb_false_r.
  apply orb_comm.
Qed.

Lemma truthy_rev (s : jsstring) : truthy (rev s) = truthy s.
Proof.
  destruct s as [| c s]; [reflexivity |].
  cbn [rev]. destruct (rev s); reflexivity.
Qed.

Lemma existsb_trim (s : jsstring) : existsb visible (trim s) = existsb visible s.
Proof.
  unfold trim, trimEnd.
  now rewrite existsb_rev_eq, existsb_trimStart, existsb_rev_eq, existsb_trimStart.
Qed.

(** A string is non-empty after [trim] exactly when it has a visible unit. *)
Lemma truthy_trim (s : jsstring) : truthy (trim s) = existsb visible s.
Proof.
  unfold trim, trimEnd.
  now rewrite truthy_rev, truthy_trimStart, existsb_rev_eq, existsb_trimStart.
Qed.

Lemma trimStart_snoc_visible (l : jsstring) (c : N) :
  visible c = true -> exists l', trimStart (l ++ [c]) = l' ++ [c].
Proof.
  intros Hc. induction l as [| x l IH].
  - exists []. cbn. unfold visible in Hc. now destruct (isWhiteSpace c).
  - cbn [app trimStart]. destruct (isWhiteSpace x); [exact IH |].
    now exists (x :: l).
Qed.

(** [trim] leaves a string that starts with a visible unit, or nothing. *)
Lemma trim_head (s : jsstring) :
  trim s = [] \/ exists c r, trim s = c :: r /\ visible c = true.
Proof.
  unfold trim, trimEnd.
  assert (Hstart : trimStart s = [] \/ exists c r, trimStart s = c :: r /\ visible c = true).
  { induction s as [| c s IH]; [now left |].
    cbn [trimStart]. destruct (isWhiteSpace c) eqn:E; [exact IH |].
    right. exists c, s. unfold visible. now rewrite E. }
  destruct Hstart as [-> | (c & r & -> & Hc)]; [now left |].
  right. cbn [rev].
  destruct (trimStart_snoc_visible (rev r) c Hc) as [l' ->].
  rewrite rev_app_distr. cbn. now exists c, (rev l').
Qed.

Lemma truthy_take_trim (n : nat) (s : jsstring) :
  (0 < n)%nat -> truthy (trim s) = true -> truthy (trim (take n (trim s))) = true.
Proof.
  intros Hn Ht. rewrite truthy_trim.
  destruct (trim_head s) as [E | (c & r & E & Hc)].
  - rewrite E in Ht. discriminate.
  - rewrite E. destruct n; [lia |]. cbn. now rewrite Hc.
Qed.

(** ** Lists built by pushes *)

Lemma slice_0 {T} (n : nat) (l : list T) : slice 0 n l = take n l.
Proof. unfold slice. now rewrite Nat.sub_0_r. Qed.

Lemma forallb_take {T} (p : T -> bool) (n : nat) (l : list T) :
  forallb p l = true -> forallb p (take n l) = true.
Proof.
  revert n. induction l as [| x l IH]; intros [| n]; cbn; try reflexivity.
  rewrite !andb_true_iff. intros [Hx Hl]. split; [exact Hx | now apply IH].
Qed.

Lemma forallb_pushIf {T} (p : T -> bool) (c : bool) (x : T) (arr : list T) :
  p x = true -> forallb p arr = true -> forallb p (Analyzer.pushIf c x arr) = true.
Proof.
  intros Hx Harr. unfold Analyzer.pushIf. destruct c; [| exact Harr].
  rewrite forallb_app, Harr. cbn. now rewrite Hx.
Qed.

Lemma forallb_pushWhileBelow (p : jsstring -> bool) (cap : nat)
    (preferred arr : list jsstring) :
  forallb p preferred = true -> forallb p arr = true ->
  forallb p (Insights.pushWhileBelow cap preferred arr) = true.
Proof.
  unfold Insights.pushWhileBelow. revert arr.
  induction preferred as [| x preferred IH]; intros arr Hp Harr; [exact Harr |].
  cbn [fold_left]. cbn in Hp. apply andb_true_iff in Hp as [Hx Hp].
  apply IH; [exact Hp |].
  destruct (_ <? _)%nat; [| exact Harr].
  rewrite forallb_app, Harr. cbn. now rewrite Hx.
Qed.

Lemma forallb_whileBelow2 (p : jsstring -> bool) (turns : nat)
    (filler : jsstring) (arr : list jsstring) :
  p filler = true -> forallb p arr = true ->
  forallb p (Insights.whileBelow2 turns filler arr) = true.
Proof.
  intros Hf. revert arr. induction turns as [| turns IH]; intros arr Harr; [exact Harr |].
  cbn [Insights.whileBelow2]. destruct (_ <? _)%nat; [| exact Harr].
  apply IH. rewrite forallb_app, Harr. cbn. now rewrite Hf.
Qed.

(** The [while] loop of the fallback leaves at least two strategies: its two
    turns are enough to reach the exit test. *)
Lemma length_whileBelow2 (filler : jsstring) (arr : list jsstring) :
  (2 <= length (Insights.whileBelow2 2 filler arr))%nat.
Proof.
  cbn [Insights.whileBelow2].
  destruct (length arr <? 2)%nat eqn:E1; [| apply Nat.ltb_ge in E1; exact E1].
  destruct (length (arr ++ [filler]) <? 2)%nat eqn:E2;
    [| apply Nat.ltb_ge in E2; exact E2].
  rewrite !length_app. cbn. lia.
Qed.

Lemma length_take_le {T} (n : nat) (l : list T) : (length (take n l) <= n)%nat.
Proof. rewrite length_take. lia. Qed.

Lemma length_take_ge {T} (n k : nat) (l : list T) :
  (k <= n)%nat -> (k <= length l)%nat -> (k <= length (take n l))%nat.
Proof. rewrite length_take. lia. Qed.

(** ** The fallback meets the contract (C2) *)

(** The contract on student insights, as the specification states it. *)
Definition nonEmptyAfterTrim (s : jsstring) : bool := truthy (trim s).

Definition lengthWithin {T} (lo hi : nat) (l : list T) : bool :=
  ((lo <=? length l) && (length l <=? hi))%nat.

Definition studentContract (i : StudentInsights.t) : bool :=
  nonEmptyAfterTrim (StudentInsights.positiveObservation i)
  && nonEmptyAfterTrim (StudentInsights.nextStepGoal i)
  && nonEmptyAfterTrim (StudentInsights.encouragement i)
  && lengthWithin 1 3 (StudentInsights.strengths i)
  && lengthWithin 1 2 (StudentInsights.improvementAreas i)
  && lengthWithin 2 3 (StudentInsights.strategies i)
  && forallb nonEmptyAfterTrim (StudentInsights.strengths i)
  && forallb nonEmptyAfterTrim (StudentInsights.improvementAreas i)
  && forallb nonEmptyAfterTrim (StudentInsights.strategies i).

Lemma nonEmptyAfterTrim_visible (s : jsstring) :
  nonEmptyAfterTrim s = existsb visible s.
Proof. apply truthy_trim. Qed.

Lemma nonEmptyAfterTrim_app_l (a b : jsstring) :
  nonEmptyAfterTrim a = true -> nonEmptyAfterTrim (a ++ b) = true.
Proof.
  rewrite !nonEmptyAfterTrim_visible, existsb_app. now intros ->.
Qed.

Lemma nonEmptyAfterTrim_trim (s : jsstring) :
  nonEmptyAfterTrim (trim s) = nonEmptyAfterTrim s.
Proof. rewrite !nonEmptyAfterTrim_visible. apply existsb_trim. Qed.

Lemma lengthWithin_take {T} (lo hi : nat) (l : list T) :
  (lo <= hi)%nat -> (lo <= length l)%nat -> lengthWithin lo hi (take hi l) = true.
Proof.
  intros Hlh Hl. unfold lengthWithin.
  apply andb_true_iff. split.
  - apply Nat.leb_le. now apply length_take_ge.
  - apply Nat.leb_le. apply length_take_le.
Qed.

Section Fallback.
Variable analysis : StudentAnalysis.t.
Variable preferences : option TeacherPreferences.t.
Hypothesis strengths_visible :
  forallb nonEmptyAfterTrim (StudentAnalysis.strengths analysis) = true.
Hypothesis improvementAreas_visible :
  forallb nonEmptyAfterTrim (StudentAnalysis.improvementAreas analysis) = true.

Let fallback := Insights.buildFallbackStudentInsights analysis preferences.

Lemma fallback_strengths :
  nonEmptyAfterTrim (StudentInsights.positiveObservation fallback) = true
  /\ lengthWithin 1 3 (StudentInsights.strengths fallback) = true
  /\ forallb nonEmptyAfterTrim (StudentInsights.strengths fallback) = true.
Proof using strengths_visible.
  subst fallback. cbn [Insights.buildFallbackStudentInsights
    StudentInsights.positiveObservation StudentInsights.strengths].
  rewrite slice_0.
  destruct (StudentAnalysis.strengths analysis) as [| s0 rest] eqn:E.
  - cbn. repeat split; reflexivity.
  - cbn [length Nat.ltb Nat.leb Insights.first].
    cbn [forallb] in strengths_visible.
    apply andb_true_iff in strengths_visible as [H0 Hrest].
    repeat split.
    + exact H0.
    + apply lengthWithin_take; cbn; lia.
    + apply forallb_take. cbn [forallb]. now rewrite H0, Hrest.
Qed.

Lemma fallback_improvementAreas :
  lengthWithin 1 2 (StudentInsights.improvementAreas fallback) = true
  /\ forallb nonEmptyAfterTrim (StudentInsights.improvementAreas fallback) = true.
Proof using improvementAreas_visible.
  subst fallback. cbn [Insights.buildFallbackStudentInsights
    StudentInsights.improvementAreas].
  destruct (StudentAnalysis.improvementAreas analysis) as [| a0 rest] eqn:E.
  - cbn. split; reflexivity.
  - cbn [length Nat.ltb Nat.leb]. rewrite slice_0. split.
    + apply lengthWithin_take; cbn; lia.
    + now apply forallb_take.
Qed.

Lemma fallback_strategies :
  lengthWithin 2 3 (StudentInsights.strategies fallback) = true
  /\ forallb nonEmptyAfterTrim (StudentInsights.strategies fallback) = true.
Proof.
  subst fallback. cbn [Insights.buildFallbackStudentInsights
    StudentInsights.strategies].
  rewrite slice_0. split.
  - apply lengthWithin_take; [lia | apply length_whileBelow2].
  - apply forallb_take, forallb_whileBelow2; [reflexivity |].
    apply forallb_pushWhileBelow.
    + destruct preferences as [p |]; [| reflexivity].
      destruct (TeacherPreferences.preferredStrategies p) as [items |]; [| reflexivity].
      apply forallb_forall. intros x Hx. apply filter_In in Hx. apply Hx.
    + match goal with
      | |- forallb _ (if ?c then _ else _) = true => destruct c
      end.
      * rewrite forallb_app. apply andb_true_iff. split.
        -- repeat apply forallb_pushIf; reflexivity.
        -- cbn [forallb]. rewrite andb_true_r.
           now apply nonEmptyAfterTrim_app_l.
      * repeat apply forallb_pushIf; reflexivity.
Qed.

Lemma fallback_goal :
  nonEmptyAfterTrim (StudentInsights.nextStepGoal fallback) = true.
Proof.
  subst fallback. cbn [Insights.buildFallbackStudentInsights
    StudentInsights.nextStepGoal].
  destruct preferences as [p |]; [| reflexivity].
  destruct (TeacherPreferences.classGoals p) as [[| goal0 rest] |]; try reflexivity.
  destruct (truthy (trim goal0)) eqn:E; [| reflexivity].
  rewrite nonEmptyAfterTrim_trim. exact E.
Qed.

Lemma fallback_contract : studentContract fallback = true.
Proof using strengths_visible improvementAreas_visible.
  destruct fallback_strengths as (H1 & H2 & H3).
  destruct fallback_improvementAreas as (H4 & H5).
  destruct fallback_strategies as (H6 & H7).
  pose proof fallback_goal as H8.
  unfold studentContract. rewrite H1, H2, H3, H4, H5, H6, H7, H8.
  reflexivity.
Qed.

End Fallback.

(** Every analysis that [analyzeStudent] returns carries visible strings. *)
Lemma analyzeStudent_visible (student : Student.t) :
  forallb nonEmptyAfterTrim
    (StudentAnalysis.strengths (Analyzer.analyzeStudent student)) = true
  /\ forallb nonEmptyAfterTrim
       (StudentAnalysis.improvementAreas (Analyzer.analyzeStudent student)) = true.
Proof.
  cbn [Analyzer.analyzeStudent StudentAnalysis.strengths
       StudentAnalysis.improvementAreas]. split.
  - repeat apply forallb_pushIf; reflexivity.
  - match goal with
    | |- forallb _ (if ?c then _ else _) = true => destruct c
    end.
    + rewrite forallb_app. apply andb_true_iff. split.
      * repeat apply forallb_pushIf; reflexivity.
      * cbn [forallb]. rewrite andb_true_r. now apply nonEmptyAfterTrim_app_l.
    + repeat apply forallb_pushIf; reflexivity.
Qed.

(** On the pipeline's own path, analysis then fallback, the contract holds
    for every student and every preference file. *)
Lemma analyzeStudent_fallback_contract
    (student : Student.t) (preferences : option TeacherPreferences.t) :
  studentContract
    (Insights.buildFallbackStudentInsights (Analyzer.analyzeStudent student) preferences)
  = true.
Proof.
  destruct (analyzeStudent_visible student) as [Hs Hi].
  now apply fallback_contract.
Qed.

(** C2.  The fallback never fails the contract downstream.  For every
    student and every optional preference record, the fallback that the
    pipeline builds, from the analysis that [analyzeStudent] returns,
    satisfies the contract of [parseStudentInsights]: the three texts are
    non-empty after trim, there are 1 to 3 strengths, 1 to 2 improvement
    areas, 2 to 3 strategies, and every entry is non-empty after trim. *)
Theorem buildFallbackStudentInsights_contract
    (student : Student.t) (preferences : option TeacherPreferences.t) :
  studentContract
    (Insights.buildFallbackStudentInsights (Analyzer.analyzeStudent student) preferences)
  = true.
Proof.
  destruct (analyzeStudent_visible student) as [Hstrengths Hareas].
  apply fallback_contract; assumption.
Qed.

Lemma buildFallbackStudentInsights_contract_witness :
  studentContract
    (Insights.buildFallbackStudentInsights (Analyzer.analyzeStudent student_S100) None)
  = true.
Proof. apply (buildFallbackStudentInsights_contract student_S100 None). Defined.

(** ** The contract validator: total, and complete in its report (C6, C8) *)

(** The own property of a parsed value, [undefined] on arrays for the names
    the contract reads. *)
Definition ownProperty (v : JSON) (key : jsstring) : option JSON :=
  match v with
  | JObject fields => assoc key fields
  | _ => None
  end.

Lemma getProp_objectLike (v : JSON) (key : jsstring) :
  isObjectLike v = true -> getProp (Some v) key = Returned (ownProperty v key).
Proof. destruct v; cbn; intros H; try discriminate; reflexivity. Qed.

Lemma pushIf_app {T} (c : bool) (x : T) (arr : list T) :
  Analyzer.pushIf c x arr = arr ++ (if c then [x] else []).
Proof. destruct c; cbn; [reflexivity | now rewrite app_nil_r]. Qed.

Lemma if_failed_app {T} (r : ValidationResult T) (errors : list jsstring) :
  (if negb (is_ok r) then errors ++ errorsOf r else errors) = errors ++ errorsOf r.
Proof. destruct r; cbn; [now rewrite app_nil_r | reflexivity]. Qed.

(** The messages that one required text and one required list contribute. *)
Definition textErrors (parsed : JSON) (field : jsstring) (maxLen : nat) : list jsstring :=
  if Insights.falsy (Insights.safeString (ownProperty parsed field) maxLen)
  then [field ++ lit " must be a non-empty string"] else [].

Definition listErrors (parsed : JSON) (field : jsstring) (min max : nat) : list jsstring :=
  errorsOf (Insights.normalizeStringArray (ownProperty parsed field) min max field).

Definition studentErrors (parsed : JSON) : list jsstring :=
  textErrors parsed (lit "positiveObservation") 220
  ++ textErrors parsed (lit "nextStepGoal") 200
  ++ textErrors parsed (lit "encouragement") 200
  ++ listErrors parsed (lit "strengths") 1 3
  ++ listErrors parsed (lit "improvementAreas") 1 2
  ++ listErrors parsed (lit "strategies") 2 3.

Lemma length_pos_nonempty {T} (l : list T) : (0 <? length l)%nat = true <-> l <> [].
Proof. destruct l; cbn; split; intros; congruence. Qed.

(** A required text is valid when it is a string with a visible unit. *)
Definition validText (v : option JSON) : bool :=
  match v with
  | Some (JString s) => nonEmptyAfterTrim s
  | _ => false
  end.

(** A required list is valid when it is an array with at least [min]
    entries that are valid texts. *)
Definition validList (min : nat) (v : option JSON) : bool :=
  match v with
  | Some (JArray items) =>
      (min <=? length (List.filter (fun item => validText (Some item)) items))%nat
  | _ => false
  end.

Lemma safeString_spec (v : option JSON) (maxLen : nat) :
  (0 < maxLen)%nat ->
  match Insights.safeString v maxLen with
  | Some s => validText v = true /\ nonEmptyAfterTrim s = true /\ truthy s = true
  | None => validText v = false
  end.
Proof.
  intros Hmax. unfold Insights.safeString, validText, nonEmptyAfterTrim.
  destruct v as [[| | | t | |] |]; try reflexivity.
  destruct (truthy (trim t)) eqn:E; cbn [negb]; [| reflexivity].
  split; [reflexivity |].
  destruct (Nat.ltb maxLen (length (trim t))) eqn:El.
  - rewrite slice_0. split; [now apply truthy_take_trim |].
    destruct (trim t); [discriminate |]. destruct maxLen; [lia | reflexivity].
  - split; [| exact E]. fold (nonEmptyAfterTrim (trim t)).
    rewrite nonEmptyAfterTrim_trim. exact E.
Qed.

Lemma falsy_safeString (v : option JSON) (maxLen : nat) :
  (0 < maxLen)%nat ->
  Insights.falsy (Insights.safeString v maxLen) = negb (validText v).
Proof.
  intros Hmax. pose proof (safeString_spec v maxLen Hmax) as H.
  destruct (Insights.safeString v maxLen) as [s |]; cbn.
  - destruct H as (-> & _ & ->). reflexivity.
  - now rewrite H.
Qed.

(** The cleaned array of [normalizeStringArray]: one entry per valid text,
    each non-empty after trim. *)
Lemma cleaned_spec (items : list JSON) :
  let cleaned :=
    Insights.filterBoolean (map (fun item => Insights.safeString (Some item) 180) items) in
  length cleaned = length (List.filter (fun item => validText (Some item)) items)
  /\ forallb nonEmptyAfterTrim cleaned = true.
Proof.
  cbn zeta. unfold Insights.filterBoolean.
  induction items as [| item items [IHl IHf]]; [split; reflexivity |].
  cbn [map omap list_omap List.filter].
  pose proof (safeString_spec (Some item) 180 ltac:(lia)) as H.
  pose proof (falsy_safeString (Some item) 180 ltac:(lia)) as Hf.
  destruct (Insights.safeString (Some item) 180) as [s |].
  - destruct H as (Hv & Hn & Ht). rewrite Hf, Hv. cbn [negb length forallb].
    rewrite IHl, Hn, IHf. split; reflexivity.
  - rewrite Hf, H. cbn [negb]. split; assumption.
Qed.

Lemma normalizeStringArray_spec (v : option JSON) (min max : nat) (label : jsstring) :
  (min <= max)%nat ->
  match Insights.normalizeStringArray v min max label with
  | ok items =>
      validList min v = true
      /\ lengthWithin min max items = true
      /\ forallb nonEmptyAfterTrim items = true
  | failed errors =>
      validList min v = false /\ exists suffix, errors = [label ++ suffix]
  end.
Proof.
  intros Hmm. unfold Insights.normalizeStringArray, validList.
  destruct v as [[| | | | items |] |];
    try (split; [reflexivity | now eexists]).
  destruct (cleaned_spec items) as [Hlen Hall]. rewrite <- Hlen.
  destruct (Nat.ltb _ min) eqn:E.
  - apply Nat.ltb_lt in E. split; [apply Nat.leb_gt; exact E |].
    eexists. reflexivity.
  - apply Nat.ltb_ge in E. rewrite slice_0. repeat split.
    + now apply Nat.leb_le.
    + now apply lengthWithin_take.
    + now apply forallb_take.
Qed.

Lemma indexOf_from_range (c : N) (text : jsstring) (i : Z) :
  indexOf_from c text i = -1
  \/ i <= indexOf_from c text i < i + Z.of_nat (length text).
Proof.
  revert i. induction text as [| x text IH]; intros i; [now left |].
  cbn [indexOf_from length]. destruct (x =? c)%N; [right; lia |].
  destruct (IH (i + 1)) as [-> | H]; [now left | right; lia].
Qed.

Lemma lastIndexOf_from_range (c : N) (text : jsstring) (i found : Z) :
  lastIndexOf_from c text i found = found
  \/ i <= lastIndexOf_from c text i found < i + Z.of_nat (length text).
Proof.
  revert i found. induction text as [| x text IH]; intros i found; [now left |].
  cbn [lastIndexOf_from length].
  destruct (IH (i + 1) (if (x =? c)%N then i else found)) as [-> | H].
  - destruct (x =? c)%N; [right; lia | now left].
  - right; lia.
Qed.

(** What [extractJsonObject] returns is never the empty string. *)
Lemma extractJsonObject_truthy (text candidate : jsstring) :
  Insights.extractJsonObject text = Some candidate -> truthy candidate = true.
Proof.
  unfold Insights.extractJsonObject, indexOf, lastIndexOf.
  destruct (indexOf_from_range 123 text 0) as [-> | Hs]; [discriminate |].
  destruct (lastIndexOf_from_range 125 text 0 (-1)) as [-> | He];
    [rewrite orb_true_r; discriminate |].
  destruct (_ || _ || _) eqn:E; [discriminate |].
  apply orb_false_iff in E as [_ E]. apply Z.leb_gt in E.
  intros [= <-]. unfold slice.
  assert (Hlen : (0 < length (take (Z.to_nat (lastIndexOf_from 125 text 0 (-1) + 1)
                              - Z.to_nat (indexOf_from 123 text 0))
                             (drop (Z.to_nat (indexOf_from 123 text 0)) text)))%nat).
  { rewrite length_take, length_drop. lia. }
  destruct (take _ _); [cbn in Hlen; lia | reflexivity].
Qed.

Section ParseStudent.
Variable JSON_parse : jsstring -> Outcome JSON.
Variables (raw candidate : jsstring) (parsed : JSON).
Hypothesis Hextract : Insights.extractJsonObject raw = Some candidate.
Hypothesis Hparse : JSON_parse candidate = Returned parsed.
Hypothesis Hobject : isObjectLike parsed = true.

Lemma textErrors_nil (field : jsstring) (maxLen : nat) :
  (0 < maxLen)%nat -> textErrors parsed field maxLen = [] ->
  exists s, Insights.safeString (ownProperty parsed field) maxLen = Some s
            /\ nonEmptyAfterTrim s = true.
Proof.
  intros Hmax. unfold textErrors.
  pose proof (safeString_spec (ownProperty parsed field) maxLen Hmax) as H.
  destruct (Insights.safeString _ _) as [s |]; cbn; [| discriminate].
  destruct H as (_ & Hn & ->). cbn. eauto.
Qed.

Lemma listErrors_nil (field : jsstring) (min max : nat) :
  (min <= max)%nat -> listErrors parsed field min max = [] ->
  exists items,
    Insights.normalizeStringArray (ownProperty parsed field) min max field = ok items
    /\ lengthWithin min max items = true
    /\ forallb nonEmptyAfterTrim items = true.
Proof.
  intros Hmm. unfold listErrors.
  pose proof (normalizeStringArray_spec (ownProperty parsed field) min max field Hmm) as H.
  destruct (Insights.normalizeStringArray _ _ _ _) as [items | errors]; cbn.
  - intros _. exists items. tauto.
  - destruct H as (_ & suffix & ->). discriminate.
Qed.

(** On a candidate that parses to an object the validator returns; a failure
    carries the messages of all six fields, a success meets the contract. *)
Lemma parseStudentInsights_object :
  exists r,
    Insights.parseStudentInsights JSON_parse raw = Returned r
    /\ match r with
       | failed errors => errors = studentErrors parsed /\ errors <> []
       | ok value => studentErrors parsed = [] /\ studentContract value = true
       end.
Proof using Hextract Hparse Hobject.
  unfold Insights.parseStudentInsights.
  rewrite Hextract, (extractJsonObject_truthy _ _ Hextract), Hparse, Hobject.
  cbn [negb].
  rewrite !getProp_objectLike by assumption.
  cbn [mbind Outcome_bind].
  rewrite !pushIf_app, !if_failed_app, <- !app_assoc.
  change ([] ++ ?x) with x.
  change (_ ++ _ ++ _ ++ _ ++ _ ++ _) with (studentErrors parsed).
  destruct (0 <? length (studentErrors parsed))%nat eqn:E.
  - eexists. split; [reflexivity |]. split; [reflexivity |].
    now apply length_pos_nonempty.
  - assert (Hnil : studentErrors parsed = []).
    { destruct (studentErrors parsed); [reflexivity | discriminate]. }
    pose proof Hnil as Hparts. unfold studentErrors in Hparts.
    apply app_eq_nil in Hparts as [E1 Hparts].
    apply app_eq_nil in Hparts as [E2 Hparts].
    apply app_eq_nil in Hparts as [E3 Hparts].
    apply app_eq_nil in Hparts as [E4 Hparts].
    apply app_eq_nil in Hparts as [E5 E6].
    destruct (textErrors_nil _ 220 ltac:(lia) E1) as (po & -> & Hpo).
    destruct (textErrors_nil _ 200 ltac:(lia) E2) as (goal & -> & Hgoal).
    destruct (textErrors_nil _ 200 ltac:(lia) E3) as (enc & -> & Henc).
    destruct (listErrors_nil _ 1 3 ltac:(lia) E4) as (l1 & -> & Hl1 & Hf1).
    destruct (listErrors_nil _ 1 2 ltac:(lia) E5) as (l2 & -> & Hl2 & Hf2).
    destruct (listErrors_nil _ 2 3 ltac:(lia) E6) as (l3 & -> & Hl3 & Hf3).
    eexists. split; [reflexivity |]. split; [exact Hnil |].
    unfold studentContract. cbn.
    now rewrite Hpo, Hgoal, Henc, Hl1, Hl2, Hl3, Hf1, Hf2, Hf3.
Qed.

End ParseStudent.

(** The six required fields of student insights: three texts, and three
    lists with their minimum length. *)
Inductive RequiredField :=
| RequiredText (name : jsstring)
| RequiredList (name : jsstring) (min : nat).

Definition requiredFields : list RequiredField :=
  [RequiredText (lit "positiveObservation");
   RequiredText (lit "nextStepGoal");
   RequiredText (lit "encouragement");
   RequiredList (lit "strengths") 1;
   RequiredList (lit "improvementAreas") 1;
   RequiredList (lit "strategies") 2].

Definition fieldName (f : RequiredField) : jsstring :=
  match f with
  | RequiredText name | RequiredList name _ => name
  end.

(** A field is missing or invalid when the parsed object has no valid value
    under its name. *)
Definition fieldValid (parsed : JSON) (f : RequiredField) : bool :=
  match f with
  | RequiredText name => validText (ownProperty parsed name)
  | RequiredList name min => validList min (ownProperty parsed name)
  end.

Lemma textErrors_invalid (parsed : JSON) (field : jsstring) (maxLen : nat) :
  (0 < maxLen)%nat -> validText (ownProperty parsed field) = false ->
  textErrors parsed field maxLen = [field ++ lit " must be a non-empty string"].
Proof.
  intros Hmax Hv. unfold textErrors. now rewrite falsy_safeString, Hv.
Qed.

Lemma listErrors_invalid (parsed : JSON) (field : jsstring) (min max : nat) :
  (min <= max)%nat -> validList min (ownProperty parsed field) = false ->
  exists suffix, listErrors parsed field min max = [field ++ suffix].
Proof.
  intros Hmm Hv. unfold listErrors.
  pose proof (normalizeStringArray_spec (ownProperty parsed field) min max field Hmm) as H.
  destruct (Insights.normalizeStringArray _ _ _ _); cbn.
  - destruct H as [H _]. congruence.
  - apply H.
Qed.

Lemma studentErrors_mention (parsed : JSON) (f : RequiredField) :
  f ∈ requiredFields -> fieldValid parsed f = false ->
  exists message, message ∈ studentErrors parsed /\ fieldName f `prefix_of` message.
Proof.
  intros Hf Hv. unfold requiredFields in Hf. unfold studentErrors.
  repeat (apply elem_of_cons in Hf as [-> | Hf]); [.. | now apply elem_of_nil in Hf];
    cbn [fieldValid fieldName] in *.
  - rewrite (textErrors_invalid parsed _ 220 ltac:(lia) Hv).
    eexists; split; [| eexists; reflexivity].
    rewrite !elem_of_app, !elem_of_cons; tauto.
  - rewrite (textErrors_invalid parsed _ 200 ltac:(lia) Hv).
    eexists; split; [| eexists; reflexivity].
    rewrite !elem_of_app, !elem_of_cons; tauto.
  - rewrite (textErrors_invalid parsed (lit "encouragement") 200 ltac:(lia) Hv).
    eexists; split; [| eexists; reflexivity].
    rewrite !elem_of_app, !elem_of_cons; tauto.
  - destruct (listErrors_invalid parsed _ 1 3 ltac:(lia) Hv) as [suffix ->].
    eexists; split; [| eexists; reflexivity].
    rewrite !elem_of_app, !elem_of_cons; tauto.
  - destruct (listErrors_invalid parsed _ 1 2 ltac:(lia) Hv) as [suffix ->].
    eexists; split; [| eexists; reflexivity].
    rewrite !elem_of_app, !elem_of_cons; tauto.
  - destruct (listErrors_invalid parsed _ 2 3 ltac:(lia) Hv) as [suffix ->].
    eexists; split; [| eexists; reflexivity].
    rewrite !elem_of_app, !elem_of_cons; tauto.
Qed.

Lemma textErrors_valid (parsed : JSON) (field : jsstring) (maxLen : nat) :
  (0 < maxLen)%nat -> validText (ownProperty parsed field) = true ->
  textErrors parsed field maxLen = [].
Proof.
  intros Hmax Hv. unfold textErrors. now rewrite falsy_safeString, Hv.
Qed.

Lemma listErrors_valid (parsed : JSON) (field : jsstring) (min max : nat) :
  (min <= max)%nat -> validList min (ownProperty parsed field) = true ->
  listErrors parsed field min max = [].
Proof.
  intros Hmm Hv. unfold listErrors.
  pose proof (normalizeStringArray_spec (ownProperty parsed field) min max field Hmm) as H.
  destruct (Insights.normalizeStringArray _ _ _ _); cbn; [reflexivity |].
  destruct H as [H _]. congruence.
Qed.

Lemma studentErrors_valid_nil (parsed : JSON) :
  (forall f, f ∈ requiredFields -> fieldValid parsed f = true) ->
  studentErrors parsed = [].
Proof.
  intros Hall. unfold studentErrors.
  rewrite (textErrors_valid parsed (lit "positiveObservation") 220),
          (textErrors_valid parsed (lit "nextStepGoal") 200),
          (textErrors_valid parsed (lit "encouragement") 200),
          (listErrors_valid parsed (lit "strengths") 1 3),
          (listErrors_valid parsed (lit "improvementAreas") 1 2),
          (listErrors_valid parsed (lit "strategies") 2 3);
    try lia; try reflexivity.
  - apply (Hall (RequiredList (lit "strategies") 2)). unfold requiredFields.
    rewrite !elem_of_cons. tauto.
  - apply (Hall (RequiredList (lit "improvementAreas") 1)). unfold requiredFields.
    rewrite !elem_of_cons. tauto.
  - apply (Hall (RequiredList (lit "strengths") 1)). unfold requiredFields.
    rewrite !elem_of_cons. tauto.
  - apply (Hall (RequiredText (lit "encouragement"))). unfold requiredFields.
    rewrite !elem_of_cons. tauto.
  - apply (Hall (RequiredText (lit "nextStepGoal"))). unfold requiredFields.
    rewrite !elem_of_cons. tauto.
  - apply (Hall (RequiredText (lit "positiveObservation"))). unfold requiredFields.
    rewrite !elem_of_cons. tauto.
Qed.

Lemma studentErrors_nil_valid (parsed : JSON) (f : RequiredField) :
  f ∈ requiredFields -> studentErrors parsed = [] -> fieldValid parsed f = true.
Proof.
  intros Hf Hnil. destruct (fieldValid parsed f) eqn:E; [reflexivity |].
  destruct (studentErrors_mention parsed f Hf E) as (m & Hm & _).
  rewrite Hnil in Hm. now apply elem_of_nil in Hm.
Qed.

(** C6.  When the extracted candidate parses to an object,
    [parseStudentInsights] returns, and if any required field is missing or
    invalid it returns a failure whose error list holds a message for every
    such field, each starting with the name of its field. *)
Theorem parseStudentInsights_reports_every_field
    (JSON_parse : jsstring -> Outcome JSON) (raw candidate : jsstring) (parsed : JSON) :
  Insights.extractJsonObject raw = Some candidate ->
  JSON_parse candidate = Returned parsed ->
  isObjectLike parsed = true ->
  exists r,
    Insights.parseStudentInsights JSON_parse raw = Returned r
    /\ (is_ok r = true <-> forall f, f ∈ requiredFields -> fieldValid parsed f = true)
    /\ (forall f, f ∈ requiredFields -> fieldValid parsed f = false ->
        exists message, message ∈ errorsOf r /\ fieldName f `prefix_of` message).
Proof.
  intros Hextract Hparse Hobject.
  destruct (parseStudentInsights_object JSON_parse raw candidate parsed
              Hextract Hparse Hobject) as (r & Hr & Hshape).
  exists r. split; [exact Hr |].
  destruct r as [value | errors]; cbn [is_ok errorsOf].
  - destruct Hshape as [Hnil _]. split.
    + split; [| reflexivity]. intros _ f Hf. now apply studentErrors_nil_valid.
    + intros f Hf Hv. rewrite (studentErrors_nil_valid parsed f Hf Hnil) in Hv.
      discriminate.
  - destruct Hshape as [-> Hne]. split.
    + split; [discriminate |]. intros Hall. exfalso. apply Hne.
      now apply studentErrors_valid_nil.
    + intros f Hf Hv. now apply studentErrors_mention.
Qed.

(** A validator has settled when it returned a success or a failure with at
    least one message. *)
Definition settled {T} (o : Outcome (ValidationResult T)) : Prop :=
  exists r, o = Returned r
            /\ match r with
               | ok _ => True
               | failed errors => errors <> []
               end.

Lemma settled_failed {T} (m : jsstring) :
  settled (Returned (failed (T:=T) [m])).
Proof. eexists. split; [reflexivity | discriminate]. Qed.

Lemma parseStudentInsights_settled
    (JSON_parse : jsstring -> Outcome JSON) (raw : jsstring) :
  settled (Insights.parseStudentInsights JSON_parse raw).
Proof.
  destruct (Insights.extractJsonObject raw) as [candidate |] eqn:Hextract.
  2: { unfold Insights.parseStudentInsights. rewrite Hextract. apply settled_failed. }
  destruct (JSON_parse candidate) as [parsed | error] eqn:Hparse.
  2: { unfold Insights.parseStudentInsights.
       rewrite Hextract, (extractJsonObject_truthy _ _ Hextract), Hparse.
       apply settled_failed. }
  destruct (isObjectLike parsed) eqn:Hobject.
  2: { unfold Insights.parseStudentInsights.
       rewrite Hextract, (extractJsonObject_truthy _ _ Hextract), Hparse, Hobject.
       apply settled_failed. }
  destruct (parseStudentInsights_object JSON_parse raw candidate parsed
              Hextract Hparse Hobject) as (r & Hr & Hshape).
  exists r. split; [exact Hr |]. destruct r; [exact I | apply Hshape].
Qed.

Lemma attentionItem_returns
    (acc : list Attention.t * list jsstring) (index : nat) (item : JSON) :
  exists acc', Insights.attentionItem acc index item = Returned acc'.
Proof.
  unfold Insights.attentionItem. destruct acc as [needed errors].
  destruct (isObjectLike item) eqn:E; cbn [negb]; [| eauto].
  rewrite !getProp_objectLike by assumption. cbn [mbind Outcome_bind].
  destruct (_ || _); [eauto |].
  destruct (Insights.safeString (ownProperty item (lit "name")) 80),
           (Insights.safeString (ownProperty item (lit "reason")) 160); eauto.
Qed.

Lemma attentionForEach_returns
    (items : list JSON) (index : nat) (acc : list Attention.t * list jsstring) :
  exists acc', Insights.attentionForEach items index acc = Returned acc'.
Proof.
  revert index acc. induction items as [| item items IH]; intros index acc.
  - cbn. eauto.
  - cbn [Insights.attentionForEach].
    destruct (attentionItem_returns acc index item) as [acc' ->].
    cbn [mbind Outcome_bind]. apply IH.
Qed.

Lemma parseTeacherInsights_settled
    (JSON_parse : jsstring -> Outcome JSON) (raw : jsstring) :
  settled (Insights.parseTeacherInsights JSON_parse raw).
Proof.
  unfold Insights.parseTeacherInsights.
  destruct (Insights.extractJsonObject raw) as [candidate |] eqn:Hextract;
    [| apply settled_failed].
  rewrite (extractJsonObject_truthy _ _ Hextract). cbn [negb].
  destruct (JSON_parse candidate) as [parsed | error]; [| apply settled_failed].
  destruct (isObjectLike parsed) eqn:Hobject; cbn [negb]; [| apply settled_failed].
  rewrite !getProp_objectLike by assumption. cbn [mbind Outcome_bind].
  assert (Hattention : exists attention,
    match ownProperty parsed (lit "attentionNeeded") with
    | Some (JArray attentionRaw) => Insights.attentionForEach attentionRaw 0 ([], [])
    | _ => Returned ([], [lit "attentionNeeded must be an array"])
    end = Returned attention).
  { destruct (ownProperty parsed (lit "attentionNeeded")) as [[| | | | items |] |];
      eauto using attentionForEach_returns. }
  destruct Hattention as [[attentionNeeded attentionErrors] ->].
  cbn [mbind Outcome_bind].
  match goal with
  | |- settled (if (0 <? length ?errors)%nat then _ else _) =>
      destruct (0 <? length errors)%nat eqn:E
  end.
  - eexists. split; [reflexivity |]. now apply length_pos_nonempty.
  - destruct (Insights.normalizeStringArray _ 1 4 _);
      [| apply settled_failed].
    destruct (Insights.normalizeStringArray _ 2 4 _);
      [| apply settled_failed].
    destruct (Insights.safeString _ 240); [| apply settled_failed].
    eexists. split; [reflexivity | exact I].
Qed.

(** C8.  For every input string, and whatever [JSON.parse] does with the
    candidate, [parseStudentInsights] and [parseTeacherInsights] return
    (they never throw) either a success or a failure with a non-empty error
    list. *)
Theorem parsers_total (JSON_parse : jsstring -> Outcome JSON) (raw : jsstring) :
  settled (Insights.parseStudentInsights JSON_parse raw)
  /\ settled (Insights.parseTeacherInsights JSON_parse raw).
Proof.
  split; [apply parseStudentInsights_settled | apply parseTeacherInsights_settled].
Qed.

(** What [JSON.parse] answers on the inputs of the examples below; any other
    text is reported as a syntax error. *)
Definition quoted (s : string) : jsstring := [34%N] ++ lit s ++ [34%N].

Definition raw_onlyObservation : jsstring :=
  lit "{ " ++ quoted "positiveObservation" ++ lit ": " ++ quoted "Good job" ++ lit " }".

Definition JSON_parse_sample (text : jsstring) : Outcome JSON :=
  if decide (text = raw_onlyObservation) then
    Returned (JObject [(lit "positiveObservation", JString (lit "Good job"))])
  else if decide (text = lit "{}") then Returned (JObject [])
  else Thrown (SyntaxError (lit "Unexpected token")).

(** The rejected payload of [tests/insights_test.ts]. *)
Lemma parseStudentInsights_reports_every_field_witness :
  exists r,
    Insights.parseStudentInsights JSON_parse_sample
      (lit "Here it is: " ++ raw_onlyObservation ++ lit " Hope this helps.") = Returned r
    /\ (is_ok r = true
        <-> forall f, f ∈ requiredFields ->
              fieldValid (JObject [(lit "positiveObservation", JString (lit "Good job"))]) f
              = true)
    /\ (forall f, f ∈ requiredFields ->
        fieldValid (JObject [(lit "positiveObservation", JString (lit "Good job"))]) f = false ->
        exists message, message ∈ errorsOf r /\ fieldName f `prefix_of` message).
Proof.
  apply (parseStudentInsights_reports_every_field JSON_parse_sample _ raw_onlyObservation);
    vm_compute; reflexivity.
Defined.

Example parseStudentInsights_onlyObservation :
  Insights.parseStudentInsights JSON_parse_sample raw_onlyObservation
  = Returned (failed
      [lit "nextStepGoal must be a non-empty string";
       lit "encouragement must be a non-empty string";
       lit "strengths must be an array";
       lit "improvementAreas must be an array";
       lit "strategies must be an array"]).
Proof. vm_compute. reflexivity. Qed.

Example parse_no_braces :
  Insights.parseStudentInsights JSON_parse_sample (lit "I cannot help with that.")
  = Returned (failed [lit "No JSON object found in response"])
  /\ Insights.parseTeacherInsights JSON_parse_sample (lit "I cannot help with that.")
     = Returned (failed [lit "No JSON object found in response"]).
Proof. vm_compute. split; reflexivity. Qed.

Example parse_braces_reversed :
  Insights.parseStudentInsights JSON_parse_sample (lit "} and then {")
  = Returned (failed [lit "No JSON object found in response"])
  /\ Insights.parseTeacherInsights JSON_parse_sample (lit "} and then {")
     = Returned (failed [lit "No JSON object found in response"]).
Proof. vm_compute. split; reflexivity. Qed.

Example parse_unparseable :
  Insights.parseStudentInsights JSON_parse_sample (lit "{ not json }")
  = Returned (failed [lit "Invalid JSON in response"])
  /\ Insights.parseTeacherInsights JSON_parse_sample (lit "{ not json }")
     = Returned (failed [lit "Invalid JSON in response"]).
Proof. vm_compute. split; reflexivity. Qed.

Example parseTeacherInsights_empty_object :
  Insights.parseTeacherInsights JSON_parse_sample (lit "{}")
  = Returned (failed
      [lit "classOverview must be a non-empty string";
       lit "strengths must be an array";
       lit "nextSteps must be an array";
       lit "attentionNeeded must be an array"]).
Proof. vm_compute. reflexivity. Qed.


(** ** The memory snapshot stays bounded (C4) *)

(** Each value where it first occurs, in the order of the list; [seen] holds
    the values that occurred before. *)
Fixpoint firstOccurrencesFrom (seen : gset jsstring) (l : list jsstring)
  : list jsstring :=
  match l with
  | [] => []
  | x :: rest =>
      if decide (x ∈ seen) then firstOccurrencesFrom seen rest
      else x :: firstOccurrencesFrom ({[x]} ∪ seen) rest
  end.

Definition firstOccurrences (l : list jsstring) : list jsstring :=
  firstOccurrencesFrom ∅ l.

(** The entries that [uniqueList] considers: trimmed, the empty dropped. *)
Definition cleanedEntries (items : list jsstring) : list jsstring :=
  List.filter truthy (map trim items).

Lemma firstOccurrencesFrom_fresh (seen : gset jsstring) (l : list jsstring) :
  NoDup (firstOccurrencesFrom seen l)
  /\ forall x, x ∈ firstOccurrencesFrom seen l -> (x ∉ seen) /\ (x ∈ l).
Proof.
  revert seen. induction l as [| y l IH]; intros seen.
  - cbn. split; [constructor | intros x Hx; now apply elem_of_nil in Hx].
  - cbn [firstOccurrencesFrom]. destruct (decide (y ∈ seen)) as [Hy | Hy].
    + destruct (IH seen) as [Hnd Hin]. split; [exact Hnd |].
      intros x Hx. destruct (Hin x Hx). split; [assumption | now right].
    + destruct (IH ({[y]} ∪ seen)) as [Hnd Hin]. split.
      * constructor; [| exact Hnd]. intros Hc. apply Hin in Hc as [Hc _].
        set_solver.
      * intros x Hx. apply elem_of_cons in Hx as [-> | Hx].
        -- split; [assumption | now left].
        -- destruct (Hin x Hx) as [H1 H2]. split; [set_solver | now right].
Qed.

Lemma firstOccurrencesFrom_sublist (seen : gset jsstring) (l : list jsstring) :
  firstOccurrencesFrom seen l `sublist_of` l.
Proof.
  revert seen. induction l as [| y l IH]; intros seen; [constructor |].
  cbn [firstOccurrencesFrom]. destruct (decide (y ∈ seen)).
  - apply sublist_cons. apply IH.
  - apply sublist_skip. apply IH.
Qed.

(** A value stands right after the distinct values that precede its first
    occurrence. *)
Lemma firstOccurrencesFrom_app (seen : gset jsstring) (l1 l2 : list jsstring) :
  firstOccurrencesFrom seen (l1 ++ l2)
  = firstOccurrencesFrom seen l1 ++ firstOccurrencesFrom (seen ∪ list_to_set l1) l2.
Proof.
  revert seen. induction l1 as [| y l1 IH]; intros seen.
  - cbn. f_equal. set_solver.
  - cbn [app firstOccurrencesFrom list_to_set]. destruct (decide (y ∈ seen)) as [Hy | Hy].
    + rewrite IH. do 2 f_equal. set_solver.
    + rewrite IH. cbn. do 3 f_equal. set_solver.
Qed.

Lemma firstOccurrences_first (l1 l2 : list jsstring) (x : jsstring) :
  x ∉ l1 ->
  exists rest,
    firstOccurrences (l1 ++ x :: l2) = firstOccurrences l1 ++ x :: rest.
Proof.
  intros Hx. unfold firstOccurrences. rewrite firstOccurrencesFrom_app.
  cbn [firstOccurrencesFrom]. destruct (decide (x ∈ ∅ ∪ list_to_set l1)) as [Hc | _].
  - exfalso. apply Hx. set_solver.
  - eexists. reflexivity.
Qed.

(** The loop of [uniqueList], below its cap, is the capped list of first
    occurrences. *)
Lemma uniqueList_loop_spec (max : nat) (cleaned : list jsstring)
    (seen : gset jsstring) (result : list jsstring) :
  (length result < max)%nat ->
  MemoryStore.uniqueList_loop max cleaned seen result
  = take max (result ++ firstOccurrencesFrom seen cleaned).
Proof.
  revert seen result. induction cleaned as [| item rest IH]; intros seen result Hlen.
  - cbn. rewrite app_nil_r, take_ge; [reflexivity | lia].
  - cbn [MemoryStore.uniqueList_loop firstOccurrencesFrom].
    destruct (decide (item ∈ seen)); [now apply IH |].
    destruct (Nat.leb max (length (result ++ [item]))) eqn:E.
    + apply Nat.leb_le in E. rewrite length_app in E. cbn in E.
      replace (result ++ item :: firstOccurrencesFrom ({[item]} ∪ seen) rest)
        with ((result ++ [item]) ++ firstOccurrencesFrom ({[item]} ∪ seen) rest)
        by (now rewrite <- app_assoc).
      rewrite take_app_length'; [reflexivity |].
      rewrite length_app. cbn. lia.
    + apply Nat.leb_gt in E. rewrite IH by exact E.
      now rewrite <- app_assoc.
Qed.

Lemma uniqueList_spec (items : list jsstring) (max : nat) :
  (0 < max)%nat ->
  MemoryStore.uniqueList items max = take max (firstOccurrences (cleanedEntries items)).
Proof.
  intros Hmax. unfold MemoryStore.uniqueList.
  now rewrite uniqueList_loop_spec by (cbn; lia).
Qed.

Lemma uniqueList_bounded (items : list jsstring) (max : nat) :
  (0 < max)%nat ->
  (length (MemoryStore.uniqueList items max) <= max)%nat
  /\ NoDup (MemoryStore.uniqueList items max)
  /\ MemoryStore.uniqueList items max = take max (firstOccurrences (cleanedEntries items))
  /\ MemoryStore.uniqueList items max `sublist_of` cleanedEntries items.
Proof.
  intros Hmax. rewrite uniqueList_spec by exact Hmax. repeat split.
  - apply length_take_le.
  - eapply sublist_NoDup; [| apply sublist_take].
    apply firstOccurrencesFrom_fresh.
  - etrans; [apply sublist_take | apply firstOccurrencesFrom_sublist].
Qed.

(** The history after a trim. *)
Lemma trimHistory_length (entries : list MemoryEntry.t) (limit : number) :
  (0 <= limit)%Q ->
  (inject_Z (Z.of_nat (length (MemoryStore.trimHistory entries limit))) <= limit)%Q.
Proof.
  intros Hlimit. unfold MemoryStore.trimHistory.
  destruct (Qleb limit 0) eqn:E; [exact Hlimit |].
  rewrite slice_0.
  assert (H0 : 0 <= Qfloor limit).
  { change 0 with (Qfloor 0). now apply Qfloor_resp_le. }
  eapply Qle_trans; [| apply Qfloor_le].
  rewrite <- Zle_Qle. rewrite length_take. lia.
Qed.

Lemma trimHistory_head (entry : MemoryEntry.t) (older : list MemoryEntry.t)
    (limit : number) :
  (1 <= limit)%Q ->
  MemoryStore.trimHistory (entry :: older) limit
  = entry :: take (Z.to_nat (Qfloor limit) - 1) older.
Proof.
  intros Hlimit. unfold MemoryStore.trimHistory.
  destruct (Qleb limit 0) eqn:E.
  - apply Qleb_le in E. exfalso.
    apply (Qlt_irrefl 0). eapply Qlt_le_trans; [| exact E].
    eapply Qlt_le_trans; [| exact Hlimit]. reflexivity.
  - rewrite slice_0.
    assert (H1 : 1 <= Qfloor limit).
    { change 1 with (Qfloor 1). now apply Qfloor_resp_le. }
    destruct (Z.to_nat (Qfloor limit)) as [| n] eqn:En; [lia |].
    cbn. now rewrite Nat.sub_0_r.
Qed.

Lemma trimHistory_empty (entries : list MemoryEntry.t) (limit : number) :
  (limit < 1)%Q -> MemoryStore.trimHistory entries limit = [].
Proof.
  intros Hlimit. unfold MemoryStore.trimHistory.
  destruct (Qleb limit 0) eqn:E; [reflexivity |].
  rewrite slice_0.
  assert (H : Qfloor limit < 1).
  { destruct (Z_lt_le_dec (Qfloor limit) 1) as [Hlt | Hge]; [exact Hlt |].
    exfalso. apply (Qlt_irrefl limit). eapply Qlt_le_trans; [exact Hlimit |].
    eapply Qle_trans; [| apply Qfloor_le].
    change 1%Q with (inject_Z 1). now rewrite <- Zle_Qle. }
  replace (Z.to_nat (Qfloor limit)) with 0%nat by lia. reflexivity.
Qed.

(** A sequence of updates, each on the snapshot the previous one returned. *)
Fixpoint updateStudentMemory_sequence
    (previous : StudentMemory.t)
    (updates : list (jsstring * Student.t * StudentInsights.t))
    (historyLimit : number) : StudentMemory.t :=
  match updates with
  | [] => previous
  | (now, student, insights) :: rest =>
      updateStudentMemory_sequence
        (MemoryStore.updateStudentMemory now previous student insights historyLimit)
        rest historyLimit
  end.

Lemma updateStudentMemory_sequence_history
    (previous : StudentMemory.t)
    (updates : list (jsstring * Student.t * StudentInsights.t))
    (historyLimit : number) :
  (0 <= historyLimit)%Q ->
  (inject_Z (Z.of_nat (length (StudentMemory.history previous))) <= historyLimit)%Q
  \/ updates <> [] ->
  (inject_Z (Z.of_nat (length (StudentMemory.history
      (updateStudentMemory_sequence previous updates historyLimit)))) <= historyLimit)%Q.
Proof.
  intros Hlimit. revert previous.
  induction updates as [| [[now student] insights] rest IH]; intros previous Hstart.
  - cbn. destruct Hstart as [H | H]; [exact H | congruence].
  - cbn [updateStudentMemory_sequence]. apply IH. left.
    cbn [MemoryStore.updateStudentMemory StudentMemory.history].
    now apply trimHistory_length.
Qed.

(** A list of the snapshot: at most [cap] entries, no entry twice, and the
    first [cap] distinct cleaned entries of its source in their order. *)
Definition cappedDistinct (cap : nat) (result source : list jsstring) : Prop :=
  (length result <= cap)%nat
  /\ NoDup result
  /\ result = take cap (firstOccurrences (cleanedEntries source)).

Lemma uniqueList_cappedDistinct (source : list jsstring) (cap : nat) :
  (0 < cap)%nat -> cappedDistinct cap (MemoryStore.uniqueList source cap) source.
Proof.
  intros Hcap. destruct (uniqueList_bounded source cap Hcap) as (H1 & H2 & H3 & _).
  repeat split; assumption.
Qed.

(** The entry that an update puts in front of the history. *)
Definition newestEntry (now : jsstring) (insights : StudentInsights.t) : MemoryEntry.t :=
  {| MemoryEntry.date := now;
     MemoryEntry.note :=
       lit "Focus: " ++ join (lit "; ") (StudentInsights.improvementAreas insights)
       ++ lit " | Goal: " ++ StudentInsights.nextStepGoal insights |}.

(** C4, as amended.  The snapshot that [updateStudentMemory] returns has a
    history no longer than a non-negative [historyLimit]; for a limit of at
    least 1 the new entry comes first, followed by the most recent older
    entries; for a limit below 1 the history is empty.  Its strengths,
    improvement areas and goals hold at most 3 entries, none twice, in the
    order of first occurrence.  Any non-empty sequence of updates leaves a
    history within a non-negative limit. *)
Theorem updateStudentMemory_bounded
    (now : jsstring) (previous : StudentMemory.t) (student : Student.t)
    (insights : StudentInsights.t) (historyLimit : number) :
  let memory :=
    MemoryStore.updateStudentMemory now previous student insights historyLimit in
  ((0 <= historyLimit)%Q ->
   (inject_Z (Z.of_nat (length (StudentMemory.history memory))) <= historyLimit)%Q)
  /\ ((1 <= historyLimit)%Q ->
      StudentMemory.history memory
      = newestEntry now insights
        :: take (Z.to_nat (Qfloor historyLimit) - 1) (StudentMemory.history previous))
  /\ ((historyLimit < 1)%Q -> StudentMemory.history memory = [])
  /\ cappedDistinct 3 (StudentMemory.strengths memory)
       (StudentInsights.positiveObservation insights :: StudentInsights.strengths insights)
  /\ cappedDistinct 3 (StudentMemory.improvementAreas memory)
       (StudentInsights.improvementAreas insights)
  /\ cappedDistinct 3 (StudentMemory.goals memory)
       (StudentInsights.nextStepGoal insights :: StudentMemory.goals previous)
  /\ (forall updates : list (jsstring * Student.t * StudentInsights.t),
        updates <> [] -> (0 <= historyLimit)%Q ->
        (inject_Z (Z.of_nat (length (StudentMemory.history
           (updateStudentMemory_sequence previous updates historyLimit))))
         <= historyLimit)%Q).
Proof.
  cbn zeta. cbn [MemoryStore.updateStudentMemory StudentMemory.history
    StudentMemory.strengths StudentMemory.improvementAreas StudentMemory.goals].
  repeat split.
  - intros H. now apply trimHistory_length.
  - intros H. now apply trimHistory_head.
  - intros H. now apply trimHistory_empty.
  - apply uniqueList_bounded; lia.
  - apply uniqueList_bounded; lia.
  - apply uniqueList_bounded; lia.
  - apply uniqueList_bounded; lia.
  - apply uniqueList_bounded; lia.
  - apply uniqueList_bounded; lia.
  - apply uniqueList_bounded; lia.
  - apply uniqueList_bounded; lia.
  - apply uniqueList_bounded; lia.
  - intros updates Hne Hlimit.
    apply updateStudentMemory_sequence_history; [exact Hlimit | now right].
Qed.

(** A first run: no memory yet, the insights of the fallback. *)
Definition memory_none : StudentMemory.t :=
  {| StudentMemory.studentId := lit "S100";
     StudentMemory.summary := lit "";
     StudentMemory.strengths := [];
     StudentMemory.improvementAreas := [];
     StudentMemory.goals := [];
     StudentMemory.lastUpdated := lit "";
     StudentMemory.history := [] |}.

Definition insights_S100 : StudentInsights.t :=
  Insights.buildFallbackStudentInsights (Analyzer.analyzeStudent student_S100) None.

Definition clock_sample : jsstring := lit "2024-09-02T08:00:00.000Z".

Lemma updateStudentMemory_bounded_witness :
  let memory :=
    MemoryStore.updateStudentMemory clock_sample memory_none student_S100 insights_S100 2 in
  (1 <= 2)%Q
  /\ StudentMemory.history memory = [newestEntry clock_sample insights_S100]
  /\ StudentMemory.history
       (updateStudentMemory_sequence memory_none
          [(clock_sample, student_S100, insights_S100);
           (clock_sample, student_S100, insights_S100);
           (clock_sample, student_S100, insights_S100)] 2)
     = [newestEntry clock_sample insights_S100; newestEntry clock_sample insights_S100].
Proof.
  cbn zeta. split; [discriminate |]. split.
  - apply (updateStudentMemory_bounded clock_sample memory_none student_S100
             insights_S100 2). discriminate.
  - vm_compute. reflexivity.
Defined.

(** C4 as stated fails for limits below 1: with limit 0 the new entry is not
    in the history at all, and with limit -1 the history, though empty, is
    longer than the limit. *)
Lemma updateStudentMemory_small_limit :
  StudentMemory.history
    (MemoryStore.updateStudentMemory clock_sample memory_none student_S100 insights_S100 0)
  = []
  /\ ~ (inject_Z (Z.of_nat (length (StudentMemory.history
          (MemoryStore.updateStudentMemory clock_sample memory_none student_S100
             insights_S100 (-1))))) <= -1)%Q.
Proof.
  split; [reflexivity |]. vm_compute. intros H. apply H. reflexivity.
Qed.


(** ** Loading a student's memory (C9) *)

(** The properties of a [StudentMemory], and those that are lists. *)
Definition studentMemoryFields : list jsstring :=
  [lit "studentId"; lit "summary"; lit "strengths"; lit "improvementAreas";
   lit "goals"; lit "lastUpdated"; lit "history"].

Definition studentMemoryLists : list jsstring :=
  [lit "strengths"; lit "improvementAreas"; lit "goals"; lit "history"].

(** What the file of a student holds, when it is there, readable and
    parseable: the own properties of the parsed value. *)
Definition storedProperties
    (JSON_parse : jsstring -> Outcome JSON) (w : World) (path : jsstring) : JSObject :=
  match fs w !! path with
  | Some (TextFile data) =>
      match JSON_parse data with
      | Returned parsed => spread parsed
      | Thrown _ => ∅
      end
  | _ => ∅
  end.

Lemma DEFAULT_STUDENT_MEMORY_fields (key : jsstring) :
  key ∈ studentMemoryFields -> is_Some (MemoryStore.DEFAULT_STUDENT_MEMORY !! key).
Proof.
  unfold studentMemoryFields. rewrite !elem_of_cons, elem_of_nil.
  intros [-> | [-> | [-> | [-> | [-> | [-> | [-> | []]]]]]]]; vm_compute; eauto.
Qed.

Lemma DEFAULT_STUDENT_MEMORY_lists (key : jsstring) :
  key ∈ studentMemoryLists ->
  MemoryStore.DEFAULT_STUDENT_MEMORY !! key = Some (JArray []).
Proof.
  unfold studentMemoryLists. rewrite !elem_of_cons, elem_of_nil.
  intros [-> | [-> | [-> | [-> | []]]]]; vm_compute; reflexivity.
Qed.

(** The object that [loadStudentMemory] builds from the stored properties:
    [{ ...DEFAULT_STUDENT_MEMORY, ...parsed, studentId }]. *)
Lemma loadStudentMemory_returns
    (JSON_parse : jsstring -> Outcome JSON) (memoryDir studentId : jsstring) (w : World) :
  MemoryStore.loadStudentMemory JSON_parse memoryDir studentId w
  = (Returned (<[lit "studentId" := JString studentId]>
                 (storedProperties JSON_parse w
                    (MemoryStore.studentMemoryPath memoryDir studentId)
                  ∪ MemoryStore.DEFAULT_STUDENT_MEMORY)), w).
Proof.
  unfold MemoryStore.loadStudentMemory, storedProperties, try_catch, readTextFile,
    lift, mbind, M_bind, mret, M_ret.
  destruct (fs w !! MemoryStore.studentMemoryPath memoryDir studentId) as [[data |] |].
  - destruct (JSON_parse data) as [parsed | error].
    + reflexivity.
    + rewrite (left_id_L ∅ (∪)). now destruct error.
  - now rewrite (left_id_L ∅ (∪)).
  - now rewrite (left_id_L ∅ (∪)).
Qed.

(** C9.  [loadStudentMemory] returns, without changing anything, an object
    that has every property of a [StudentMemory]; its [studentId] is the
    requested id; every other property is the stored one when the file has
    it and the default otherwise, and the default of each list is the empty
    array. *)
Theorem loadStudentMemory_complete
    (JSON_parse : jsstring -> Outcome JSON) (memoryDir studentId : jsstring) (w : World) :
  exists memory : JSObject,
    MemoryStore.loadStudentMemory JSON_parse memoryDir studentId w = (Returned memory, w)
    /\ memory !! lit "studentId" = Some (JString studentId)
    /\ (forall key, key ∈ studentMemoryFields -> is_Some (memory !! key))
    /\ (forall key, key <> lit "studentId" ->
        memory !! key
        = match storedProperties JSON_parse w
                  (MemoryStore.studentMemoryPath memoryDir studentId) !! key with
          | Some stored => Some stored
          | None => MemoryStore.DEFAULT_STUDENT_MEMORY !! key
          end)
    /\ (forall key, key ∈ studentMemoryLists ->
        MemoryStore.DEFAULT_STUDENT_MEMORY !! key = Some (JArray [])).
Proof.
  eexists. split; [apply loadStudentMemory_returns |].
  assert (Hother : forall key, key <> lit "studentId" ->
    (<[lit "studentId" := JString studentId]>
       (storedProperties JSON_parse w (MemoryStore.studentMemoryPath memoryDir studentId)
        ∪ MemoryStore.DEFAULT_STUDENT_MEMORY) : JSObject) !! key
    = match storedProperties JSON_parse w
              (MemoryStore.studentMemoryPath memoryDir studentId) !! key with
      | Some stored => Some stored
      | None => MemoryStore.DEFAULT_STUDENT_MEMORY !! key
      end).
  { intros key Hkey. rewrite lookup_insert_ne by congruence.
    rewrite lookup_union.
    destruct (storedProperties _ _ _ !! key) as [stored |];
      now destruct (MemoryStore.DEFAULT_STUDENT_MEMORY !! key). }
  split; [apply lookup_insert_eq |].
  split; [| split; [exact Hother | apply DEFAULT_STUDENT_MEMORY_lists]].
  intros key Hkey. destruct (decide (key = lit "studentId")) as [-> | Hne].
  - rewrite lookup_insert_eq. eauto.
  - rewrite Hother by exact Hne.
    destruct (storedProperties _ _ _ !! key); [eauto |].
    now apply DEFAULT_STUDENT_MEMORY_fields.
Qed.

(** A file that is only partly filled in and names another student. *)
Definition JSON_parse_memory (text : jsstring) : Outcome JSON :=
  if decide (text = lit "partial") then
    Returned (JObject [(lit "studentId", JString (lit "S999"));
                       (lit "summary", JString (lit "Steady week."))])
  else Thrown (SyntaxError (lit "Unexpected token")).

Definition world_partial : World :=
  mkWorld {[ lit "memory/students/S100.json" := TextFile (lit "partial");
             lit "memory/students/S200.json" := TextFile (lit "{ oops") ]}
          [] [] [] 0 reliable.

(** The seven properties of a loaded memory, in the order of the interface. *)
Definition memoryProperties (loaded : Outcome JSObject * World) : list (option JSON) :=
  match loaded.1 with
  | Returned memory => map (fun key => memory !! key) studentMemoryFields
  | Thrown _ => []
  end.

Example loadStudentMemory_partial :
  memoryProperties
    (MemoryStore.loadStudentMemory JSON_parse_memory (lit "memory") (lit "S100")
       world_partial)
  = [Some (JString (lit "S100"));
     Some (JString (lit "Steady week."));
     Some (JArray []);
     Some (JArray []);
     Some (JArray []);
     Some (JString (lit ""));
     Some (JArray [])].
Proof. vm_compute. reflexivity. Qed.

Example loadStudentMemory_unparseable :
  memoryProperties
    (MemoryStore.loadStudentMemory JSON_parse_memory (lit "memory") (lit "S200")
       world_partial)
  = [Some (JString (lit "S200")); Some (JString (lit "")); Some (JArray []);
     Some (JArray []); Some (JArray []); Some (JString (lit "")); Some (JArray [])].
Proof. vm_compute. reflexivity. Qed.

Example loadStudentMemory_missing :
  memoryProperties
    (MemoryStore.loadStudentMemory JSON_parse_memory (lit "memory") (lit "S300")
       world_partial)
  = [Some (JString (lit "S300")); Some (JString (lit "")); Some (JArray []);
     Some (JArray []); Some (JArray []); Some (JString (lit "")); Some (JArray [])].
Proof. vm_compute. reflexivity. Qed.


(** ** [analyzeStudent] leaves its argument alone (C10) *)

Section Frame.
Import AnalyzerHeap.

Lemma newArray_spec (items : list Grade.t) (h : Heap) :
  exists l,
    newArray items h = Some (l, mkHeap (objects h) (<[l := items]> (arrays h)))
    /\ arrays h !! l = None.
Proof.
  unfold newArray. eexists. split; [reflexivity |].
  apply not_elem_of_dom, is_fresh.
Qed.

(** [topN] and [bottomN] sort a copy: they return a fresh array holding the
    first [n] entries of the sorted contents, and every array that existed
    before still has its contents. *)
Lemma sorted_copy_spec
    (cmp : Grade.t -> Grade.t -> number) (items : loc) (n : nat)
    (contents : list Grade.t) (h : Heap) :
  arrays h !! items = Some contents ->
  exists result h',
    (copy ← spreadArray items; sorted ← sortInPlace copy cmp; sliceArray sorted 0 n) h
    = Some (result, h')
    /\ objects h' = objects h
    /\ arrays h' !! result = Some (slice 0 n (Array_sort cmp contents))
    /\ arrays h !! result = None
    /\ (forall l old, arrays h !! l = Some old -> arrays h' !! l = Some old).
Proof.
  intros Hitems.
  unfold spreadArray, sortInPlace, sliceArray, readArray, mbind, H_bind.
  rewrite Hitems.
  destruct (newArray_spec contents h) as (copy & -> & Hcopy).
  cbn [arrays objects]. rewrite lookup_insert_eq.
  set (h1 := mkHeap (objects h) _).
  assert (Hh1 : arrays h1 !! copy = Some (Array_sort cmp contents))
    by (subst h1; cbn; apply lookup_insert_eq).
  rewrite Hh1.
  destruct (newArray_spec (slice 0 n (Array_sort cmp contents)) h1)
    as (result & -> & Hresult).
  exists result. eexists. split; [reflexivity |]. cbn [arrays objects].
  assert (Hne : result <> copy) by (intros ->; congruence).
  assert (Hold : arrays h !! result = None).
  { subst h1. cbn in Hresult. rewrite insert_insert_eq in Hresult.
    now rewrite lookup_insert_ne in Hresult by congruence. }
  repeat split.
  - apply lookup_insert_eq.
  - exact Hold.
  - intros l old Hl. subst h1. cbn [arrays].
    rewrite lookup_insert_ne by congruence.
    rewrite insert_insert_eq.
    rewrite lookup_insert_ne by congruence. exact Hl.
Qed.

(** C10.  [analyzeStudent] does not mutate its argument: after the call the
    student object is the same, its grades array holds the same grades in
    the same order, every other array that existed is untouched, the
    analysis refers to that same student object, and what it stands for is
    the analysis that [Analyzer.analyzeStudent] computes. *)
Theorem analyzeStudent_frame
    (h : Heap) (student : loc) (studentObject : StudentObject.t)
    (grades : list Grade.t) :
  objects h !! student = Some studentObject ->
  arrays h !! StudentObject.grades studentObject = Some grades ->
  exists analysis h',
    analyzeStudent student h = Some (analysis, h')
    /\ objects h' = objects h
    /\ arrays h' !! StudentObject.grades studentObject = Some grades
    /\ (forall l old, arrays h !! l = Some old -> arrays h' !! l = Some old)
    /\ AnalysisObject.student analysis = student
    /\ analysisValue analysis h'
       = Some (Analyzer.analyzeStudent (studentValue studentObject grades)).
Proof.
  intros Hstudent Hgrades.
  unfold analyzeStudent, readObject, readArray, topN, bottomN.
  unfold mbind at 1. unfold H_bind at 1. rewrite Hstudent.
  unfold mbind at 1. unfold H_bind at 1. rewrite Hgrades.
  destruct (sorted_copy_spec (fun a b => (Grade.score b - Grade.score a)%Q)
              (StudentObject.grades studentObject) 2 grades h Hgrades)
    as (highest & h1 & Htop & Hobj1 & Hhighest & _ & Hkeep1).
  unfold mbind at 1. unfold H_bind at 1. rewrite Htop.
  destruct (sorted_copy_spec (fun a b => (Grade.score a - Grade.score b)%Q)
              (StudentObject.grades studentObject) 2 grades h1 (Hkeep1 _ _ Hgrades))
    as (lowest & h2 & Hbottom & Hobj2 & Hlowest & _ & Hkeep2).
  unfold mbind at 1. unfold H_bind at 1. rewrite Hbottom.
  unfold mbind at 1. unfold H_bind at 1. rewrite Hlowest.
  eexists. exists h2. split; [reflexivity |].
  split; [congruence |].
  split; [now apply Hkeep2, Hkeep1 |].
  split; [intros l old Hl; now apply Hkeep2, Hkeep1 |].
  split; [reflexivity |].
  unfold analysisValue.
  cbn [AnalysisObject.student AnalysisObject.metrics MetricsObject.highestSubjects
       MetricsObject.lowestSubjects].
  rewrite Hobj2, Hobj1, Hstudent. cbn [mbind option_bind].
  rewrite (Hkeep2 _ _ (Hkeep1 _ _ Hgrades)). cbn [mbind option_bind].
  rewrite (Hkeep2 _ _ Hhighest). cbn [mbind option_bind].
  rewrite Hlowest. cbn [mbind option_bind].
  reflexivity.
Qed.

End Frame.

(** The student of the test, with the lower grade first, in a heap of its
    own. *)
Definition studentObject_S100 : AnalyzerHeap.StudentObject.t :=
  {| AnalyzerHeap.StudentObject.id := lit "S100";
     AnalyzerHeap.StudentObject.name := lit "Test Student";
     AnalyzerHeap.StudentObject.email := lit "test@example.com";
     AnalyzerHeap.StudentObject.grades := 1%positive;
     AnalyzerHeap.StudentObject.participationScore := 5;
     AnalyzerHeap.StudentObject.assignmentCompletionRate := 60;
     AnalyzerHeap.StudentObject.teacherNotes := lit "Needs confidence in class.";
     AnalyzerHeap.StudentObject.performanceTrend := declining;
     AnalyzerHeap.StudentObject.lastAssessmentDate := lit "2024-09-01" |}.

Definition grades_S100 : list Grade.t :=
  [Grade.mk (lit "English") 70; Grade.mk (lit "Math") 90].

Definition heap_S100 : AnalyzerHeap.Heap :=
  AnalyzerHeap.mkHeap {[ 1%positive := studentObject_S100 ]}
                      {[ 1%positive := grades_S100 ]}.

Lemma analyzeStudent_frame_witness :
  exists analysis h',
    AnalyzerHeap.analyzeStudent 1%positive heap_S100 = Some (analysis, h')
    /\ AnalyzerHeap.objects h' = AnalyzerHeap.objects heap_S100
    /\ AnalyzerHeap.arrays h' !! AnalyzerHeap.StudentObject.grades studentObject_S100
       = Some grades_S100
    /\ (forall l old, AnalyzerHeap.arrays heap_S100 !! l = Some old ->
        AnalyzerHeap.arrays h' !! l = Some old)
    /\ AnalyzerHeap.AnalysisObject.student analysis = 1%positive
    /\ AnalyzerHeap.analysisValue analysis h'
       = Some (Analyzer.analyzeStudent
                 (AnalyzerHeap.studentValue studentObject_S100 grades_S100)).
Proof.
  apply (analyzeStudent_frame heap_S100 1%positive studentObject_S100 grades_S100);
    reflexivity.
Defined.

Example analyzeStudent_heap_S100 :
  (r ← AnalyzerHeap.analyzeStudent 1%positive heap_S100;
   top ← AnalyzerHeap.arrays r.2
          !! AnalyzerHeap.MetricsObject.highestSubjects
               (AnalyzerHeap.AnalysisObject.metrics r.1);
   own ← AnalyzerHeap.arrays r.2 !! 1%positive;
   Some (map Grade.subject top, map Grade.subject own))
  = Some ([lit "Math"; lit "English"], [lit "English"; lit "Math"]).
Proof. vm_compute. reflexivity. Qed.

(** The heap does record a [sort] on the student's own array: had [topN]
    sorted [items] itself, the grades would have changed places. *)
Example sortInPlace_mutates :
  (r ← AnalyzerHeap.sortInPlace 1%positive
         (fun a b => (Grade.score b - Grade.score a)%Q) heap_S100;
   own ← AnalyzerHeap.arrays r.2 !! 1%positive;
   Some (map Grade.subject own))
  = Some [lit "Math"; lit "English"].
Proof. vm_compute. reflexivity. Qed.


(** ** Effectful code: what a step leaves as it was *)

(** [m] always returns (it cannot throw). *)
Definition returns {A} (m : M A) : Prop :=
  forall w, exists a, (m w).1 = Returned a.

(** [m] takes every world to one that is [R]-related to it, whether it
    returns or throws. *)
Definition respects {A} (R : relation World) (m : M A) : Prop :=
  forall w, R w (m w).2.

(** The part [part] of the world is as it was. *)
Definition same {X} (part : World -> X) : relation World :=
  fun w w' => part w' = part w.

(** No UUID is handed out twice: the counter only grows. *)
Definition grows : relation World := fun w w' => (uuids w <= uuids w')%nat.

(** A relation that holds across the steps of one student's processing:
    writing files, drawing UUIDs, adding student rows. *)
Record tolerant (R : relation World) : Prop := {
  tolerant_refl : forall w, R w w;
  tolerant_trans : forall w1 w2 w3, R w1 w2 -> R w2 w3 -> R w1 w3;
  tolerant_fs : forall f w, R w (set_fs f w);
  tolerant_uuids : forall w, R w (set_uuids S w);
  tolerant_student_messages : forall f w, R w (set_student_messages f w)
}.

Lemma tolerant_same_runs : tolerant (same runs).
Proof. split; unfold same; cbn; congruence. Qed.

Lemma tolerant_same_teacher_messages : tolerant (same teacher_messages).
Proof. split; unfold same; cbn; congruence. Qed.

Lemma tolerant_grows : tolerant grows.
Proof. split; unfold grows; cbn; lia. Qed.

Lemma bind_run {A B} (m : M A) (k : A -> M B) (w : World) :
  (m ≫= k) w
  = match m w with
    | (Returned a, w') => k a w'
    | (Thrown e, w') => (Thrown e, w')
    end.
Proof. reflexivity. Qed.

Lemma returns_ret {A} (a : A) : returns (mret a).
Proof. intros w. now exists a. Qed.

Lemma returns_bind {A B} (m : M A) (k : A -> M B) :
  returns m -> (forall a, returns (k a)) -> returns (m ≫= k).
Proof.
  intros Hm Hk w. rewrite bind_run. destruct (Hm w) as [a Ha].
  destruct (m w) as [[a' | e] w']; cbn in Ha; [| discriminate].
  apply Hk.
Qed.

Lemma returns_try_catch {A} (body : M A) (handler : exn -> M A) :
  (forall e, returns (handler e)) -> returns (try_catch body handler).
Proof.
  intros Hh w. unfold try_catch.
  destruct (body w) as [[a | e] w']; [now exists a | apply Hh].
Qed.

Lemma returns_run {A} (m : M A) (w : World) :
  returns m -> exists a w', m w = (Returned a, w').
Proof.
  intros Hm. destruct (Hm w) as [a Ha]. destruct (m w) as [o w'].
  cbn in Ha. subst o. eauto.
Qed.

Section Respects.
Context (R : relation World) (HR : tolerant R).

Lemma respects_ret {A} (a : A) : respects R (mret a).
Proof using HR. intros w. apply HR. Qed.

Lemma respects_throw {A} (e : exn) : respects R (throw (A:=A) e).
Proof using HR. intros w. apply HR. Qed.

Lemma respects_lift {A} (o : Outcome A) : respects R (lift o).
Proof using HR. intros w. apply HR. Qed.

Lemma respects_gets {A} (f : World -> A) : respects R (gets f).
Proof using HR. intros w. apply HR. Qed.

Lemma respects_bind {A B} (m : M A) (k : A -> M B) :
  respects R m -> (forall a, respects R (k a)) -> respects R (m ≫= k).
Proof using HR.
  intros Hm Hk w. rewrite bind_run. specialize (Hm w).
  destruct (m w) as [[a | e] w']; cbn in *; [| exact Hm].
  eapply tolerant_trans; [exact HR | exact Hm | apply Hk].
Qed.

Lemma respects_try_catch {A} (body : M A) (handler : exn -> M A) :
  respects R body -> (forall e, respects R (handler e)) ->
  respects R (try_catch body handler).
Proof using HR.
  intros Hb Hh w. unfold try_catch. specialize (Hb w).
  destruct (body w) as [[a | e] w']; cbn in *; [exact Hb |].
  eapply tolerant_trans; [exact HR | exact Hb | apply Hh].
Qed.

(** *** The primitives *)

Lemma respects_readTextFile (path : jsstring) : respects R (readTextFile path).
Proof using HR.
  intros w. unfold readTextFile. destruct (fs w !! path) as [[|] |]; apply HR.
Qed.

Lemma respects_mkdir (dir : jsstring) : respects R (mkdir dir).
Proof using HR.
  intros w. unfold mkdir. destruct (fs w !! dir) as [[|] |]; apply HR.
Qed.

Lemma respects_writeTextFile (path data : jsstring) :
  respects R (writeTextFile path data).
Proof using HR.
  intros w. unfold writeTextFile.
  destruct (fs w !! path) as [[|] |]; try (cbn; apply HR);
    destruct (device w path data); cbn; apply HR.
Qed.

Lemma respects_randomUUID (uuid : nat -> jsstring) :
  respects R (HistoryStore.randomUUID uuid).
Proof using HR. intros w. cbn. apply HR. Qed.

Lemma respects_insertStudentMessage (row : StudentMessageRow.t) :
  respects R (HistoryStore.insertStudentMessage row).
Proof using HR.
  intros w. unfold HistoryStore.insertStudentMessage.
  destruct (bool_decide _); cbn; apply HR.
Qed.

Lemma respects_recordStudentMessage
    (uuid : nat -> jsstring) (now : jsstring) (params : StudentMessageParams.t) :
  respects R (HistoryStore.recordStudentMessage uuid now params).
Proof using HR.
  apply respects_try_catch; [| intros; apply respects_ret].
  apply respects_bind; [apply respects_randomUUID |].
  intros id. apply respects_insertStudentMessage.
Qed.

Lemma respects_loadStudentMemory
    (JSON_parse : jsstring -> Outcome JSON) (memoryDir studentId : jsstring) :
  respects R (MemoryStore.loadStudentMemory JSON_parse memoryDir studentId).
Proof using HR. intros w. rewrite loadStudentMemory_returns. apply HR. Qed.

Lemma respects_loadTeacherMemory
    (JSON_parse : jsstring -> Outcome JSON) (memoryDir : jsstring) :
  respects R (MemoryStore.loadTeacherMemory JSON_parse memoryDir).
Proof using HR.
  apply respects_try_catch.
  - apply respects_bind; [apply respects_readTextFile |]. intros data.
    apply respects_bind; [apply respects_lift |]. intros parsed. apply respects_ret.
  - intros e. destruct e; apply respects_ret.
Qed.

Lemma respects_saveStudentMemory
    (JSON_stringify : JSON -> jsstring) (memoryDir : jsstring) (memory : StudentMemory.t) :
  respects R (MemoryStore.saveStudentMemory JSON_stringify memoryDir memory).
Proof using HR.
  apply respects_try_catch; [| intros; apply respects_ret].
  apply respects_bind; [apply respects_mkdir |]. intros _. apply respects_writeTextFile.
Qed.

Lemma respects_saveTeacherMemory
    (JSON_stringify : JSON -> jsstring) (memoryDir : jsstring) (memory : TeacherMemory.t) :
  respects R (MemoryStore.saveTeacherMemory JSON_stringify memoryDir memory).
Proof using HR.
  apply respects_try_catch; [| intros; apply respects_ret].
  apply respects_bind; [apply respects_mkdir |]. intros _. apply respects_writeTextFile.
Qed.

Lemma respects_saveStudentMemoryArchive
    (JSON_stringify : JSON -> jsstring) (memoryDir : jsstring)
    (archive : StudentMemoryArchive.t) :
  respects R (MemoryStore.saveStudentMemoryArchive JSON_stringify memoryDir archive).
Proof using HR.
  apply respects_try_catch; [| intros; apply respects_ret].
  apply respects_bind; [apply respects_mkdir |]. intros _.
  apply respects_bind; [apply respects_writeTextFile |]. intros _. apply respects_ret.
Qed.

Lemma respects_saveTeacherMemoryArchive
    (JSON_stringify : JSON -> jsstring) (memoryDir : jsstring)
    (archive : TeacherMemoryArchive.t) :
  respects R (MemoryStore.saveTeacherMemoryArchive JSON_stringify memoryDir archive).
Proof using HR.
  apply respects_try_catch; [| intros; apply respects_ret].
  apply respects_bind; [apply respects_mkdir |]. intros _.
  apply respects_bind; [apply respects_writeTextFile |]. intros _. apply respects_ret.
Qed.

Lemma respects_createNew (path contents : jsstring) :
  respects R (Email.createNew path contents).
Proof using HR.
  intros w. unfold Email.createNew.
  destruct (fs w !! path); [apply HR |].
  destruct (device w path contents); cbn; apply HR.
Qed.

Lemma respects_writeUniqueEmailFile_loop
    (uuid : nat -> jsstring) (attempts : nat) (dir baseName contents : jsstring) :
  respects R (Email.writeUniqueEmailFile_loop uuid attempts dir baseName contents).
Proof using HR.
  induction attempts as [| attempts IH]; [apply respects_throw |].
  cbn [Email.writeUniqueEmailFile_loop].
  apply respects_bind; [apply respects_randomUUID |]. intros suffix.
  apply respects_bind; [apply respects_createNew |].
  intros [path |]; [apply respects_ret | exact IH].
Qed.

Lemma respects_sendEmail
    (uuid : nat -> jsstring) (now : jsstring) (config : Config.t) (email : EmailContent.t) :
  respects R (Email.sendEmail uuid now config email).
Proof using HR.
  unfold Email.sendEmail. destruct (Config.emailOutDir config) as [dir |];
    [| apply respects_ret].
  destruct (negb (truthy dir)); [apply respects_ret |].
  apply respects_try_catch; [| intros; apply respects_ret].
  apply respects_bind; [apply respects_mkdir |]. intros _.
  apply respects_bind; [apply respects_writeUniqueEmailFile_loop |]. intros path.
  apply respects_ret.
Qed.

(** One student, after the analysis. *)
Lemma respects_processStudent
    (JSON_parse : jsstring -> Outcome JSON) (JSON_stringify : JSON -> jsstring)
    (uuid : nat -> jsstring) (now : jsstring)
    (generateStudentInsights : StudentAnalysis.t -> JSObject -> Outcome jsstring)
    (config : Config.t) (runId : jsstring) (analysis : StudentAnalysis.t) :
  respects R
    (Orchestrator.processStudent JSON_parse JSON_stringify uuid now
       generateStudentInsights config runId analysis).
Proof using HR.
  apply respects_try_catch; [| intros e; apply respects_recordStudentMessage].
  apply respects_bind; [apply respects_loadStudentMemory |]. intros memory.
  apply respects_bind; [apply respects_lift |]. intros rawInsights.
  apply respects_bind; [apply respects_lift |]. intros parsed.
  apply respects_bind; [apply respects_sendEmail |]. intros emailPath.
  apply respects_bind; [apply respects_recordStudentMessage |]. intros _.
  apply respects_bind; [apply respects_lift |]. intros previous.
  apply respects_bind; [apply respects_saveStudentMemory |]. intros _.
  apply respects_bind; [apply respects_saveStudentMemoryArchive |]. intros _.
  apply respects_ret.
Qed.

(** The teacher stage, given that the relation also holds across the
    writing of a teacher row. *)
Lemma respects_recordTeacherMessage
    (uuid : nat -> jsstring) (now : jsstring) (params : TeacherMessageParams.t) :
  (forall f w, R w (set_teacher_messages f w)) ->
  respects R (HistoryStore.recordTeacherMessage uuid now params).
Proof using HR.
  intros Hteacher.
  apply respects_try_catch; [| intros; apply respects_ret].
  apply respects_bind; [apply respects_randomUUID |]. intros id w.
  unfold HistoryStore.insertTeacherMessage.
  destruct (bool_decide _); cbn; [apply HR | apply Hteacher].
Qed.

Lemma respects_teacherStage
    (JSON_parse : jsstring -> Outcome JSON) (JSON_stringify : JSON -> jsstring)
    (uuid : nat -> jsstring) (now : jsstring)
    (generateTeacherSummary : TeacherSummary.t -> JSObject -> Outcome jsstring)
    (config : Config.t) (runId : jsstring) (analyses : list StudentAnalysis.t) :
  (forall f w, R w (set_teacher_messages f w)) ->
  respects R
    (Orchestrator.teacherStage JSON_parse JSON_stringify uuid now
       generateTeacherSummary config runId analyses).
Proof using HR.
  intros Hteacher.
  apply respects_bind; [apply respects_loadTeacherMemory |]. intros memory.
  apply respects_bind; [apply respects_lift |]. intros rawSummary.
  apply respects_bind; [apply respects_lift |]. intros parsed.
  apply respects_bind; [apply respects_sendEmail |]. intros emailPath.
  apply respects_bind; [now apply respects_recordTeacherMessage |]. intros _.
  apply respects_bind; [apply respects_lift |]. intros previous.
  apply respects_bind; [apply respects_saveTeacherMemory |]. intros _.
  apply respects_bind; [apply respects_saveTeacherMemoryArchive |]. intros _.
  apply respects_ret.
Qed.

End Respects.

(** ** The run orchestrator (C5, C7) *)

Section Runs.
Variable JSON_parse : jsstring -> Outcome JSON.
Variable JSON_stringify : JSON -> jsstring.
Variable Date_parse : jsstring -> option number.
Variable uuid : nat -> jsstring.
Variable now : jsstring.
Variable generateStudentInsights : StudentAnalysis.t -> JSObject -> Outcome jsstring.
Variable generateTeacherSummary : TeacherSummary.t -> JSObject -> Outcome jsstring.
Variable config : Config.t.

Let processStudent :=
  Orchestrator.processStudent JSON_parse JSON_stringify uuid now
    generateStudentInsights config.
Let forEachStudent :=
  Orchestrator.forEachStudent JSON_parse JSON_stringify uuid now
    generateStudentInsights config.
Let teacherStage :=
  Orchestrator.teacherStage JSON_parse JSON_stringify uuid now
    generateTeacherSummary config.
Let teacherStageFailed := Orchestrator.teacherStageFailed uuid now.
Let processBatch :=
  Orchestrator.processBatch JSON_parse JSON_stringify uuid now
    generateStudentInsights generateTeacherSummary config.

Lemma returns_recordStudentMessage (params : StudentMessageParams.t) :
  returns (HistoryStore.recordStudentMessage uuid now params).
Proof. apply returns_try_catch. intros e. apply returns_ret. Qed.

Lemma returns_recordTeacherMessage (params : TeacherMessageParams.t) :
  returns (HistoryStore.recordTeacherMessage uuid now params).
Proof. apply returns_try_catch. intros e. apply returns_ret. Qed.

(** One student, after the analysis: the stage returns whatever happens
    inside it, and touches neither the run table nor the teacher rows. *)
Lemma processStudent_isolated (runId : jsstring) (analysis : StudentAnalysis.t) :
  returns (processStudent runId analysis)
  /\ respects (same runs) (processStudent runId analysis)
  /\ respects (same teacher_messages) (processStudent runId analysis)
  /\ respects grows (processStudent runId analysis).
Proof.
  split; [| split; [| split]].
  - apply returns_try_catch. intros e. apply returns_recordStudentMessage.
  - apply respects_processStudent, tolerant_same_runs.
  - apply respects_processStudent, tolerant_same_teacher_messages.
  - apply respects_processStudent, tolerant_grows.
Qed.

(** The loop analyses every student and never aborts: no failure of one
    student stops the batch. *)
Lemma forEachStudent_runs
    (runId : jsstring) (students : list Student.t) (analyses : list StudentAnalysis.t)
    (w : World) :
  exists w',
    forEachStudent runId students analyses w
    = (Returned (analyses ++ map Analyzer.analyzeStudent students), w')
    /\ runs w' = runs w
    /\ teacher_messages w' = teacher_messages w
    /\ (uuids w <= uuids w')%nat.
Proof.
  revert analyses w. induction students as [| student rest IH]; intros analyses w.
  - exists w. cbn. now rewrite app_nil_r.
  - subst forEachStudent. cbn [Orchestrator.forEachStudent].
    rewrite bind_run. unfold try_catch at 1. cbn [mret M_ret].
    rewrite bind_run.
    destruct (processStudent_isolated runId (Analyzer.analyzeStudent student))
      as (Hret & Hruns & Hteacher & Hgrows).
    destruct (returns_run _ w Hret) as ([] & w1 & Hw1).
    specialize (Hruns w). specialize (Hteacher w). specialize (Hgrows w).
    unfold same, grows in *.
    subst processStudent. rewrite Hw1 in *. cbn in Hruns, Hteacher, Hgrows.
    destruct (IH (analyses ++ [Analyzer.analyzeStudent student]) w1)
      as (w' & Hrest & Hr & Ht & Hu).
    exists w'. rewrite Hrest, <- app_assoc. cbn. split; [reflexivity |].
    repeat split; try congruence. lia.
Qed.

(** *** The run table *)

Lemma startRun_runs (stats : RunStats.t) (w : World) :
  exists w',
    HistoryStore.startRun stats w = (Returned (), w')
    /\ RunStats.runId stats ∈ map RunRow.id (runs w')
    /\ fs w' = fs w
    /\ student_messages w' = student_messages w
    /\ teacher_messages w' = teacher_messages w
    /\ uuids w' = uuids w.
Proof.
  unfold HistoryStore.startRun, try_catch, HistoryStore.insertRun.
  cbn [RunRow.id].
  destruct (bool_decide _) eqn:E.
  - apply bool_decide_eq_true in E. exists w. cbn. repeat split. exact E.
  - eexists. split; [reflexivity |]. cbn. repeat split.
    rewrite map_app. apply elem_of_app. right. cbn. apply elem_of_cons. now left.
Qed.

Lemma runStatus_updated (completedAt status runId : jsstring) (rows : list RunRow.t) :
  runId ∈ map RunRow.id rows ->
  RunRow.status <$>
    List.find (fun row => bool_decide (RunRow.id row = runId))
      (map (fun row =>
              if bool_decide (RunRow.id row = runId) then
                {| RunRow.id := RunRow.id row;
                   RunRow.started_at := RunRow.started_at row;
                   RunRow.completed_at := Some completedAt;
                   RunRow.student_count := RunRow.student_count row;
                   RunRow.valid_student_count := RunRow.valid_student_count row;
                   RunRow.status := status |}
              else row) rows)
  = Some status.
Proof.
  induction rows as [| row rows IH]; intros Hin.
  - now apply elem_of_nil in Hin.
  - cbn [map List.find]. destruct (bool_decide (RunRow.id row = runId)) eqn:E.
    + cbn [RunRow.id]. rewrite E. reflexivity.
    + rewrite E. apply IH. cbn in Hin. apply elem_of_cons in Hin as [Hin | Hin];
        [| exact Hin].
      apply bool_decide_eq_false in E. congruence.
Qed.

Lemma finishRun_status (runId status : jsstring) (w : World) :
  runId ∈ map RunRow.id (runs w) ->
  exists w',
    HistoryStore.finishRun now runId status w = (Returned (), w')
    /\ HistoryStore.runStatus runId w' = Some status
    /\ fs w' = fs w
    /\ student_messages w' = student_messages w
    /\ teacher_messages w' = teacher_messages w
    /\ uuids w' = uuids w.
Proof.
  intros Hin. eexists. split; [reflexivity |].
  split; [| repeat split].
  unfold HistoryStore.runStatus. cbn [runs set_runs].
  now apply runStatus_updated.
Qed.

(** *** The teacher stage *)

Lemma teacherStage_keeps_runs (runId : jsstring) (analyses : list StudentAnalysis.t) :
  respects (same runs) (teacherStage runId analyses).
Proof. apply respects_teacherStage; [apply tolerant_same_runs | reflexivity]. Qed.

(** The failure row of the teacher stage, written when the UUID drawn for it
    is not yet a key of the table. *)
Lemma teacherStageFailed_row
    (runId : jsstring) (analyses : list StudentAnalysis.t) (e : exn) (w : World) :
  uuid (uuids w) ∉ map TeacherMessageRow.id (teacher_messages w) ->
  exists row w',
    teacherStageFailed runId analyses e w = (Returned (), w')
    /\ teacher_messages w' = teacher_messages w ++ [row]
    /\ runs w' = runs w
    /\ TeacherMessageRow.run_id row = runId
    /\ TeacherMessageRow.status row = lit "summary_failed"
    /\ TeacherMessageRow.error row = Some (errorMessage e)
    /\ TeacherMessageRow.insights_json row = None.
Proof.
  intros Hfresh.
  subst teacherStageFailed.
  unfold Orchestrator.teacherStageFailed, HistoryStore.recordTeacherMessage, try_catch.
  rewrite bind_run. cbn [HistoryStore.randomUUID].
  unfold HistoryStore.insertTeacherMessage.
  cbn [TeacherMessageRow.id teacher_messages set_uuids].
  rewrite bool_decide_eq_false_2 by exact Hfresh.
  eexists. eexists. split; [reflexivity |]. cbn. repeat split.
Qed.

(** The [try]/[catch] around the teacher stage returns in every case and
    leaves the run table alone. *)
Lemma teacherStage_guarded (runId : jsstring) (analyses : list StudentAnalysis.t) :
  returns (try_catch (teacherStage runId analyses) (teacherStageFailed runId analyses))
  /\ respects (same runs)
       (try_catch (teacherStage runId analyses) (teacherStageFailed runId analyses))
  /\ respects grows
       (try_catch (teacherStage runId analyses) (teacherStageFailed runId analyses)).
Proof.
  split; [| split].
  - apply returns_try_catch. intros e. apply returns_recordTeacherMessage.
  - apply respects_try_catch; [apply tolerant_same_runs | apply teacherStage_keeps_runs |].
    intros e. apply respects_recordTeacherMessage; [apply tolerant_same_runs | reflexivity].
  - apply respects_try_catch; [apply tolerant_grows | |].
    + apply respects_teacherStage; [apply tolerant_grows |].
      intros f w. unfold grows. cbn. lia.
    + intros e. apply respects_recordTeacherMessage; [apply tolerant_grows |].
      intros f w. unfold grows. cbn. lia.
Qed.

(** *** A whole run *)

(** The id of the run that starts in [w]; the world once that run is
    recorded as started; the world in which its teacher stage begins. *)
Definition runIdOf (w : World) : jsstring := uuid (uuids w).

Definition startedWorld (students : list Student.t) (totalCount : nat) (w : World)
  : World :=
  (HistoryStore.startRun
     {| RunStats.runId := runIdOf w;
        RunStats.startedAt := now;
        RunStats.studentCount := totalCount;
        RunStats.validStudentCount := length students |}
     (set_uuids S w)).2.

Definition analysedWorld (students : list Student.t) (totalCount : nat) (w : World)
  : World :=
  (forEachStudent (runIdOf w) students [] (startedWorld students totalCount w)).2.

Lemma startedWorld_spec (students : list Student.t) (totalCount : nat) (w : World) :
  HistoryStore.startRun
    {| RunStats.runId := runIdOf w;
       RunStats.startedAt := now;
       RunStats.studentCount := totalCount;
       RunStats.validStudentCount := length students |}
    (set_uuids S w)
  = (Returned (), startedWorld students totalCount w)
  /\ runIdOf w ∈ map RunRow.id (runs (startedWorld students totalCount w))
  /\ fs (startedWorld students totalCount w) = fs w
  /\ student_messages (startedWorld students totalCount w) = student_messages w
  /\ teacher_messages (startedWorld students totalCount w) = teacher_messages w.
Proof.
  unfold startedWorld.
  destruct (startRun_runs
              {| RunStats.runId := runIdOf w;
                 RunStats.startedAt := now;
                 RunStats.studentCount := totalCount;
                 RunStats.validStudentCount := length students |}
              (set_uuids S w)) as (w' & -> & Hin & Hfs & Hs & Ht & _).
  cbn in *. repeat split; assumption.
Qed.

(** Both entry points, once the file of students is read and validated,
    record the start of the run and hand the valid students to
    [processBatch]. *)
Lemma runOnce_loaded (w : World) (data : jsstring) (raw : JSON) :
  fs w !! Config.studentsJsonPath config = Some (TextFile data) ->
  JSON_parse data = Returned raw ->
  let students := (Validator.validateStudents Date_parse raw).1 in
  let started := startedWorld students (Orchestrator.totalCountOf raw) w in
  RunWithTool.runOnce JSON_parse JSON_stringify Date_parse uuid now
    generateStudentInsights generateTeacherSummary config w
  = (processBatch (runIdOf w) students ≫= fun _ => mret (runIdOf w)) started
  /\ MainWithMemory.runOnce JSON_parse JSON_stringify Date_parse uuid now
       generateStudentInsights generateTeacherSummary config w
     = processBatch (runIdOf w) students started.
Proof.
  intros Hfile Hparse students started.
  destruct (startedWorld_spec students (Orchestrator.totalCountOf raw) w)
    as (Hstart & _).
  split.
  - unfold RunWithTool.runOnce, RunWithTool.loadStudentsRaw,
      RunWithTool.validateStudentsTool_invoke.
    rewrite bind_run. cbn [HistoryStore.randomUUID].
    rewrite bind_run, bind_run. unfold readTextFile at 1. cbn [fs set_uuids].
    rewrite Hfile. unfold lift at 1. rewrite Hparse.
    rewrite bind_run. cbn [mret M_ret].
    rewrite bind_run. fold (runIdOf w). fold students.
    rewrite Hstart. reflexivity.
  - unfold MainWithMemory.runOnce, MainWithMemory.loadStudents.
    rewrite bind_run. cbn [HistoryStore.randomUUID].
    rewrite bind_run. unfold try_catch at 1.
    rewrite bind_run. unfold readTextFile at 1. cbn [fs set_uuids].
    rewrite Hfile. rewrite bind_run. unfold lift at 1. rewrite Hparse.
    fold students.
    destruct (Validator.validateStudents Date_parse raw) as [valid errors] eqn:Ev.
    cbn [mret M_ret]. rewrite bind_run. fold (runIdOf w).
    subst students. cbn [fst] in *. rewrite Hstart. reflexivity.
Qed.

(** With no valid student the batch is only closed. *)
Lemma processBatch_no_students (runId : jsstring) (w : World) :
  processBatch runId [] w
  = HistoryStore.finishRun now runId (lit "no_valid_students") w.
Proof. reflexivity. Qed.

(** With at least one valid student the batch goes through the loop and the
    guarded teacher stage and is closed as completed. *)
Lemma processBatch_students (runId : jsstring) (students : list Student.t) (w : World) :
  students <> [] ->
  runId ∈ map RunRow.id (runs w) ->
  let analyses := map Analyzer.analyzeStudent students in
  let w1 := (forEachStudent runId students [] w).2 in
  exists w',
    processBatch runId students w = (Returned (), w')
    /\ HistoryStore.runStatus runId w' = Some (lit "completed")
    /\ match teacherStage runId analyses w1 with
       | (Returned _, w2) => teacher_messages w' = teacher_messages w2
       | (Thrown e, w2) =>
           uuid (uuids w2) ∉ map TeacherMessageRow.id (teacher_messages w2) ->
           exists row,
             teacher_messages w' = teacher_messages w2 ++ [row]
             /\ TeacherMessageRow.run_id row = runId
             /\ TeacherMessageRow.status row = lit "summary_failed"
             /\ TeacherMessageRow.error row = Some (errorMessage e)
             /\ TeacherMessageRow.insights_json row = None
       end.
Proof.
  intros Hne Hin analyses w1.
  destruct (forEachStudent_runs runId students [] w) as (w1' & Hloop & Hruns1 & _).
  assert (w1 = w1') as -> by (subst w1; now rewrite Hloop).
  cbn [app] in Hloop. fold analyses in Hloop.
  subst processBatch. unfold Orchestrator.processBatch.
  destruct students as [| student rest]; [congruence |].
  cbn [length Nat.eqb]. rewrite bind_run.
  fold forEachStudent. rewrite Hloop.
  assert (Hlen : (length analyses =? 0)%nat = false) by reflexivity.
  rewrite Hlen. rewrite bind_run.
  fold teacherStage. fold teacherStageFailed.
  destruct (teacherStage_guarded runId analyses) as (Hret & Hkeep & _).
  specialize (Hkeep w1'). specialize (Hret w1').
  unfold try_catch, same in *.
  destruct (teacherStage runId analyses w1') as [[[] | e] w2] eqn:Estage.
  - cbn [snd] in Hkeep.
    destruct (finishRun_status runId (lit "completed") w2) as (w' & -> & Hst & _ & _ & Ht & _);
      [congruence |].
    exists w'. repeat split; assumption.
  - destruct (teacherStageFailed runId analyses e w2) as [o w3] eqn:Efail.
    cbn [fst snd] in Hkeep, Hret.
    destruct Hret as [[] ->].
    destruct (finishRun_status runId (lit "completed") w3) as (w' & -> & Hst & _ & _ & Ht & _);
      [congruence |].
    exists w'. split; [reflexivity |]. split; [exact Hst |].
    intros Hfresh.
    destruct (teacherStageFailed_row runId analyses e w2 Hfresh)
      as (row & w3' & Hrow & Hmsgs & _ & H1 & H2 & H3 & H4).
    rewrite Efail in Hrow. injection Hrow as <-.
    exists row. rewrite Ht. repeat split; assumption.
Qed.

(** *** UUIDs are drawn once *)

Lemma grows_set_runs (f : list RunRow.t -> list RunRow.t) (w : World) :
  grows w (set_runs f w).
Proof. unfold grows. cbn. lia. Qed.

Lemma respects_grows_startRun (stats : RunStats.t) :
  respects grows (HistoryStore.startRun stats).
Proof.
  intros w. destruct (startRun_runs stats w) as (w' & -> & _ & _ & _ & _ & Hu).
  unfold grows. cbn. lia.
Qed.

Lemma respects_grows_finishRun (runId status : jsstring) :
  respects grows (HistoryStore.finishRun now runId status).
Proof. intros w. apply grows_set_runs. Qed.

Lemma respects_grows_forEachStudent
    (runId : jsstring) (students : list Student.t) (analyses : list StudentAnalysis.t) :
  respects grows (forEachStudent runId students analyses).
Proof.
  intros w. destruct (forEachStudent_runs runId students analyses w)
    as (w' & -> & _ & _ & Hu). exact Hu.
Qed.

Lemma respects_grows_processBatch (runId : jsstring) (students : list Student.t) :
  respects grows (processBatch runId students).
Proof.
  pose proof tolerant_grows as HR.
  subst processBatch. unfold Orchestrator.processBatch.
  destruct (length students =? 0)%nat; [apply respects_grows_finishRun |].
  apply respects_bind; [exact HR | apply respects_grows_forEachStudent |].
  intros analyses.
  destruct (length analyses =? 0)%nat; [apply respects_grows_finishRun |].
  apply respects_bind; [exact HR | apply teacherStage_guarded |].
  intros _. apply respects_grows_finishRun.
Qed.

(** [runOnce] draws the id of its run first; the id it returns is that one,
    and no later draw repeats the index. *)
Lemma runOnce_draws_first (w : World) :
  let settled :=
    RunWithTool.runOnce JSON_parse JSON_stringify Date_parse uuid now
      generateStudentInsights generateTeacherSummary config w in
  (uuids w < uuids settled.2)%nat
  /\ forall runId, settled.1 = Returned runId -> runId = uuid (uuids w).
Proof.
  pose proof tolerant_grows as HR.
  cbn zeta. unfold RunWithTool.runOnce. rewrite bind_run.
  cbn [HistoryStore.randomUUID].
  set (rest := (_ ≫= _) : M jsstring).
  assert (Hrest : respects grows rest).
  { subst rest.
    apply respects_bind; [exact HR | |].
    - apply respects_bind; [exact HR | now apply respects_readTextFile |].
      intros data. now apply respects_lift.
    - intros raw. apply respects_bind; [exact HR | now apply respects_ret |].
      intros toolResult.
      apply respects_bind; [exact HR | apply respects_grows_startRun |]. intros _.
      apply respects_bind; [exact HR | apply respects_grows_processBatch |]. intros _.
      now apply respects_ret. }
  specialize (Hrest (set_uuids S w)). unfold grows in Hrest. cbn in Hrest.
  split; [lia |].
  intros runId Hreturned. subst rest.
  rewrite bind_run in Hreturned.
  destruct (RunWithTool.loadStudentsRaw JSON_parse (Config.studentsJsonPath config)
              (set_uuids S w)) as [[raw | e] w0]; [| discriminate].
  rewrite bind_run in Hreturned. cbn [mret M_ret RunWithTool.validateStudentsTool_invoke]
    in Hreturned.
  rewrite bind_run in Hreturned.
  destruct (HistoryStore.startRun _ w0) as [[[] | e] w3]; [| discriminate].
  rewrite bind_run in Hreturned.
  destruct (Orchestrator.processBatch _ _ _ _ _ _ _ _ _ w3) as [[[] | e] w4];
    [| discriminate].
  cbn in Hreturned. congruence.
Qed.

End Runs.

(** C5.  When the file of students is read and parsed and the validation
    yields no valid student, both [runOnce] functions return after
    recording the run with the terminal status of a run without valid items,
    [no_valid_students]: the final world is the started run closed with that
    status, no row is written for a student or for the teacher, no file is
    written, and the only UUID drawn is the run id. *)
Theorem runOnce_no_valid_students
    (JSON_parse : jsstring -> Outcome JSON) (JSON_stringify : JSON -> jsstring)
    (Date_parse : jsstring -> option number) (uuid : nat -> jsstring) (now : jsstring)
    (generateStudentInsights : StudentAnalysis.t -> JSObject -> Outcome jsstring)
    (generateTeacherSummary : TeacherSummary.t -> JSObject -> Outcome jsstring)
    (config : Config.t) (w : World) (data : jsstring) (raw : JSON) :
  fs w !! Config.studentsJsonPath config = Some (TextFile data) ->
  JSON_parse data = Returned raw ->
  (Validator.validateStudents Date_parse raw).1 = [] ->
  let runId := runIdOf uuid w in
  exists w',
    RunWithTool.runOnce JSON_parse JSON_stringify Date_parse uuid now
      generateStudentInsights generateTeacherSummary config w = (Returned runId, w')
    /\ MainWithMemory.runOnce JSON_parse JSON_stringify Date_parse uuid now
         generateStudentInsights generateTeacherSummary config w = (Returned (), w')
    /\ w' = (HistoryStore.finishRun now runId (lit "no_valid_students")
               (startedWorld uuid now [] (Orchestrator.totalCountOf raw) w)).2
    /\ HistoryStore.runStatus runId w' = Some (lit "no_valid_students")
    /\ student_messages w' = student_messages w
    /\ teacher_messages w' = teacher_messages w
    /\ fs w' = fs w
    /\ uuids w' = S (uuids w).
Proof.
  intros Hfile Hparse Hnone runId.
  destruct (runOnce_loaded JSON_parse JSON_stringify Date_parse uuid now
              generateStudentInsights generateTeacherSummary config w data raw
              Hfile Hparse) as [Htool Hmemory].
  rewrite Hnone in Htool, Hmemory. rewrite Htool, Hmemory. clear Htool Hmemory.
  rewrite bind_run, processBatch_no_students.
  destruct (startedWorld_spec uuid now [] (Orchestrator.totalCountOf raw) w)
    as (_ & Hin & Hfs & Hs & Ht).
  destruct (finishRun_status now runId (lit "no_valid_students")
              (startedWorld uuid now [] (Orchestrator.totalCountOf raw) w) Hin)
    as (w' & Hfinish & Hstatus & Hfs' & Hs' & Ht' & Hu').
  subst runId. exists w'. rewrite !Hfinish. cbn [snd].
  split; [reflexivity |]. split; [reflexivity |]. split; [reflexivity |].
  split; [exact Hstatus |]. split; [congruence |]. split; [congruence |].
  split; [congruence |].
  rewrite Hu'. unfold startedWorld.
  destruct (startRun_runs
              {| RunStats.runId := runIdOf uuid w;
                 RunStats.startedAt := now;
                 RunStats.studentCount := Orchestrator.totalCountOf raw;
                 RunStats.validStudentCount := length (@nil Student.t) |}
              (set_uuids S w)) as (w0 & -> & _ & _ & _ & _ & Hu0).
  exact Hu0.
Qed.

(** C7.  When the file of students is read and parsed and at least one
    student is valid, both [runOnce] functions return and the run is closed
    with the status [completed], whatever the teacher stage does; and if
    the teacher stage throws, at any point, a row with the status
    [summary_failed] and the message of the error is appended to the
    teacher rows of that run (the UUID drawn for the row being new to the
    table). *)
Theorem runOnce_completed_despite_teacher_failure
    (JSON_parse : jsstring -> Outcome JSON) (JSON_stringify : JSON -> jsstring)
    (Date_parse : jsstring -> option number) (uuid : nat -> jsstring) (now : jsstring)
    (generateStudentInsights : StudentAnalysis.t -> JSObject -> Outcome jsstring)
    (generateTeacherSummary : TeacherSummary.t -> JSObject -> Outcome jsstring)
    (config : Config.t) (w : World) (data : jsstring) (raw : JSON) :
  fs w !! Config.studentsJsonPath config = Some (TextFile data) ->
  JSON_parse data = Returned raw ->
  (Validator.validateStudents Date_parse raw).1 <> [] ->
  let students := (Validator.validateStudents Date_parse raw).1 in
  let runId := runIdOf uuid w in
  let analyses := map Analyzer.analyzeStudent students in
  let w1 :=
    analysedWorld JSON_parse JSON_stringify uuid now generateStudentInsights config
      students (Orchestrator.totalCountOf raw) w in
  exists w',
    RunWithTool.runOnce JSON_parse JSON_stringify Date_parse uuid now
      generateStudentInsights generateTeacherSummary config w = (Returned runId, w')
    /\ MainWithMemory.runOnce JSON_parse JSON_stringify Date_parse uuid now
         generateStudentInsights generateTeacherSummary config w = (Returned (), w')
    /\ HistoryStore.runStatus runId w' = Some (lit "completed")
    /\ (forall e w2,
          Orchestrator.teacherStage JSON_parse JSON_stringify uuid now
            generateTeacherSummary config runId analyses w1 = (Thrown e, w2) ->
          uuid (uuids w2) ∉ map TeacherMessageRow.id (teacher_messages w2) ->
          exists row,
            teacher_messages w' = teacher_messages w2 ++ [row]
            /\ TeacherMessageRow.run_id row = runId
            /\ TeacherMessageRow.status row = lit "summary_failed"
            /\ TeacherMessageRow.error row = Some (errorMessage e)
            /\ TeacherMessageRow.insights_json row = None).
Proof.
  intros Hfile Hparse Hsome. cbv zeta.
  destruct (runOnce_loaded JSON_parse JSON_stringify Date_parse uuid now
              generateStudentInsights generateTeacherSummary config w data raw
              Hfile Hparse) as [Htool Hmemory].
  cbv zeta in Htool, Hmemory. rewrite Htool, Hmemory. clear Htool Hmemory.
  destruct (startedWorld_spec uuid now (Validator.validateStudents Date_parse raw).1
              (Orchestrator.totalCountOf raw) w) as (_ & Hin & _).
  destruct (processBatch_students JSON_parse JSON_stringify uuid now
              generateStudentInsights generateTeacherSummary config
              (runIdOf uuid w) (Validator.validateStudents Date_parse raw).1 _ Hsome Hin)
    as (w' & Hbatch & Hstatus & Hstage).
  cbv zeta in Hstage.
  exists w'. rewrite bind_run, Hbatch.
  split; [reflexivity |]. split; [reflexivity |]. split; [exact Hstatus |].
  intros e w2 Hthrown Hfresh.
  unfold analysedWorld in Hthrown.
  rewrite Hthrown in Hstage. now apply Hstage.
Qed.

(** *** Two sample runs *)

(** The record of the test student as [JSON.parse] delivers it. *)
Definition json_S100 : JSON :=
  JObject
    [(lit "id", JString (lit "S100"));
     (lit "name", JString (lit "Test Student"));
     (lit "email", JString (lit "test@example.com"));
     (lit "grades",
      JArray [JObject [(lit "subject", JString (lit "Math")); (lit "score", JNumber 90)];
              JObject [(lit "subject", JString (lit "English")); (lit "score", JNumber 70)]]);
     (lit "participationScore", JNumber 5);
     (lit "assignmentCompletionRate", JNumber 60);
     (lit "teacherNotes", JString (lit "Needs confidence in class."));
     (lit "performanceTrend", JString (lit "declining"));
     (lit "lastAssessmentDate", JString (lit "2024-09-01"))].

(** The runtime and the collaborators of the samples: two files of
    students, named by their contents; a model that answers every student
    with an empty object and is unavailable for the teacher summary. *)
Definition JSON_parse_run (text : jsstring) : Outcome JSON :=
  if decide (text = lit "[S100]") then Returned (JArray [json_S100])
  else if decide (text = lit "[{}]") then Returned (JArray [JObject []])
  else if decide (text = lit "{}") then Returned (JObject [])
  else Thrown (SyntaxError (lit "Unexpected token")).

Definition JSON_stringify_run (value : JSON) : jsstring := lit "{...}".
Definition Date_parse_run (text : jsstring) : option number := Some 0%Q.
Definition uuid_run (n : nat) : jsstring := lit "uuid-" ++ natToString n.

Definition generateStudentInsights_run
    (analysis : StudentAnalysis.t) (memory : JSObject) : Outcome jsstring :=
  Returned (lit "Sure! {}").

Definition generateTeacherSummary_run
    (summary : TeacherSummary.t) (memory : JSObject) : Outcome jsstring :=
  Thrown (Error (lit "model unavailable")).

Definition config_run : Config.t :=
  {| Config.emailFrom := lit "Edu Assistant <noreply@local>";
     Config.teacherEmail := lit "teacher@example.com";
     Config.emailOutDir := None;
     Config.teacherRules := None;
     Config.studentsJsonPath := lit "students.json";
     Config.memoryDir := lit "memory";
     Config.memoryHistoryLimit := 5 |}.

Definition world_of (students : string) : World :=
  mkWorld {[ lit "students.json" := TextFile (lit students) ]} [] [] [] 0 reliable.

Definition runOnce_run : M jsstring :=
  RunWithTool.runOnce JSON_parse_run JSON_stringify_run Date_parse_run uuid_run
    clock_sample generateStudentInsights_run generateTeacherSummary_run config_run.

Example validateStudents_S100 :
  Validator.validateStudents Date_parse_run (JArray [json_S100; JObject []])
  = ([student_S100],
     [lit "students[1]: id must be a non-empty string";
      lit "students[1]: name must be a non-empty string";
      lit "students[1]: email must be a valid address";
      lit "students[1]: grades must be a non-empty array";
      lit "students[1]: participationScore must be a number between 1 and 10";
      lit "students[1]: assignmentCompletionRate must be a number between 0 and 100";
      lit "students[1]: teacherNotes must be a string";
      lit "students[1]: performanceTrend must be improving, stable, or declining";
      lit "students[1]: lastAssessmentDate must be a valid date string"]).
Proof. vm_compute. reflexivity. Qed.

Lemma runOnce_no_valid_students_witness :
  exists w',
    runOnce_run (world_of "[{}]") = (Returned (uuid_run 0), w')
    /\ MainWithMemory.runOnce JSON_parse_run JSON_stringify_run Date_parse_run uuid_run
         clock_sample generateStudentInsights_run generateTeacherSummary_run config_run
         (world_of "[{}]") = (Returned (), w')
    /\ w' = (HistoryStore.finishRun clock_sample (uuid_run 0) (lit "no_valid_students")
               (startedWorld uuid_run clock_sample [] 1 (world_of "[{}]"))).2
    /\ HistoryStore.runStatus (uuid_run 0) w' = Some (lit "no_valid_students")
    /\ student_messages w' = []
    /\ teacher_messages w' = []
    /\ fs w' = fs (world_of "[{}]")
    /\ uuids w' = 1%nat.
Proof.
  apply (runOnce_no_valid_students JSON_parse_run JSON_stringify_run Date_parse_run
           uuid_run clock_sample generateStudentInsights_run generateTeacherSummary_run
           config_run (world_of "[{}]") (lit "[{}]") (JArray [JObject []]));
    vm_compute; reflexivity.
Defined.

Lemma runOnce_completed_despite_teacher_failure_witness :
  exists w',
    runOnce_run (world_of "[S100]") = (Returned (uuid_run 0), w')
    /\ MainWithMemory.runOnce JSON_parse_run JSON_stringify_run Date_parse_run uuid_run
         clock_sample generateStudentInsights_run generateTeacherSummary_run config_run
         (world_of "[S100]") = (Returned (), w')
    /\ HistoryStore.runStatus (uuid_run 0) w' = Some (lit "completed")
    /\ (forall e w2,
          Orchestrator.teacherStage JSON_parse_run JSON_stringify_run uuid_run clock_sample
            generateTeacherSummary_run config_run (uuid_run 0)
            (map Analyzer.analyzeStudent [student_S100])
            (analysedWorld JSON_parse_run JSON_stringify_run uuid_run clock_sample
               generateStudentInsights_run config_run [student_S100] 1
               (world_of "[S100]"))
          = (Thrown e, w2) ->
          uuid_run (uuids w2) ∉ map TeacherMessageRow.id (teacher_messages w2) ->
          exists row,
            teacher_messages w' = teacher_messages w2 ++ [row]
            /\ TeacherMessageRow.run_id row = uuid_run 0
            /\ TeacherMessageRow.status row = lit "summary_failed"
            /\ TeacherMessageRow.error row = Some (errorMessage e)
            /\ TeacherMessageRow.insights_json row = None).
Proof.
  apply (runOnce_completed_despite_teacher_failure JSON_parse_run JSON_stringify_run
           Date_parse_run uuid_run clock_sample generateStudentInsights_run
           generateTeacherSummary_run config_run (world_of "[S100]") (lit "[S100]")
           (JArray [json_S100]));
    vm_compute; (reflexivity || discriminate).
Defined.

(** The sample run with one valid student: the model's answer for the
    student misses every field, so the fallback is sent; the teacher stage
    throws; the run is closed as completed. *)
Example runOnce_S100_audit :
  let w' := (runOnce_run (world_of "[S100]")).2 in
  map (fun row => (RunRow.id row, RunRow.status row, RunRow.completed_at row)) (runs w')
  = [(uuid_run 0, lit "completed", Some clock_sample)]
  /\ map (fun row => (StudentMessageRow.student_id row, StudentMessageRow.status row,
                      StudentMessageRow.used_fallback row)) (student_messages w')
     = [(lit "S100", lit "sent", true)]
  /\ map (fun row => (TeacherMessageRow.run_id row, TeacherMessageRow.status row,
                      TeacherMessageRow.error row)) (teacher_messages w')
     = [(uuid_run 0, lit "summary_failed", Some (lit "model unavailable"))].
Proof. vm_compute. repeat split. Qed.


(** ** The single-flight guard (C3) *)

(** A request that passes the checks before the guard: a JSON body that is
    an analysis request for all students. *)
Definition wellFormed (payload : Outcome JSON) : bool :=
  match payload with
  | Returned value =>
      Server.isAnalyzeRequest value
      && negb (Server.truthyValue (Server.ownProp value (lit "scope"))
               && negb (Server.isString (Server.ownProp value (lit "scope")) (lit "all")))
  | Thrown _ => false
  end.

(** While the flag is set the handler answers at once and leaves the guard
    as it is: with 409 and [lastRunId ?? "unknown"] for a well-formed
    request, with 400 otherwise. *)
Lemma handleAnalyze_enter_running (payload : Outcome JSON) (state : Server.State.t) :
  Server.State.running state = true ->
  exists response,
    Server.handleAnalyze_enter payload state = (Server.Respond response, state)
    /\ (Server.status response = 400%nat \/ Server.status response = 409%nat)
    /\ (wellFormed payload = true ->
        response
        = Server.jsonResponse
            (Server.AnalyzeResponse (Server.lastRunIdOrUnknown state) (lit "running")) 409).
Proof.
  intros Hrunning. unfold Server.handleAnalyze_enter, wellFormed.
  destruct payload as [value | error].
  - destruct (Server.isAnalyzeRequest value); cbn [negb andb].
    + destruct (_ && _); cbn [negb].
      * eexists. split; [reflexivity |]. split; [now left | discriminate].
      * rewrite Hrunning. eexists. split; [reflexivity |]. split; [now right | reflexivity].
    + eexists. split; [reflexivity |]. split; [now left | discriminate].
  - eexists. split; [reflexivity |]. split; [now left | discriminate].
Qed.

(** A run starts only when the flag is clear. *)
Lemma handleAnalyze_enter_await (payload : Outcome JSON) (state state' : Server.State.t) :
  Server.handleAnalyze_enter payload state = (Server.AwaitRunOnce, state') ->
  Server.State.running state = false
  /\ state' = Server.State.mk true (Server.State.lastRunId state).
Proof.
  unfold Server.handleAnalyze_enter.
  destruct payload as [value | error]; [| discriminate].
  destruct (negb (Server.isAnalyzeRequest value)); [discriminate |].
  destruct (_ && _); [discriminate |].
  destruct (Server.State.running state); [discriminate |].
  now intros [= <-].
Qed.

Lemma handleAnalyze_enter_respond
    (payload : Outcome JSON) (state state' : Server.State.t) (response : Server.Response) :
  Server.handleAnalyze_enter payload state = (Server.Respond response, state') ->
  state' = state.
Proof.
  unfold Server.handleAnalyze_enter.
  destruct payload as [value | error]; [| now intros [= _ <-]].
  destruct (negb (Server.isAnalyzeRequest value)); [now intros [= _ <-] |].
  destruct (_ && _); [now intros [= _ <-] |].
  destruct (Server.State.running state); [now intros [= _ <-] | discriminate].
Qed.

Section Guard.
Variable JSON_parse : jsstring -> Outcome JSON.
Variable JSON_stringify : JSON -> jsstring.
Variable Date_parse : jsstring -> option number.
Variable uuid : nat -> jsstring.
Variable now : jsstring.
Variable generateStudentInsights : StudentAnalysis.t -> JSObject -> Outcome jsstring.
Variable generateTeacherSummary : TeacherSummary.t -> JSObject -> Outcome jsstring.
Variable config : Config.t.

Let step :=
  Server.step JSON_parse JSON_stringify Date_parse uuid now
    generateStudentInsights generateTeacherSummary config.
Let run :=
  Server.run JSON_parse JSON_stringify Date_parse uuid now
    generateStudentInsights generateTeacherSummary config.

(** What holds of the server process at every moment: the flag is set
    exactly while a run is suspended; that run drew the UUID that is next in
    the world (the world waits for the run to settle); and [lastRunId], when
    set, is a UUID drawn earlier, by a run that has returned. *)
Definition guarded (p : Server.Process) : Prop :=
  (Server.State.running (Server.state p) = true <-> is_Some (Server.inflight p))
  /\ (forall id, Server.inflight p = Some id -> id = uuid (uuids (Server.world p)))
  /\ (forall id, Server.State.lastRunId (Server.state p) = Some id ->
      exists n, (n < uuids (Server.world p))%nat /\ id = uuid n).

Lemma guarded_initial (w : World) : guarded (Server.initial w).
Proof.
  unfold guarded, Server.initial. cbn. split; [| split].
  - split; [discriminate | intros [? [=]]].
  - discriminate.
  - discriminate.
Qed.

Lemma guarded_step (p : Server.Process) (e : Server.Event) :
  guarded p -> guarded (step p e).1.
Proof.
  intros Hp. pose proof Hp as (Hflag & Hinflight & Hlast).
  subst step. unfold Server.step.
  destruct e as [payload |].
  - destruct (Server.handleAnalyze_enter payload (Server.state p))
      as [[response |] state'] eqn:E.
    + apply handleAnalyze_enter_respond in E as ->. now destruct p.
    + apply handleAnalyze_enter_await in E as [Hclear ->]. unfold guarded; cbn.
      split; [| split].
      * split; [intros _; eexists; reflexivity | reflexivity].
      * now intros id [= <-].
      * exact Hlast.
  - destruct (Server.inflight p) as [id |] eqn:Ei.
    2: exact Hp.
    pose proof (runOnce_draws_first JSON_parse JSON_stringify Date_parse uuid now
                  generateStudentInsights generateTeacherSummary config
                  (Server.world p)) as [Hgrow Hid].
    unfold Server.runOnce.
    destruct (RunWithTool.runOnce _ _ _ _ _ _ _ _ (Server.world p)) as [result w'].
    cbn [fst snd] in Hgrow, Hid.
    destruct result as [runId | error]; unfold guarded; cbn.
    + split; [| split].
      * split; [discriminate | intros [? [=]]].
      * discriminate.
      * intros id' [= <-]. exists (uuids (Server.world p)).
        split; [exact Hgrow | now apply Hid].
    + split; [| split].
      * split; [discriminate | intros [? [=]]].
      * discriminate.
      * intros id' Hid'. destruct (Hlast id' Hid') as (n & Hn & ->).
        exists n. split; [lia | reflexivity].
Qed.

Lemma guarded_run (p : Server.Process) (events : list Server.Event) :
  guarded p -> guarded (run p events).
Proof.
  revert p. induction events as [| e rest IH]; intros p Hp; [exact Hp |].
  cbn. apply IH. now apply guarded_step.
Qed.

(** With UUIDs that never repeat and never spell [unknown], what a rejection
    reports is not the id of the run in flight. *)
Lemma rejection_never_names_inflight_run
    (w : World) (events : list Server.Event) (inflightId : jsstring) :
  (forall n m, uuid n = uuid m -> n = m) ->
  (forall n, uuid n <> lit "unknown") ->
  Server.inflight (run (Server.initial w) events) = Some inflightId ->
  Server.lastRunIdOrUnknown (Server.state (run (Server.initial w) events)) <> inflightId.
Proof.
  intros Hinj Hunknown Hin.
  destruct (guarded_run _ events (guarded_initial w)) as (_ & Hinflight & Hlast).
  rewrite (Hinflight _ Hin). unfold Server.lastRunIdOrUnknown.
  destruct (Server.State.lastRunId _) as [id |] eqn:E.
  - destruct (Hlast id eq_refl) as (n & Hn & ->). intros Heq.
    apply Hinj in Heq. lia.
  - intros Heq. now apply (Hunknown (uuids (Server.world (run (Server.initial w) events)))).
Qed.

End Guard.

(** C3, as amended.  At every moment of the server's life at which the
    guard is set, a run is suspended in [handleAnalyze], and a further
    request is answered at once with a rejection (400 or 409) that starts
    nothing: the guard, the world and the run in flight are as before.  The
    rejection of a well-formed request is the 409 response with status
    [running] and the run id [lastRunId ?? "unknown"]: the id of the last
    run that returned, drawn before the id of the run in flight, or
    [unknown] when no run has returned yet. *)
Theorem handleAnalyze_rejects_while_running
    (JSON_parse : jsstring -> Outcome JSON) (JSON_stringify : JSON -> jsstring)
    (Date_parse : jsstring -> option number) (uuid : nat -> jsstring) (now : jsstring)
    (generateStudentInsights : StudentAnalysis.t -> JSObject -> Outcome jsstring)
    (generateTeacherSummary : TeacherSummary.t -> JSObject -> Outcome jsstring)
    (config : Config.t) (w : World) (events : list Server.Event)
    (payload : Outcome JSON) :
  let p :=
    Server.run JSON_parse JSON_stringify Date_parse uuid now
      generateStudentInsights generateTeacherSummary config (Server.initial w) events in
  Server.State.running (Server.state p) = true ->
  exists response,
    Server.inflight p = Some (uuid (uuids (Server.world p)))
    /\ Server.step JSON_parse JSON_stringify Date_parse uuid now
         generateStudentInsights generateTeacherSummary config p (Server.Request payload)
       = (p, Some response)
    /\ (Server.status response = 400%nat \/ Server.status response = 409%nat)
    /\ (wellFormed payload = true ->
        response
        = Server.jsonResponse
            (Server.AnalyzeResponse (Server.lastRunIdOrUnknown (Server.state p))
               (lit "running")) 409)
    /\ match Server.State.lastRunId (Server.state p) with
       | Some id =>
           Server.lastRunIdOrUnknown (Server.state p) = id
           /\ exists n, (n < uuids (Server.world p))%nat /\ id = uuid n
       | None => Server.lastRunIdOrUnknown (Server.state p) = lit "unknown"
       end.
Proof.
  intros p Hrunning.
  destruct (guarded_run JSON_parse JSON_stringify Date_parse uuid now
              generateStudentInsights generateTeacherSummary config
              (Server.initial w) events (guarded_initial uuid w))
    as (Hflag & Hinflight & Hlast).
  fold p in Hflag, Hinflight, Hlast.
  destruct (handleAnalyze_enter_running payload (Server.state p) Hrunning)
    as (response & Henter & Hstatus & Hshape).
  exists response.
  destruct (proj1 Hflag Hrunning) as [id Hid].
  split; [rewrite Hid; f_equal; now apply Hinflight |].
  split.
  { unfold Server.step. rewrite Henter. now destruct p. }
  split; [exact Hstatus |]. split; [exact Hshape |].
  unfold Server.lastRunIdOrUnknown.
  destruct (Server.State.lastRunId (Server.state p)) as [id' |] eqn:E; [| reflexivity].
  split; [reflexivity | now apply Hlast].
Qed.

(** The server of the samples, one request after its start. *)
Definition server_busy : Server.Process :=
  Server.run JSON_parse_run JSON_stringify_run Date_parse_run uuid_run clock_sample
    generateStudentInsights_run generateTeacherSummary_run config_run
    (Server.initial (world_of "[S100]")) [Server.Request (Returned (JObject []))].

Lemma handleAnalyze_rejects_while_running_witness :
  exists response,
    Server.inflight server_busy = Some (uuid_run (uuids (Server.world server_busy)))
    /\ Server.step JSON_parse_run JSON_stringify_run Date_parse_run uuid_run clock_sample
         generateStudentInsights_run generateTeacherSummary_run config_run server_busy
         (Server.Request (Returned (JObject [])))
       = (server_busy, Some response)
    /\ (Server.status response = 400%nat \/ Server.status response = 409%nat)
    /\ (wellFormed (Returned (JObject [])) = true ->
        response
        = Server.jsonResponse
            (Server.AnalyzeResponse (Server.lastRunIdOrUnknown (Server.state server_busy))
               (lit "running")) 409)
    /\ match Server.State.lastRunId (Server.state server_busy) with
       | Some id =>
           Server.lastRunIdOrUnknown (Server.state server_busy) = id
           /\ exists n, (n < uuids (Server.world server_busy))%nat /\ id = uuid_run n
       | None => Server.lastRunIdOrUnknown (Server.state server_busy) = lit "unknown"
       end.
Proof.
  apply (handleAnalyze_rejects_while_running JSON_parse_run JSON_stringify_run
           Date_parse_run uuid_run clock_sample generateStudentInsights_run
           generateTeacherSummary_run config_run (world_of "[S100]")
           [Server.Request (Returned (JObject []))] (Returned (JObject []))).
  reflexivity.
Defined.

(** C3 as stated fails on the first run of a server: the run in flight has
    the id [uuid-0], and the rejection reports [unknown]. *)
Lemma rejection_reports_unknown :
  Server.inflight server_busy = Some (uuid_run 0)
  /\ (Server.step JSON_parse_run JSON_stringify_run Date_parse_run uuid_run clock_sample
        generateStudentInsights_run generateTeacherSummary_run config_run server_busy
        (Server.Request (Returned (JObject [])))).2
     = Some (Server.jsonResponse
               (Server.AnalyzeResponse (lit "unknown") (lit "running")) 409)
  /\ lit "unknown" <> uuid_run 0.
Proof. vm_compute. repeat split; discriminate. Qed.

(** And on a later run it reports the run before: after one run has
    returned and a second has started, the rejection names the first. *)
Example rejection_reports_previous_run :
  let p :=
    Server.run JSON_parse_run JSON_stringify_run Date_parse_run uuid_run clock_sample
      generateStudentInsights_run generateTeacherSummary_run config_run
      (Server.initial (world_of "[S100]"))
      [Server.Request (Returned (JObject [])); Server.RunSettles;
       Server.Request (Returned (JObject []))] in
  Server.inflight p = Some (uuid_run 3)
  /\ (Server.step JSON_parse_run JSON_stringify_run Date_parse_run uuid_run clock_sample
        generateStudentInsights_run generateTeacherSummary_run config_run p
        (Server.Request (Returned (JObject [])))).2
     = Some (Server.jsonResponse
               (Server.AnalyzeResponse (uuid_run 0) (lit "running")) 409).
Proof. vm_compute. split; reflexivity. Qed.


(* ================================================================== *)
(** * Further properties of the analysis engine *)
(* ================================================================== *)

(** ** Selection by sorting *)

Lemma insertBy_Permutation {T} (cmp : T -> T -> Q) (x : T) (l : list T) :
  insertBy cmp x l ≡ₚ x :: l.
Proof.
  induction l as [| y l IH]; [reflexivity |].
  cbn [insertBy]. destruct (Qle_bool (cmp x y) 0); [reflexivity |].
  rewrite IH. apply perm_swap.
Qed.

Lemma Array_sort_Permutation {T} (cmp : T -> T -> Q) (l : list T) :
  Array_sort cmp l ≡ₚ l.
Proof.
  unfold Array_sort. induction l as [| x l IH]; [reflexivity |].
  cbn [foldr]. rewrite insertBy_Permutation. now rewrite IH.
Qed.

Lemma StronglySorted_weaken {T} (R S : T -> T -> Prop) (l : list T) :
  (forall a b, R a b -> S a b) -> StronglySorted R l -> StronglySorted S l.
Proof.
  intros Himpl Hs. induction Hs as [| a l Hs IH Ha]; constructor; [exact IH |].
  eapply Forall_impl; [exact Ha |]. intros b. apply Himpl.
Qed.

Section Ordered.
Context {T : Type} (cmp : T -> T -> Q).

(** [a] may stand before [b] in the sorted array. *)
Definition before (a b : T) : Prop := (cmp a b <= 0)%Q.

Hypothesis before_total : forall a b, before a b \/ before b a.
Hypothesis before_trans : forall a b c, before a b -> before b c -> before a c.

Lemma insertBy_sorted (x : T) (l : list T) :
  StronglySorted before l -> StronglySorted before (insertBy cmp x l).
Proof using before_total before_trans.
  induction l as [| y l IH]; intros Hs.
  - cbn. constructor; [constructor | constructor].
  - cbn [insertBy]. apply StronglySorted_inv in Hs as [Hl Hy].
    destruct (Qle_bool (cmp x y) 0) eqn:E.
    + apply Qle_bool_iff in E.
      constructor; [constructor; assumption |].
      constructor; [exact E |].
      eapply Forall_impl; [exact Hy |]. intros z Hz. now apply (before_trans x y z).
    + assert (Hyx : before y x).
      { destruct (before_total x y) as [H | H]; [| exact H].
        apply Qle_bool_iff in H. unfold before in H. congruence. }
      constructor; [now apply IH |].
      rewrite insertBy_Permutation. constructor; assumption.
Qed.

Lemma Array_sort_sorted (l : list T) : StronglySorted before (Array_sort cmp l).
Proof using before_total before_trans.
  unfold Array_sort. induction l as [| x l IH]; [constructor |].
  cbn [foldr]. now apply insertBy_sorted.
Qed.

Lemma StronglySorted_app_before (l1 l2 : list T) :
  StronglySorted before (l1 ++ l2) ->
  StronglySorted before l1 /\ forall x y, x ∈ l1 -> y ∈ l2 -> before x y.
Proof.
  induction l1 as [| a l1 IH]; intros Hs.
  - split; [constructor |]. intros x y Hx. now apply elem_of_nil in Hx.
  - cbn [app] in Hs. apply StronglySorted_inv in Hs as [Hl Ha].
    destruct (IH Hl) as [Hs1 Hcross].
    apply Forall_app in Ha as [Ha1 Ha2]. split.
    + constructor; assumption.
    + intros x y Hx Hy. apply elem_of_cons in Hx as [-> | Hx].
      * rewrite Forall_forall in Ha2. now apply Ha2.
      * now apply Hcross.
Qed.

(** The first [n] of the sorted array: as many as there are, up to [n];
    in order; and none of the others may stand only before them. *)
Lemma sorted_prefix_selects (items : list T) (n : nat) :
  let selected := slice 0 n (Array_sort cmp items) in
  length selected = min n (length items)
  /\ StronglySorted before selected
  /\ exists rest,
       items ≡ₚ selected ++ rest
       /\ forall x y, x ∈ selected -> y ∈ rest -> before x y.
Proof using before_total before_trans.
  cbn zeta. rewrite slice_0.
  pose proof (Array_sort_sorted items) as Hs.
  pose proof (Array_sort_Permutation cmp items) as Hp.
  rewrite <- (take_drop n (Array_sort cmp items)) in Hs.
  apply StronglySorted_app_before in Hs as [Hs Hcross].
  split; [rewrite length_take, (Permutation_length Hp); reflexivity |].
  split; [exact Hs |].
  exists (drop n (Array_sort cmp items)).
  split; [now rewrite take_drop | exact Hcross].
Qed.

End Ordered.

Lemma length_sorted_prefix {T} (cmp : T -> T -> Q) (items : list T) (n : nat) :
  length (slice 0 n (Array_sort cmp items)) = min n (length items).
Proof.
  rewrite slice_0, length_take. now rewrite (Permutation_length (Array_sort_Permutation cmp items)).
Qed.

Lemma length_topN_bottomN {T} (items : list T) (n : nat) (score : T -> number) :
  length (Analyzer.topN items n score) = min n (length items)
  /\ length (Analyzer.bottomN items n score) = min n (length items).
Proof. split; apply length_sorted_prefix. Qed.

(** X2.  [topN] returns the [n] best items by score and [bottomN] the [n]
    worst (all of them when there are fewer than [n]): each result is a
    part of the input, every item left out scores no better (no worse)
    than every item selected, and the result is ordered from the best score
    down (from the worst score up). *)
Theorem topN_bottomN_select {T} (items : list T) (n : nat) (score : T -> number) :
  let top := Analyzer.topN items n score in
  let bottom := Analyzer.bottomN items n score in
  length top = min n (length items)
  /\ length bottom = min n (length items)
  /\ StronglySorted (fun a b => (score b <= score a)%Q) top
  /\ StronglySorted (fun a b => (score a <= score b)%Q) bottom
  /\ (exists rest, items ≡ₚ top ++ rest
        /\ forall x y, x ∈ top -> y ∈ rest -> (score y <= score x)%Q)
  /\ (exists rest, items ≡ₚ bottom ++ rest
        /\ forall x y, x ∈ bottom -> y ∈ rest -> (score x <= score y)%Q).
Proof.
  cbn zeta. unfold Analyzer.topN, Analyzer.bottomN.
  destruct (sorted_prefix_selects (fun a b => (score b - score a)%Q)
              ltac:(intros a b; unfold before; destruct (Qlt_le_dec (score a) (score b));
                    [right | left]; lra)
              ltac:(intros a b c; unfold before; lra) items n)
    as (Htl & Hts & trest & Htp & Htc).
  destruct (sorted_prefix_selects (fun a b => (score a - score b)%Q)
              ltac:(intros a b; unfold before; destruct (Qlt_le_dec (score a) (score b));
                    [left | right]; lra)
              ltac:(intros a b c; unfold before; lra) items n)
    as (Hbl & Hbs & brest & Hbp & Hbc).
  split; [exact Htl |]. split; [exact Hbl |].
  split.
  { eapply StronglySorted_weaken; [| exact Hts]. intros a b. unfold before. lra. }
  split.
  { eapply StronglySorted_weaken; [| exact Hbs]. intros a b. unfold before. lra. }
  split.
  - exists trest. split; [exact Htp |]. intros x y Hx Hy.
    specialize (Htc x y Hx Hy). unfold before in Htc. lra.
  - exists brest. split; [exact Hbp |]. intros x y Hx Hy.
    specialize (Hbc x y Hx Hy). unfold before in Hbc. lra.
Qed.

(** ** Flags of one analysis *)

Lemma Qltb_ge (x y : Q) : Qltb x y = false <-> (y <= x)%Q.
Proof.
  unfold Qltb. rewrite negb_false_iff. apply Qle_bool_iff.
Qed.

Lemma Qleb_gt (x y : Q) : Qleb x y = false <-> (y < x)%Q.
Proof.
  unfold Qleb. rewrite <- not_true_iff_false, Qle_bool_iff.
  split; [apply Qnot_le_lt | apply Qlt_not_le].
Qed.

(** The average that [analyzeStudent] computes for a student. *)
Definition averageOf (student : Student.t) : number :=
  Analyzer.average (map Grade.score (Student.grades student)).

(** The improvement areas that answer a signal of the student's record. *)
Definition signalAreas : list jsstring :=
  [lit "Overall grade average needs improvement";
   lit "Increase class participation";
   lit "Improve assignment completion rate";
   lit "Address recent performance decline"].

Definition weakerSubjectsLine (student : Student.t) : list jsstring :=
  if (0 <? length (Analyzer.bottomN (Student.grades student) 2 Grade.score))%nat then
    [lit "Focus on weaker subjects: "
     ++ join (lit ", ")
          (map Grade.subject (Analyzer.bottomN (Student.grades student) 2 Grade.score))]
  else [].

Lemma analyzeStudent_improvementAreas (student : Student.t) :
  StudentAnalysis.improvementAreas (Analyzer.analyzeStudent student)
  = (if Qltb (averageOf student) 75
     then [lit "Overall grade average needs improvement"] else [])
    ++ (if Qleb (Student.participationScore student) 6
        then [lit "Increase class participation"] else [])
    ++ (if Qltb (Student.assignmentCompletionRate student) 85
        then [lit "Improve assignment completion rate"] else [])
    ++ (if bool_decide (Student.performanceTrend student = declining)
        then [lit "Address recent performance decline"] else [])
    ++ weakerSubjectsLine student.
Proof.
  unfold Analyzer.analyzeStudent, weakerSubjectsLine, averageOf.
  cbn [StudentAnalysis.improvementAreas].
  rewrite !pushIf_app.
  destruct (0 <? _)%nat; rewrite <- ?app_assoc; [reflexivity |].
  now rewrite app_nil_r.
Qed.

Lemma analyzeStudent_strengths (student : Student.t) :
  StudentAnalysis.strengths (Analyzer.analyzeStudent student)
  = (if Qgeb (averageOf student) 85
     then [lit "Strong overall academic performance"] else [])
    ++ (if Qgeb (Student.participationScore student) 8
        then [lit "Consistent class participation"] else [])
    ++ (if Qgeb (Student.assignmentCompletionRate student) 90
        then [lit "High assignment completion rate"] else [])
    ++ (if bool_decide (Student.performanceTrend student = improving)
        then [lit "Recent performance trend is improving"] else []).
Proof.
  unfold Analyzer.analyzeStudent, averageOf. cbn [StudentAnalysis.strengths].
  rewrite !pushIf_app. now rewrite <- !app_assoc.
Qed.

Lemma weakerSubjectsLine_no_signal (student : Student.t) (area : jsstring) :
  area ∈ weakerSubjectsLine student -> area ∉ signalAreas.
Proof.
  unfold weakerSubjectsLine, signalAreas.
  destruct (0 <? _)%nat; [| intros H; now apply elem_of_nil in H].
  intros H. apply list_elem_of_singleton in H as ->.
  rewrite !elem_of_cons, elem_of_nil. cbn [lit app].
  intros [H | [H | [H | [H | []]]]]; discriminate H.
Qed.

Lemma length_bottomN_grades (grades : list Grade.t) :
  grades <> [] -> (0 <? length (Analyzer.bottomN grades 2 Grade.score))%nat = true.
Proof.
  intros Hne. apply Nat.ltb_lt.
  destruct (length_topN_bottomN grades 2 Grade.score) as [_ ->].
  destruct grades; [congruence | cbn [length]; lia].
Qed.

(** X3.  The flags of one analysis agree with each other.  A student whose
    metrics say [needsAttention] is never classified low; a student
    classified high gets at least one of the four signal-based improvement
    areas; a student classified low gets none of them; and a student with
    at least one grade always gets the line on weaker subjects, so the list
    of improvement areas is not empty.  There are at most four strengths
    and five improvement areas. *)
Theorem analyzeStudent_flags_agree (student : Student.t) :
  let analysis := Analyzer.analyzeStudent student in
  let areas := StudentAnalysis.improvementAreas analysis in
  (StudentMetrics.needsAttention (StudentAnalysis.metrics analysis) = true ->
   StudentAnalysis.riskLevel analysis <> low)
  /\ (StudentAnalysis.riskLevel analysis = high ->
      exists area, area ∈ areas /\ area ∈ signalAreas)
  /\ (StudentAnalysis.riskLevel analysis = low ->
      forall area, area ∈ areas -> area ∉ signalAreas)
  /\ (Student.grades student <> [] ->
      exists line, weakerSubjectsLine student = [line] /\ line ∈ areas)
  /\ (length (StudentAnalysis.strengths analysis) <= 4)%nat
  /\ (length areas <= 5)%nat.
Proof.
  cbn zeta. rewrite riskLevel_unfold, analyzeStudent_improvementAreas,
    analyzeStudent_strengths.
  change (StudentMetrics.averageScore
            (StudentAnalysis.metrics (Analyzer.analyzeStudent student)))
    with (averageOf student).
  change (StudentMetrics.needsAttention
            (StudentAnalysis.metrics (Analyzer.analyzeStudent student)))
    with (Qltb (averageOf student) 75
          || Qltb (Student.assignmentCompletionRate student) 80
          || bool_decide (Student.performanceTrend student = declining)).
  set (avg := averageOf student).
  set (part := Student.participationScore student).
  set (compl := Student.assignmentCompletionRate student).
  set (decl := bool_decide (Student.performanceTrend student = declining)).
  split; [| split; [| split; [| split; [| split]]]].
  - intros Hn.
    destruct (Qltb avg 70 || Qleb part 4 || Qltb compl 70 || decl) eqn:Eh;
      [discriminate |].
    destruct (Qltb avg 80 || Qleb part 6 || Qltb compl 85) eqn:Em; [discriminate |].
    exfalso.
    apply orb_false_iff in Eh as [_ Ed]. rewrite Ed, orb_false_r in Hn.
    apply orb_false_iff in Em as [Em E3]. apply orb_false_iff in Em as [E1 _].
    apply Qltb_ge in E1, E3.
    apply orb_true_iff in Hn as [Hn | Hn]; apply Qltb_lt in Hn; lra.
  - destruct (Qltb avg 70 || Qleb part 4 || Qltb compl 70 || decl) eqn:Eh.
    2: { destruct (Qltb avg 80 || Qleb part 6 || Qltb compl 85); intros H; discriminate H. }
    intros _. unfold signalAreas.
    apply orb_true_iff in Eh as [Eh | Ed].
    + apply orb_true_iff in Eh as [Eh | E3].
      * apply orb_true_iff in Eh as [E1 | E2].
        -- apply Qltb_lt in E1.
           assert (H : Qltb avg 75 = true) by (apply Qltb_lt; lra).
           rewrite H. eexists. split; [apply elem_of_app; left |];
             apply elem_of_cons; now left.
        -- apply Qleb_le in E2.
           assert (H : Qleb part 6 = true) by (apply Qleb_le; lra).
           rewrite H. eexists.
           split; [apply elem_of_app; right; apply elem_of_app; left;
                   apply elem_of_cons; now left |].
           rewrite !elem_of_cons. tauto.
      * apply Qltb_lt in E3.
        assert (H : Qltb compl 85 = true) by (apply Qltb_lt; lra).
        rewrite H. eexists.
        split; [do 2 (apply elem_of_app; right); apply elem_of_app; left;
                apply elem_of_cons; now left |].
        rewrite !elem_of_cons. tauto.
    + rewrite Ed. eexists.
      split; [do 3 (apply elem_of_app; right); apply elem_of_app; left;
              apply elem_of_cons; now left |].
      rewrite !elem_of_cons. tauto.
  - destruct (Qltb avg 70 || Qleb part 4 || Qltb compl 70 || decl) eqn:Eh;
      [discriminate |].
    destruct (Qltb avg 80 || Qleb part 6 || Qltb compl 85) eqn:Em; [discriminate |].
    intros _ area.
    apply orb_false_iff in Eh as [_ Ed]. rewrite Ed.
    apply orb_false_iff in Em as [Em E3]. apply orb_false_iff in Em as [E1 E2].
    rewrite E2, E3.
    apply Qltb_ge in E1.
    assert (H : Qltb avg 75 = false) by (apply Qltb_ge; lra).
    rewrite H. cbn [app]. apply weakerSubjectsLine_no_signal.
  - intros Hne. unfold weakerSubjectsLine at 1.
    pose proof (length_bottomN_grades _ Hne) as Hlen. rewrite Hlen.
    eexists. split; [reflexivity |].
    do 4 (apply elem_of_app; right).
    unfold weakerSubjectsLine. rewrite Hlen. apply elem_of_cons. now left.
  - destruct (Qgeb avg 85), (Qgeb part 8), (Qgeb compl 90),
      (bool_decide (Student.performanceTrend student = improving));
      cbn [length app]; lia.
  - unfold weakerSubjectsLine.
    destruct (Qltb avg 75), (Qleb part 6), (Qltb compl 85), decl, (0 <? _)%nat;
      cbn [length app]; lia.
Qed.

(** ** The class summary *)

Lemma insertBy_map {A B} (f : A -> B) (cmp : B -> B -> Q) (x : A) (l : list A) :
  insertBy cmp (f x) (map f l) = map f (insertBy (fun a b => cmp (f a) (f b)) x l).
Proof.
  induction l as [| y l IH]; [reflexivity |].
  cbn [map insertBy]. destruct (Qle_bool (cmp (f x) (f y)) 0); [reflexivity |].
  cbn [map]. now rewrite IH.
Qed.

Lemma Array_sort_map {A B} (f : A -> B) (cmp : B -> B -> Q) (l : list A) :
  Array_sort cmp (map f l) = map f (Array_sort (fun a b => cmp (f a) (f b)) l).
Proof.
  unfold Array_sort. induction l as [| x l IH]; [reflexivity |].
  cbn [map foldr]. now rewrite IH, insertBy_map.
Qed.

Lemma slice_map {A B} (f : A -> B) (start stop : nat) (l : list A) :
  slice start stop (map f l) = map f (slice start stop l).
Proof. unfold slice. now rewrite <- (fmap_drop f), <- (fmap_take f). Qed.

(** The students that the class summary lists for attention. *)
Definition flagged (student : Student.t) : bool :=
  Qltb (averageOf student) 75
  || Qltb (Student.assignmentCompletionRate student) 80
  || Qleb (Student.participationScore student) 4
  || bool_decide (Student.performanceTrend student = declining).

Lemma flagged_analysis (student : Student.t) :
  let analysis := Analyzer.analyzeStudent student in
  StudentMetrics.needsAttention (StudentAnalysis.metrics analysis) = true
  \/ StudentAnalysis.riskLevel analysis = high
  <-> flagged student = true.
Proof.
  cbn zeta. rewrite riskLevel_unfold.
  change (StudentMetrics.averageScore
            (StudentAnalysis.metrics (Analyzer.analyzeStudent student)))
    with (averageOf student).
  change (StudentMetrics.needsAttention
            (StudentAnalysis.metrics (Analyzer.analyzeStudent student)))
    with (Qltb (averageOf student) 75
          || Qltb (Student.assignmentCompletionRate student) 80
          || bool_decide (Student.performanceTrend student = declining)).
  unfold flagged.
  set (avg := averageOf student).
  set (part := Student.participationScore student).
  set (compl := Student.assignmentCompletionRate student).
  set (decl := bool_decide (Student.performanceTrend student = declining)).
  assert (H70 : Qltb avg 70 = true -> Qltb avg 75 = true).
  { rewrite !Qltb_lt. lra. }
  assert (H70c : Qltb compl 70 = true -> Qltb compl 80 = true).
  { rewrite !Qltb_lt. lra. }
  destruct (Qltb avg 75), (Qltb compl 80), (Qleb part 4), decl,
    (Qltb avg 70), (Qltb compl 70);
    cbn [orb]; try (split; [reflexivity | tauto]).
  all: try (specialize (H70 eq_refl); discriminate).
  all: try (specialize (H70c eq_refl); discriminate).
  all: destruct (Qltb avg 80 || Qleb part 6 || Qltb compl 85);
    split; intros H; try discriminate; destruct H; discriminate.
Qed.

Lemma attention_roster (students : list Student.t) :
  map (fun a => Student.name (StudentAnalysis.student a))
    (filter (fun a =>
               StudentMetrics.needsAttention (StudentAnalysis.metrics a) = true
               ∨ StudentAnalysis.riskLevel a = high)
       (map Analyzer.analyzeStudent students))
  = map Student.name (List.filter flagged students).
Proof.
  induction students as [| s students IH]; [reflexivity |].
  cbn [map List.filter]. rewrite filter_cons.
  pose proof (flagged_analysis s) as Hs. cbn zeta in Hs.
  destruct (decide _) as [H | H].
  - apply Hs in H. rewrite H. cbn [map]. now rewrite IH.
  - destruct (flagged s); [exfalso; apply H, Hs; reflexivity | exact IH].
Qed.

(** X4.  The class summary of the analysed students, for students with
    scores in the validated range: it lists for attention, in the order of
    the input, exactly the students whose average, as [average] computes it
    in binary64 arithmetic, is below 75, or whose completion rate is below
    80, or whose participation is at most 4, or whose trend is declining;
    its top students are the three best by that average ([topN]); its class
    average is [average] of the students' averages; it has at most two
    notes; and for a class without students it is the average 0 with empty
    lists. *)
Theorem buildTeacherSummary_roster (students : list Student.t) :
  Forall scoresInRange students ->
  let summary := Analyzer.buildTeacherSummary (map Analyzer.analyzeStudent students) in
  TeacherSummary.attentionNeeded summary = map Student.name (List.filter flagged students)
  /\ TeacherSummary.topStudents summary
     = map Student.name (Analyzer.topN students 3 averageOf)
  /\ TeacherSummary.classAverage summary = Analyzer.average (map averageOf students)
  /\ (length (TeacherSummary.notes summary) <= 2)%nat
  /\ Analyzer.buildTeacherSummary []
     = {| TeacherSummary.classAverage := 0;
          TeacherSummary.topStudents := [];
          TeacherSummary.attentionNeeded := [];
          TeacherSummary.notes := [] |}.
Proof.
  intros _. cbn zeta. unfold Analyzer.buildTeacherSummary at 1 2 3 4.
  cbn [TeacherSummary.attentionNeeded TeacherSummary.topStudents
       TeacherSummary.classAverage TeacherSummary.notes].
  split; [apply attention_roster |].
  split.
  { unfold Analyzer.topN. rewrite Array_sort_map, slice_map, map_map. reflexivity. }
  split; [now rewrite map_map |].
  split; [| reflexivity].
  rewrite !pushIf_app. destruct (0 <? _)%nat, (0 <? _)%nat; cbn [length app]; lia.
Qed.

(** A student whose only signal is the average: the exact mean of the four
    scores, 74.995, rounds to 75; the machine computes 74.99. *)
Definition student_S400 : Student.t :=
  {| Student.id := lit "S400";
     Student.name := lit "Fourth Student";
     Student.email := lit "fourth@example.com";
     Student.grades :=
       [Grade.mk (lit "Math") (8413 # 100); Grade.mk (lit "English") (6746 # 100);
        Grade.mk (lit "Science") (7076 # 100); Grade.mk (lit "History") (7763 # 100)];
     Student.participationScore := 8;
     Student.assignmentCompletionRate := 90;
     Student.teacherNotes := lit "";
     Student.performanceTrend := stable;
     Student.lastAssessmentDate := lit "2024-09-01" |}.

Lemma buildTeacherSummary_roster_witness :
  let students := [student_S300; student_S400; student_S200; student_S100] in
  let summary := Analyzer.buildTeacherSummary (map Analyzer.analyzeStudent students) in
  Forall scoresInRange students
  /\ averageOf student_S400 = Double.round (7499 # 100)
  /\ TeacherSummary.attentionNeeded summary = [lit "Fourth Student"; lit "Test Student"]
  /\ TeacherSummary.topStudents summary
     = [lit "Third Student"; lit "Test Student"; lit "Second Student"].
Proof.
  cbv zeta.
  assert (Hrange : Forall scoresInRange
                     [student_S300; student_S400; student_S200; student_S100]).
  { repeat (constructor; [apply scoresInRange_test; reflexivity |]). constructor. }
  destruct (buildTeacherSummary_roster
              [student_S300; student_S400; student_S200; student_S100] Hrange)
    as (Hroster & Htop & _).
  split; [exact Hrange |].
  split; [vm_compute; reflexivity |].
  split; [rewrite Hroster | rewrite Htop]; vm_compute; reflexivity.
Defined.


(* ================================================================== *)
(** * Further properties of the output contract *)
(* ================================================================== *)

(** ** What a successful validation guarantees *)

Lemma safeString_Some (v : option JSON) (maxLen : nat) (s : jsstring) :
  Insights.safeString v maxLen = Some s ->
  exists t, v = Some (JString t) /\ truthy (trim t) = true /\ s = take maxLen (trim t).
Proof.
  unfold Insights.safeString.
  destruct v as [[| | | t | |] |]; try discriminate.
  destruct (truthy (trim t)) eqn:E; cbn [negb]; [| discriminate].
  intros [= <-]. exists t. split; [reflexivity |]. split; [exact E |].
  destruct (Nat.ltb maxLen (length (trim t))) eqn:El.
  - now rewrite slice_0.
  - apply Nat.ltb_ge in El. now rewrite take_ge.
Qed.

Lemma safeString_length (v : option JSON) (maxLen : nat) (s : jsstring) :
  Insights.safeString v maxLen = Some s -> (length s <= maxLen)%nat.
Proof.
  intros H. apply safeString_Some in H as (t & _ & _ & ->).
  rewrite length_take. lia.
Qed.

Definition lengthAtMost (n : nat) (s : jsstring) : bool := (length s <=? n)%nat.

Lemma cleaned_lengths (items : list JSON) :
  forallb (lengthAtMost 180)
    (Insights.filterBoolean (map (fun item => Insights.safeString (Some item) 180) items))
  = true.
Proof.
  unfold Insights.filterBoolean.
  induction items as [| item items IH]; [reflexivity |].
  cbn [map omap list_omap].
  destruct (Insights.safeString (Some item) 180) as [s |] eqn:E; [| exact IH].
  destruct (Insights.falsy (Some s)); [exact IH |].
  cbn [forallb]. rewrite IH, andb_true_r.
  apply Nat.leb_le. now apply safeString_length in E.
Qed.

Lemma normalizeStringArray_lengths
    (v : option JSON) (min max : nat) (label : jsstring) (items : list jsstring) :
  Insights.normalizeStringArray v min max label = ok items ->
  forallb (lengthAtMost 180) items = true.
Proof.
  unfold Insights.normalizeStringArray.
  destruct v as [[| | | | raw |] |]; try discriminate.
  destruct (_ <? _)%nat; [discriminate |].
  intros [= <-]. rewrite slice_0. apply forallb_take, cleaned_lengths.
Qed.

(** A success of [parseStudentInsights] is made of the six validated
    properties of the parsed object. *)
Lemma parseStudentInsights_ok
    (JSON_parse : jsstring -> Outcome JSON) (raw : jsstring) (value : StudentInsights.t) :
  Insights.parseStudentInsights JSON_parse raw = Returned (ok value) ->
  exists candidate parsed,
    Insights.extractJsonObject raw = Some candidate
    /\ JSON_parse candidate = Returned parsed
    /\ isObjectLike parsed = true
    /\ Insights.safeString (ownProperty parsed (lit "positiveObservation")) 220
       = Some (StudentInsights.positiveObservation value)
    /\ Insights.safeString (ownProperty parsed (lit "nextStepGoal")) 200
       = Some (StudentInsights.nextStepGoal value)
    /\ Insights.safeString (ownProperty parsed (lit "encouragement")) 200
       = Some (StudentInsights.encouragement value)
    /\ Insights.normalizeStringArray (ownProperty parsed (lit "strengths")) 1 3
         (lit "strengths") = ok (StudentInsights.strengths value)
    /\ Insights.normalizeStringArray (ownProperty parsed (lit "improvementAreas")) 1 2
         (lit "improvementAreas") = ok (StudentInsights.improvementAreas value)
    /\ Insights.normalizeStringArray (ownProperty parsed (lit "strategies")) 2 3
         (lit "strategies") = ok (StudentInsights.strategies value).
Proof.
  unfold Insights.parseStudentInsights.
  destruct (Insights.extractJsonObject raw) as [candidate |] eqn:Hextract;
    [| discriminate].
  destruct (negb (truthy candidate)); [discriminate |].
  destruct (JSON_parse candidate) as [parsed | e] eqn:Hparse; [| discriminate].
  destruct (isObjectLike parsed) eqn:Hobject; cbn [negb]; [| discriminate].
  rewrite !getProp_objectLike by assumption.
  cbn [mbind Outcome_bind].
  destruct (0 <? length _)%nat; [discriminate |].
  destruct (Insights.normalizeStringArray (ownProperty parsed (lit "strengths")) _ _ _)
    as [l1 | ?] eqn:E1; [| discriminate].
  destruct (Insights.normalizeStringArray (ownProperty parsed (lit "improvementAreas")) _ _ _)
    as [l2 | ?] eqn:E2; [| discriminate].
  destruct (Insights.normalizeStringArray (ownProperty parsed (lit "strategies")) _ _ _)
    as [l3 | ?] eqn:E3; [| discriminate].
  destruct (Insights.safeString (ownProperty parsed (lit "positiveObservation")) _)
    as [po |] eqn:E4; [| discriminate].
  destruct (Insights.safeString (ownProperty parsed (lit "nextStepGoal")) _)
    as [goal |] eqn:E5; [| discriminate].
  destruct (Insights.safeString (ownProperty parsed (lit "encouragement")) _)
    as [enc |] eqn:E6; [| discriminate].
  intros [= <-]. exists candidate, parsed.
  repeat split; reflexivity || assumption.
Qed.

(** The caps on the size of student insights. *)
Definition studentCaps (i : StudentInsights.t) : bool :=
  lengthAtMost 220 (StudentInsights.positiveObservation i)
  && lengthAtMost 200 (StudentInsights.nextStepGoal i)
  && lengthAtMost 200 (StudentInsights.encouragement i)
  && forallb (lengthAtMost 180) (StudentInsights.strengths i)
  && forallb (lengthAtMost 180) (StudentInsights.improvementAreas i)
  && forallb (lengthAtMost 180) (StudentInsights.strategies i).

(** X5.  Whatever the model answered and whatever [JSON.parse] made of it,
    insights that [parseStudentInsights] accepts meet the contract (three
    non-empty texts; 1 to 3 strengths, 1 to 2 improvement areas, 2 to 3
    strategies, all non-empty) and the caps on size: at most 220 code units
    for the observation, 200 for the goal and the encouragement, 180 for
    every list entry. *)
Theorem parseStudentInsights_sound
    (JSON_parse : jsstring -> Outcome JSON) (raw : jsstring) (value : StudentInsights.t) :
  Insights.parseStudentInsights JSON_parse raw = Returned (ok value) ->
  studentContract value = true /\ studentCaps value = true.
Proof.
  intros Hok.
  destruct (parseStudentInsights_ok _ _ _ Hok)
    as (candidate & parsed & Hextract & Hparse & Hobject
        & Hpo & Hgoal & Henc & Hs & Hi & Ht).
  split.
  - destruct (parseStudentInsights_object JSON_parse raw candidate parsed
                Hextract Hparse Hobject) as (r & Hr & Hshape).
    rewrite Hok in Hr. injection Hr as <-. now destruct Hshape.
  - unfold studentCaps.
    rewrite (normalizeStringArray_lengths _ _ _ _ _ Hs),
      (normalizeStringArray_lengths _ _ _ _ _ Hi),
      (normalizeStringArray_lengths _ _ _ _ _ Ht).
    unfold lengthAtMost.
    apply safeString_length, Nat.leb_le in Hpo, Hgoal, Henc.
    now rewrite Hpo, Hgoal, Henc.
Qed.

(** The contract on teacher insights and the caps on their size, as the
    validator of [parseTeacherInsights] enforces them. *)
Definition attentionContract (a : Attention.t) : bool :=
  nonEmptyAfterTrim (Attention.name a) && nonEmptyAfterTrim (Attention.reason a).

Definition attentionCaps (a : Attention.t) : bool :=
  lengthAtMost 80 (Attention.name a) && lengthAtMost 160 (Attention.reason a).

Definition teacherContract (i : TeacherInsights.t) : bool :=
  nonEmptyAfterTrim (TeacherInsights.classOverview i)
  && lengthWithin 1 4 (TeacherInsights.strengths i)
  && lengthWithin 2 4 (TeacherInsights.nextSteps i)
  && forallb nonEmptyAfterTrim (TeacherInsights.strengths i)
  && forallb nonEmptyAfterTrim (TeacherInsights.nextSteps i)
  && forallb attentionContract (TeacherInsights.attentionNeeded i).

Definition teacherCaps (i : TeacherInsights.t) : bool :=
  lengthAtMost 240 (TeacherInsights.classOverview i)
  && forallb (lengthAtMost 180) (TeacherInsights.strengths i)
  && forallb (lengthAtMost 180) (TeacherInsights.nextSteps i)
  && forallb attentionCaps (TeacherInsights.attentionNeeded i).

Lemma safeString_nonEmpty (v : option JSON) (maxLen : nat) (s : jsstring) :
  (0 < maxLen)%nat -> Insights.safeString v maxLen = Some s -> nonEmptyAfterTrim s = true.
Proof.
  intros Hmax H. pose proof (safeString_spec v maxLen Hmax) as Hspec.
  rewrite H in Hspec. tauto.
Qed.

(** One turn of the loop over [attentionNeeded]: it adds a valid entry, or
    it adds a message that names the index. *)
Lemma attentionItem_spec
    (attentionNeeded : list Attention.t) (attentionErrors : list jsstring)
    (index : nat) (item : JSON) :
  (exists entry,
     Insights.attentionItem (attentionNeeded, attentionErrors) index item
     = Returned (attentionNeeded ++ [entry], attentionErrors)
     /\ attentionContract entry = true /\ attentionCaps entry = true)
  \/ (exists suffix,
        Insights.attentionItem (attentionNeeded, attentionErrors) index item
        = Returned (attentionNeeded,
                    attentionErrors
                    ++ [lit "attentionNeeded[" ++ natToString index ++ suffix])).
Proof.
  unfold Insights.attentionItem.
  destruct (isObjectLike item) eqn:Hobject; cbn [negb].
  2: { right. eexists. reflexivity. }
  rewrite !getProp_objectLike by assumption. cbn [mbind Outcome_bind].
  destruct (Insights.safeString (ownProperty item (lit "name")) 80) as [name |] eqn:En.
  2: { right. eexists. reflexivity. }
  destruct (Insights.safeString (ownProperty item (lit "reason")) 160)
    as [reason |] eqn:Er.
  2: { right. cbn [Insights.falsy]. rewrite orb_true_r. eexists. reflexivity. }
  pose proof (safeString_spec (ownProperty item (lit "name")) 80 ltac:(lia)) as Hn.
  rewrite En in Hn.
  pose proof (safeString_spec (ownProperty item (lit "reason")) 160 ltac:(lia)) as Hr.
  rewrite Er in Hr.
  destruct Hn as (_ & Hn & Htn). destruct Hr as (_ & Hr & Htr).
  cbn [Insights.falsy]. rewrite Htn, Htr. cbn [negb orb].
  left. eexists. split; [reflexivity |].
  unfold attentionContract, attentionCaps, lengthAtMost. cbn [Attention.name Attention.reason].
  rewrite Hn, Hr.
  apply safeString_length, Nat.leb_le in En, Er. now rewrite En, Er.
Qed.

Lemma attentionForEach_spec (items : list JSON) (index : nat)
    (attentionNeeded : list Attention.t) (attentionErrors : list jsstring) :
  exists added newErrors,
    Insights.attentionForEach items index (attentionNeeded, attentionErrors)
    = Returned (attentionNeeded ++ added, attentionErrors ++ newErrors)
    /\ forallb attentionContract added = true
    /\ forallb attentionCaps added = true
    /\ (newErrors = [] -> length added = length items).
Proof.
  revert index attentionNeeded attentionErrors.
  induction items as [| item items IH]; intros index attentionNeeded attentionErrors.
  - exists [], []. cbn. rewrite !app_nil_r. repeat split.
  - cbn [Insights.attentionForEach].
    destruct (attentionItem_spec attentionNeeded attentionErrors index item)
      as [(entry & -> & Hc & Hk) | (suffix & ->)]; cbn [mbind Outcome_bind].
    + destruct (IH (S index) (attentionNeeded ++ [entry]) attentionErrors)
        as (added & newErrors & -> & Hac & Hak & Hlen).
      exists (entry :: added), newErrors. rewrite <- app_assoc. cbn [app forallb length].
      rewrite Hc, Hk, Hac, Hak. repeat split. intros Hnil. now rewrite Hlen.
    + destruct (IH (S index) attentionNeeded
                  (attentionErrors
                   ++ [lit "attentionNeeded[" ++ natToString index ++ suffix]))
        as (added & newErrors & -> & Hac & Hak & Hlen).
      exists added, ((lit "attentionNeeded[" ++ natToString index ++ suffix) :: newErrors).
      rewrite <- app_assoc. cbn [app]. repeat split; try assumption. discriminate.
Qed.

(** A success of [parseTeacherInsights] is made of the validated properties
    of the parsed object, with one attention entry for every item of its
    [attentionNeeded] array. *)
Ltac destruct_errors E :=
  match goal with
  | |- context [if (0 <? length ?errors)%nat then Returned (failed ?errors) else _] =>
      destruct (0 <? length errors)%nat eqn:E
  end.

Lemma parseTeacherInsights_ok
    (JSON_parse : jsstring -> Outcome JSON) (raw : jsstring) (value : TeacherInsights.t) :
  Insights.parseTeacherInsights JSON_parse raw = Returned (ok value) ->
  exists candidate parsed items,
    Insights.extractJsonObject raw = Some candidate
    /\ JSON_parse candidate = Returned parsed
    /\ isObjectLike parsed = true
    /\ Insights.safeString (ownProperty parsed (lit "classOverview")) 240
       = Some (TeacherInsights.classOverview value)
    /\ Insights.normalizeStringArray (ownProperty parsed (lit "strengths")) 1 4
         (lit "strengths") = ok (TeacherInsights.strengths value)
    /\ Insights.normalizeStringArray (ownProperty parsed (lit "nextSteps")) 2 4
         (lit "nextSteps") = ok (TeacherInsights.nextSteps value)
    /\ ownProperty parsed (lit "attentionNeeded") = Some (JArray items)
    /\ length (TeacherInsights.attentionNeeded value) = length items
    /\ forallb attentionContract (TeacherInsights.attentionNeeded value) = true
    /\ forallb attentionCaps (TeacherInsights.attentionNeeded value) = true.
Proof.
  unfold Insights.parseTeacherInsights.
  destruct (Insights.extractJsonObject raw) as [candidate |] eqn:Hextract;
    [| discriminate].
  destruct (negb (truthy candidate)); [discriminate |].
  destruct (JSON_parse candidate) as [parsed | e] eqn:Hparse; [| discriminate].
  destruct (isObjectLike parsed) eqn:Hobject; cbn [negb]; [| discriminate].
  rewrite !getProp_objectLike by assumption.
  cbn [mbind Outcome_bind].
  destruct (ownProperty parsed (lit "attentionNeeded")) as [[| | | | items |] |] eqn:Ha;
    cbn [mbind Outcome_bind];
    try (change (0 <? length [lit "attentionNeeded must be an array"])%nat with true;
         cbv iota; rewrite !pushIf_app, !if_failed_app;
         destruct_errors E; [discriminate |];
         apply Nat.ltb_ge in E; rewrite !length_app in E; cbn [length] in E; lia).
  destruct (attentionForEach_spec items 0 [] [])
    as (added & newErrors & -> & Hac & Hak & Hlen).
  cbn [mbind Outcome_bind app].
  rewrite !pushIf_app, !if_failed_app.
  destruct (0 <? length newErrors)%nat eqn:En.
  { destruct_errors E; [discriminate |].
    apply Nat.ltb_ge in E. apply Nat.ltb_lt in En. rewrite !length_app in E. lia. }
  assert (Hnil : newErrors = []) by (destruct newErrors; [reflexivity | discriminate]).
  destruct_errors E; [discriminate |].
  destruct (Insights.normalizeStringArray (ownProperty parsed (lit "strengths")) _ _ _)
    as [l1 | ?] eqn:E1; [| discriminate].
  destruct (Insights.normalizeStringArray (ownProperty parsed (lit "nextSteps")) _ _ _)
    as [l2 | ?] eqn:E2; [| discriminate].
  destruct (Insights.safeString (ownProperty parsed (lit "classOverview")) _)
    as [overview |] eqn:E3; [| discriminate].
  intros [= <-]. exists candidate, parsed, items.
  cbn [TeacherInsights.classOverview TeacherInsights.strengths TeacherInsights.nextSteps
       TeacherInsights.attentionNeeded].
  repeat split; try reflexivity; try assumption. now apply Hlen.
Qed.

(** X6.  Teacher insights that [parseTeacherInsights] accepts meet the
    contract (a non-empty overview; 1 to 4 strengths and 2 to 4 next steps,
    all non-empty; every attention entry with a non-empty name and reason)
    and the caps on size (240 code units for the overview, 180 for a list
    entry, 80 for a name, 160 for a reason); and no item of the
    [attentionNeeded] array is dropped: the result has one entry for each. *)
Theorem parseTeacherInsights_sound
    (JSON_parse : jsstring -> Outcome JSON) (raw : jsstring) (value : TeacherInsights.t) :
  Insights.parseTeacherInsights JSON_parse raw = Returned (ok value) ->
  teacherContract value = true
  /\ teacherCaps value = true
  /\ exists candidate parsed items,
       Insights.extractJsonObject raw = Some candidate
       /\ JSON_parse candidate = Returned parsed
       /\ ownProperty parsed (lit "attentionNeeded") = Some (JArray items)
       /\ length (TeacherInsights.attentionNeeded value) = length items.
Proof.
  intros Hok.
  destruct (parseTeacherInsights_ok _ _ _ Hok)
    as (candidate & parsed & items & Hextract & Hparse & Hobject
        & Ho & Hs & Hn & Ha & Hlen & Hac & Hak).
  pose proof (normalizeStringArray_spec (ownProperty parsed (lit "strengths")) 1 4
                (lit "strengths") ltac:(lia)) as Hs'.
  rewrite Hs in Hs'. destruct Hs' as (_ & Hs1 & Hs2).
  pose proof (normalizeStringArray_spec (ownProperty parsed (lit "nextSteps")) 2 4
                (lit "nextSteps") ltac:(lia)) as Hn'.
  rewrite Hn in Hn'. destruct Hn' as (_ & Hn1 & Hn2).
  split; [| split].
  - unfold teacherContract.
    rewrite (safeString_nonEmpty _ 240 _ ltac:(lia) Ho), Hs1, Hs2, Hn1, Hn2, Hac.
    reflexivity.
  - unfold teacherCaps.
    rewrite (normalizeStringArray_lengths _ _ _ _ _ Hs),
      (normalizeStringArray_lengths _ _ _ _ _ Hn), Hak.
    unfold lengthAtMost. apply safeString_length, Nat.leb_le in Ho. now rewrite Ho.
  - exists candidate, parsed, items. repeat split; assumption.
Qed.

(** Two answers of the model and what [JSON.parse] makes of the candidates
    cut out of them. *)
Definition json_studentInsights : JSON :=
  JObject
    [(lit "positiveObservation", JString (lit "  You keep improving in math. "));
     (lit "strengths", JArray [JString (lit "Consistent class participation")]);
     (lit "improvementAreas", JArray [JString (lit "Science lab reports"); JNull]);
     (lit "strategies",
      JArray [JString (lit "Review notes daily."); JString (lit "   ");
              JString (lit "Ask one question per class.")]);
     (lit "nextStepGoal", JString (lit "Hand in the next lab report on time."));
     (lit "encouragement", JString (lit "Keep going!"))].

Definition json_teacherInsights : JSON :=
  JObject
    [(lit "classOverview", JString (lit "The class is steady."));
     (lit "strengths", JArray [JString (lit "Strong participation")]);
     (lit "attentionNeeded",
      JArray [JObject [(lit "name", JString (lit "Test Student"));
                       (lit "reason", JString (lit "Completion rate fell."))]]);
     (lit "nextSteps",
      JArray [JString (lit "Plan a small-group session.");
              JString (lit "Share one success story.")])].

Definition JSON_parse_insights (text : jsstring) : Outcome JSON :=
  if decide (text = lit "{student}") then Returned json_studentInsights
  else if decide (text = lit "{teacher}") then Returned json_teacherInsights
  else Thrown (SyntaxError (lit "Unexpected token")).

Definition studentInsights_sample : StudentInsights.t :=
  {| StudentInsights.positiveObservation := lit "You keep improving in math.";
     StudentInsights.strengths := [lit "Consistent class participation"];
     StudentInsights.improvementAreas := [lit "Science lab reports"];
     StudentInsights.strategies :=
       [lit "Review notes daily."; lit "Ask one question per class."];
     StudentInsights.nextStepGoal := lit "Hand in the next lab report on time.";
     StudentInsights.encouragement := lit "Keep going!" |}.

Definition teacherInsights_sample : TeacherInsights.t :=
  {| TeacherInsights.classOverview := lit "The class is steady.";
     TeacherInsights.strengths := [lit "Strong participation"];
     TeacherInsights.attentionNeeded :=
       [Attention.mk (lit "Test Student") (lit "Completion rate fell.")];
     TeacherInsights.nextSteps :=
       [lit "Plan a small-group session."; lit "Share one success story."] |}.

Lemma parseStudentInsights_sound_witness :
  Insights.parseStudentInsights JSON_parse_insights (lit "Here you go: {student} Bye.")
  = Returned (ok studentInsights_sample)
  /\ studentContract studentInsights_sample = true
  /\ studentCaps studentInsights_sample = true.
Proof.
  split; [vm_compute; reflexivity |].
  apply (parseStudentInsights_sound JSON_parse_insights
           (lit "Here you go: {student} Bye.") studentInsights_sample).
  vm_compute. reflexivity.
Defined.

Lemma parseTeacherInsights_sound_witness :
  Insights.parseTeacherInsights JSON_parse_insights (lit "{teacher}")
  = Returned (ok teacherInsights_sample)
  /\ teacherContract teacherInsights_sample = true
  /\ teacherCaps teacherInsights_sample = true
  /\ exists candidate parsed items,
       Insights.extractJsonObject (lit "{teacher}") = Some candidate
       /\ JSON_parse_insights candidate = Returned parsed
       /\ ownProperty parsed (lit "attentionNeeded") = Some (JArray items)
       /\ length (TeacherInsights.attentionNeeded teacherInsights_sample) = length items.
Proof.
  split; [vm_compute; reflexivity |].
  apply (parseTeacherInsights_sound JSON_parse_insights (lit "{teacher}")
           teacherInsights_sample).
  vm_compute. reflexivity.
Defined.

(** ** The teacher fallback *)

Lemma length_pushWhileBelow (cap : nat) (preferred arr : list jsstring) :
  (length arr <= cap)%nat ->
  (length (Insights.pushWhileBelow cap preferred arr) <= cap)%nat.
Proof.
  unfold Insights.pushWhileBelow. revert arr.
  induction preferred as [| x preferred IH]; intros arr Harr; [exact Harr |].
  cbn [fold_left]. apply IH.
  destruct (length arr <? cap)%nat eqn:E; [| exact Harr].
  apply Nat.ltb_lt in E. rewrite length_app. cbn. lia.
Qed.

(** [preferences?.preferredStrategies ?? []] *)
Definition preferredStrategiesOf (preferences : option TeacherPreferences.t)
  : list jsstring :=
  match preferences with
  | Some preferences =>
      match TeacherPreferences.preferredStrategies preferences with
      | Some items => items
      | None => []
      end
  | None => []
  end.

(** The teacher fallback on clean names and clean preferred strategies. *)
Lemma teacherFallback_contract
    (summary : TeacherSummary.t) (preferences : option TeacherPreferences.t) :
  forallb nonEmptyAfterTrim (TeacherSummary.attentionNeeded summary) = true ->
  forallb nonEmptyAfterTrim (preferredStrategiesOf preferences) = true ->
  let fallback := Insights.buildFallbackTeacherInsights summary preferences in
  teacherContract fallback = true
  /\ map Attention.name (TeacherInsights.attentionNeeded fallback)
     = TeacherSummary.attentionNeeded summary
  /\ length (TeacherInsights.strengths fallback) = 1%nat
  /\ (2 <= length (TeacherInsights.nextSteps fallback) <= 3)%nat.
Proof.
  intros Hnames Hpreferred. cbn zeta.
  unfold Insights.buildFallbackTeacherInsights.
  fold (preferredStrategiesOf preferences).
  cbn [TeacherInsights.attentionNeeded TeacherInsights.strengths
       TeacherInsights.nextSteps].
  set (steps := Insights.pushWhileBelow 2 (preferredStrategiesOf preferences) []).
  assert (Hsteps : forallb nonEmptyAfterTrim steps = true).
  { apply forallb_pushWhileBelow; [exact Hpreferred | reflexivity]. }
  assert (Hlen : (length steps <= 2)%nat).
  { apply length_pushWhileBelow. cbn. lia. }
  set (next := if (length steps <? 2)%nat then _ else steps).
  assert (Hnext : forallb nonEmptyAfterTrim next = true
                  /\ (2 <= length next <= 3)%nat).
  { subst next. destruct (length steps <? 2)%nat eqn:E.
    - apply Nat.ltb_lt in E. rewrite !forallb_app, Hsteps, !length_app.
      split; [reflexivity | cbn [length]; lia].
    - apply Nat.ltb_ge in E. split; [exact Hsteps | lia]. }
  destruct Hnext as [Hnext1 Hnext2].
  assert (Hslice : slice 0 4 next = next).
  { rewrite slice_0. apply take_ge. lia. }
  rewrite Hslice.
  split; [| split; [| split]].
  - unfold teacherContract.
    cbn [TeacherInsights.classOverview TeacherInsights.attentionNeeded
         TeacherInsights.strengths TeacherInsights.nextSteps].
    rewrite !andb_true_iff. repeat split.
    + apply nonEmptyAfterTrim_app_l. reflexivity.
    + now destruct (0 <? _)%nat.
    + unfold lengthWithin. apply andb_true_iff. split; apply Nat.leb_le; lia.
    + destruct (0 <? _)%nat; [| reflexivity].
      cbn [forallb]. rewrite andb_true_r. apply nonEmptyAfterTrim_app_l. reflexivity.
    + exact Hnext1.
    + induction (TeacherSummary.attentionNeeded summary) as [| name names IH];
        [reflexivity |].
      cbn [map forallb] in *. apply andb_true_iff in Hnames as [Hname Hnames].
      unfold attentionContract at 1. cbn [Attention.name Attention.reason].
      rewrite Hname. cbn [andb]. now apply IH.
  - rewrite map_map. cbn [Attention.name]. apply map_id.
  - now destruct (0 <? _)%nat.
  - exact Hnext2.
Qed.

(** X8.  The teacher fallback meets the contract of [parseTeacherInsights]
    whenever the names listed for attention and the teacher's preferred
    strategies are non-empty after trim (the fallback copies both without a
    check): a non-empty overview, one strength, 2 or 3 next steps, and one
    attention entry with a reason for every name listed. *)
Theorem buildFallbackTeacherInsights_contract
    (summary : TeacherSummary.t) (preferences : option TeacherPreferences.t) :
  forallb nonEmptyAfterTrim (TeacherSummary.attentionNeeded summary) = true ->
  forallb nonEmptyAfterTrim (preferredStrategiesOf preferences) = true ->
  let fallback := Insights.buildFallbackTeacherInsights summary preferences in
  teacherContract fallback = true
  /\ map Attention.name (TeacherInsights.attentionNeeded fallback)
     = TeacherSummary.attentionNeeded summary
  /\ length (TeacherInsights.strengths fallback) = 1%nat
  /\ (2 <= length (TeacherInsights.nextSteps fallback) <= 3)%nat.
Proof. apply teacherFallback_contract. Qed.

Definition summary_S100 : TeacherSummary.t :=
  Analyzer.buildTeacherSummary [Analyzer.analyzeStudent student_S100].

Lemma buildFallbackTeacherInsights_contract_witness :
  let fallback := Insights.buildFallbackTeacherInsights summary_S100 None in
  teacherContract fallback = true
  /\ map Attention.name (TeacherInsights.attentionNeeded fallback)
     = TeacherSummary.attentionNeeded summary_S100
  /\ length (TeacherInsights.strengths fallback) = 1%nat
  /\ (2 <= length (TeacherInsights.nextSteps fallback) <= 3)%nat.
Proof.
  apply (buildFallbackTeacherInsights_contract summary_S100 None);
    vm_compute; reflexivity.
Defined.

(** ** Cutting the JSON object out of an answer *)

Lemma indexOf_from_spec (c : N) (text : jsstring) (i : Z) :
  ((c ∉ text) /\ indexOf_from c text i = -1)
  \/ (exists before rest,
        text = before ++ c :: rest /\ (c ∉ before)
        /\ indexOf_from c text i = i + Z.of_nat (length before)).
Proof.
  revert i. induction text as [| x text IH]; intros i.
  - left. split; [apply not_elem_of_nil | reflexivity].
  - cbn [indexOf_from]. destruct (x =? c)%N eqn:E.
    + apply N.eqb_eq in E as ->. right. exists [], text.
      split; [reflexivity |]. split; [apply not_elem_of_nil | cbn; lia].
    + apply N.eqb_neq in E.
      destruct (IH (i + 1)) as [[Hnot ->] | (before & rest & -> & Hnot & ->)].
      * left. split; [| reflexivity]. rewrite elem_of_cons. intros [-> | H]; tauto.
      * right. exists (x :: before), rest. split; [reflexivity |].
        split; [rewrite elem_of_cons; intros [-> | H]; tauto | cbn [length]; lia].
Qed.

Lemma lastIndexOf_from_spec (c : N) (text : jsstring) (i found : Z) :
  ((c ∉ text) /\ lastIndexOf_from c text i found = found)
  \/ (exists pre after,
        text = pre ++ c :: after /\ (c ∉ after)
        /\ lastIndexOf_from c text i found = i + Z.of_nat (length pre)).
Proof.
  revert i found. induction text as [| x text IH]; intros i found.
  - left. split; [apply not_elem_of_nil | reflexivity].
  - cbn [lastIndexOf_from].
    destruct (IH (i + 1) (if (x =? c)%N then i else found))
      as [[Hnot ->] | (pre & after & -> & Hnot & ->)].
    + destruct (x =? c)%N eqn:E.
      * apply N.eqb_eq in E as ->. right. exists [], text.
        split; [reflexivity |]. split; [exact Hnot | cbn; lia].
      * apply N.eqb_neq in E. left. split; [| reflexivity].
        rewrite elem_of_cons. intros [-> | H]; tauto.
    + right. exists (x :: pre), after. split; [reflexivity |].
      split; [exact Hnot | cbn [length]; lia].
Qed.

Lemma lastIndexOf_from_snoc (c : N) (l : jsstring) (i found : Z) :
  lastIndexOf_from c (l ++ [c]) i found = i + Z.of_nat (length l).
Proof.
  revert i found. induction l as [| x l IH]; intros i found.
  - cbn. rewrite N.eqb_refl. lia.
  - cbn [app lastIndexOf_from length]. rewrite IH. lia.
Qed.

(** An opening brace with a closing brace somewhere after it. *)
Definition bracePair (text : list N) : Prop :=
  exists i j : nat, (i < j)%nat /\ text !! i = Some 123%N /\ text !! j = Some 125%N.

(** X7.  [extractJsonObject] cuts from the first opening brace to the last
    closing brace: when it returns a candidate, the text is the candidate
    between a part without opening brace and a part without closing brace,
    the candidate starts with an opening and ends with a closing brace, and
    extracting again from the candidate gives the candidate back.  It
    returns [null] exactly when no opening brace is followed by a closing
    brace. *)
Theorem extractJsonObject_cuts (text : jsstring) :
  match Insights.extractJsonObject text with
  | Some candidate =>
      exists before inner after,
        text = before ++ candidate ++ after
        /\ candidate = 123%N :: inner ++ [125%N]
        /\ (123%N ∉ before)
        /\ (125%N ∉ after)
        /\ Insights.extractJsonObject candidate = Some candidate
  | None => ~ bracePair text
  end.
Proof.
  unfold Insights.extractJsonObject at 1, indexOf, lastIndexOf.
  destruct (indexOf_from_spec 123 text 0)
    as [[Hno ->] | (before & rest & Htext & Hbefore & ->)].
  { cbn [Z.eqb orb]. intros (i & j & _ & Hi & _).
    apply Hno. eapply list_elem_of_lookup_2, Hi. }
  destruct (lastIndexOf_from_spec 125 text 0 (-1))
    as [[Hno ->] | (pre & after & Htext' & Hafter & ->)].
  { rewrite orb_true_r. cbn [orb]. intros (i & j & _ & _ & Hj).
    apply Hno. eapply list_elem_of_lookup_2, Hj. }
  destruct (_ || _ || _) eqn:E.
  - apply orb_true_iff in E as [E | E].
    { apply orb_true_iff in E as [E | E]; apply Z.eqb_eq in E; lia. }
    apply Z.leb_le in E.
    intros (i & j & Hij & Hi & Hj).
    assert (Hi' : (length before <= i)%nat).
    { destruct (decide (i < length before)%nat) as [Hlt |]; [| lia].
      exfalso. apply Hbefore. rewrite Htext, lookup_app_l in Hi by exact Hlt.
      eapply list_elem_of_lookup_2, Hi. }
    assert (Hj' : (j <= length pre)%nat).
    { destruct (decide (length pre < j)%nat) as [Hlt |]; [| lia].
      exfalso. apply Hafter. rewrite Htext', lookup_app_r in Hj by lia.
      destruct (j - length pre)%nat as [| k] eqn:Ek; [lia |].
      cbn in Hj. eapply list_elem_of_lookup_2, Hj. }
    lia.
  - apply orb_false_iff in E as [_ E]. apply Z.leb_gt in E.
    assert (Hsplit : exists inner, pre = before ++ 123%N :: inner
                                   /\ rest = inner ++ 125%N :: after).
    { rewrite Htext in Htext'.
      apply app_eq_inv in Htext' as [(k & -> & Hk) | (k & -> & Hk)].
      - rewrite length_app in E. destruct k as [| y k]; [| cbn [length] in E; lia].
        cbn [app] in Hk. injection Hk as Hk _. discriminate Hk.
      - destruct k as [| y k]; [rewrite length_app in E; cbn [length] in E; lia |].
        cbn [app] in Hk. injection Hk as <- ->. now exists k. }
    destruct Hsplit as (inner & -> & ->).
    exists before, inner, after.
    assert (Hcandidate :
      slice (Z.to_nat (0 + Z.of_nat (length before)))
        (Z.to_nat (0 + Z.of_nat (length (before ++ 123%N :: inner)) + 1)) text
      = 123%N :: inner ++ [125%N]).
    { rewrite Htext. unfold slice.
      replace (Z.to_nat (0 + Z.of_nat (length before))) with (length before) by lia.
      rewrite drop_app_length.
      replace (Z.to_nat (0 + Z.of_nat (length (before ++ 123%N :: inner)) + 1)
               - length before)%nat
        with (length (123%N :: inner ++ [125%N])).
      2: { rewrite length_app. cbn [length]. rewrite length_app. cbn [length]. lia. }
      change (123%N :: inner ++ 125%N :: after)
        with ((123%N :: inner) ++ [125%N] ++ after).
      rewrite app_assoc. exact (take_app_length (123%N :: inner ++ [125%N]) after). }
    rewrite Hcandidate.
    split; [rewrite Htext; cbn [app]; now rewrite <- app_assoc |].
    split; [reflexivity |]. split; [exact Hbefore |]. split; [exact Hafter |].
    unfold Insights.extractJsonObject, indexOf, lastIndexOf.
    change (indexOf_from 123 (123%N :: inner ++ [125%N]) 0) with 0.
    change (123%N :: inner ++ [125%N]) with ((123%N :: inner) ++ [125%N]).
    rewrite lastIndexOf_from_snoc.
    destruct (_ || _ || _) eqn:E'.
    { apply orb_true_iff in E' as [E' | E'].
      - apply orb_true_iff in E' as [E' | E']; apply Z.eqb_eq in E'; lia.
      - apply Z.leb_le in E'. cbn [length] in E'. lia. }
    f_equal. unfold slice. change (Z.to_nat 0) with 0%nat. rewrite drop_0.
    replace (Z.to_nat (0 + Z.of_nat (length (123%N :: inner)) + 1) - 0)%nat
      with (length ((123%N :: inner) ++ [125%N])).
    2: { rewrite length_app. cbn [length]. lia. }
    apply firstn_all.
Qed.


(* ================================================================== *)
(** * Further properties of the memory store *)
(* ================================================================== *)

(** ** Saving and loading *)

Lemma asStrings_JStrings (items : list jsstring) :
  asStrings (Some (JStrings items)) = Returned items.
Proof.
  unfold asStrings, JStrings.
  induction items as [| item items IH]; [reflexivity |].
  cbn [map asArrayOf]. rewrite IH. reflexivity.
Qed.

Lemma asHistory_toJSON (history : list MemoryEntry.t) :
  asHistory (Some (JArray (map MemoryEntry_toJSON history))) = Returned history.
Proof.
  unfold asHistory.
  induction history as [| [date note] history IH]; [reflexivity |].
  cbn [map asArrayOf]. rewrite IH. reflexivity.
Qed.

(** The object that [loadStudentMemory] builds from a file that holds what
    [saveStudentMemory] wrote has the saved properties. *)
Lemma saved_properties (memory : StudentMemory.t) (studentId : jsstring) :
  let loaded : JSObject :=
    <[lit "studentId" := JString studentId]>
      (spread (StudentMemory_toJSON memory) ∪ MemoryStore.DEFAULT_STUDENT_MEMORY) in
  loaded !! lit "studentId" = Some (JString studentId)
  /\ loaded !! lit "summary" = Some (JString (StudentMemory.summary memory))
  /\ loaded !! lit "strengths" = Some (JStrings (StudentMemory.strengths memory))
  /\ loaded !! lit "improvementAreas"
     = Some (JStrings (StudentMemory.improvementAreas memory))
  /\ loaded !! lit "goals" = Some (JStrings (StudentMemory.goals memory))
  /\ loaded !! lit "lastUpdated" = Some (JString (StudentMemory.lastUpdated memory))
  /\ loaded !! lit "history"
     = Some (JArray (map MemoryEntry_toJSON (StudentMemory.history memory))).
Proof.
  cbn zeta. split; [apply lookup_insert_eq |].
  repeat split; (rewrite lookup_insert_ne by (vm_compute; discriminate));
    rewrite lookup_union; unfold spread, StudentMemory_toJSON;
    vm_compute; reflexivity.
Qed.

Lemma saveStudentMemory_writes
    (JSON_stringify : JSON -> jsstring) (memoryDir : jsstring)
    (memory : StudentMemory.t) (w : World) :
  let path := MemoryStore.studentMemoryPath memoryDir (StudentMemory.studentId memory) in
  let text := JSON_stringify (StudentMemory_toJSON memory) in
  fs w !! pathJoin [memoryDir; lit "students"] <> Some Locked ->
  fs w !! path <> Some Locked ->
  device w path text = Created text ->
  MemoryStore.saveStudentMemory JSON_stringify memoryDir memory w
  = (Returned (), set_fs (fun files => <[path := TextFile text]> files) w).
Proof.
  intros path text Hdir Hfile Hdevice. subst path text.
  unfold MemoryStore.saveStudentMemory, try_catch, mkdir, writeTextFile,
    mbind, M_bind.
  destruct (fs w !! pathJoin [memoryDir; lit "students"]) as [[data |] |];
    try congruence;
    destruct (fs w !! MemoryStore.studentMemoryPath memoryDir
                        (StudentMemory.studentId memory)) as [[data' |] |];
    try congruence; rewrite Hdevice; reflexivity.
Qed.

(** X9.  What [saveStudentMemory] writes is what [loadStudentMemory] reads
    back.  When neither the directory nor the file of the student is locked,
    the device writes the file completely, and [JSON.parse] inverts
    [JSON.stringify] on the memory object, saving returns, and loading the
    same student from the resulting world returns an object whose typed
    reading is the memory that was saved, leaving that world as it is.
    (The device does not write the file of a student whose id holds a path
    separator: the file would lie in a directory that nobody creates.  The
    error is swallowed, and the next load finds the old memory or the
    default.) *)
Theorem saveStudentMemory_loadStudentMemory
    (JSON_parse : jsstring -> Outcome JSON) (JSON_stringify : JSON -> jsstring)
    (memoryDir : jsstring) (memory : StudentMemory.t) (w : World) :
  let path := MemoryStore.studentMemoryPath memoryDir (StudentMemory.studentId memory) in
  let text := JSON_stringify (StudentMemory_toJSON memory) in
  fs w !! pathJoin [memoryDir; lit "students"] <> Some Locked ->
  fs w !! path <> Some Locked ->
  device w path text = Created text ->
  JSON_parse text = Returned (StudentMemory_toJSON memory) ->
  exists w' loaded,
    MemoryStore.saveStudentMemory JSON_stringify memoryDir memory w = (Returned (), w')
    /\ MemoryStore.loadStudentMemory JSON_parse memoryDir
         (StudentMemory.studentId memory) w' = (Returned loaded, w')
    /\ asStudentMemory loaded = Returned memory.
Proof.
  intros path text Hdir Hfile Hdevice Hjson. subst path text. eexists. eexists.
  split; [now apply saveStudentMemory_writes |].
  rewrite loadStudentMemory_returns. split; [reflexivity |].
  unfold storedProperties. cbn [fs set_fs]. rewrite lookup_insert_eq, Hjson.
  destruct (saved_properties memory (StudentMemory.studentId memory))
    as (H1 & H2 & H3 & H4 & H5 & H6 & H7).
  unfold asStudentMemory.
  rewrite H1, H2, H3, H4, H5, H6, H7.
  cbn [asString mbind Outcome_bind].
  rewrite !asStrings_JStrings. cbn [mbind Outcome_bind].
  rewrite asHistory_toJSON. cbn [mbind Outcome_bind].
  now destruct memory.
Qed.

(** [JSON.stringify] and [JSON.parse] on the one memory object of the
    sample. *)
Definition memory_S100 : StudentMemory.t :=
  MemoryStore.updateStudentMemory clock_sample memory_none student_S100 insights_S100 5.

Definition JSON_stringify_memory (value : JSON) : jsstring := lit "{S100}".

Definition JSON_parse_saved (text : jsstring) : Outcome JSON :=
  if decide (text = lit "{S100}") then Returned (StudentMemory_toJSON memory_S100)
  else Thrown (SyntaxError (lit "Unexpected token")).

Definition world_empty : World :=
  {| fs := ∅; runs := []; student_messages := []; teacher_messages := []; uuids := 0;
     device := reliable |}.

Lemma saveStudentMemory_loadStudentMemory_witness :
  exists w' loaded,
    MemoryStore.saveStudentMemory JSON_stringify_memory (lit "memory") memory_S100
      world_empty = (Returned (), w')
    /\ MemoryStore.loadStudentMemory JSON_parse_saved (lit "memory")
         (StudentMemory.studentId memory_S100) w' = (Returned loaded, w')
    /\ asStudentMemory loaded = Returned memory_S100.
Proof.
  apply (saveStudentMemory_loadStudentMemory JSON_parse_saved JSON_stringify_memory
           (lit "memory") memory_S100 world_empty).
  - unfold world_empty. cbn [fs]. rewrite lookup_empty. discriminate.
  - unfold world_empty. cbn [fs]. rewrite lookup_empty. discriminate.
  - reflexivity.
  - vm_compute. reflexivity.
Defined.

(** A device on which the directory of a file must exist: it opens no file
    whose name, below the directory of the students, holds a separator. *)
Definition device_flat (path contents : jsstring) : Creation :=
  if bool_decide (47%N ∈ drop (length (lit "memory/students/")) path)
  then OpenFailed NotFound else Created contents.

(** The validator admits the id [a/b]; on that device the memory of such a
    student is never stored: saving returns, the error being swallowed, and
    the load that follows finds the default. *)
Example saveStudentMemory_separator :
  let memory :=
    MemoryStore.updateStudentMemory clock_sample memory_none
      {| Student.id := lit "a/b";
         Student.name := Student.name student_S100;
         Student.email := Student.email student_S100;
         Student.grades := Student.grades student_S100;
         Student.participationScore := 5;
         Student.assignmentCompletionRate := 60;
         Student.teacherNotes := lit "";
         Student.performanceTrend := declining;
         Student.lastAssessmentDate := lit "2024-09-01" |} insights_S100 5 in
  let w :=
    {| fs := ∅; runs := []; student_messages := []; teacher_messages := [];
       uuids := 0; device := device_flat |} in
  let saved := MemoryStore.saveStudentMemory JSON_stringify_memory (lit "memory") memory w in
  StudentMemory.studentId memory = lit "a/b"
  /\ saved.1 = Returned ()
  /\ map_to_list (fs saved.2) = []
  /\ (MemoryStore.loadStudentMemory JSON_parse_saved (lit "memory") (lit "a/b") saved.2).1
     = Returned (<[lit "studentId" := JString (lit "a/b")]>
                   MemoryStore.DEFAULT_STUDENT_MEMORY).
Proof. vm_compute. repeat split. Qed.

(** ** The teacher's memory *)

Definition teacherMemoryFields : list jsstring :=
  [lit "summary"; lit "classGoals"; lit "focusAreas"; lit "lastUpdated"; lit "history"].

Definition teacherMemoryLists : list jsstring :=
  [lit "classGoals"; lit "focusAreas"; lit "history"].

Lemma loadTeacherMemory_returns
    (JSON_parse : jsstring -> Outcome JSON) (memoryDir : jsstring) (w : World) :
  MemoryStore.loadTeacherMemory JSON_parse memoryDir w
  = (Returned (storedProperties JSON_parse w (MemoryStore.teacherMemoryPath memoryDir)
               ∪ MemoryStore.DEFAULT_TEACHER_MEMORY), w).
Proof.
  unfold MemoryStore.loadTeacherMemory, storedProperties, try_catch, readTextFile,
    lift, mbind, M_bind, mret, M_ret.
  destruct (fs w !! MemoryStore.teacherMemoryPath memoryDir) as [[data |] |].
  - destruct (JSON_parse data) as [parsed | error].
    + reflexivity.
    + rewrite (left_id_L ∅ (∪)). now destruct error.
  - now rewrite (left_id_L ∅ (∪)).
  - now rewrite (left_id_L ∅ (∪)).
Qed.

(** X12.  [loadTeacherMemory] never throws and changes nothing; the object
    it returns has every property of a [TeacherMemory]: the stored one when
    the file is there, readable, parseable and has it, the default
    otherwise, and the default of each list is the empty array. *)
Theorem loadTeacherMemory_complete
    (JSON_parse : jsstring -> Outcome JSON) (memoryDir : jsstring) (w : World) :
  exists memory : JSObject,
    MemoryStore.loadTeacherMemory JSON_parse memoryDir w = (Returned memory, w)
    /\ (forall key, key ∈ teacherMemoryFields -> is_Some (memory !! key))
    /\ (forall key,
        memory !! key
        = match storedProperties JSON_parse w
                  (MemoryStore.teacherMemoryPath memoryDir) !! key with
          | Some stored => Some stored
          | None => MemoryStore.DEFAULT_TEACHER_MEMORY !! key
          end)
    /\ (forall key, key ∈ teacherMemoryLists ->
        MemoryStore.DEFAULT_TEACHER_MEMORY !! key = Some (JArray [])).
Proof.
  eexists. split; [apply loadTeacherMemory_returns |].
  assert (Hkey : forall key,
    (storedProperties JSON_parse w (MemoryStore.teacherMemoryPath memoryDir)
     ∪ MemoryStore.DEFAULT_TEACHER_MEMORY : JSObject) !! key
    = match storedProperties JSON_parse w
              (MemoryStore.teacherMemoryPath memoryDir) !! key with
      | Some stored => Some stored
      | None => MemoryStore.DEFAULT_TEACHER_MEMORY !! key
      end).
  { intros key. rewrite lookup_union.
    destruct (storedProperties _ _ _ !! key) as [stored |];
      now destruct (MemoryStore.DEFAULT_TEACHER_MEMORY !! key). }
  split; [| split; [exact Hkey |]].
  - intros key Hin. rewrite Hkey.
    destruct (storedProperties _ _ _ !! key) as [stored |]; [eauto |].
    unfold teacherMemoryFields in Hin. rewrite !elem_of_cons, elem_of_nil in Hin.
    destruct Hin as [-> | [-> | [-> | [-> | [-> | []]]]]]; vm_compute; eauto.
  - intros key Hin.
    unfold teacherMemoryLists in Hin. rewrite !elem_of_cons, elem_of_nil in Hin.
    destruct Hin as [-> | [-> | [-> | []]]]; vm_compute; reflexivity.
Qed.

(** X10.  The snapshot that [updateTeacherMemory] returns takes its summary
    from the insights and its goals and focus areas from the previous
    memory only: each list holds at most 4 entries, none twice, trimmed and
    in the order of first occurrence.  Its history is within a non-negative
    limit; the new entry comes first when the limit is at least 1, and the
    history is empty when the limit is below 1. *)
Theorem updateTeacherMemory_bounded
    (now : jsstring) (previous : TeacherMemory.t) (insights : TeacherInsights.t)
    (historyLimit : number) :
  let memory := MemoryStore.updateTeacherMemory now previous insights historyLimit in
  let newest :=
    {| MemoryEntry.date := now;
       MemoryEntry.note :=
         lit "Next steps: " ++ join (lit "; ") (TeacherInsights.nextSteps insights) |} in
  TeacherMemory.summary memory = TeacherInsights.classOverview insights
  /\ TeacherMemory.lastUpdated memory = now
  /\ cappedDistinct 4 (TeacherMemory.classGoals memory) (TeacherMemory.classGoals previous)
  /\ cappedDistinct 4 (TeacherMemory.focusAreas memory) (TeacherMemory.focusAreas previous)
  /\ ((0 <= historyLimit)%Q ->
      (inject_Z (Z.of_nat (length (TeacherMemory.history memory))) <= historyLimit)%Q)
  /\ ((1 <= historyLimit)%Q ->
      TeacherMemory.history memory
      = newest :: take (Z.to_nat (Qfloor historyLimit) - 1) (TeacherMemory.history previous))
  /\ ((historyLimit < 1)%Q -> TeacherMemory.history memory = []).
Proof.
  cbn zeta. cbn [MemoryStore.updateTeacherMemory TeacherMemory.summary
    TeacherMemory.lastUpdated TeacherMemory.classGoals TeacherMemory.focusAreas
    TeacherMemory.history].
  split; [reflexivity |]. split; [reflexivity |].
  split; [apply uniqueList_cappedDistinct; lia |].
  split; [apply uniqueList_cappedDistinct; lia |].
  split; [intros H; now apply trimHistory_length |].
  split; [intros H; now apply trimHistory_head |].
  intros H. now apply trimHistory_empty.
Qed.

(** ** Lists that are already clean *)

Lemma trimStart_head (s : jsstring) :
  trimStart s = [] \/ exists c r, trimStart s = c :: r /\ visible c = true.
Proof.
  induction s as [| c s IH]; [now left |].
  cbn [trimStart]. destruct (isWhiteSpace c) eqn:E; [exact IH |].
  right. exists c, s. unfold visible. now rewrite E.
Qed.

Lemma trimStart_id (s : jsstring) :
  s = [] \/ (exists c r, s = c :: r /\ visible c = true) -> trimStart s = s.
Proof.
  intros [-> | (c & r & -> & Hc)]; [reflexivity |].
  cbn [trimStart]. unfold visible in Hc. now destruct (isWhiteSpace c).
Qed.

(** [trim] has nothing left to strip from what it returns. *)
Lemma trim_trim (s : jsstring) : trim (trim s) = trim s.
Proof.
  assert (Hstart : trimStart (trim s) = trim s) by apply trimStart_id, trim_head.
  unfold trim at 1, trimEnd. rewrite Hstart.
  unfold trim, trimEnd. rewrite rev_involutive.
  rewrite (trimStart_id (trimStart (rev (trimStart s)))) by apply trimStart_head.
  reflexivity.
Qed.

Lemma cleanedEntries_spec (items : list jsstring) (x : jsstring) :
  x ∈ cleanedEntries items -> trim x = x /\ truthy x = true.
Proof.
  unfold cleanedEntries. intros Hx.
  apply list_elem_of_In, filter_In in Hx as [Hx Ht].
  apply in_map_iff in Hx as (y & <- & _). split; [apply trim_trim | exact Ht].
Qed.

Lemma cleanedEntries_id (l : list jsstring) :
  (forall x, x ∈ l -> trim x = x /\ truthy x = true) -> cleanedEntries l = l.
Proof.
  unfold cleanedEntries. induction l as [| x l IH]; intros Hl; [reflexivity |].
  cbn [map List.filter].
  destruct (Hl x ltac:(apply elem_of_cons; now left)) as [-> ->].
  f_equal. apply IH. intros y Hy. apply Hl, elem_of_cons. now right.
Qed.

Lemma firstOccurrencesFrom_NoDup (seen : gset jsstring) (l : list jsstring) :
  NoDup l -> (forall x, x ∈ l -> x ∉ seen) -> firstOccurrencesFrom seen l = l.
Proof.
  revert seen. induction l as [| x l IH]; intros seen Hnd Hseen; [reflexivity |].
  apply NoDup_cons in Hnd as [Hx Hnd]. cbn [firstOccurrencesFrom].
  destruct (decide (x ∈ seen)) as [Hc | _].
  - exfalso. apply (Hseen x); [apply elem_of_cons; now left | exact Hc].
  - f_equal. apply IH; [exact Hnd |].
    intros y Hy. specialize (Hseen y ltac:(apply elem_of_cons; now right)).
    assert (y <> x) by (intros ->; contradiction). set_solver.
Qed.

(** Whatever the cap, [uniqueList] is the list of first occurrences of the
    cleaned entries, cut after the cap, or after one entry for a cap of 0. *)
Lemma uniqueList_shape (items : list jsstring) (cap : nat) :
  MemoryStore.uniqueList items cap
  = take (Nat.max 1 cap) (firstOccurrences (cleanedEntries items)).
Proof.
  destruct cap as [| cap].
  - unfold MemoryStore.uniqueList. fold (cleanedEntries items).
    unfold firstOccurrences.
    destruct (cleanedEntries items) as [| x rest]; [reflexivity |].
    cbn [MemoryStore.uniqueList_loop firstOccurrencesFrom].
    destruct (decide (x ∈ (∅ : gset jsstring))) as [Hc | _]; [set_solver |].
    reflexivity.
  - rewrite uniqueList_spec by lia. reflexivity.
Qed.

(** X11.  What [uniqueList] returns is clean: every entry is trimmed and
    not empty, and running [uniqueList] with the same cap on its own result
    changes nothing, so the goals and focus areas that each update copies
    from the previous memory are stable from the first update on.  With a
    cap of 0 the loop still keeps one entry: the cap is tested after the
    push. *)
Theorem uniqueList_stable (items : list jsstring) (max : nat) :
  let result := MemoryStore.uniqueList items max in
  (forall x, x ∈ result -> trim x = x /\ truthy x = true)
  /\ MemoryStore.uniqueList result max = result
  /\ MemoryStore.uniqueList items 0 = take 1 (firstOccurrences (cleanedEntries items)).
Proof.
  cbn zeta.
  assert (Hclean : forall x, x ∈ MemoryStore.uniqueList items max ->
                             trim x = x /\ truthy x = true).
  { intros x Hx. rewrite uniqueList_shape in Hx.
    apply (cleanedEntries_spec items).
    eapply elem_of_sublist; [exact Hx |].
    etrans; [apply sublist_take | apply firstOccurrencesFrom_sublist]. }
  split; [exact Hclean |]. split; [| apply uniqueList_shape].
  assert (Hnd : NoDup (MemoryStore.uniqueList items max)).
  { rewrite uniqueList_shape. eapply sublist_NoDup; [| apply sublist_take].
    apply firstOccurrencesFrom_fresh. }
  assert (Hlen : (length (MemoryStore.uniqueList items max) <= Nat.max 1 max)%nat).
  { rewrite uniqueList_shape. apply length_take_le. }
  rewrite (uniqueList_shape (MemoryStore.uniqueList items max) max).
  rewrite (cleanedEntries_id _ Hclean).
  unfold firstOccurrences.
  rewrite firstOccurrencesFrom_NoDup; [| exact Hnd | set_solver].
  now apply take_ge.
Qed.


(* ================================================================== *)
(** * Properties of the input validator *)
(* ================================================================== *)

(** ** What an accepted record guarantees *)

(** A text that is trimmed and not empty. *)
Definition cleanText (s : jsstring) : Prop :=
  nonEmptyAfterTrim s = true /\ trim s = s.

Definition validGrade (g : Grade.t) : Prop :=
  cleanText (Grade.subject g) /\ (0 <= Grade.score g <= 100)%Q.

(** The constraints of [validateStudent] on the record it returns. *)
Definition validStudent (Date_parse : jsstring -> option number) (s : Student.t) : Prop :=
  cleanText (Student.id s)
  /\ cleanText (Student.name s)
  /\ Validator.EMAIL_PATTERN_test (Student.email s) = true
  /\ Student.grades s <> []
  /\ Forall validGrade (Student.grades s)
  /\ (1 <= Student.participationScore s <= 10)%Q
  /\ (0 <= Student.assignmentCompletionRate s <= 100)%Q
  /\ is_Some (Date_parse (Student.lastAssessmentDate s)).

Lemma isNonEmptyString_Some (v : option JSON) :
  Validator.isNonEmptyString v = true ->
  exists s, v = Some (JString s) /\ cleanText (trim s).
Proof.
  unfold Validator.isNonEmptyString.
  destruct v as [[| | | s | |] |]; try discriminate.
  intros H. exists s. split; [reflexivity |].
  unfold cleanText. rewrite nonEmptyAfterTrim_trim, trim_trim. split; [| reflexivity].
  unfold nonEmptyAfterTrim. destruct (trim s); [discriminate | reflexivity].
Qed.

Lemma inRange_Some (v : option JSON) (lo hi : number) :
  Validator.inRange v lo hi = true ->
  exists n, v = Some (JNumber n) /\ (lo <= n <= hi)%Q.
Proof.
  unfold Validator.inRange.
  destruct v as [[| | n | | |] |]; try discriminate.
  intros H. apply andb_true_iff in H as [H1 H2].
  apply Qgeb_ge in H1. apply Qleb_le in H2. eauto.
Qed.

Lemma pieces_nil {T} (l1 l2 : list T) : (length (l1 ++ l2) <= 0)%nat -> l1 = [] /\ l2 = [].
Proof.
  rewrite length_app. destruct l1, l2; cbn; intros; try lia. now split.
Qed.

Lemma piece_nil {T} (c : bool) (x : T) : (if c then [x] else []) = [] -> c = false.
Proof. now destruct c. Qed.

Lemma validateGrade_ok (value : JSON) (index : nat) (g : Grade.t) :
  Validator.validateGrade value index = ok g -> validGrade g.
Proof.
  unfold Validator.validateGrade.
  destruct (Validator.isRecord (Some value)); cbn [negb]; [| discriminate].
  cbv zeta. rewrite !pushIf_app.
  destruct (0 <? length _)%nat eqn:E; [discriminate |].
  apply Nat.ltb_ge in E.
  apply pieces_nil in E as [E E2]. cbn [app] in E.
  apply piece_nil, negb_false_iff in E, E2.
  rewrite E.
  apply isNonEmptyString_Some in E as (s & -> & Hs).
  apply inRange_Some in E2 as (n & -> & Hn).
  cbn [Validator.stringOr Validator.isFiniteNumber Validator.numberOr].
  intros [= <-]. split; assumption.
Qed.

Lemma validateGrade_failed (value : JSON) (index : nat) (errors : list jsstring) :
  Validator.validateGrade value index = failed errors -> errors <> [].
Proof.
  unfold Validator.validateGrade.
  destruct (Validator.isRecord (Some value)); cbn [negb]; [| now intros [= <-]].
  cbv zeta. destruct (0 <? length _)%nat eqn:E; [| discriminate].
  intros [= <-]. now apply length_pos_nonempty.
Qed.

(** The loop over the grades: it adds the valid grades and the messages of
    the others; without a message, no grade was left out. *)
Lemma validateGrades_spec (grades : list JSON) (gradeIndex : nat)
    (validatedGrades : list Grade.t) (errors : list jsstring) :
  exists good bad,
    Validator.validateGrades grades gradeIndex validatedGrades errors
    = (validatedGrades ++ good, errors ++ bad)
    /\ Forall validGrade good
    /\ (bad = [] -> length good = length grades).
Proof.
  revert gradeIndex validatedGrades errors.
  induction grades as [| grade grades IH]; intros gradeIndex validatedGrades errors.
  - exists [], []. cbn. rewrite !app_nil_r. repeat split. constructor.
  - cbn [Validator.validateGrades].
    destruct (Validator.validateGrade grade gradeIndex) as [g | errs] eqn:E.
    + destruct (IH (S gradeIndex) (validatedGrades ++ [g]) errors)
        as (good & bad & -> & Hgood & Hlen).
      exists (g :: good), bad. rewrite <- app_assoc. split; [reflexivity |].
      split; [constructor; [now apply validateGrade_ok in E | exact Hgood] |].
      intros Hbad. cbn [length]. now rewrite Hlen.
    + destruct (IH (S gradeIndex) validatedGrades (errors ++ errs))
        as (good & bad & -> & Hgood & Hlen).
      exists good, (errs ++ bad). rewrite <- app_assoc. split; [reflexivity |].
      split; [exact Hgood |].
      intros Hbad. apply app_eq_nil in Hbad as [Hbad _].
      now apply validateGrade_failed in E.
Qed.

Lemma visible_trim_id (s : jsstring) : forallb visible s = true -> trim s = s.
Proof.
  intros Hall.
  assert (Hstart : forall t : jsstring, forallb visible t = true -> trimStart t = t).
  { intros t Ht. apply trimStart_id. destruct t as [| c r]; [now left |].
    right. exists c, r. cbn in Ht. apply andb_true_iff in Ht as [Hc _]. now split. }
  unfold trim, trimEnd. rewrite (Hstart s Hall).
  rewrite Hstart; [apply rev_involutive |].
  rewrite forallb_forall in *. intros c Hc. apply Hall. now apply in_rev.
Qed.

Lemma takeWhile_drop {T} (p : T -> bool) (l : list T) :
  Validator.takeWhile p l ++ drop (length (Validator.takeWhile p l)) l = l
  /\ forallb p (Validator.takeWhile p l) = true.
Proof.
  induction l as [| x l [IH1 IH2]]; [split; reflexivity |].
  cbn [Validator.takeWhile]. destruct (p x) eqn:E; [| split; reflexivity].
  cbn [length drop app forallb]. rewrite IH1, E, IH2. split; reflexivity.
Qed.

(** An address that matches the pattern has no white space to trim. *)
Lemma EMAIL_PATTERN_trim (s : jsstring) :
  Validator.EMAIL_PATTERN_test s = true -> trim s = s.
Proof.
  unfold Validator.EMAIL_PATTERN_test. intros H. apply visible_trim_id.
  destruct (takeWhile_drop Validator.emailChar s) as [Hs Hlocal].
  destruct (drop _ s) as [| c domain] eqn:Ed; [discriminate |].
  destruct (N.eq_dec c 64%N) as [-> | Hc].
  2: { destruct c as [| p]; [discriminate |].
       do 7 (destruct p as [p | p |]; try discriminate). congruence. }
  apply andb_true_iff in H as [H _]. apply andb_true_iff in H as [_ Hdomain].
  rewrite <- Hs, forallb_app. cbn [forallb].
  assert (Himpl : forall l, forallb Validator.emailChar l = true ->
                            forallb visible l = true).
  { intros l. rewrite !forallb_forall. intros Hl x Hx. specialize (Hl x Hx).
    unfold Validator.emailChar in Hl. apply andb_true_iff in Hl as [_ Hl]. exact Hl. }
  rewrite (Himpl _ Hlocal), (Himpl _ Hdomain). reflexivity.
Qed.

Lemma isValidDate_Some (Date_parse : jsstring -> option number) (v : option JSON) :
  Validator.isValidDate Date_parse v = true ->
  exists s, v = Some (JString s) /\ is_Some (Date_parse s).
Proof.
  unfold Validator.isValidDate.
  destruct (Validator.isNonEmptyString v); cbn [negb]; [| discriminate].
  destruct v as [[| | | s | |] |]; try discriminate.
  intros H. apply bool_decide_eq_true in H. eauto.
Qed.

Lemma validateStudent_ok
    (Date_parse : jsstring -> option number) (value : JSON) (index : nat)
    (student : Student.t) :
  Validator.validateStudent Date_parse value index = ok student ->
  validStudent Date_parse student.
Proof.
  unfold Validator.validateStudent.
  destruct (Validator.isRecord (Some value)); cbn [negb]; [| discriminate].
  cbv zeta. rewrite !pushIf_app.
  change ([] ++ ?l) with l.
  match goal with
  | |- context [let '(_, _) := ?m in _] => destruct m as [grades errors] eqn:Hgrades
  end.
  rewrite !pushIf_app.
  destruct (0 <? length _)%nat eqn:E; [discriminate |].
  apply Nat.ltb_ge, Nat.le_0_r, length_zero_iff_nil in E.
  apply app_eq_nil in E as [E Edate]. apply app_eq_nil in E as [E Etrend].
  apply app_eq_nil in E as [E Enotes]. apply app_eq_nil in E as [E Ecompl].
  apply app_eq_nil in E as [-> Epart].
  apply piece_nil in Edate, Etrend, Enotes, Ecompl, Epart.
  apply negb_false_iff in Edate, Ecompl, Epart.
  destruct (Validator.field (Some value) (lit "grades"))
    as [[| | | | [| g gs] |] |] eqn:Eg;
    try (apply pair_equal_spec in Hgrades as [_ Hbad];
         apply app_eq_nil in Hbad as [_ Hbad]; discriminate Hbad).
  match type of Hgrades with
  | Validator.validateGrades _ _ _ ?e0 = _ =>
      destruct (validateGrades_spec (g :: gs) 0 [] e0)
        as (good & bad & Hspec & Hgood & Hlen)
  end.
  rewrite Hspec in Hgrades. apply pair_equal_spec in Hgrades as [Hg Hbad].
  change ([] ++ good) with good in Hg. subst grades.
  apply app_eq_nil in Hbad as [He0 ->]. specialize (Hlen eq_refl).
  apply app_eq_nil in He0 as [He0 Eemail]. apply app_eq_nil in He0 as [Eid Ename].
  apply piece_nil in Eid, Ename, Eemail.
  apply negb_false_iff in Eid, Ename.
  apply orb_false_iff in Eemail as [Eemail Epattern].
  apply negb_false_iff in Eemail, Epattern.
  rewrite Eid, Ename, Eemail, Edate.
  apply isNonEmptyString_Some in Eid as (id & -> & Hid).
  apply isNonEmptyString_Some in Ename as (name & -> & Hname).
  apply isNonEmptyString_Some in Eemail as (email & Eemail & Hemail).
  rewrite Eemail in *.
  apply inRange_Some in Epart as (participation & -> & Hpart).
  apply inRange_Some in Ecompl as (completion & -> & Hcompl).
  apply isValidDate_Some in Edate as (date & -> & Hdate).
  cbn [Validator.stringOr Validator.isFiniteNumber Validator.numberOr] in *.
  destruct (Validator.parseTrend _) as [trend |]; [| discriminate].
  rewrite (EMAIL_PATTERN_trim _ Epattern).
  intros Hok.
  assert (Hstudent :
    student
    = {| Student.id := trim id;
         Student.name := trim name;
         Student.email := email;
         Student.grades := good;
         Student.participationScore := participation;
         Student.assignmentCompletionRate := completion;
         Student.teacherNotes :=
           Validator.stringOr (Validator.field (Some value) (lit "teacherNotes")) [];
         Student.performanceTrend := trend;
         Student.lastAssessmentDate := date |}) by congruence.
  rewrite Hstudent. unfold validStudent.
  cbn [Student.id Student.name Student.email Student.grades Student.participationScore
       Student.assignmentCompletionRate Student.lastAssessmentDate].
  split; [exact Hid |]. split; [exact Hname |]. split; [exact Epattern |].
  split; [destruct good; [discriminate Hlen | discriminate] |].
  split; [exact Hgood |]. split; [exact Hpart |]. split; [exact Hcompl | exact Hdate].
Qed.

Lemma validateStudent_failed
    (Date_parse : jsstring -> option number) (value : JSON) (index : nat)
    (errors : list jsstring) :
  Validator.validateStudent Date_parse value index = failed errors -> errors <> [].
Proof.
  unfold Validator.validateStudent.
  destruct (Validator.isRecord (Some value)); cbn [negb]; [| now intros [= <-]].
  cbv zeta.
  match goal with
  | |- context [let '(_, _) := ?m in _] => destruct m as [grades errs]
  end.
  destruct (0 <? length _)%nat eqn:E.
  { intros [= <-]. now apply length_pos_nonempty. }
  destruct (Validator.parseTrend _) as [trend |]; [discriminate |].
  exfalso. apply Nat.ltb_ge, Nat.le_0_r, length_zero_iff_nil in E.
  rewrite !pushIf_app in E.
  apply app_eq_nil in E as [E _]. apply app_eq_nil in E as [_ E].
  discriminate E.
Qed.

(** How a message names the item it is about. *)
Definition studentLabel (index : nat) : jsstring :=
  lit "students[" ++ natToString index ++ lit "]".

(** The loop over the items: the accepted students, in order, and the
    messages of the rejected items. *)
Lemma validateEach_spec
    (Date_parse : jsstring -> option number) (data : list JSON) (index : nat)
    (valid : list Student.t) (errors : list jsstring) :
  exists good bad,
    Validator.validateEach Date_parse data index valid errors
    = (valid ++ good, errors ++ bad)
    /\ Forall (validStudent Date_parse) good
    /\ (length good <= length data)%nat
    /\ (bad = [] <-> length good = length data)
    /\ (forall i item,
          data !! i = Some item ->
          is_ok (Validator.validateStudent Date_parse item (index + i)) = false ->
          exists message, message ∈ bad /\ studentLabel (index + i) `prefix_of` message).
Proof.
  revert index valid errors.
  induction data as [| value data IH]; intros index valid errors.
  - exists [], []. cbn [Validator.validateEach]. rewrite !app_nil_r.
    split; [reflexivity |]. split; [constructor |]. split; [reflexivity |].
    split; [tauto |]. intros i item Hi. discriminate Hi.
  - cbn [Validator.validateEach].
    destruct (Validator.validateStudent Date_parse value index) as [student | errs] eqn:E.
    + destruct (IH (S index) (valid ++ [student]) errors)
        as (good & bad & -> & Hgood & Hle & Hall & Hreport).
      exists (student :: good), bad. rewrite <- app_assoc.
      split; [reflexivity |].
      split; [constructor; [now apply validateStudent_ok in E | exact Hgood] |].
      cbn [length]. split; [lia |]. split; [rewrite Hall; lia |].
      intros [| i] item Hi Hbad.
      * cbn in Hi. injection Hi as <-. rewrite Nat.add_0_r, E in Hbad. discriminate.
      * cbn in Hi. replace (index + S i)%nat with (S index + i)%nat in * by lia.
        now apply (Hreport i item).
    + pose proof (validateStudent_failed _ _ _ _ E) as Hne.
      destruct (IH (S index) valid
                  (errors ++ map (fun error =>
                                    Validator.indexedError (lit "students") index (lit ": ")
                                    ++ error) errs))
        as (good & bad & -> & Hgood & Hle & Hall & Hreport).
      eexists good, (_ ++ bad). rewrite <- app_assoc.
      split; [reflexivity |]. split; [exact Hgood |].
      cbn [length]. split; [lia |].
      split.
      { split; [| lia]. intros Hnil. apply app_eq_nil in Hnil as [Hnil _].
        destruct errs; [congruence | discriminate]. }
      intros [| i] item Hi Hbad.
      * destruct errs as [| error errs]; [congruence |].
        exists (Validator.indexedError (lit "students") index (lit ": ") ++ error).
        split; [apply elem_of_app; left; apply elem_of_cons; now left |].
        rewrite Nat.add_0_r. exists (lit ": " ++ error).
        unfold Validator.indexedError, studentLabel.
        change (lit "students[") with (lit "students" ++ lit "[").
        now rewrite <- !app_assoc.
      * cbn in Hi. replace (index + S i)%nat with (S index + i)%nat in * by lia.
        destruct (Hreport i item Hi Hbad) as (message & Hin & Hprefix).
        exists message. split; [apply elem_of_app; now right | exact Hprefix].
Qed.

(** X13.  Every student that [validateStudents] accepts meets the
    constraints of the schema: an id and a name that are trimmed and not
    empty; an e-mail address that matches the pattern; at least one grade,
    each with a clean subject and a score from 0 to 100; a participation
    score from 1 to 10; a completion rate from 0 to 100; and an assessment
    date that [Date.parse] understands. *)
Theorem validateStudents_sound
    (Date_parse : jsstring -> option number) (data : JSON) (student : Student.t) :
  student ∈ (Validator.validateStudents Date_parse data).1 ->
  validStudent Date_parse student.
Proof.
  unfold Validator.validateStudents.
  destruct data as [| | | | items |]; try (intros H; now apply elem_of_nil in H).
  destruct (validateEach_spec Date_parse items 0 [] [])
    as (good & bad & -> & Hgood & _).
  cbn [fst app]. intros Hin. rewrite Forall_forall in Hgood. now apply Hgood.
Qed.

Lemma validateStudents_sound_witness :
  student_S100 ∈ (Validator.validateStudents Date_parse_run
                    (JArray [json_S100; JObject []])).1
  /\ validStudent Date_parse_run student_S100.
Proof.
  assert (Hin : student_S100
                ∈ (Validator.validateStudents Date_parse_run
                     (JArray [json_S100; JObject []])).1).
  { vm_compute. apply elem_of_cons. now left. }
  split; [exact Hin |].
  exact (validateStudents_sound Date_parse_run (JArray [json_S100; JObject []])
           student_S100 Hin).
Defined.

(** X14.  [validateStudents] accounts for every item.  On an array it
    accepts at most as many students as there are items; it reports no
    error exactly when it accepts them all; and for every item it rejects
    there is a message that starts with the position of the item,
    [students[i]].  For a value that is not an array it accepts nothing and
    reports one error. *)
Theorem validateStudents_accounts
    (Date_parse : jsstring -> option number) (data : JSON) :
  let result := Validator.validateStudents Date_parse data in
  match data with
  | JArray items =>
      (length result.1 <= length items)%nat
      /\ (result.2 = [] <-> length result.1 = length items)
      /\ (forall i item,
            items !! i = Some item ->
            is_ok (Validator.validateStudent Date_parse item i) = false ->
            exists message, message ∈ result.2 /\ studentLabel i `prefix_of` message)
  | _ => result = ([], [lit "students.json must be an array of student objects"])
  end.
Proof.
  cbn zeta. destruct data as [| | | | items |]; try reflexivity.
  unfold Validator.validateStudents.
  destruct (validateEach_spec Date_parse items 0 [] [])
    as (good & bad & -> & _ & Hle & Hall & Hreport).
  cbn [fst snd app]. split; [exact Hle |]. split; [exact Hall |].
  intros i item Hi Hbad. now apply (Hreport i item).
Qed.


(* ================================================================== *)
(** * Further properties of delivery, runs and the server *)
(* ================================================================== *)

(** ** Local e-mail files *)

(** The files after an attempt to create one: as they were, or with one new
    file at a path that was free. *)
Definition atMostOneCreated (before after : gmap jsstring FileEntry) : Prop :=
  after = before
  \/ exists path stored, before !! path = None /\ after = <[path := TextFile stored]> before.

(** The retry loop of [writeUniqueEmailFile]: a path that it returns was free
    and now holds what the device stored of the text; when it throws (after
    as many collisions as it has attempts, or with the error of the device)
    at most one file was created, at a path that was free. *)
Lemma writeUniqueEmailFile_loop_spec
    (uuid : nat -> jsstring) (attempts : nat) (dir baseName contents : jsstring)
    (w : World) :
  let settled := Email.writeUniqueEmailFile_loop uuid attempts dir baseName contents w in
  runs settled.2 = runs w
  /\ student_messages settled.2 = student_messages w
  /\ teacher_messages settled.2 = teacher_messages w
  /\ (uuids w <= uuids settled.2 <= uuids w + attempts)%nat
  /\ match settled.1 with
     | Returned path =>
         fs w !! path = None
         /\ exists stored,
              device w path contents = Created stored
              /\ fs settled.2 = <[path := TextFile stored]> (fs w)
     | Thrown e => atMostOneCreated (fs w) (fs settled.2)
     end.
Proof.
  revert w. induction attempts as [| attempts IH]; intros w.
  - cbn. repeat split; try lia. now left.
  - cbn [Email.writeUniqueEmailFile_loop]. cbn zeta.
    rewrite bind_run. cbn [HistoryStore.randomUUID]. rewrite bind_run.
    set (path := pathJoin [dir; baseName ++ lit "-" ++ uuid (uuids w) ++ lit ".txt"]).
    unfold Email.createNew. cbn [fs device set_uuids].
    destruct (fs w !! path) as [entry |] eqn:Hpath.
    + specialize (IH (set_uuids S w)). cbn zeta in IH.
      destruct (Email.writeUniqueEmailFile_loop uuid attempts dir baseName contents
                  (set_uuids S w)) as [[found | e] w'];
        cbn [fst snd runs student_messages teacher_messages uuids fs device set_uuids]
          in *;
        destruct IH as (H1 & H2 & H3 & H4 & H5);
        (split; [exact H1 |]); (split; [exact H2 |]); (split; [exact H3 |]);
        (split; [lia | exact H5]).
    + destruct (device w path contents) as [stored | stored e | e] eqn:Hdevice;
        cbn [mret M_ret fst snd runs student_messages teacher_messages uuids fs
             set_fs set_uuids];
        (split; [reflexivity |]); (split; [reflexivity |]); (split; [reflexivity |]);
        (split; [lia |]).
      * split; [exact Hpath |]. exists stored. split; [exact Hdevice | reflexivity].
      * right. exists path, stored. split; [exact Hpath | reflexivity].
      * now left.
Qed.

(** The text of the file that [sendEmail] writes. *)
Definition emailFile (config : Config.t) (email : EmailContent.t) : jsstring :=
  join Email.newline
    [lit "From: " ++ Config.emailFrom config;
     lit "To: " ++ EmailContent.to email;
     lit "Subject: " ++ EmailContent.subject email;
     lit "";
     EmailContent.text email;
     lit ""].

Lemma sendEmail_spec
    (uuid : nat -> jsstring) (now : jsstring) (config : Config.t)
    (email : EmailContent.t) (w : World) :
  exists saved w',
    Email.sendEmail uuid now config email w = (Returned saved, w')
    /\ runs w' = runs w
    /\ student_messages w' = student_messages w
    /\ teacher_messages w' = teacher_messages w
    /\ (uuids w <= uuids w' <= uuids w + 5)%nat
    /\ match saved with
       | Some path =>
           fs w !! path = None
           /\ exists stored,
                device w path (emailFile config email) = Created stored
                /\ fs w' = <[path := TextFile stored]> (fs w)
       | None => atMostOneCreated (fs w) (fs w')
       end.
Proof.
  unfold Email.sendEmail.
  destruct (Config.emailOutDir config) as [emailOutDir |] eqn:Edir.
  2: { exists None, w. repeat split; try lia. now left. }
  destruct (truthy emailOutDir) eqn:Et; cbn [negb].
  2: { exists None, w. repeat split; try lia. now left. }
  unfold try_catch. rewrite bind_run. unfold mkdir at 1.
  destruct (fs w !! emailOutDir) as [[data |] |] eqn:Ed.
  2: { exists None, w. cbn. repeat split; try lia. now left. }
  all: rewrite bind_run; unfold Email.writeUniqueEmailFile;
    match goal with
    | |- context [Email.writeUniqueEmailFile_loop ?u 5 ?d ?b ?c ?w0] =>
        pose proof (writeUniqueEmailFile_loop_spec u 5 d b c w0) as Hloop;
        cbn zeta in Hloop;
        destruct (Email.writeUniqueEmailFile_loop u 5 d b c w0) as [[path | e] w1]
    end;
    cbn [fst snd] in Hloop; destruct Hloop as (H1 & H2 & H3 & H4 & H5).
  all: first
    [ destruct H5 as (H5 & stored & H6 & H7); exists (Some path), w1;
      cbn [mret M_ret]; repeat split; try assumption; try lia;
      exists stored; split; assumption
    | exists None, w1; cbn [mret M_ret]; repeat split; try assumption; lia ].
Qed.

(** X15.  [sendEmail] never throws and never overwrites a file, whatever the
    device does.  Every path that existed keeps what it held, and at most
    one file is created, at a path that was free.  A path that [sendEmail]
    reports was free before and holds what the device stored of the rendered
    message: the message itself when the write was complete.  It may report
    no path although a file was created: the write threw after the creation.
    Without an output directory it does nothing.  It draws at most five
    UUIDs and touches no table of the history. *)
Theorem sendEmail_never_overwrites
    (uuid : nat -> jsstring) (now : jsstring) (config : Config.t)
    (email : EmailContent.t) (w : World) :
  exists saved w',
    Email.sendEmail uuid now config email w = (Returned saved, w')
    /\ (forall path, is_Some (fs w !! path) -> fs w' !! path = fs w !! path)
    /\ atMostOneCreated (fs w) (fs w')
    /\ match saved with
       | Some path =>
           fs w !! path = None
           /\ exists stored,
                device w path (emailFile config email) = Created stored
                /\ fs w' = <[path := TextFile stored]> (fs w)
       | None => True
       end
    /\ (Config.emailOutDir config = None -> saved = None /\ w' = w)
    /\ runs w' = runs w
    /\ student_messages w' = student_messages w
    /\ teacher_messages w' = teacher_messages w
    /\ (uuids w <= uuids w' <= uuids w + 5)%nat.
Proof.
  destruct (sendEmail_spec uuid now config email w)
    as (saved & w' & Hsend & Hr & Hs & Ht & Hu & Hfs).
  exists saved, w'. split; [exact Hsend |].
  assert (Hone : atMostOneCreated (fs w) (fs w')).
  { destruct saved as [created |]; [| exact Hfs].
    destruct Hfs as (Hnew & stored & _ & Hfs). right. now exists created, stored. }
  split.
  { intros path Hpath. destruct Hone as [-> | (created & stored & Hnew & ->)];
      [reflexivity |].
    rewrite lookup_insert_ne; [reflexivity |].
    intros ->. rewrite Hnew in Hpath. now destruct Hpath. }
  split; [exact Hone |].
  split; [destruct saved; [exact Hfs | exact I] |].
  split; [| tauto].
  intros Hnone. unfold Email.sendEmail in Hsend. rewrite Hnone in Hsend.
  cbn in Hsend. injection Hsend as <- <-. now split.
Qed.

(** A device that creates the file and fails in the middle of the write. *)
Definition device_failing (path contents : jsstring) : Creation :=
  WriteFailed (take 5 contents) (Error (lit "No space left on device")).

Definition config_mail : Config.t :=
  {| Config.emailFrom := lit "Edu Assistant <noreply@local>";
     Config.teacherEmail := lit "teacher@example.com";
     Config.emailOutDir := Some (lit "out");
     Config.teacherRules := None;
     Config.studentsJsonPath := lit "students.json";
     Config.memoryDir := lit "memory";
     Config.memoryHistoryLimit := 5 |}.

(** With that device [sendEmail] reports no path, and a file with the first
    five code units of the message stays behind; with a device without
    faults it reports the path of the file, which holds the message. *)
Example sendEmail_write_fails :
  let email := Email.buildTeacherEmail (lit "teacher@example.com") (lit "Summary") in
  let path := lit "out/2024-09-02T08-00-00-000Z-teacher_example.com-uuid-0.txt" in
  let failed :=
    Email.sendEmail uuid_run clock_sample config_mail email
      {| fs := ∅; runs := []; student_messages := []; teacher_messages := [];
         uuids := 0; device := device_failing |} in
  let sent := Email.sendEmail uuid_run clock_sample config_mail email world_empty in
  failed.1 = Returned None
  /\ map_to_list (fs failed.2) = [(path, TextFile (lit "From:"))]
  /\ sent.1 = Returned (Some path)
  /\ map_to_list (fs sent.2) = [(path, TextFile (emailFile config_mail email))].
Proof. vm_compute. repeat split. Qed.

(** ** A run that cannot load its input *)

(** Once the run is recorded as started, nothing makes the batch throw. *)
Lemma returns_processBatch
    (JSON_parse : jsstring -> Outcome JSON) (JSON_stringify : JSON -> jsstring)
    (uuid : nat -> jsstring) (now : jsstring)
    (generateStudentInsights : StudentAnalysis.t -> JSObject -> Outcome jsstring)
    (generateTeacherSummary : TeacherSummary.t -> JSObject -> Outcome jsstring)
    (config : Config.t) (runId : jsstring) (students : list Student.t) :
  returns (Orchestrator.processBatch JSON_parse JSON_stringify uuid now
             generateStudentInsights generateTeacherSummary config runId students).
Proof.
  assert (Hfinish : forall status, returns (HistoryStore.finishRun now runId status)).
  { intros status. apply returns_try_catch. intros e. apply returns_ret. }
  unfold Orchestrator.processBatch.
  destruct (length students =? 0)%nat; [apply Hfinish |].
  apply returns_bind.
  - intros w.
    destruct (forEachStudent_runs JSON_parse JSON_stringify uuid now
                generateStudentInsights config runId students [] w)
      as (w' & Hloop & _).
    rewrite Hloop. eauto.
  - intros analyses. destruct (length analyses =? 0)%nat; [apply Hfinish |].
    apply returns_bind; [| intros _; apply Hfinish].
    apply returns_try_catch. intros e. apply returns_recordTeacherMessage.
Qed.

(** The error of loading the file of students, if any: the file is missing,
    it cannot be read, or it is not JSON. *)
Definition loadError
    (JSON_parse : jsstring -> Outcome JSON) (path : jsstring) (w : World) : option exn :=
  match fs w !! path with
  | None => Some NotFound
  | Some Locked => Some (Error (lit "Permission denied"))
  | Some (TextFile data) =>
      match JSON_parse data with
      | Thrown e => Some e
      | Returned _ => None
      end
  end.

(** Whether [runOnce] returns is decided by the load of the students. *)
Lemma runOnce_outcome
    (JSON_parse : jsstring -> Outcome JSON) (JSON_stringify : JSON -> jsstring)
    (Date_parse : jsstring -> option number) (uuid : nat -> jsstring) (now : jsstring)
    (generateStudentInsights : StudentAnalysis.t -> JSObject -> Outcome jsstring)
    (generateTeacherSummary : TeacherSummary.t -> JSObject -> Outcome jsstring)
    (config : Config.t) (w : World) :
  match loadError JSON_parse (Config.studentsJsonPath config) w with
  | Some e =>
      RunWithTool.runOnce JSON_parse JSON_stringify Date_parse uuid now
        generateStudentInsights generateTeacherSummary config w
      = (Thrown e, set_uuids S w)
      /\ MainWithMemory.runOnce JSON_parse JSON_stringify Date_parse uuid now
           generateStudentInsights generateTeacherSummary config w
         = (Thrown e, set_uuids S w)
  | None =>
      exists w',
        RunWithTool.runOnce JSON_parse JSON_stringify Date_parse uuid now
          generateStudentInsights generateTeacherSummary config w
        = (Returned (uuid (uuids w)), w')
        /\ MainWithMemory.runOnce JSON_parse JSON_stringify Date_parse uuid now
             generateStudentInsights generateTeacherSummary config w
           = (Returned (), w')
  end.
Proof.
  unfold loadError.
  destruct (fs w !! Config.studentsJsonPath config) as [[data |] |] eqn:Efile.
  - destruct (JSON_parse data) as [raw | e] eqn:Eparse.
    + destruct (runOnce_loaded JSON_parse JSON_stringify Date_parse uuid now
                  generateStudentInsights generateTeacherSummary config w data raw
                  Efile Eparse) as [Htool Hmemory].
      cbv zeta in Htool, Hmemory. rewrite Htool, Hmemory.
      rewrite bind_run.
      match goal with
      | |- context [Orchestrator.processBatch ?a ?b ?c ?d ?e ?f ?g ?h ?i ?w0] =>
          destruct (Orchestrator.processBatch a b c d e f g h i w0) as [[[] | err] w'] eqn:Eb
      end.
      * exists w'. split; reflexivity.
      * exfalso.
        match type of Eb with
        | Orchestrator.processBatch ?a ?b ?c ?d ?e ?f ?g ?h ?i ?w0 = _ =>
            destruct (returns_processBatch a b c d e f g h i w0) as [[] Hret]
        end.
        rewrite Eb in Hret. discriminate Hret.
    + unfold RunWithTool.runOnce, MainWithMemory.runOnce, RunWithTool.loadStudentsRaw,
        MainWithMemory.loadStudents, try_catch, throw.
      rewrite !bind_run. cbn [HistoryStore.randomUUID]. rewrite !bind_run.
      unfold readTextFile, lift. cbn [fs set_uuids]. rewrite Efile, Eparse.
      split; reflexivity.
  - unfold RunWithTool.runOnce, MainWithMemory.runOnce, RunWithTool.loadStudentsRaw,
      MainWithMemory.loadStudents, try_catch, throw.
    rewrite !bind_run. cbn [HistoryStore.randomUUID]. rewrite !bind_run.
    unfold readTextFile. cbn [fs set_uuids]. rewrite Efile.
    split; reflexivity.
  - unfold RunWithTool.runOnce, MainWithMemory.runOnce, RunWithTool.loadStudentsRaw,
      MainWithMemory.loadStudents, try_catch, throw.
    rewrite !bind_run. cbn [HistoryStore.randomUUID]. rewrite !bind_run.
    unfold readTextFile. cbn [fs set_uuids]. rewrite Efile.
    split; reflexivity.
Qed.

(** X17.  When the file of students cannot be loaded, both [runOnce]
    functions throw the error of the load, and the run leaves no trace: it
    has drawn its id, but no row is written for it and no file is touched.
    When the file loads, both return. *)
Theorem runOnce_load_failure
    (JSON_parse : jsstring -> Outcome JSON) (JSON_stringify : JSON -> jsstring)
    (Date_parse : jsstring -> option number) (uuid : nat -> jsstring) (now : jsstring)
    (generateStudentInsights : StudentAnalysis.t -> JSObject -> Outcome jsstring)
    (generateTeacherSummary : TeacherSummary.t -> JSObject -> Outcome jsstring)
    (config : Config.t) (w : World) :
  match loadError JSON_parse (Config.studentsJsonPath config) w with
  | Some e =>
      RunWithTool.runOnce JSON_parse JSON_stringify Date_parse uuid now
        generateStudentInsights generateTeacherSummary config w
      = (Thrown e, set_uuids S w)
      /\ MainWithMemory.runOnce JSON_parse JSON_stringify Date_parse uuid now
           generateStudentInsights generateTeacherSummary config w
         = (Thrown e, set_uuids S w)
  | None =>
      exists w',
        RunWithTool.runOnce JSON_parse JSON_stringify Date_parse uuid now
          generateStudentInsights generateTeacherSummary config w
        = (Returned (uuid (uuids w)), w')
        /\ MainWithMemory.runOnce JSON_parse JSON_stringify Date_parse uuid now
             generateStudentInsights generateTeacherSummary config w
           = (Returned (), w')
  end.
Proof.
  apply runOnce_outcome.
Qed.


(** ** The guard is released *)

(** X18.  When the run in flight settles, the guard of [handleAnalyze] is
    released whatever happened: the flag is cleared by the [finally] block.
    A run that returned is answered 200 with its id and status [completed],
    and its id becomes [lastRunId]; a run that threw (the students could
    not be loaded) is answered 500 with status [failed] and the id of the
    last run that returned, or [unknown].  In both cases the next
    well-formed request is admitted: it starts a run and sets the flag. *)
Theorem handleAnalyze_releases_guard
    (JSON_parse : jsstring -> Outcome JSON) (JSON_stringify : JSON -> jsstring)
    (Date_parse : jsstring -> option number) (uuid : nat -> jsstring) (now : jsstring)
    (generateStudentInsights : StudentAnalysis.t -> JSObject -> Outcome jsstring)
    (generateTeacherSummary : TeacherSummary.t -> JSObject -> Outcome jsstring)
    (config : Config.t) (w : World) (events : list Server.Event) (id : jsstring) :
  let step :=
    Server.step JSON_parse JSON_stringify Date_parse uuid now
      generateStudentInsights generateTeacherSummary config in
  let p :=
    Server.run JSON_parse JSON_stringify Date_parse uuid now
      generateStudentInsights generateTeacherSummary config (Server.initial w) events in
  Server.inflight p = Some id ->
  let settled := (step p Server.RunSettles).1 in
  Server.State.running (Server.state settled) = false
  /\ Server.inflight settled = None
  /\ match loadError JSON_parse (Config.studentsJsonPath config) (Server.world p) with
     | None =>
         (step p Server.RunSettles).2
         = Some (Server.jsonResponse (Server.AnalyzeResponse id (lit "completed")) 200)
         /\ Server.State.lastRunId (Server.state settled) = Some id
     | Some e =>
         (step p Server.RunSettles).2
         = Some (Server.jsonResponse
                   (Server.AnalyzeResponse (Server.lastRunIdOrUnknown (Server.state p))
                      (lit "failed")) 500)
         /\ Server.State.lastRunId (Server.state settled)
            = Server.State.lastRunId (Server.state p)
         /\ Server.world settled = set_uuids S (Server.world p)
     end
  /\ forall payload,
       wellFormed payload = true ->
       step settled (Server.Request payload)
       = ({| Server.state :=
               Server.State.mk true (Server.State.lastRunId (Server.state settled));
             Server.world := Server.world settled;
             Server.inflight := Some (uuid (uuids (Server.world settled))) |},
          None).
Proof.
  intros step p Hin settled.
  destruct (guarded_run JSON_parse JSON_stringify Date_parse uuid now
              generateStudentInsights generateTeacherSummary config
              (Server.initial w) events (guarded_initial uuid w))
    as (_ & Hinflight & _).
  fold p in Hinflight. pose proof (Hinflight id Hin) as Hid.
  pose proof (runOnce_outcome JSON_parse JSON_stringify Date_parse uuid now
                generateStudentInsights generateTeacherSummary config (Server.world p))
    as Hrun.
  assert (Hsettled :
    step p Server.RunSettles
    = match loadError JSON_parse (Config.studentsJsonPath config) (Server.world p) with
      | None =>
          ({| Server.state := Server.State.mk false (Some id);
              Server.world := (step p Server.RunSettles).1.(Server.world);
              Server.inflight := None |},
           Some (Server.jsonResponse (Server.AnalyzeResponse id (lit "completed")) 200))
      | Some e =>
          ({| Server.state :=
                Server.State.mk false (Server.State.lastRunId (Server.state p));
              Server.world := set_uuids S (Server.world p);
              Server.inflight := None |},
           Some (Server.jsonResponse
                   (Server.AnalyzeResponse (Server.lastRunIdOrUnknown (Server.state p))
                      (lit "failed")) 500))
      end).
  { subst step. unfold Server.step. rewrite Hin. unfold Server.runOnce.
    destruct (loadError _ _ _) as [e |].
    - destruct Hrun as [Hrun _]. rewrite Hrun. reflexivity.
    - destruct Hrun as (w' & Hrun & _). rewrite Hrun. cbn.
      rewrite <- Hid. reflexivity. }
  assert (Hclear : Server.State.running (Server.state settled) = false
                   /\ Server.inflight settled = None).
  { subst settled. rewrite Hsettled. now destruct (loadError _ _ _). }
  split; [apply Hclear |]. split; [apply Hclear |].
  split.
  - subst settled. rewrite Hsettled. destruct (loadError _ _ _); cbn; repeat split.
  - intros payload Hwell. subst step. unfold Server.step.
    destruct Hclear as [Hflag _].
    unfold wellFormed in Hwell. destruct payload as [value | e]; [| discriminate].
    apply andb_true_iff in Hwell as [Hrequest Hscope].
    unfold Server.handleAnalyze_enter.
    rewrite Hrequest. cbn [negb]. apply negb_true_iff in Hscope. rewrite Hscope, Hflag.
    reflexivity.
Qed.

(** A run that returns and a run that throws, each with a request behind
    it. *)
Lemma handleAnalyze_releases_guard_witness :
  let step :=
    Server.step JSON_parse_run JSON_stringify_run Date_parse_run uuid_run clock_sample
      generateStudentInsights_run generateTeacherSummary_run config_run in
  let settled := (step server_busy Server.RunSettles).1 in
  Server.inflight server_busy = Some (uuid_run 0)
  /\ Server.State.running (Server.state settled) = false
  /\ Server.inflight settled = None
  /\ match loadError JSON_parse_run (Config.studentsJsonPath config_run)
             (Server.world server_busy) with
     | None =>
         (step server_busy Server.RunSettles).2
         = Some (Server.jsonResponse
                   (Server.AnalyzeResponse (uuid_run 0) (lit "completed")) 200)
         /\ Server.State.lastRunId (Server.state settled) = Some (uuid_run 0)
     | Some e =>
         (step server_busy Server.RunSettles).2
         = Some (Server.jsonResponse
                   (Server.AnalyzeResponse
                      (Server.lastRunIdOrUnknown (Server.state server_busy))
                      (lit "failed")) 500)
         /\ Server.State.lastRunId (Server.state settled)
            = Server.State.lastRunId (Server.state server_busy)
         /\ Server.world settled = set_uuids S (Server.world server_busy)
     end
  /\ forall payload,
       wellFormed payload = true ->
       step settled (Server.Request payload)
       = ({| Server.state :=
               Server.State.mk true (Server.State.lastRunId (Server.state settled));
             Server.world := Server.world settled;
             Server.inflight := Some (uuid_run (uuids (Server.world settled))) |},
          None).
Proof.
  cbv zeta. split; [reflexivity |].
  apply (handleAnalyze_releases_guard JSON_parse_run JSON_stringify_run Date_parse_run
           uuid_run clock_sample generateStudentInsights_run generateTeacherSummary_run
           config_run (world_of "[S100]") [Server.Request (Returned (JObject []))]
           (uuid_run 0)).
  reflexivity.
Defined.


(* ================================================================== *)
(** * Properties of the teacher preferences and of the CORS check *)
(* ================================================================== *)

(** A list of preferences as [sanitizeStringArray] leaves it: absent, or
    not empty with clean entries only. *)
Definition cleanList (items : option (list jsstring)) : Prop :=
  forall l, items = Some l -> l <> [] /\ forall x, x ∈ l -> cleanText x.

Lemma sanitizeStringArray_clean (value : option JSON) :
  cleanList (Rules.sanitizeStringArray value).
Proof.
  unfold Rules.sanitizeStringArray, cleanList.
  destruct value as [[| | | | items |] |]; try discriminate.
  cbv zeta. fold (cleanedEntries (Rules.strings items)).
  destruct (0 <? length _)%nat eqn:E; [| discriminate].
  intros l [= <-]. split; [now apply length_pos_nonempty |].
  intros x Hx. apply cleanedEntries_spec in Hx as [Htrim Htruthy].
  split; [| exact Htrim].
  unfold nonEmptyAfterTrim. now rewrite Htrim.
Qed.

Lemma loadTeacherRules_returns
    (JSON_parse : jsstring -> Outcome JSON) (path : option jsstring) (w : World) :
  exists rules,
    Rules.loadTeacherRules JSON_parse path w = (Returned rules, w)
    /\ forall loaded, rules = Some loaded ->
         exists parsed,
           loaded
           = {| TeacherPreferences.classGoals :=
                  Rules.sanitizeStringArray (ownProperty parsed (lit "classGoals"));
                TeacherPreferences.focusAreas :=
                  Rules.sanitizeStringArray (ownProperty parsed (lit "focusAreas"));
                TeacherPreferences.preferredStrategies :=
                  Rules.sanitizeStringArray (ownProperty parsed (lit "preferredStrategies"));
                TeacherPreferences.tone := Rules.parseTone (ownProperty parsed (lit "tone"));
                TeacherPreferences.teacherNotes :=
                  match ownProperty parsed (lit "teacherNotes") with
                  | Some (JString notes) => Some (trim notes)
                  | _ => None
                  end |}.
Proof.
  unfold Rules.loadTeacherRules.
  destruct path as [path |]; [| exists None; split; [reflexivity | discriminate]].
  destruct (truthy path); cbn [negb];
    [| exists None; split; [reflexivity | discriminate]].
  unfold try_catch. rewrite bind_run. unfold readTextFile.
  destruct (fs w !! path) as [[data |] |];
    try (exists None; split; [reflexivity | discriminate]).
  rewrite bind_run. unfold lift at 1.
  destruct (JSON_parse data) as [parsed | e];
    [| exists None; split; [now destruct e | discriminate]].
  destruct (isObjectLike parsed) eqn:Hobject; cbn [negb];
    [| exists None; split; [reflexivity | discriminate]].
  cbv zeta. rewrite !getProp_objectLike by assumption.
  eexists. split; [reflexivity |].
  intros loaded [= <-]. now exists parsed.
Qed.

(** X19.  [loadTeacherRules] never throws and changes nothing.  Without a
    path it returns no preferences.  The preferences it returns are
    sanitized: each of the three lists is absent or holds at least one
    entry, every entry trimmed and not empty; the notes, when present, are
    trimmed.  In particular the preferred strategies that the fallbacks copy
    are all non-empty. *)
Theorem loadTeacherRules_sanitized
    (JSON_parse : jsstring -> Outcome JSON) (path : option jsstring) (w : World) :
  exists rules,
    Rules.loadTeacherRules JSON_parse path w = (Returned rules, w)
    /\ (path = None -> rules = None)
    /\ (forall loaded, rules = Some loaded ->
          cleanList (TeacherPreferences.classGoals loaded)
          /\ cleanList (TeacherPreferences.focusAreas loaded)
          /\ cleanList (TeacherPreferences.preferredStrategies loaded)
          /\ (forall notes, TeacherPreferences.teacherNotes loaded = Some notes ->
                trim notes = notes))
    /\ forallb nonEmptyAfterTrim (preferredStrategiesOf rules) = true.
Proof.
  destruct (loadTeacherRules_returns JSON_parse path w) as (rules & Hload & Hshape).
  exists rules. split; [exact Hload |].
  split.
  { intros ->. cbn in Hload. now injection Hload as <-. }
  split.
  - intros loaded Hloaded. destruct (Hshape loaded Hloaded) as [parsed ->].
    cbn [TeacherPreferences.classGoals TeacherPreferences.focusAreas
         TeacherPreferences.preferredStrategies TeacherPreferences.teacherNotes].
    split; [apply sanitizeStringArray_clean |].
    split; [apply sanitizeStringArray_clean |].
    split; [apply sanitizeStringArray_clean |].
    intros notes.
    destruct (ownProperty parsed (lit "teacherNotes")) as [[| | | s | |] |];
      try discriminate.
    intros [= <-]. apply trim_trim.
  - destruct rules as [loaded |]; [| reflexivity].
    destruct (Hshape loaded eq_refl) as [parsed ->].
    unfold preferredStrategiesOf. cbn [TeacherPreferences.preferredStrategies].
    pose proof (sanitizeStringArray_clean
                  (ownProperty parsed (lit "preferredStrategies"))) as Hclean.
    clear Hshape Hload.
    destruct (Rules.sanitizeStringArray
                (ownProperty parsed (lit "preferredStrategies"))) as [l |];
      [| reflexivity].
    destruct (Hclean l eq_refl) as [_ Hall].
    apply forallb_forall. intros x Hx. apply list_elem_of_In in Hx. now apply Hall.
Qed.

Lemma split_nonempty (sep : N) (s : jsstring) : Cors.split sep s <> [].
Proof.
  destruct s as [| c rest]; [discriminate |]. cbn [Cors.split].
  destruct (c =? sep)%N; [discriminate |].
  now destruct (Cors.split sep rest).
Qed.

Lemma join_split (sep : N) (s : list N) : join [sep] (Cors.split sep s) = s.
Proof.
  induction s as [| c rest IH]; [reflexivity |].
  cbn [Cors.split]. pose proof (split_nonempty sep rest) as Hne.
  destruct (N.eqb_spec c sep) as [-> | Hc].
  - destruct (Cors.split sep rest) as [| piece pieces]; [congruence |].
    change (join [sep] ([] :: piece :: pieces))
      with (sep :: join [sep] (piece :: pieces)).
    now rewrite IH.
  - destruct (Cors.split sep rest) as [| piece pieces]; [congruence |].
    rewrite <- IH. now destruct pieces.
Qed.

Lemma split_pieces (sep : N) (s piece : list N) :
  piece ∈ Cors.split sep s -> sep ∉ piece.
Proof.
  revert piece. induction s as [| c rest IH]; intros piece.
  - cbn [Cors.split]. intros ->%list_elem_of_singleton. apply not_elem_of_nil.
  - cbn [Cors.split]. destruct (N.eqb_spec c sep) as [-> | Hc].
    + intros [-> | H]%elem_of_cons; [apply not_elem_of_nil | now apply IH].
    + pose proof (split_nonempty sep rest) as Hne.
      destruct (Cors.split sep rest) as [| first pieces]; [congruence |].
      intros [-> | H]%elem_of_cons.
      * intros [E | H]%elem_of_cons; [congruence |].
        revert H. apply IH. left.
      * apply IH. now right.
Qed.

(** X20.  [resolveCorsOrigin] answers ["*"] exactly when the configured
    value is ["*"].  Otherwise the configured value is cut at its commas
    (the pieces, joined by commas, give the value back and hold no comma),
    and the only origin ever allowed is the request's own, when it is not
    empty and equals one of the pieces trimmed; a request without an origin
    is allowed none. *)
Theorem resolveCorsOrigin_allows (requestOrigin : option jsstring) (allowed : jsstring) :
  join (lit ",") (Cors.split 44 allowed) = allowed
  /\ (forall piece, piece ∈ Cors.split 44 allowed -> (44%N ∉ piece))
  /\ (allowed = lit "*" ->
        Cors.resolveCorsOrigin requestOrigin allowed = Some (lit "*"))
  /\ (allowed <> lit "*" ->
        forall origin,
          Cors.resolveCorsOrigin requestOrigin allowed = Some origin
          <-> requestOrigin = Some origin
              /\ origin <> []
              /\ exists piece, piece ∈ Cors.split 44 allowed /\ trim piece = origin).
Proof.
  split; [apply (join_split 44) |].
  split; [intros piece; apply split_pieces |].
  unfold Cors.resolveCorsOrigin.
  split.
  { intros ->. reflexivity. }
  intros Hallowed origin. rewrite bool_decide_eq_false_2 by exact Hallowed.
  destruct requestOrigin as [requested |]; [| split; [discriminate | now intros [? _]]].
  assert (Htruthy : forall s : jsstring, truthy s = true <-> s <> []).
  { intros s. unfold truthy. now destruct s. }
  destruct (truthy requested) eqn:Hrequested; cbn [negb].
  - cbv zeta. rewrite Htruthy in Hrequested.
    destruct (bool_decide_reflect
                (requested ∈ List.filter truthy (map trim (Cors.split 44 allowed))))
      as [Hin | Hout].
    + split.
      * intros [= <-]. split; [reflexivity |]. split; [exact Hrequested |].
        apply list_elem_of_In, filter_In in Hin as [Hin _].
        apply in_map_iff in Hin as (piece & Hpiece & Hin).
        exists piece. split; [now apply list_elem_of_In | exact Hpiece].
      * now intros [[= <-] _].
    + split; [discriminate |].
      intros ([= <-] & _ & piece & Hpiece & Htrim). destruct Hout.
      apply list_elem_of_In, filter_In. split.
      * apply in_map_iff. exists piece. split; [exact Htrim | now apply list_elem_of_In].
      * now apply Htruthy.
  - split; [discriminate |].
    intros ([= <-] & Hne & _). apply Htruthy in Hne. congruence.
Qed.


(* ================================================================== *)
(** * The audit log across a run *)
(* ================================================================== *)

(** [new] is [old] with rows added at its end, each of them satisfying [P]. *)
Definition appended {Row} (P : Row -> Prop) (old new : list Row) : Prop :=
  exists added, new = old ++ added /\ Forall P added.

(** The table [new] has a unique key if [old] has. *)
Definition keyed {Row} (key : Row -> jsstring) (old new : list Row) : Prop :=
  NoDup (map key old) -> NoDup (map key new).

(** What the run [runId] may do to the three tables: add student and
    teacher rows that carry its id; leave every row of [runs] at its
    position, unchanged unless it is the row of this run (whose id stays),
    and add rows of this run only; keep the primary keys unique. *)
Definition audit (runId : jsstring) : relation World := fun w w' =>
  appended (fun row => StudentMessageRow.run_id row = runId)
    (student_messages w) (student_messages w')
  /\ appended (fun row => TeacherMessageRow.run_id row = runId)
       (teacher_messages w) (teacher_messages w')
  /\ (forall (i : nat) row, runs w !! i = Some row ->
        exists row', runs w' !! i = Some row'
                     /\ RunRow.id row' = RunRow.id row
                     /\ (RunRow.id row <> runId -> row' = row))
  /\ (forall (i : nat) row', runs w' !! i = Some row' ->
        (i < length (runs w))%nat \/ RunRow.id row' = runId)
  /\ keyed StudentMessageRow.id (student_messages w) (student_messages w')
  /\ keyed TeacherMessageRow.id (teacher_messages w) (teacher_messages w')
  /\ keyed RunRow.id (runs w) (runs w').

(** A relation that holds across reading and writing files and drawing
    UUIDs. *)
Record lenient (R : relation World) : Prop := {
  lenient_refl : forall w, R w w;
  lenient_trans : forall w1 w2 w3, R w1 w2 -> R w2 w3 -> R w1 w3;
  lenient_fs : forall f w, R w (set_fs f w);
  lenient_uuids : forall w, R w (set_uuids S w)
}.

Lemma appended_refl {Row} (P : Row -> Prop) (rows : list Row) : appended P rows rows.
Proof. exists []. now rewrite app_nil_r. Qed.

Lemma appended_trans {Row} (P : Row -> Prop) (l1 l2 l3 : list Row) :
  appended P l1 l2 -> appended P l2 l3 -> appended P l1 l3.
Proof.
  intros (a1 & -> & H1) (a2 & -> & H2). exists (a1 ++ a2).
  split; [now rewrite app_assoc | now apply Forall_app].
Qed.

Lemma appended_snoc {Row} (P : Row -> Prop) (rows : list Row) (row : Row) :
  P row -> appended P rows (rows ++ [row]).
Proof. intros H. exists [row]. split; [reflexivity | now constructor]. Qed.

Lemma keyed_snoc {Row} (key : Row -> jsstring) (rows : list Row) (row : Row) :
  key row ∉ map key rows -> keyed key rows (rows ++ [row]).
Proof.
  intros Hfresh Hrows. rewrite map_app. apply NoDup_app. split; [exact Hrows |].
  split; [| apply NoDup_singleton].
  intros k Hk ->%list_elem_of_singleton. now apply Hfresh.
Qed.

Lemma audit_refl (runId : jsstring) (w : World) : audit runId w w.
Proof.
  split; [apply appended_refl |]. split; [apply appended_refl |].
  split; [intros i row H; now exists row |].
  split; [intros i row H; left; now apply lookup_lt_Some in H |].
  now unfold keyed.
Qed.

Lemma audit_trans (runId : jsstring) (w1 w2 w3 : World) :
  audit runId w1 w2 -> audit runId w2 w3 -> audit runId w1 w3.
Proof.
  intros (Hs & Ht & Hkept & Hadded & Hks & Hkt & Hkr)
         (Hs' & Ht' & Hkept' & Hadded' & Hks' & Hkt' & Hkr').
  split; [eapply appended_trans; eassumption |].
  split; [eapply appended_trans; eassumption |].
  split.
  { intros i row Hrow.
    destruct (Hkept i row Hrow) as (mid & Hmid & Hid & Hsame).
    destruct (Hkept' i mid Hmid) as (row' & Hrow' & Hid' & Hsame').
    exists row'. split; [exact Hrow' |]. split; [congruence |].
    intros Hother. rewrite Hsame' by (rewrite Hid; exact Hother). now apply Hsame. }
  split.
  { intros i row' Hrow'.
    destruct (Hadded' i row' Hrow') as [Hlt | Hid]; [| now right].
    destruct (lookup_lt_is_Some_2 _ _ Hlt) as [mid Hmid].
    destruct (Hadded i mid Hmid) as [Hlt1 | Hid]; [now left |].
    right. destruct (Hkept' i mid Hmid) as (row'' & Hrow'' & Hid'' & _).
    congruence. }
  unfold keyed in *. auto.
Qed.

Lemma lenient_audit (runId : jsstring) : lenient (audit runId).
Proof.
  split; [apply audit_refl | apply audit_trans | |].
  - intros f w. exact (audit_refl runId w).
  - intros w. exact (audit_refl runId w).
Qed.

(** ** The steps that touch files and UUIDs only *)

Section Keeps.
Context (R : relation World) (HR : lenient R).

Lemma keeps_ret {A} (a : A) : respects R (mret a).
Proof using HR. intros w. apply HR. Qed.

Lemma keeps_throw {A} (e : exn) : respects R (throw (A:=A) e).
Proof using HR. intros w. apply HR. Qed.

Lemma keeps_lift {A} (o : Outcome A) : respects R (lift o).
Proof using HR. intros w. apply HR. Qed.

Lemma keeps_gets {A} (f : World -> A) : respects R (gets f).
Proof using HR. intros w. apply HR. Qed.

Lemma keeps_bind {A B} (m : M A) (k : A -> M B) :
  respects R m -> (forall a, respects R (k a)) -> respects R (m ≫= k).
Proof using HR.
  intros Hm Hk w. rewrite bind_run. specialize (Hm w).
  destruct (m w) as [[a | e] w']; cbn in *; [| exact Hm].
  eapply lenient_trans; [exact HR | exact Hm | apply Hk].
Qed.

Lemma keeps_try_catch {A} (body : M A) (handler : exn -> M A) :
  respects R body -> (forall e, respects R (handler e)) ->
  respects R (try_catch body handler).
Proof using HR.
  intros Hb Hh w. unfold try_catch. specialize (Hb w).
  destruct (body w) as [[a | e] w']; cbn in *; [exact Hb |].
  eapply lenient_trans; [exact HR | exact Hb | apply Hh].
Qed.

Lemma keeps_readTextFile (path : jsstring) : respects R (readTextFile path).
Proof using HR.
  intros w. unfold readTextFile. destruct (fs w !! path) as [[|] |]; apply HR.
Qed.

Lemma keeps_mkdir (dir : jsstring) : respects R (mkdir dir).
Proof using HR.
  intros w. unfold mkdir. destruct (fs w !! dir) as [[|] |]; apply HR.
Qed.

Lemma keeps_writeTextFile (path data : jsstring) :
  respects R (writeTextFile path data).
Proof using HR.
  intros w. unfold writeTextFile.
  destruct (fs w !! path) as [[|] |]; try (cbn; apply HR);
    destruct (device w path data); cbn; apply HR.
Qed.

Lemma keeps_randomUUID (uuid : nat -> jsstring) :
  respects R (HistoryStore.randomUUID uuid).
Proof using HR. intros w. cbn. apply HR. Qed.

Lemma keeps_loadStudentMemory
    (JSON_parse : jsstring -> Outcome JSON) (memoryDir studentId : jsstring) :
  respects R (MemoryStore.loadStudentMemory JSON_parse memoryDir studentId).
Proof using HR. intros w. rewrite loadStudentMemory_returns. apply HR. Qed.

Lemma keeps_loadTeacherMemory
    (JSON_parse : jsstring -> Outcome JSON) (memoryDir : jsstring) :
  respects R (MemoryStore.loadTeacherMemory JSON_parse memoryDir).
Proof using HR.
  apply keeps_try_catch.
  - apply keeps_bind; [apply keeps_readTextFile |]. intros data.
    apply keeps_bind; [apply keeps_lift |]. intros parsed. apply keeps_ret.
  - intros e. destruct e; apply keeps_ret.
Qed.

Lemma keeps_saveStudentMemory
    (JSON_stringify : JSON -> jsstring) (memoryDir : jsstring) (memory : StudentMemory.t) :
  respects R (MemoryStore.saveStudentMemory JSON_stringify memoryDir memory).
Proof using HR.
  apply keeps_try_catch; [| intros; apply keeps_ret].
  apply keeps_bind; [apply keeps_mkdir |]. intros _. apply keeps_writeTextFile.
Qed.

Lemma keeps_saveTeacherMemory
    (JSON_stringify : JSON -> jsstring) (memoryDir : jsstring) (memory : TeacherMemory.t) :
  respects R (MemoryStore.saveTeacherMemory JSON_stringify memoryDir memory).
Proof using HR.
  apply keeps_try_catch; [| intros; apply keeps_ret].
  apply keeps_bind; [apply keeps_mkdir |]. intros _. apply keeps_writeTextFile.
Qed.

Lemma keeps_saveStudentMemoryArchive
    (JSON_stringify : JSON -> jsstring) (memoryDir : jsstring)
    (archive : StudentMemoryArchive.t) :
  respects R (MemoryStore.saveStudentMemoryArchive JSON_stringify memoryDir archive).
Proof using HR.
  apply keeps_try_catch; [| intros; apply keeps_ret].
  apply keeps_bind; [apply keeps_mkdir |]. intros _.
  apply keeps_bind; [apply keeps_writeTextFile |]. intros _. apply keeps_ret.
Qed.

Lemma keeps_saveTeacherMemoryArchive
    (JSON_stringify : JSON -> jsstring) (memoryDir : jsstring)
    (archive : TeacherMemoryArchive.t) :
  respects R (MemoryStore.saveTeacherMemoryArchive JSON_stringify memoryDir archive).
Proof using HR.
  apply keeps_try_catch; [| intros; apply keeps_ret].
  apply keeps_bind; [apply keeps_mkdir |]. intros _.
  apply keeps_bind; [apply keeps_writeTextFile |]. intros _. apply keeps_ret.
Qed.

Lemma keeps_createNew (path contents : jsstring) :
  respects R (Email.createNew path contents).
Proof using HR.
  intros w. unfold Email.createNew.
  destruct (fs w !! path); [apply HR |].
  destruct (device w path contents); cbn; apply HR.
Qed.

Lemma keeps_writeUniqueEmailFile_loop
    (uuid : nat -> jsstring) (attempts : nat) (dir baseName contents : jsstring) :
  respects R (Email.writeUniqueEmailFile_loop uuid attempts dir baseName contents).
Proof using HR.
  induction attempts as [| attempts IH]; [apply keeps_throw |].
  cbn [Email.writeUniqueEmailFile_loop].
  apply keeps_bind; [apply keeps_randomUUID |]. intros suffix.
  apply keeps_bind; [apply keeps_createNew |].
  intros [path |]; [apply keeps_ret | exact IH].
Qed.

Lemma keeps_sendEmail
    (uuid : nat -> jsstring) (now : jsstring) (config : Config.t) (email : EmailContent.t) :
  respects R (Email.sendEmail uuid now config email).
Proof using HR.
  unfold Email.sendEmail. destruct (Config.emailOutDir config) as [dir |];
    [| apply keeps_ret].
  destruct (negb (truthy dir)); [apply keeps_ret |].
  apply keeps_try_catch; [| intros; apply keeps_ret].
  apply keeps_bind; [apply keeps_mkdir |]. intros _.
  apply keeps_bind; [apply keeps_writeUniqueEmailFile_loop |]. intros path.
  apply keeps_ret.
Qed.

End Keeps.

(** ** The steps that write rows *)

Section Audit.
Variable JSON_parse : jsstring -> Outcome JSON.
Variable JSON_stringify : JSON -> jsstring.
Variable Date_parse : jsstring -> option number.
Variable uuid : nat -> jsstring.
Variable now : jsstring.
Variable generateStudentInsights : StudentAnalysis.t -> JSObject -> Outcome jsstring.
Variable generateTeacherSummary : TeacherSummary.t -> JSObject -> Outcome jsstring.
Variable config : Config.t.
Variable runId : jsstring.

Lemma audit_recordStudentMessage (params : StudentMessageParams.t) :
  StudentMessageParams.runId params = runId ->
  respects (audit runId) (HistoryStore.recordStudentMessage uuid now params).
Proof using Type.
  intros Hrun. pose proof (lenient_audit runId) as HR.
  apply keeps_try_catch; [exact HR | | intros; now apply keeps_ret].
  apply keeps_bind; [exact HR | now apply keeps_randomUUID |].
  intros id w. unfold HistoryStore.insertStudentMessage.
  destruct (bool_decide_reflect
              (StudentMessageRow.id
                 {| StudentMessageRow.id := id;
                    StudentMessageRow.run_id := StudentMessageParams.runId params;
                    StudentMessageRow.student_id := StudentMessageParams.studentId params;
                    StudentMessageRow.analysis_json := StudentMessageParams.analysis params;
                    StudentMessageRow.insights_json := StudentMessageParams.insights params;
                    StudentMessageRow.email_subject :=
                      StudentMessageParams.emailSubject params;
                    StudentMessageRow.email_path := StudentMessageParams.emailPath params;
                    StudentMessageRow.status := StudentMessageParams.status params;
                    StudentMessageRow.error := StudentMessageParams.error params;
                    StudentMessageRow.used_fallback :=
                      StudentMessageParams.usedFallback params;
                    StudentMessageRow.created_at := now |}
               ∈ map StudentMessageRow.id (student_messages w))) as [Hdup | Hfresh];
    [apply audit_refl |].
  cbn [snd]. destruct (audit_refl runId w) as (_ & Ht & Hkept & Hadded & _ & Hkt & Hkr).
  split; [apply appended_snoc; exact Hrun |].
  split; [exact Ht |]. split; [exact Hkept |]. split; [exact Hadded |].
  split; [apply keyed_snoc; exact Hfresh |].
  split; [exact Hkt | exact Hkr].
Qed.

Lemma audit_recordTeacherMessage (params : TeacherMessageParams.t) :
  TeacherMessageParams.runId params = runId ->
  respects (audit runId) (HistoryStore.recordTeacherMessage uuid now params).
Proof using Type.
  intros Hrun. pose proof (lenient_audit runId) as HR.
  apply keeps_try_catch; [exact HR | | intros; now apply keeps_ret].
  apply keeps_bind; [exact HR | now apply keeps_randomUUID |].
  intros id w. unfold HistoryStore.insertTeacherMessage.
  destruct (bool_decide_reflect
              (TeacherMessageRow.id
                 {| TeacherMessageRow.id := id;
                    TeacherMessageRow.run_id := TeacherMessageParams.runId params;
                    TeacherMessageRow.summary_json := TeacherMessageParams.summary params;
                    TeacherMessageRow.insights_json := TeacherMessageParams.insights params;
                    TeacherMessageRow.email_subject :=
                      TeacherMessageParams.emailSubject params;
                    TeacherMessageRow.email_path := TeacherMessageParams.emailPath params;
                    TeacherMessageRow.status := TeacherMessageParams.status params;
                    TeacherMessageRow.error := TeacherMessageParams.error params;
                    TeacherMessageRow.used_fallback :=
                      TeacherMessageParams.usedFallback params;
                    TeacherMessageRow.created_at := now |}
               ∈ map TeacherMessageRow.id (teacher_messages w))) as [Hdup | Hfresh];
    [apply audit_refl |].
  cbn [snd]. destruct (audit_refl runId w) as (Hs & _ & Hkept & Hadded & Hks & _ & Hkr).
  split; [exact Hs |].
  split; [apply appended_snoc; exact Hrun |].
  split; [exact Hkept |]. split; [exact Hadded |].
  split; [exact Hks |].
  split; [apply keyed_snoc; exact Hfresh | exact Hkr].
Qed.

Lemma audit_startRun (stats : RunStats.t) :
  RunStats.runId stats = runId ->
  respects (audit runId) (HistoryStore.startRun stats).
Proof using Type.
  intros Hrun. pose proof (lenient_audit runId) as HR.
  apply keeps_try_catch; [exact HR | | intros; now apply keeps_ret].
  intros w. unfold HistoryStore.insertRun.
  destruct (bool_decide_reflect
              (RunRow.id
                 {| RunRow.id := RunStats.runId stats;
                    RunRow.started_at := RunStats.startedAt stats;
                    RunRow.completed_at := None;
                    RunRow.student_count := RunStats.studentCount stats;
                    RunRow.valid_student_count := RunStats.validStudentCount stats;
                    RunRow.status := lit "running" |}
               ∈ map RunRow.id (runs w))) as [Hdup | Hfresh];
    [apply audit_refl |].
  cbn [snd]. destruct (audit_refl runId w) as (Hs & Ht & _ & _ & Hks & Hkt & _).
  split; [exact Hs |]. split; [exact Ht |].
  split.
  { intros i row Hrow. exists row. cbn [runs set_runs].
    split; [| now split].
    rewrite lookup_app_l by (now apply lookup_lt_Some in Hrow). exact Hrow. }
  split.
  { intros i row'. cbn [runs set_runs]. intros Hrow'.
    destruct (decide (i < length (runs w))%nat) as [Hlt | Hge]; [now left |].
    right. rewrite lookup_app_r in Hrow' by lia.
    destruct (i - length (runs w))%nat; [| discriminate].
    injection Hrow' as <-. exact Hrun. }
  split; [exact Hks |]. split; [exact Hkt |].
  apply keyed_snoc. exact Hfresh.
Qed.

Lemma audit_finishRun (status : jsstring) :
  respects (audit runId) (HistoryStore.finishRun now runId status).
Proof using Type.
  intros w. cbn [snd HistoryStore.finishRun].
  unfold HistoryStore.finishRun, try_catch, HistoryStore.updateRun, modify. cbn [snd].
  destruct (audit_refl runId w) as (Hs & Ht & _ & _ & Hks & Hkt & _).
  split; [exact Hs |]. split; [exact Ht |].
  split.
  { intros i row Hrow. cbn [runs set_runs].
    rewrite list_lookup_fmap, Hrow. cbn [fmap option_fmap option_map].
    eexists. split; [reflexivity |].
    destruct (bool_decide_reflect (RunRow.id row = runId)) as [Hid | Hid];
      [| now split].
    split; [reflexivity |]. intros Hother. now destruct Hother. }
  split.
  { intros i row'. cbn [runs set_runs]. intros Hrow'. left.
    apply lookup_lt_Some in Hrow'. now rewrite length_map in Hrow'. }
  split; [exact Hks |]. split; [exact Hkt |].
  unfold keyed. cbn [runs set_runs]. rewrite map_map.
  intros Hrows.
  match goal with
  | |- NoDup (map ?g _) => rewrite (map_ext g RunRow.id); [exact Hrows |]
  end.
  intros row. now destruct (bool_decide (RunRow.id row = runId)).
Qed.

Lemma audit_processStudent (analysis : StudentAnalysis.t) :
  respects (audit runId)
    (Orchestrator.processStudent JSON_parse JSON_stringify uuid now
       generateStudentInsights config runId analysis).
Proof using Type.
  pose proof (lenient_audit runId) as HR.
  apply keeps_try_catch; [exact HR | | intros e; now apply audit_recordStudentMessage].
  apply keeps_bind; [exact HR | now apply keeps_loadStudentMemory |]. intros memory.
  apply keeps_bind; [exact HR | now apply keeps_lift |]. intros rawInsights.
  apply keeps_bind; [exact HR | now apply keeps_lift |]. intros parsed.
  apply keeps_bind; [exact HR | now apply keeps_sendEmail |]. intros emailPath.
  apply keeps_bind; [exact HR | now apply audit_recordStudentMessage |]. intros _.
  apply keeps_bind; [exact HR | now apply keeps_lift |]. intros previous.
  apply keeps_bind; [exact HR | now apply keeps_saveStudentMemory |]. intros _.
  apply keeps_bind; [exact HR | now apply keeps_saveStudentMemoryArchive |]. intros _.
  now apply keeps_ret.
Qed.

Lemma audit_forEachStudent
    (students : list Student.t) (analyses : list StudentAnalysis.t) :
  respects (audit runId)
    (Orchestrator.forEachStudent JSON_parse JSON_stringify uuid now
       generateStudentInsights config runId students analyses).
Proof using Type.
  pose proof (lenient_audit runId) as HR.
  revert analyses. induction students as [| student rest IH]; intros analyses.
  - now apply keeps_ret.
  - cbn [Orchestrator.forEachStudent].
    apply keeps_bind; [exact HR | |].
    + apply keeps_try_catch; [exact HR | now apply keeps_ret |].
      intros e. apply keeps_bind; [exact HR | now apply audit_recordStudentMessage |].
      intros _. now apply keeps_ret.
    + intros [[analysis analyses'] |]; [| apply IH].
      apply keeps_bind; [exact HR | apply audit_processStudent |].
      intros _. apply IH.
Qed.

Lemma audit_teacherStage (analyses : list StudentAnalysis.t) :
  respects (audit runId)
    (Orchestrator.teacherStage JSON_parse JSON_stringify uuid now
       generateTeacherSummary config runId analyses).
Proof using Type.
  pose proof (lenient_audit runId) as HR.
  apply keeps_bind; [exact HR | now apply keeps_loadTeacherMemory |]. intros memory.
  apply keeps_bind; [exact HR | now apply keeps_lift |]. intros rawSummary.
  apply keeps_bind; [exact HR | now apply keeps_lift |]. intros parsed.
  apply keeps_bind; [exact HR | now apply keeps_sendEmail |]. intros emailPath.
  apply keeps_bind; [exact HR | now apply audit_recordTeacherMessage |]. intros _.
  apply keeps_bind; [exact HR | now apply keeps_lift |]. intros previous.
  apply keeps_bind; [exact HR | now apply keeps_saveTeacherMemory |]. intros _.
  apply keeps_bind; [exact HR | now apply keeps_saveTeacherMemoryArchive |]. intros _.
  now apply keeps_ret.
Qed.

Lemma audit_processBatch (students : list Student.t) :
  respects (audit runId)
    (Orchestrator.processBatch JSON_parse JSON_stringify uuid now
       generateStudentInsights generateTeacherSummary config runId students).
Proof using Type.
  pose proof (lenient_audit runId) as HR.
  unfold Orchestrator.processBatch.
  destruct (length students =? 0)%nat; [apply audit_finishRun |].
  apply keeps_bind; [exact HR | apply audit_forEachStudent |]. intros analyses.
  destruct (length analyses =? 0)%nat; [apply audit_finishRun |].
  apply keeps_bind; [exact HR | | intros _; apply audit_finishRun].
  apply keeps_try_catch; [exact HR | apply audit_teacherStage |].
  intros e. now apply audit_recordTeacherMessage.
Qed.

End Audit.

(** X16.  A run keeps the audit log append-only.  Whatever the inputs and
    whether it returns or throws, each [runOnce] leaves every row of
    [student_messages] and [teacher_messages] in place and adds only rows
    that carry the id of this run (the first UUID drawn); in [runs] every
    earlier row stays at its position and is unchanged unless it has this
    run's id, and only rows of this run are added; primary keys that were
    unique stay unique. *)
Theorem runOnce_audit_append_only
    (JSON_parse : jsstring -> Outcome JSON) (JSON_stringify : JSON -> jsstring)
    (Date_parse : jsstring -> option number) (uuid : nat -> jsstring) (now : jsstring)
    (generateStudentInsights : StudentAnalysis.t -> JSObject -> Outcome jsstring)
    (generateTeacherSummary : TeacherSummary.t -> JSObject -> Outcome jsstring)
    (config : Config.t) (w : World) :
  let runId := uuid (uuids w) in
  audit runId w
    (RunWithTool.runOnce JSON_parse JSON_stringify Date_parse uuid now
       generateStudentInsights generateTeacherSummary config w).2
  /\ audit runId w
       (MainWithMemory.runOnce JSON_parse JSON_stringify Date_parse uuid now
          generateStudentInsights generateTeacherSummary config w).2.
Proof.
  cbv zeta. pose proof (lenient_audit (uuid (uuids w))) as HR.
  split.
  - unfold RunWithTool.runOnce. rewrite bind_run. cbn [HistoryStore.randomUUID].
    eapply audit_trans; [apply (lenient_uuids _ HR w) |].
    eapply (keeps_bind _ HR).
    + apply keeps_bind; [exact HR | now apply keeps_readTextFile |].
      intros data. now apply keeps_lift.
    + intros raw. apply keeps_bind; [exact HR | now apply keeps_ret |].
      intros toolResult.
      apply keeps_bind; [exact HR | now apply audit_startRun |]. intros _.
      apply keeps_bind; [exact HR | apply audit_processBatch |]. intros _.
      now apply keeps_ret.
  - unfold MainWithMemory.runOnce. rewrite bind_run. cbn [HistoryStore.randomUUID].
    eapply audit_trans; [apply (lenient_uuids _ HR w) |].
    eapply (keeps_bind _ HR).
    + apply keeps_try_catch; [exact HR | | intros e; now apply keeps_throw].
      apply keeps_bind; [exact HR | now apply keeps_readTextFile |]. intros data.
      apply keeps_bind; [exact HR | now apply keeps_lift |]. intros parsed.
      destruct (Validator.validateStudents Date_parse parsed) as [valid errors].
      now apply keeps_ret.
    + intros [students totalCount].
      apply keeps_bind; [exact HR | now apply audit_startRun |]. intros _.
      apply audit_processBatch.
Qed.


(* ================================================================== *)
(** * The stages composed *)
(* ================================================================== *)

Lemma loadTeacherRules_strategies
    (JSON_parse : jsstring -> Outcome JSON) (path : option jsstring) (w : World)
    (rules : option TeacherPreferences.t) :
  Rules.loadTeacherRules JSON_parse path w = (Returned rules, w) ->
  forallb nonEmptyAfterTrim (preferredStrategiesOf rules) = true.
Proof.
  destruct (loadTeacherRules_returns JSON_parse path w) as (rules' & Hload & Hshape).
  rewrite Hload. intros [= <-].
  destruct rules' as [loaded |]; [| reflexivity].
  destruct (Hshape loaded eq_refl) as [parsed ->].
  unfold preferredStrategiesOf. cbn [TeacherPreferences.preferredStrategies].
  pose proof (sanitizeStringArray_clean
                (ownProperty parsed (lit "preferredStrategies"))) as Hclean.
  clear Hshape Hload.
  destruct (Rules.sanitizeStringArray
              (ownProperty parsed (lit "preferredStrategies"))) as [l |];
    [| reflexivity].
  destruct (Hclean l eq_refl) as [_ Hall].
  apply forallb_forall. intros x Hx. apply list_elem_of_In in Hx. now apply Hall.
Qed.

Lemma validateStudents_valid
    (Date_parse : jsstring -> option number) (data : JSON) :
  Forall (validStudent Date_parse) (Validator.validateStudents Date_parse data).1.
Proof.
  unfold Validator.validateStudents.
  destruct data as [| | | | items |]; try constructor.
  destruct (validateEach_spec Date_parse items 0 [] [])
    as (good & bad & -> & Hgood & _).
  exact Hgood.
Qed.

(** The students that reach [analyzeStudent] have their scores in the
    range for which the classification is stated. *)
Lemma validateStudents_scoresInRange
    (Date_parse : jsstring -> option number) (data : JSON) :
  Forall scoresInRange (Validator.validateStudents Date_parse data).1.
Proof.
  eapply Forall_impl; [apply validateStudents_valid |].
  intros student (_ & _ & _ & _ & Hgrades & _). unfold scoresInRange.
  eapply Forall_impl; [exact Hgrades |]. now intros grade [_ Hscore].
Qed.

(** X21.  The stages fit together.  For the students that
    [validateStudents] accepts from any input and the preferences that
    [loadTeacherRules] returns for any file, the fallbacks of the pipeline
    never break the output contract: the teacher fallback for the class
    summary of the analysed students satisfies the contract of
    [parseTeacherInsights], and the student fallback of every analysed
    student satisfies the contract of [parseStudentInsights]. *)
Theorem pipeline_fallbacks_meet_contracts
    (JSON_parse : jsstring -> Outcome JSON) (Date_parse : jsstring -> option number)
    (data : JSON) (path : option jsstring) (w : World) :
  exists rules,
    Rules.loadTeacherRules JSON_parse path w = (Returned rules, w)
    /\ let students := (Validator.validateStudents Date_parse data).1 in
       let analyses := map Analyzer.analyzeStudent students in
       teacherContract
         (Insights.buildFallbackTeacherInsights (Analyzer.buildTeacherSummary analyses)
            rules) = true
       /\ Forall (fun analysis =>
                    studentContract
                      (Insights.buildFallbackStudentInsights analysis rules) = true)
            analyses.
Proof.
  destruct (loadTeacherRules_returns JSON_parse path w) as (rules & Hload & _).
  exists rules. split; [exact Hload |]. cbv zeta. split.
  - apply teacherFallback_contract;
      [| exact (loadTeacherRules_strategies JSON_parse path w rules Hload)].
    unfold Analyzer.buildTeacherSummary. cbn [TeacherSummary.attentionNeeded].
    rewrite attention_roster.
    pose proof (validateStudents_valid Date_parse data) as Hvalid.
    induction Hvalid as [| student students Hstudent Hstudents IH]; [reflexivity |].
    cbn [List.filter]. destruct (flagged student); [| exact IH].
    cbn [map forallb]. rewrite IH, andb_true_r.
    destruct Hstudent as (_ & [Hname _] & _). exact Hname.
  - apply Forall_forall. intros analysis Hin.
    apply list_elem_of_In, in_map_iff in Hin as (student & <- & _).
    apply analyzeStudent_fallback_contract.
Qed.


(* ================================================================== *)
(** * What the teacher validator accepts, and what it reports *)
(* ================================================================== *)

(** An item of [attentionNeeded] is valid when it is an object whose
    [name] and [reason] are valid texts. *)
Definition validAttention (item : JSON) : bool :=
  isObjectLike item
  && validText (ownProperty item (lit "name"))
  && validText (ownProperty item (lit "reason")).

(** The parsed object is valid when its overview is a valid text, its
    strengths and next steps are valid lists of at least 1 and 2 entries,
    and [attentionNeeded] is an array of valid items. *)
Definition teacherValid (parsed : JSON) : bool :=
  validText (ownProperty parsed (lit "classOverview"))
  && validList 1 (ownProperty parsed (lit "strengths"))
  && validList 2 (ownProperty parsed (lit "nextSteps"))
  && match ownProperty parsed (lit "attentionNeeded") with
     | Some (JArray items) => forallb validAttention items
     | _ => false
     end.

(** The start of every message about the item at [index]. *)
Definition attentionLabel (index : nat) : jsstring :=
  lit "attentionNeeded[" ++ natToString index ++ lit "]".

Lemma attentionItem_cases
    (attentionNeeded : list Attention.t) (attentionErrors : list jsstring)
    (index : nat) (item : JSON) :
  (validAttention item = true
   /\ exists entry,
        Insights.attentionItem (attentionNeeded, attentionErrors) index item
        = Returned (attentionNeeded ++ [entry], attentionErrors))
  \/ (validAttention item = false
      /\ exists message,
           Insights.attentionItem (attentionNeeded, attentionErrors) index item
           = Returned (attentionNeeded, attentionErrors ++ [message])
           /\ attentionLabel index `prefix_of` message).
Proof.
  unfold Insights.attentionItem, validAttention, attentionLabel.
  destruct (isObjectLike item) eqn:Hobject; cbn [negb andb].
  2: { right. split; [reflexivity |]. eexists. split; [reflexivity |].
       exists (lit " must be an object"). now rewrite <- !app_assoc. }
  rewrite !getProp_objectLike by assumption. cbn [mbind Outcome_bind].
  rewrite !falsy_safeString by lia.
  pose proof (safeString_spec (ownProperty item (lit "name")) 80 ltac:(lia)) as Hn.
  pose proof (safeString_spec (ownProperty item (lit "reason")) 160 ltac:(lia)) as Hr.
  destruct (validText (ownProperty item (lit "name"))) eqn:Vn;
    destruct (validText (ownProperty item (lit "reason"))) eqn:Vr; cbn [negb orb andb];
    try (right; split; [reflexivity |]; eexists; split; [reflexivity |];
         exists (lit " must include name and reason"); now rewrite <- !app_assoc).
  left. split; [reflexivity |].
  destruct (Insights.safeString (ownProperty item (lit "name")) 80) as [name |];
    [| discriminate].
  destruct (Insights.safeString (ownProperty item (lit "reason")) 160) as [reason |];
    [| discriminate].
  eexists. reflexivity.
Qed.

Lemma attentionForEach_errors (items : list JSON) (index : nat)
    (attentionNeeded : list Attention.t) (attentionErrors : list jsstring) :
  exists added newErrors,
    Insights.attentionForEach items index (attentionNeeded, attentionErrors)
    = Returned (attentionNeeded ++ added, attentionErrors ++ newErrors)
    /\ (newErrors = [] <-> forallb validAttention items = true)
    /\ (forall (i : nat) item,
          items !! i = Some item -> validAttention item = false ->
          exists message,
            message ∈ newErrors /\ attentionLabel (index + i) `prefix_of` message).
Proof.
  revert index attentionNeeded attentionErrors.
  induction items as [| item items IH]; intros index attentionNeeded attentionErrors.
  - exists [], []. cbn. rewrite !app_nil_r. split; [reflexivity |].
    split; [tauto |]. intros i item H. discriminate H.
  - cbn [Insights.attentionForEach forallb].
    destruct (attentionItem_cases attentionNeeded attentionErrors index item)
      as [(Hvalid & entry & ->) | (Hinvalid & message & -> & Hlabel)];
      cbn [mbind Outcome_bind].
    + destruct (IH (S index) (attentionNeeded ++ [entry]) attentionErrors)
        as (added & newErrors & -> & Hnil & Hreport).
      exists (entry :: added), newErrors. rewrite <- app_assoc. cbn [app].
      split; [reflexivity |]. rewrite Hvalid. cbn [andb]. split; [exact Hnil |].
      intros [| i] other Hother Hbad.
      * cbn in Hother. congruence.
      * replace (index + S i)%nat with (S index + i)%nat by lia.
        now apply (Hreport i other).
    + destruct (IH (S index) attentionNeeded (attentionErrors ++ [message]))
        as (added & newErrors & -> & Hnil & Hreport).
      exists added, (message :: newErrors). rewrite <- app_assoc. cbn [app].
      split; [reflexivity |]. rewrite Hinvalid. cbn [andb].
      split; [split; discriminate |].
      intros [| i] other Hother Hbad.
      * exists message. split; [left |]. now rewrite Nat.add_0_r.
      * replace (index + S i)%nat with (S index + i)%nat by lia.
        destruct (Hreport i other Hother Hbad) as (m & Hm & Hp).
        exists m. split; [now right | exact Hp].
Qed.

Lemma if_pos_app {T} (errors extra : list T) :
  (if (0 <? length extra)%nat then errors ++ extra else errors) = errors ++ extra.
Proof. destruct extra; [now rewrite app_nil_r | reflexivity]. Qed.

(** A message of the report that starts with [label]. *)
Ltac mention label :=
  match goal with
  | |- context [label ++ ?suffix] =>
      exists (label ++ suffix);
      split; [rewrite ?elem_of_cons; auto 6 | now exists suffix]
  end.

(** An answer whose second attention item has no reason. *)
Definition json_attention : JSON :=
  JObject
    [(lit "classOverview", JString (lit "The class is steady."));
     (lit "strengths", JArray [JString (lit "Strong participation")]);
     (lit "attentionNeeded",
      JArray [JObject [(lit "name", JString (lit "Test Student"));
                       (lit "reason", JString (lit "Completion rate fell."))];
              JObject [(lit "name", JString (lit "Other Student"))]]);
     (lit "nextSteps",
      JArray [JString (lit "Plan a small-group session.");
              JString (lit "Share one success story.")])].

Definition JSON_parse_attention (text : jsstring) : Outcome JSON :=
  if decide (text = lit "{attention}") then Returned json_attention
  else Thrown (SyntaxError (lit "Unexpected token")).

(** X22.  When the candidate parses to an object, [parseTeacherInsights]
    returns, and it accepts exactly the valid objects: a success if and only
    if the overview is a valid text, [strengths] and [nextSteps] are valid
    lists, and [attentionNeeded] is an array whose items all are objects
    with a valid name and reason.  A failure is complete in its report: it
    holds a message for the overview, for each of the two lists, and for
    every invalid item of [attentionNeeded] with its index (or for
    [attentionNeeded] itself when it is no array), whenever that part is
    invalid. *)
Theorem parseTeacherInsights_accepts_iff
    (JSON_parse : jsstring -> Outcome JSON) (raw candidate : jsstring) (parsed : JSON) :
  Insights.extractJsonObject raw = Some candidate ->
  JSON_parse candidate = Returned parsed ->
  isObjectLike parsed = true ->
  exists r,
    Insights.parseTeacherInsights JSON_parse raw = Returned r
    /\ is_ok r = teacherValid parsed
    /\ (validText (ownProperty parsed (lit "classOverview")) = false ->
        lit "classOverview must be a non-empty string" ∈ errorsOf r)
    /\ (validList 1 (ownProperty parsed (lit "strengths")) = false ->
        exists message, message ∈ errorsOf r /\ lit "strengths" `prefix_of` message)
    /\ (validList 2 (ownProperty parsed (lit "nextSteps")) = false ->
        exists message, message ∈ errorsOf r /\ lit "nextSteps" `prefix_of` message)
    /\ match ownProperty parsed (lit "attentionNeeded") with
       | Some (JArray items) =>
           forall (i : nat) item,
             items !! i = Some item -> validAttention item = false ->
             exists message,
               message ∈ errorsOf r /\ attentionLabel i `prefix_of` message
       | _ => lit "attentionNeeded must be an array" ∈ errorsOf r
       end.
Proof.
  intros Hextract Hparse Hobject.
  unfold Insights.parseTeacherInsights.
  rewrite Hextract, (extractJsonObject_truthy _ _ Hextract), Hparse, Hobject.
  cbn [negb]. rewrite !getProp_objectLike by assumption.
  cbn [mbind Outcome_bind].
  unfold teacherValid.
  pose proof (falsy_safeString (ownProperty parsed (lit "classOverview")) 240
                ltac:(lia)) as Hoverview.
  pose proof (safeString_spec (ownProperty parsed (lit "classOverview")) 240
                ltac:(lia)) as Hoverview'.
  pose proof (normalizeStringArray_spec (ownProperty parsed (lit "strengths")) 1 4
                (lit "strengths") ltac:(lia)) as Hstrengths.
  pose proof (normalizeStringArray_spec (ownProperty parsed (lit "nextSteps")) 2 4
                (lit "nextSteps") ltac:(lia)) as Hsteps.
  set (overview := Insights.safeString (ownProperty parsed (lit "classOverview")) 240)
    in *.
  set (strengths := Insights.normalizeStringArray
                      (ownProperty parsed (lit "strengths")) 1 4 (lit "strengths")) in *.
  set (steps := Insights.normalizeStringArray
                  (ownProperty parsed (lit "nextSteps")) 2 4 (lit "nextSteps")) in *.
  assert (Hattention :
    exists attentionNeeded attentionErrors,
      match ownProperty parsed (lit "attentionNeeded") with
      | Some (JArray attentionRaw) => Insights.attentionForEach attentionRaw 0 ([], [])
      | _ => Returned ([], [lit "attentionNeeded must be an array"])
      end = Returned (attentionNeeded, attentionErrors)
      /\ (attentionErrors = []
          <-> match ownProperty parsed (lit "attentionNeeded") with
              | Some (JArray items) => forallb validAttention items
              | _ => false
              end = true)
      /\ match ownProperty parsed (lit "attentionNeeded") with
         | Some (JArray items) =>
             forall (i : nat) item,
               items !! i = Some item -> validAttention item = false ->
               exists message,
                 message ∈ attentionErrors /\ attentionLabel i `prefix_of` message
         | _ => lit "attentionNeeded must be an array" ∈ attentionErrors
         end).
  { destruct (ownProperty parsed (lit "attentionNeeded")) as [[| | | | items |] |];
      try (eexists _, _; split; [reflexivity |];
           split; [split; discriminate | left]).
    destruct (attentionForEach_errors items 0 [] [])
      as (added & newErrors & -> & Hnil & Hreport).
    exists added, newErrors. cbn [app]. split; [reflexivity |].
    split; [exact Hnil | exact Hreport]. }
  destruct Hattention as (attentionNeeded & attentionErrors & -> & Hnil & Hreport).
  cbn [mbind Outcome_bind].
  rewrite !pushIf_app, !if_failed_app, Hoverview.
  set (valid4 := match ownProperty parsed (lit "attentionNeeded") with
                 | Some (JArray items) => forallb validAttention items
                 | _ => false
                 end) in *.
  clearbody valid4.
  assert (Hvalid4 : valid4 = match attentionErrors with [] => true | _ => false end).
  { destruct attentionErrors; [now apply Hnil |].
    destruct valid4; [| reflexivity]. destruct Hnil as [_ Hnil].
    now specialize (Hnil eq_refl). }
  subst valid4. clear Hnil.
  rewrite !(if_pos_app _ attentionErrors).
  assert (Hin : forall (errors : list jsstring),
            match ownProperty parsed (lit "attentionNeeded") with
            | Some (JArray items) =>
                forall (i : nat) item,
                  items !! i = Some item -> validAttention item = false ->
                  exists message,
                    message ∈ errors ++ attentionErrors
                    /\ attentionLabel i `prefix_of` message
            | _ => lit "attentionNeeded must be an array" ∈ errors ++ attentionErrors
            end).
  { intros errors.
    destruct (ownProperty parsed (lit "attentionNeeded")) as [[| | | | items |] |];
      try (apply elem_of_app; now right).
    intros i item Hitem Hbad. destruct (Hreport i item Hitem Hbad) as (m & Hm & Hp).
    exists m. split; [apply elem_of_app; now right | exact Hp]. }
  clear Hreport.
  destruct overview as [text |];
    [destruct Hoverview' as (Hvo & _ & _) | rename Hoverview' into Hvo];
    (destruct strengths as [l1 | e1];
     [destruct Hstrengths as (Hv1 & _ & _) | destruct Hstrengths as (Hv1 & s1 & ->)]);
    (destruct steps as [l2 | e2];
     [destruct Hsteps as (Hv2 & _ & _) | destruct Hsteps as (Hv2 & s2 & ->)]);
    rewrite Hvo, Hv1, Hv2; cbn [negb errorsOf app andb];
    destruct attentionErrors as [| m ms];
    cbn [length app Nat.ltb Nat.leb];
    (eexists; split; [reflexivity |]);
    cbn [is_ok errorsOf];
    (split; [reflexivity |]);
    (split; [first [discriminate | intros _; rewrite ?elem_of_cons; tauto] |]);
    (split; [first [discriminate | intros _; mention (lit "strengths")] |]);
    (split; [first [discriminate | intros _; mention (lit "nextSteps")] |]);
    first [exact (Hin []) | exact (Hin [_]) | exact (Hin [_; _]) | exact (Hin [_; _; _])].
Qed.

Lemma parseTeacherInsights_accepts_iff_witness :
  let r := failed [lit "attentionNeeded[1] must include name and reason"] in
  Insights.parseTeacherInsights JSON_parse_attention (lit "{attention}") = Returned r
  /\ is_ok r = teacherValid json_attention.
Proof.
  destruct (parseTeacherInsights_accepts_iff JSON_parse_attention
              (lit "{attention}") (lit "{attention}") json_attention)
    as (r & Hr & Hok & _); [vm_compute; reflexivity ..|].
  assert (Hrun : Insights.parseTeacherInsights JSON_parse_attention (lit "{attention}")
                 = Returned
                     (failed [lit "attentionNeeded[1] must include name and reason"]))
    by (vm_compute; reflexivity).
  split; [exact Hrun |].
  rewrite Hrun in Hr. injection Hr as <-. exact Hok.
Defined.
